(* ===== verification/_CoqProject ===== *)
-Q . S2P
Prelude.v
JsString.v
Regex.v
Model.v
Router.v
Validator.v
Lifecycle.v
Json.v
Dashboard.v
IdGen.v
Analytics.v
World.v
App.v
Handlers.v
Invariant.v
Durable.v
Schedule.v
