(* ===== verification/Prelude.v ===== *)
(** * CivicConnect: a verification development for [src/script.js]

    The program is a single-page civic-issue reporting application, one
    JavaScript class [CivicConnectApp] in [src/script.js].  A citizen fills a
    form; the report is validated and sanitized, routed to an authority by
    category, appended to the in-memory list of reports, persisted to
    [localStorage], and then moved through the statuses
    submitted, under-review, in-progress, resolved by timer callbacks that
    simulate a back end.  Dashboards and filtered lists are computed from the
    list of reports.

    ** Files

    - [Prelude] (this file): what every component shares.  The monad [M] of
      handlers (state passing plus JavaScript exceptions) with its notations
      in [js_scope]; the predicate transformer [wp] and the two judgements
      built on it, [keeps I c] (the computation [c] keeps the invariant [I],
      whether it returns or throws) and [returns I c] (it keeps [I] and does
      not throw), with one rule per operation of the monad; the tactics
      [js_run], [inv_done] and [wp_step]; the hint databases [js] and
      [js_rw]; and the generic list operations the components reuse:
      [update_first] (find the first element satisfying a predicate and
      mutate it, the shape of [reports.find(..)] followed by assignments),
      the loops [for_each] and [map_m], and [sort_by] (the stable sort that
      [Array.prototype.sort] is specified to be: a definition taken from
      the language, not from the program).
    - [JsString]: the string primitives of the language that the program
      calls: [trim], [toLowerCase], [toUpperCase], [includes], [split],
      [join], [substr], [indexOf], and the matcher of the one regular
      expression of the program (the script-block pattern of
      [sanitizeInput]).
    - [Regex]: that pattern as a regular expression, with the
      backtracking matcher of ECMAScript, and the proof that the scan of
      [JsString] computes its matches.
    - [Model]: the data of the program: timeline entries, reports, drafts,
      users, settings and evidence files, as records whose fields are those of
      the object literals of [collectReportData], [registerUser] and
      [getSettings]; the status and category string constants.
    - [Router]: [routeReport] and its table [routingRules], read as
      JavaScript reads a property (own properties, then [Object.prototype]),
      and the routing function of the specification ([route_spec]).
    - [Validator]: [validateReportData] and [sanitizeInput], and the texts
      made of script blocks on which the sanitizer is specified.
    - [Lifecycle]: the state machine of a report: the mutation performed by
      [updateReportStatus] on the list of reports ([update_status]), the
      status computation of the callback of [simulateResolution]
      ([nextStatus], [advance]), the abstract machine [step] over the
      enumeration [Status], the simulation between the two, and the
      invariants of a report: [wf_report] (the timeline is a prefix of the
      four statuses) and the weaker [report_ok] that every reachable report
      has.
    - [Json]: the JSON tree, and the encoding of the snapshot
      [{reports, drafts, currentUser, settings}] that [saveToLocalStorage]
      writes ([snapshot_toJSON]) and [loadFromLocalStorage] reads
      ([snapshot_read]).
    - [Dashboard]: the computations behind the views: the counters of
      [updateDashboard], the in-place sort of [updateRecentActivity], the
      filters of [getFilteredReports], the cards of [displayReports] and the
      formatting helpers.
    - [IdGen]: [generateId], with [Number.prototype.toString] in base 36.
    - [Analytics]: the configurations that [createResolutionChart] and
      [createCategoryChart] give to the constructor [Chart]: the object
      [categories] with the property reads, writes and enumeration of
      JavaScript, the labels of the last seven days and the numbers drawn
      from [Math.random]; the histogram the category chart is compared
      with ([first_seen], [occurrences]).
    - [World]: the record [World] (the fields of the class instance, the DOM
      elements the handlers read and write, the [localStorage] entry, the
      timer queue, the clock, the random tape and the charts that were
      drawn) and the primitives of the browser as computations of
      [M World].
    - [App]: one computation of [M World] per method of the class, written
      in the order of its statements; the timer callbacks ([run_task]); the
      events of the browser ([Event]) with the listener of each ([handler])
      and the condition under which the listener exists ([enabled]); runs of
      event sequences ([run]); the page and worlds the theorems are
      instantiated on ([demo_page] and the worlds built from it).
    - [Handlers]: the functional behaviour of the methods, branch by branch.
    - [Invariant]: the event loop as a relation ([turn], [reachable]) from
      the first visit of a browser ([boot]), whose storage holds nothing
      that the application wrote ([unwritten]: nothing at all, a text that
      is not JSON, [null], or a tree without reports); the invariant [inv]
      of the worlds, one preservation lemma per method, and the theorems
      on every reachable world.
    - [Durable]: the agreement of the storage with the instance: the
      equivalence [same_store] of the worlds that the views do not tell
      apart, the computations that stay in a class ([quiet]), the invariant
      [live] stated up to the equivalence, what a reload gives back
      ([restored]), and that the application has stored nothing while the
      page is gone ([reachable_gone]).
    - [Schedule]: the timers that move a report and the reports they wait
      for: the preorder [view_le] of what the other methods can do to the
      world, the computations that stay above their start ([calm]), the
      invariant [sched] of the timer queue, and the runs in which the
      identifiers of the reports stay distinct ([reachable_distinct]).

    ** Correspondence with the code

    - A method that reads or writes [this], the DOM or [localStorage] is a
      computation in [M World]; a [TypeError] raised by dereferencing a
      missing DOM element and the [SyntaxError] of [JSON.parse] are the
      [Throw] outcomes, [try]/[catch] is [try_catch].  State changes made
      before a throw are kept, as in JavaScript.  [IllTyped] is the outcome
      of a run in which a value leaves the types of the model (a stored
      snapshot whose reports are not report objects): the theorems show
      that no reachable world produces it.  [submitReport] is declared
      [async] and awaits nothing: its body runs within the turn of the
      submit event, and the promise it returns is not modelled.
    - Strings are sequences of 8-bit code units ([string] of the standard
      library).  Code units below 128 are modelled exactly; letters outside
      ASCII have no case in the model, and the only non-ASCII white space
      is U+00A0.
    - Time stamps are integers (milliseconds since the epoch) instead of the
      ISO-8601 texts that [toISOString] produces: the program only compares
      and subtracts them after parsing them back with [new Date].  The clock
      does not advance while a handler runs; it advances between events
      ([EvWait]) and, when a timer fires, to the time the timer is due
      ([EvTimer]).
    - [Math.random] is a tape of the texts [Math.random().toString(36)],
      consumed by [generateId] and by [createResolutionChart], which reads
      the number back from the digits of its text.
    - [new Chart(ctx, config)] appends the configuration to the charts of
      the world: the library that draws it is outside the program.
    - Every report object carries its object identity [oid], a ghost field
      that the program cannot observe except through reference equality: a
      timer closure of [simulateResolution] captures the object, not its id.
    - Views are modelled by the data they render, not by the markup.
    - [location.reload()] marks the world as [reloaded]; the only event of
      such a world is the loading of the page, which drops the timers,
      builds a new instance and reads [localStorage].

    ** Theorems

    - [JsString], [Validator], [Router], [IdGen], [Dashboard]: each pure
      function on each branch: the verdict of the validator is equivalent to
      its three conditions and its messages are exactly those of the failed
      tests; the sanitizer only trims a text without [<], removes every
      script block of a text made of such blocks, and does so in one pass,
      so that a block nested in a tag leaves a block and a title that is a
      block passes the validation and is stored empty; the routing of the
      code is that of the specification except on the names that object
      literals inherit, where the prototype chain answers; two identifiers
      with random parts of the same length are equal only if both parts
      and the clock are; filters select a sublist, the recent activity
      shows the newest reports, the counters add up.
    - [Analytics]: on categories that are neither inherited names nor array
      indices the category chart is the histogram of the categories in the
      order of their first occurrence, and its numbers add up to the number
      of reports; [category_chart_inherited] shows the other categories.
    - [Lifecycle]: [nextStatus] simulates the abstract machine [step] in
      both directions, strictly increases the rank of a status, and
      [update_status] and [advance] keep [wf_report] and [report_ok] and
      touch the first report with the id only.
    - [Json]: reading what was written gives back the reports up to object
      identity, for the reports the writer can represent ([storable]); the
      assignee of a routed report is lost exactly when the category is the
      name of an inherited function.
    - [Handlers]: for [submitReport], [saveDraft], [updateReportStatus],
      [simulateResolution] and [loadFromLocalStorage], the reports, the
      drafts and the stored snapshot after the call and the timers that
      are kept (those that the call adds are given for [submitReport] and
      [simulateResolution]), on the valid, invalid and unreadable-form
      branches, and that [submitReport] never throws; for
      [updateAnalytics], the two charts it draws, the fourteen random
      numbers it consumes and the bounds of the numbers of the resolution
      chart.  The methods that only show something are specified by
      [frame]: what they leave alone.
    - [Invariant]: every method keeps [inv]; hence every world reachable
      from a freshly loaded page by events whose listener exists satisfies
      it: reports and drafts are [report_ok] at the clock, the storage is
      as the browser had it at the first visit or a snapshot that the
      application wrote, object identities are distinct and below the next
      one; and [loadFromLocalStorage] returns in every such world, through
      its [catch] when what it finds is not a snapshot.
    - [Durable]: in every reachable world where the page is there, the
      storage holds the reports of the instance up to their order and its
      drafts, and loading the page again gives them back; the user is not
      covered, because [registerUser] can throw between the assignment and
      the call of [saveToLocalStorage].
    - [Schedule]: in every run in which the identifiers of the reports
      stay distinct, every report is [wf_report]: the timer of
      [submitReport] finds its report still submitted and puts it under
      review, and it is due before every timer of [simulateResolution]
      for that report, so that no callback makes a report skip a status
      or go back; a timer of [simulateResolution] always finds the report
      object it holds.  The hypothesis is needed: when the first report
      with the identifier of a timer of [submitReport] is no longer
      submitted, the callback leaves it not well formed
      ([review_timer_breaks]), and [duplicate_ids_break] is a reachable run
      in which [Math.random] repeats itself, two reports have the same
      identifier and the timer moves the wrong one.

    Theorems with hypotheses are instantiated on the worlds [demo_loaded],
    [demo_filled] and [demo_submitted] of [App], [demo_corrupt] of
    [Invariant] and [demo_waiting], [demo_simulated], [clash_waiting] of
    [Schedule], which are computed by running the handlers.

    ** Bounds and fuel

    All operations are structurally recursive or defined by [list_find],
    [filter] and folds, except [digits36] of [IdGen], which is defined by
    well-founded recursion on the length of the binary writing of its
    argument, and the repetition of the matcher of [Regex], which is
    bounded by the length of the text left: an iteration that does not
    shorten the text is refused, as in ECMAScript, and [re_loop_fuel]
    shows that a larger bound gives the same match.  No definition takes
    fuel from its caller.  Integers are unbounded: the
    program computes on time stamps and counts far below 2^53, where the
    numbers of JavaScript are exact.

    ** Assumptions

    The form fields that [reportForm.reset()] restores are the eight
    inputs that [collectReportData] reads; a [select] element has an option
    for every value assigned to it; [JSON.stringify] and [JSON.parse] are
    modelled on trees, not on texts; timers fire in the order in which
    they are due, and those due at the same time in the order in which
    they were set.  [localStorage.setItem] does not throw: the storage is
    enabled and its quota is not reached, so that [saveToLocalStorage]
    always stores; the theorems of [Durable] depend on it.  The browser
    runs in the time zone UTC (the labels of the days of the resolution
    chart), the canvas elements give a drawing context and the constructor
    [Chart] returns.  The theorems of [Schedule] are about the runs in
    which [generateId] gives each report an identifier that no other
    report of the list has; nothing in the program checks it.  What the
    storage holds at the first visit has no report that the application
    did not write: a tree with reports of another origin would be loaded
    as it is, and is outside the reachable worlds.

    ** Not modelled

    The markup produced by the template literals, the drawing of the
    charts by the Chart.js library, geolocation, the stakeholder tooltips,
    the screen-reader announcements and the service-worker shim: they are
    output only and no handler reads them back.  [formatDate] depends on
    the locale of the browser.  The text of the JSON is not modelled: the
    storage holds the tree, or a text that [JSON.parse] rejects. *)

From Stdlib Require Export ZArith Lia Ascii String List.
From stdpp Require Export base tactics option list sets strings sorting.

Declare Scope js_scope.
Delimit Scope js_scope with js.

(** ** Exceptions and outcomes *)

(** The exceptions the program can raise: a property access on [null]
    (a missing DOM element) and a malformed [JSON.parse] input.
    [IllTyped] is not an exception of the program: it marks the point
    where the program would go on with a value that the types of the model
    cannot hold. *)
Inductive exn : Type :=
| TypeError (what : string)
| SyntaxError
| IllTyped (what : string).

#[export] Instance exn_eq_dec : EqDecision exn.
Proof. solve_decision. Defined.

Inductive outcome (A : Type) : Type :=
| Done (a : A)
| Throw (e : exn).
Arguments Done {A} a.
Arguments Throw {A} e.

(** ** The monad of handlers: state passing with exceptions *)

Definition M (S A : Type) : Type := S -> outcome A * S.

Definition ret {S A} (a : A) : M S A := fun s => (Done a, s).

Definition bind {S A B} (c : M S A) (k : A -> M S B) : M S B :=
  fun s => match c s with
           | (Done a, s') => k a s'
           | (Throw e, s') => (Throw e, s')
           end.

Definition get {S} : M S S := fun s => (Done s, s).
Definition gets {S A} (f : S -> A) : M S A := fun s => (Done (f s), s).
Definition put {S} (s : S) : M S unit := fun _ => (Done tt, s).
Definition modify {S} (f : S -> S) : M S unit := fun s => (Done tt, f s).
Definition throw {S A} (e : exn) : M S A := fun s => (Throw e, s).

(** [try { c } catch (e) { h e }]: the handler runs in the state reached
    when the exception was raised. *)
Definition try_catch {S A} (c : M S A) (h : exn -> M S A) : M S A :=
  fun s => match c s with
           | (Done a, s') => (Done a, s')
           | (Throw e, s') => h e s'
           end.

(** [if (c) { body }] with no else branch. *)
Definition when {S} (c : bool) (body : M S unit) : M S unit :=
  if c then body else ret tt.

(** [l.forEach(f)]: the calls in order; an exception stops the loop. *)
Fixpoint for_each {S A} (f : A -> M S unit) (l : list A) : M S unit :=
  match l with
  | [] => ret tt
  | x :: l' => bind (f x) (fun _ => for_each f l')
  end.

(** A loop that pushes one value per element: the values in order; an
    exception stops the loop. *)
Fixpoint map_m {S A B} (f : A -> M S B) (l : list A) : M S (list B) :=
  match l with
  | [] => ret []
  | x :: l' => bind (f x) (fun y => bind (map_m f l') (fun ys => ret (y :: ys)))
  end.

(** The state a computation ends in, and its result. *)
Definition exec {S A} (c : M S A) (s : S) : S := snd (c s).
Definition result {S A} (c : M S A) (s : S) : outcome A := fst (c s).

(** The weakest precondition of a postcondition on the outcome and the
    final state, and the computations that keep an invariant whatever
    their outcome. *)
Definition wp {S A} (c : M S A) (Q : outcome A -> S -> Prop) (s : S) : Prop :=
  Q (result c s) (exec c s).

Definition keeps {S A} (I : S -> Prop) (c : M S A) : Prop :=
  forall s, I s -> wp c (fun _ s' => I s') s.

(** The computations that, from a state of [I], end in a state of [I]
    without raising an exception. *)
Definition is_done {A} (o : outcome A) : Prop :=
  match o with
  | Done _ => True
  | Throw _ => False
  end.

Definition returns {S A} (I : S -> Prop) (c : M S A) : Prop :=
  forall s, I s -> wp c (fun o s' => I s' /\ is_done o) s.

(** The value a computation returned, or a default. *)
Definition value_or {A} (o : outcome A) (d : A) : A :=
  match o with
  | Done a => a
  | Throw _ => d
  end.

Notation "x <- c ;; k" := (bind c (fun x => k))
  (at level 100, c at next level, right associativity) : js_scope.
Notation "c ;; k" := (bind c (fun _ => k))
  (at level 100, right associativity) : js_scope.

(** ** Finding and updating the first match *)

(** [const x = l.find(p); if (x) { x.f = ... }]: the first element that
    satisfies [p] is replaced by its image; the list is unchanged when there
    is none. *)
Definition update_first {A} (p : A -> Prop) {pdec : forall x, Decision (p x)}
    (f : A -> A) (l : list A) : list A :=
  match list_find p l with
  | Some (i, x) => <[i := f x]> l
  | None => l
  end.

(** ** Stable sorting *)

(** [insert_by lt x l] puts [x] in front of the first element that is not
    strictly before it, so that [x] stays in front of its equals. *)
Fixpoint insert_by {A} (lt : A -> A -> bool) (x : A) (l : list A) : list A :=
  match l with
  | [] => [x]
  | y :: l' => if lt y x then y :: insert_by lt x l' else x :: y :: l'
  end.

(** The stable sort for the strict order [lt]: what
    [Array.prototype.sort] returns for a consistent comparator [cmp] with
    [lt a b] iff [cmp a b < 0]. *)
Definition sort_by {A} (lt : A -> A -> bool) (l : list A) : list A :=
  foldr (insert_by lt) [] l.

(** [lt] never puts [y] strictly before [x]: the order in which a sorted
    list lists two neighbours. *)
Definition not_after {A} (lt : A -> A -> bool) (x y : A) : Prop := lt y x = false.

(** ** Tactics and hints *)

Create HintDb js.
Create Rewrite HintDb js_rw.

(** Runs a computation of [M] on a state by unfolding the monad. *)
Ltac js_run :=
  repeat (cbn -[Z.add Z.mul Z.sub Z.div Z.leb Z.ltb] in *;
          unfold bind, ret, get, gets, put, modify, throw, try_catch, when,
            exec, result in *).

(** Inverts an equation between outcomes or pairs of them. *)
Ltac inv_done :=
  repeat match goal with
         | H : Done _ = Done _ |- _ => inversion H; subst; clear H
         | H : Throw _ = Throw _ |- _ => inversion H; subst; clear H
         | H : Done _ = Throw _ |- _ => discriminate H
         | H : Throw _ = Done _ |- _ => discriminate H
         | H : (_, _) = (_, _) |- _ => inversion H; subst; clear H
         end.

(** ** Monad laws *)

Section monad_laws.
Context {S A B C : Type}.

Lemma bind_ret_l (a : A) (k : A -> M S B) s : bind (ret a) k s = k a s.
Proof. reflexivity. Qed.

Lemma bind_ret_r (c : M S A) s : bind c ret s = c s.
Proof. unfold bind, ret. destruct (c s) as [[a|e] s']; reflexivity. Qed.

Lemma bind_assoc (c : M S A) (k : A -> M S B) (h : B -> M S C) s :
  bind (bind c k) h s = bind c (fun a => bind (k a) h) s.
Proof. unfold bind. destruct (c s) as [[a|e] s']; reflexivity. Qed.

Lemma bind_throw (e : exn) (k : A -> M S B) s : bind (throw e) k s = (Throw e, s).
Proof. reflexivity. Qed.

Lemma try_catch_done (c : M S A) h s a s' :
  c s = (Done a, s') -> try_catch c h s = (Done a, s').
Proof. unfold try_catch. intros ->. reflexivity. Qed.

Lemma try_catch_throw (c : M S A) h s e s' :
  c s = (Throw e, s') -> try_catch c h s = h e s'.
Proof. unfold try_catch. intros ->. reflexivity. Qed.

Lemma bind_done (c : M S A) (k : A -> M S B) s a s' :
  c s = (Done a, s') -> bind c k s = k a s'.
Proof. unfold bind. intros ->. reflexivity. Qed.

Lemma bind_throws (c : M S A) (k : A -> M S B) s e s' :
  c s = (Throw e, s') -> bind c k s = (Throw e, s').
Proof. unfold bind. intros ->. reflexivity. Qed.

(** A run, from its result. *)
Lemma result_done (c : M S A) s a : result c s = Done a -> c s = (Done a, exec c s).
Proof. unfold result, exec. destruct (c s) as [o s']. cbn. by intros ->. Qed.

Lemma result_throw (c : M S A) s e : result c s = Throw e -> c s = (Throw e, exec c s).
Proof. unfold result, exec. destruct (c s) as [o s']. cbn. by intros ->. Qed.

Lemma bind_inv_done (c : M S A) (k : A -> M S B) s b s2 :
  bind c k s = (Done b, s2) ->
  exists a s1, c s = (Done a, s1) /\ k a s1 = (Done b, s2).
Proof.
  unfold bind. destruct (c s) as [[a|e] s1]; intros H; [eauto | discriminate].
Qed.

End monad_laws.

(** ** Weakest preconditions *)

Section wp.
Context {S A B : Type}.

Lemma wp_ret (a : A) Q (s : S) : Q (Done a) s -> wp (ret a) Q s.
Proof. done. Qed.

Lemma wp_throw e (Q : outcome A -> S -> Prop) s : Q (Throw e) s -> wp (throw e) Q s.
Proof. done. Qed.

Lemma wp_get Q (s : S) : Q (Done s) s -> wp get Q s.
Proof. done. Qed.

Lemma wp_gets (f : S -> A) Q s : Q (Done (f s)) s -> wp (gets f) Q s.
Proof. done. Qed.

Lemma wp_put (s' : S) Q s : Q (Done tt) s' -> wp (put s') Q s.
Proof. done. Qed.

Lemma wp_modify (f : S -> S) Q s : Q (Done tt) (f s) -> wp (modify f) Q s.
Proof. done. Qed.

Lemma wp_bind (c : M S A) (k : A -> M S B) Q s :
  wp c (fun o s' => match o with
                    | Done a => wp (k a) Q s'
                    | Throw e => Q (Throw e) s'
                    end) s ->
  wp (bind c k) Q s.
Proof. unfold wp, result, exec, bind. by destruct (c s) as [[a|e] s']. Qed.

Lemma wp_try_catch (c : M S A) h Q s :
  wp c (fun o s' => match o with
                    | Done a => Q (Done a) s'
                    | Throw e => wp (h e) Q s'
                    end) s ->
  wp (try_catch c h) Q s.
Proof. unfold wp, result, exec, try_catch. by destruct (c s) as [[a|e] s']. Qed.

Lemma wp_when (b : bool) (c : M S unit) Q s :
  (if b then wp c Q s else Q (Done tt) s) -> wp (when b c) Q s.
Proof. by destruct b. Qed.

Lemma wp_mono (c : M S A) (Q Q' : outcome A -> S -> Prop) s :
  wp c Q s -> (forall o s', Q o s' -> Q' o s') -> wp c Q' s.
Proof. unfold wp. auto. Qed.

(** What [wp] says of a run. *)
Lemma wp_run (c : M S A) Q s : wp c Q s <-> Q (result c s) (exec c s).
Proof. done. Qed.

(** A computation may be replaced by one that runs alike. *)
Lemma wp_ext (c c' : M S A) Q s : c s = c' s -> wp c' Q s -> wp c Q s.
Proof. unfold wp, result, exec. by intros ->. Qed.

(** The same, when the other computation starts from another state. *)
Lemma wp_eq (c c' : M S A) Q s s' : c s = c' s' -> wp c' Q s' -> wp c Q s.
Proof. unfold wp, result, exec. by intros ->. Qed.

(** Two properties of the same run. *)
Lemma wp_and (c : M S A) (Q Q' : outcome A -> S -> Prop) s :
  wp c Q s -> wp c Q' s -> wp c (fun o s' => Q o s' /\ Q' o s') s.
Proof. by split. Qed.

Lemma wp_done (c : M S A) Q s a s' : c s = (Done a, s') -> Q (Done a) s' -> wp c Q s.
Proof. unfold wp, result, exec. by intros ->. Qed.

End wp.

(** ** Invariants *)

Section keeps.
Context {S : Type} (I : S -> Prop).

Lemma keeps_wp {A} (c : M S A) (Q : outcome A -> S -> Prop) s :
  keeps I c -> I s -> (forall o s', I s' -> Q o s') -> wp c Q s.
Proof. intros Hc Hs HQ. eapply wp_mono; [by apply Hc|]. intros o s'. apply HQ. Qed.

Lemma keeps_exec {A} (c : M S A) s : keeps I c -> I s -> I (exec c s).
Proof. intros Hc Hs. by apply Hc. Qed.

Lemma keeps_ret {A} (a : A) : keeps I (ret a).
Proof. intros s Hs. exact Hs. Qed.

Lemma keeps_throw {A} e : keeps I (throw (A := A) e).
Proof. intros s Hs. exact Hs. Qed.

Lemma keeps_get : keeps I get.
Proof. intros s Hs. exact Hs. Qed.

Lemma keeps_gets {A} (f : S -> A) : keeps I (gets f).
Proof. intros s Hs. exact Hs. Qed.

Lemma keeps_modify (f : S -> S) : (forall s, I s -> I (f s)) -> keeps I (modify f).
Proof. intros Hf s Hs. by apply Hf. Qed.

Lemma keeps_bind {A B} (c : M S A) (k : A -> M S B) :
  keeps I c -> (forall a, keeps I (k a)) -> keeps I (bind c k).
Proof.
  intros Hc Hk s Hs. apply wp_bind. apply (keeps_wp c); [done..|].
  intros [a|e] s' Hs'; [by apply Hk | done].
Qed.

Lemma keeps_try_catch {A} (c : M S A) h :
  keeps I c -> (forall e, keeps I (h e)) -> keeps I (try_catch c h).
Proof.
  intros Hc Hh s Hs. apply wp_try_catch. apply (keeps_wp c); [done..|].
  intros [a|e] s' Hs'; [done | by apply Hh].
Qed.

Lemma keeps_when (b : bool) (c : M S unit) : keeps I c -> keeps I (when b c).
Proof. intros Hc. destruct b; [done|]. intros s Hs. exact Hs. Qed.

Lemma keeps_for_each {A} (f : A -> M S unit) l :
  (forall x, x ∈ l -> keeps I (f x)) -> keeps I (for_each f l).
Proof.
  induction l as [|x l IH]; intros Hf; [intros s Hs; exact Hs|].
  apply keeps_bind; [apply Hf; left | intros _; apply IH].
  intros y Hy. apply Hf. by right.
Qed.

Lemma keeps_map_m {A B} (f : A -> M S B) l :
  (forall x, x ∈ l -> keeps I (f x)) -> keeps I (map_m f l).
Proof.
  induction l as [|x l IH]; intros Hf; [intros s Hs; exact Hs|].
  apply keeps_bind; [apply Hf; left | intros y].
  apply keeps_bind; [|intros ys; apply keeps_ret].
  apply IH. intros z Hz. apply Hf. by right.
Qed.

End keeps.

(** ** Computations that return *)

Section returns.
Context {S : Type} (I : S -> Prop).

Lemma wp_any {A} (c : M S A) (Q : outcome A -> S -> Prop) s :
  (forall o s', Q o s') -> wp c Q s.
Proof. intros H. apply H. Qed.

Lemma returns_wp {A} (c : M S A) (Q : outcome A -> S -> Prop) s :
  returns I c -> I s -> (forall a s', I s' -> Q (Done a) s') -> wp c Q s.
Proof.
  intros Hc Hs HQ. eapply wp_mono; [by apply Hc|]. intros [a|e] s' [Hs' Hd]; [auto|done].
Qed.

Lemma returns_keeps {A} (c : M S A) : returns I c -> keeps I c.
Proof. intros Hc s Hs. eapply wp_mono; [by apply Hc|]. by intros o s' [? _]. Qed.

Lemma returns_ret {A} (a : A) : returns I (ret a).
Proof. intros s Hs. by split. Qed.

Lemma returns_get : returns I get.
Proof. intros s Hs. by split. Qed.

Lemma returns_gets {A} (f : S -> A) : returns I (gets f).
Proof. intros s Hs. by split. Qed.

Lemma returns_modify (f : S -> S) : (forall s, I s -> I (f s)) -> returns I (modify f).
Proof. intros Hf s Hs. split; [by apply Hf | done]. Qed.

Lemma returns_bind {A B} (c : M S A) (k : A -> M S B) :
  returns I c -> (forall a, returns I (k a)) -> returns I (bind c k).
Proof.
  intros Hc Hk s Hs. apply wp_bind. apply (returns_wp c); [done..|].
  intros a s' Hs'. by apply Hk.
Qed.

Lemma returns_when (b : bool) (c : M S unit) : returns I c -> returns I (when b c).
Proof. intros Hc. destruct b; [done|]. intros s Hs. by split. Qed.

Lemma returns_for_each {A} (f : A -> M S unit) l :
  (forall x, x ∈ l -> returns I (f x)) -> returns I (for_each f l).
Proof.
  induction l as [|x l IH]; intros Hf; [intros s Hs; by split|].
  apply returns_bind; [apply Hf; left | intros _; apply IH].
  intros y Hy. apply Hf. by right.
Qed.

Lemma returns_map_m {A B} (f : A -> M S B) l :
  (forall x, x ∈ l -> returns I (f x)) -> returns I (map_m f l).
Proof.
  induction l as [|x l IH]; intros Hf; [intros s Hs; by split|].
  apply returns_bind; [apply Hf; left | intros y].
  apply returns_bind; [|intros ys; apply returns_ret].
  apply IH. intros z Hz. apply Hf. by right.
Qed.

(** A [try] whose handler returns does. *)
Lemma returns_try_catch {A} (c : M S A) h :
  keeps I c -> (forall e, returns I (h e)) -> returns I (try_catch c h).
Proof.
  intros Hc Hh s Hs. apply wp_try_catch. apply (keeps_wp I c); [done..|].
  intros [a|e] s' Hs'; [by split | by apply Hh].
Qed.

End returns.

#[export] Hint Resolve returns_ret returns_get returns_gets returns_when : js.

#[export] Hint Resolve keeps_ret keeps_throw keeps_get keeps_gets keeps_when : js.

(** One step of symbolic execution of a goal [wp c Q s] or [keeps I c]. *)
Ltac wp_step :=
  lazymatch goal with
  | |- returns _ (bind _ _) => apply returns_bind; [|intros ?]
  | |- returns _ (ret _) => apply returns_ret
  | |- returns _ get => apply returns_get
  | |- returns _ (gets _) => apply returns_gets
  | |- keeps _ get => apply keeps_get
  | |- keeps _ (gets _) => apply keeps_gets
  | |- returns _ (when _ _) => apply returns_when
  | |- returns _ (for_each _ _) => apply returns_for_each; intros ? ?
  | |- returns _ (map_m _ _) => apply returns_map_m; intros ? ?
  | |- returns _ (if ?b then _ else _) => destruct b eqn:?
  | |- returns _ (match ?x with _ => _ end) => destruct x eqn:?
  | |- keeps _ (bind _ _) => apply keeps_bind; [|intros ?]
  | |- keeps _ (ret _) => apply keeps_ret
  | |- keeps _ (throw _) => apply keeps_throw
  | |- keeps _ (when _ _) => apply keeps_when
  | |- keeps _ (try_catch _ _) => apply keeps_try_catch; [|intros ?]
  | |- keeps _ (for_each _ _) => apply keeps_for_each; intros ? ?
  | |- keeps _ (map_m _ _) => apply keeps_map_m; intros ? ?
  | |- keeps _ (if ?b then _ else _) => destruct b eqn:?
  | |- keeps _ (match ?x with _ => _ end) => destruct x eqn:?
  | |- wp (bind _ _) _ _ => apply wp_bind
  | |- wp (ret _) _ _ => apply wp_ret
  | |- wp (throw _) _ _ => apply wp_throw
  | |- wp get _ _ => apply wp_get
  | |- wp (gets _) _ _ => apply wp_gets
  | |- wp (put _) _ _ => apply wp_put
  | |- wp (modify _) _ _ => apply wp_modify
  | |- wp (when _ _) _ _ => apply wp_when
  | |- wp (try_catch _ _) _ _ => apply wp_try_catch
  | |- wp (if ?b then _ else _) _ _ => destruct b eqn:?
  | |- wp (match ?x with _ => _ end) _ _ => destruct x eqn:?
  | |- if ?b then _ else _ => destruct b eqn:?
  | |- _ => progress cbv beta iota
  end.

#[export] Hint Rewrite @bind_ret_l @bind_ret_r @bind_assoc @bind_throw : js_rw.

(** ** Lists without duplicates *)

(** In a list whose images under [f] are distinct, an element is known by
    its image. *)
Lemma NoDup_fmap_elem_eq {A B} (f : A -> B) (l : list A) x y :
  NoDup (f <$> l) -> x ∈ l -> y ∈ l -> f x = f y -> x = y.
Proof.
  induction l as [|a l IH]; intros Hnd Hx Hy E; [by apply elem_of_nil in Hx|].
  cbn in Hnd. apply NoDup_cons in Hnd as [Ha Hnd].
  apply elem_of_cons in Hx as [-> |Hx], Hy as [-> |Hy]; [done|..|by apply IH].
  - destruct Ha. rewrite E. by apply list_elem_of_fmap_2.
  - destruct Ha. rewrite <- E. by apply list_elem_of_fmap_2.
Qed.

(** ** [update_first] *)

Section update_first.
Context {A : Type} (p : A -> Prop) {pdec : forall x, Decision (p x)} (f : A -> A).

Lemma update_first_length l : length (update_first p f l) = length l.
Proof.
  unfold update_first. destruct (list_find p l) as [[i x]|]; [|done].
  by rewrite length_insert.
Qed.

Lemma update_first_none l :
  Forall (fun x => ~ p x) l -> update_first p f l = l.
Proof.
  intros H. unfold update_first.
  destruct (list_find p l) as [[i x]|] eqn:E; [|done].
  apply list_find_Some in E as (Hi & Hp & _).
  rewrite Forall_forall in H. exfalso. eapply H; [|exact Hp].
  eapply list_elem_of_lookup_2, Hi.
Qed.

Lemma update_first_cons_hit x l : p x -> update_first p f (x :: l) = f x :: l.
Proof. intros Hp. unfold update_first. cbn. by rewrite decide_True. Qed.

Lemma update_first_cons_miss x l :
  ~ p x -> update_first p f (x :: l) = x :: update_first p f l.
Proof.
  intros Hp. unfold update_first. cbn. rewrite decide_False by done.
  destruct (list_find p l) as [[i y]|]; reflexivity.
Qed.

Lemma update_first_app_miss l1 l2 :
  Forall (fun x => ~ p x) l1 ->
  update_first p f (l1 ++ l2) = l1 ++ update_first p f l2.
Proof.
  induction 1 as [|x l1 Hx _ IH]; [done|].
  cbn. rewrite update_first_cons_miss by done. by rewrite IH.
Qed.

(** The elements that do not satisfy [p] are never touched. *)
Lemma update_first_filter_neg l :
  filter (fun x => ~ p x) (update_first p f l) =
  filter (fun x => ~ p x) (match list_find p l with
                           | Some (i, x) => <[i := f x]> l
                           | None => l
                           end).
Proof. reflexivity. Qed.

Lemma update_first_lookup_other l j :
  (forall i x, list_find p l = Some (i, x) -> i <> j) ->
  update_first p f l !! j = l !! j.
Proof.
  intros H. unfold update_first.
  destruct (list_find p l) as [[i x]|] eqn:E; [|done].
  apply list_lookup_insert_ne. by eapply H.
Qed.

End update_first.

(** A property of the elements that the mutation keeps holds of the
    list after it. *)
Lemma update_first_Forall {A} (p : A -> Prop) {pdec : forall x, Decision (p x)}
    (f : A -> A) (P : A -> Prop) l :
  (forall x, p x -> P x -> P (f x)) -> Forall P l -> Forall P (update_first p f l).
Proof.
  intros Hf Hl. unfold update_first.
  destruct (list_find p l) as [[i x]|] eqn:E; [|done].
  apply list_find_Some in E as (Hi & Hp & _).
  apply Forall_insert; [done|]. apply Hf; [done|].
  by eapply Forall_lookup_1.
Qed.

(** A list stays sorted when an upper bound of it is appended. *)
Lemma Sorted_snoc_Forall {A} (R : relation A) l x :
  Sorted R l -> Forall (fun y => R y x) l -> Sorted R (l ++ [x]).
Proof.
  induction 1 as [|y l Hs IH Hhd]; intros HF; [repeat constructor|].
  apply Forall_cons in HF as [Hy HF]. cbn. constructor; [by apply IH|].
  destruct Hhd; cbn; by constructor.
Qed.

(** ** [Sorted] *)

Lemma Sorted_weaken {A} (R R' : A -> A -> Prop) l :
  (forall x y, R x y -> R' x y) -> Sorted R l -> Sorted R' l.
Proof.
  intros HR. induction 1 as [|x l Hs IH Hh]; constructor; [done|].
  destruct Hh; constructor. by apply HR.
Qed.

(** ** [sort_by] *)

Section sort_by.
Context {A : Type} (lt : A -> A -> bool).

Lemma insert_by_Permutation x l : insert_by lt x l ≡ₚ x :: l.
Proof.
  induction l as [|y l IH]; cbn; [done|].
  destruct (lt y x); [|done]. rewrite IH. apply Permutation_swap.
Qed.

Lemma sort_by_Permutation l : sort_by lt l ≡ₚ l.
Proof.
  induction l as [|x l IH]; cbn; [done|].
  fold (sort_by lt l). by rewrite insert_by_Permutation, IH.
Qed.

Lemma sort_by_length l : length (sort_by lt l) = length l.
Proof. by rewrite sort_by_Permutation. Qed.

Lemma sort_by_elem_of x l : x ∈ sort_by lt l <-> x ∈ l.
Proof. by rewrite sort_by_Permutation. Qed.

(** A filter that [lt] cannot tell apart from its complement commutes with
    insertion: this is stability. *)
Lemma insert_by_filter (q : A -> bool) x l :
  (forall y, In y l -> q y = true -> q x = true -> lt y x = false) ->
  filter (fun y => q y = true) (insert_by lt x l) =
  filter (fun y => q y = true) (x :: l).
Proof.
  induction l as [|y l IH]; intros Hq; [done|].
  cbn [insert_by]. destruct (lt y x) eqn:Hyx; [|done].
  rewrite filter_cons. rewrite IH by (intros z Hz; apply Hq; by right).
  rewrite !filter_cons.
  destruct (decide (q y = true)) as [Hy|Hy];
    destruct (decide (q x = true)) as [Hx|Hx]; try done.
  rewrite (Hq y) in Hyx; [done | by left | done | done].
Qed.

(** Elements that [lt] does not order keep their relative order. *)
Lemma sort_by_stable (q : A -> bool) l :
  (forall x y, q x = true -> q y = true -> lt x y = false) ->
  filter (fun y => q y = true) (sort_by lt l) = filter (fun y => q y = true) l.
Proof.
  intros Hq. induction l as [|x l IH]; [done|].
  cbn [sort_by foldr]. fold (sort_by lt l).
  rewrite insert_by_filter by (intros; by apply Hq).
  by rewrite !filter_cons, IH.
Qed.

Context (lt_asym : forall x y, lt x y = true -> lt y x = false).

Lemma insert_by_HdRel x y l :
  not_after lt y x -> HdRel (not_after lt) y l -> HdRel (not_after lt) y (insert_by lt x l).
Proof.
  intros Hyx Hl. destruct l as [|z l]; cbn; [by constructor|].
  destruct (lt z x); constructor; [by inversion Hl | done].
Qed.

Lemma insert_by_Sorted x l :
  Sorted (not_after lt) l -> Sorted (not_after lt) (insert_by lt x l).
Proof.
  induction 1 as [|y l Hs IH Hh]; cbn; [by repeat constructor|].
  destruct (lt y x) eqn:E.
  - constructor; [done|]. apply insert_by_HdRel; [|done]. by apply lt_asym.
  - constructor; [by constructor|]. by constructor.
Qed.

(** The result lists no element strictly after its neighbour. *)
Lemma sort_by_Sorted l : Sorted (not_after lt) (sort_by lt l).
Proof.
  induction l as [|x l IH]; cbn; [constructor|]. by apply insert_by_Sorted.
Qed.

(** A sorted list is left as it is. *)
Lemma sort_by_sorted_id l : Sorted (not_after lt) l -> sort_by lt l = l.
Proof.
  induction 1 as [|x l Hs IH Hh]; [done|].
  cbn [sort_by foldr]. fold (sort_by lt l). rewrite IH.
  destruct Hh as [|y l' Hxy]; [done|]. cbn. by rewrite Hxy.
Qed.

Lemma sort_by_idemp l : sort_by lt (sort_by lt l) = sort_by lt l.
Proof. apply sort_by_sorted_id, sort_by_Sorted. Qed.

End sort_by.

#[export] Hint Resolve sort_by_Permutation insert_by_Permutation : js.
#[export] Hint Rewrite @sort_by_length @update_first_length : js_rw.
