(* ===== verification/JsString.v ===== *)
(** * JsString: the string primitives the program calls

    [String.prototype.trim], [toLowerCase], [toUpperCase], [includes],
    [split], [join], [charAt], [slice], [substr], [substring] and
    [Array.prototype.indexOf] on strings, on sequences of 8-bit code units,
    and the matcher of the regular expression of [sanitizeInput]
    ([src/script.js], line 191).  Each primitive is defined on lists of
    characters ([_l] suffix) and wrapped for [string]. *)

From S2P Require Import Prelude.

#[local] Open Scope char_scope.
#[local] Open Scope list_scope.

(** ** Conversions *)

Definition chars (s : string) : list ascii := list_ascii_of_string s.
Definition text (l : list ascii) : string := string_of_list_ascii l.

(** ** Character classes *)

(** The double quote, as a string. *)
Definition dquote : string := String (ascii_of_nat 34) EmptyString.

(** White space and line terminators of ECMAScript that fit in 8 bits:
    TAB, LF, VT, FF, CR, SP and NBSP. *)
Definition white_space : list ascii :=
  ["009"; "010"; "011"; "012"; "013"; " "; "160"].

Definition is_white (c : ascii) : bool := existsb (Ascii.eqb c) white_space.

Definition is_upper (c : ascii) : bool :=
  (65 <=? nat_of_ascii c)%nat && (nat_of_ascii c <=? 90)%nat.
Definition is_lower (c : ascii) : bool :=
  (97 <=? nat_of_ascii c)%nat && (nat_of_ascii c <=? 122)%nat.
Definition is_digit (c : ascii) : bool :=
  (48 <=? nat_of_ascii c)%nat && (nat_of_ascii c <=? 57)%nat.

(** The class [\w] of regular expressions. *)
Definition is_word (c : ascii) : bool :=
  is_upper c || is_lower c || is_digit c || Ascii.eqb c "_".

Definition lower (c : ascii) : ascii :=
  if is_upper c then ascii_of_nat (nat_of_ascii c + 32) else c.
Definition upper (c : ascii) : ascii :=
  if is_lower c then ascii_of_nat (nat_of_ascii c - 32) else c.

Arguments is_white : simpl never.
Arguments is_word : simpl never.
Arguments lower : simpl never.
Arguments upper : simpl never.

(** ** trim *)

Fixpoint trimStart_l (l : list ascii) : list ascii :=
  match l with
  | [] => []
  | c :: l' => if is_white c then trimStart_l l' else l
  end.

Definition trimEnd_l (l : list ascii) : list ascii := rev (trimStart_l (rev l)).
Definition trim_l (l : list ascii) : list ascii := trimEnd_l (trimStart_l l).
Definition trim (s : string) : string := text (trim_l (chars s)).

(** ** Case *)

Definition toLowerCase (s : string) : string := text (map lower (chars s)).
Definition toUpperCase (s : string) : string := text (map upper (chars s)).

(** ** includes *)

Fixpoint prefix_b (p l : list ascii) : bool :=
  match p, l with
  | [], _ => true
  | a :: p', b :: l' => Ascii.eqb a b && prefix_b p' l'
  | _ :: _, [] => false
  end.

Fixpoint includes_l (p l : list ascii) : bool :=
  prefix_b p l || match l with
                  | [] => false
                  | _ :: l' => includes_l p l'
                  end.

Definition includes (s p : string) : bool := includes_l (chars p) (chars s).

(** ** split and join *)

(** [s.split(sep)] for a one-character separator: never the empty list;
    the empty string splits into one empty word. *)
Fixpoint split_l (sep : ascii) (l : list ascii) : list (list ascii) :=
  match l with
  | [] => [[]]
  | c :: l' =>
      if Ascii.eqb c sep then [] :: split_l sep l'
      else match split_l sep l' with
           | w :: ws => (c :: w) :: ws
           | [] => [[c]]
           end
  end.

Fixpoint join_l (sep : list ascii) (ws : list (list ascii)) : list ascii :=
  match ws with
  | [] => []
  | [w] => w
  | w :: ws' => w ++ sep ++ join_l sep ws'
  end.

Definition split (sep : ascii) (s : string) : list string :=
  map text (split_l sep (chars s)).
Definition join (sep : string) (ws : list string) : string :=
  text (join_l (chars sep) (map chars ws)).

(** ** Slices *)

(** [s.substr(start, len)] for non-negative arguments. *)
Definition substr (start len : nat) (s : string) : string :=
  text (take len (drop start (chars s))).

(** [s.substring(0, n)]. *)
Definition substring0 (n : nat) (s : string) : string := text (take n (chars s)).

(** [w.charAt(0).toUpperCase() + w.slice(1)]. *)
Definition capitalize_l (w : list ascii) : list ascii :=
  match w with
  | [] => []
  | c :: w' => upper c :: w'
  end.
Definition capitalize (w : string) : string := text (capitalize_l (chars w)).

(** ** indexOf on an array of strings *)

(** [a.indexOf(x)]: the index of the first element equal to [x], or -1. *)
Definition indexOf (a : list string) (x : string) : Z :=
  match list_find (fun y => y = x) a with
  | Some (i, _) => Z.of_nat i
  | None => (-1)%Z
  end.

(** [a.includes(x)] on an array of strings. *)
Definition array_includes (a : list string) (x : string) : bool :=
  bool_decide (x ∈ a).

(** ** The script-block pattern

    The pattern of line 191 is, piece by piece: the text [<script] in any
    case (flag i); a word boundary; a run of characters other than [<];
    then any number of groups made of a [<] that does not start the
    closing tag (a negative look-ahead) followed by a run of characters
    other than [<]; then the closing tag [</script>] in any case.  The
    greedy runs stop at every [<], where the look-ahead decides between
    going on and the closing tag, so the match ends at the first closing
    tag and backtracking finds no other. *)

(** [strip_prefix_ci p l]: what follows [p] in [l], compared without
    case; [p] is given in lower case. *)
Fixpoint strip_prefix_ci (p l : list ascii) : option (list ascii) :=
  match p, l with
  | [], _ => Some l
  | a :: p', b :: l' => if Ascii.eqb a (lower b) then strip_prefix_ci p' l' else None
  | _ :: _, [] => None
  end.

Definition open_tag : list ascii := chars "<script".
Definition close_tag : list ascii := chars "</script>".

(** [\b] after a word character: the next character is not one. *)
Definition word_boundary (l : list ascii) : bool :=
  match l with
  | [] => true
  | c :: _ => negb (is_word c)
  end.

(** The number of characters up to and including the first closing tag. *)
Fixpoint close_len (l : list ascii) : option nat :=
  match strip_prefix_ci close_tag l with
  | Some _ => Some (length close_tag)
  | None => match l with
            | [] => None
            | _ :: l' => S <$> close_len l'
            end
  end.

(** The length of the match of the pattern at the head of [l], if any. *)
Definition match_script (l : list ascii) : option nat :=
  match strip_prefix_ci open_tag l with
  | Some r => if word_boundary r then (fun n => length open_tag + n) <$> close_len r
              else None
  | None => None
  end.

(** [l.replace(pattern, '')] with the [g] flag: matches are found left to
    right, each search starting where the last match ended; [skip] counts
    the characters of the current match still to be dropped. *)
Fixpoint strip_go (skip : nat) (l : list ascii) : list ascii :=
  match l with
  | [] => []
  | c :: l' =>
      match skip with
      | S k => strip_go k l'
      | O => match match_script l with
             | Some (S k) => strip_go k l'
             | _ => c :: strip_go 0 l'
             end
      end
  end.

Definition strip_scripts_l (l : list ascii) : list ascii := strip_go 0 l.
Definition strip_scripts (s : string) : string := text (strip_scripts_l (chars s)).

(** ** Conversions *)

Lemma chars_text l : chars (text l) = l.
Proof. apply list_ascii_of_string_of_list_ascii. Qed.

Lemma text_chars s : text (chars s) = s.
Proof. apply string_of_list_ascii_of_string. Qed.

Lemma text_inj l1 l2 : text l1 = text l2 -> l1 = l2.
Proof. intros H. rewrite <- (chars_text l1), <- (chars_text l2). by rewrite H. Qed.

Lemma chars_inj s1 s2 : chars s1 = chars s2 -> s1 = s2.
Proof. intros H. rewrite <- (text_chars s1), <- (text_chars s2). by rewrite H. Qed.

Lemma length_chars s : length (chars s) = String.length s.
Proof. unfold chars. induction s as [|c s IH]; cbn; [done | by f_equal]. Qed.

Lemma length_text l : String.length (text l) = length l.
Proof. by rewrite <- length_chars, chars_text. Qed.

Lemma chars_app s1 s2 : chars (s1 +:+ s2) = chars s1 ++ chars s2.
Proof.
  unfold chars. induction s1 as [|c s1 IH]; [done|].
  change (c :: list_ascii_of_string (s1 +:+ s2) =
          c :: (list_ascii_of_string s1 ++ list_ascii_of_string s2)).
  by f_equal.
Qed.

Lemma text_app l1 l2 : text (l1 ++ l2) = text l1 +:+ text l2.
Proof. apply chars_inj. by rewrite chars_app, !chars_text. Qed.

#[export] Hint Rewrite chars_text text_chars length_chars length_text
  chars_app text_app : js_rw.

(** ** trim *)

Lemma trimStart_l_length l : length (trimStart_l l) <= length l.
Proof. induction l as [|c l IH]; cbn; [lia|]. destruct (is_white c); cbn; lia. Qed.

Lemma trimStart_l_suffix l : trimStart_l l `suffix_of` l.
Proof.
  induction l as [|c l IH]; cbn; [done|].
  destruct (is_white c); [by apply suffix_cons_r | done].
Qed.

Lemma trimStart_l_head l c l' : trimStart_l l = c :: l' -> is_white c = false.
Proof.
  induction l as [|d l IH]; cbn; [done|].
  destruct (is_white d) eqn:E; [done|]. by intros [= <- <-].
Qed.

Lemma trimStart_l_id l :
  (forall c l', l = c :: l' -> is_white c = false) -> trimStart_l l = l.
Proof. destruct l as [|c l]; [done|]. intros H. cbn. by rewrite (H c l). Qed.

Lemma trimStart_l_idemp l : trimStart_l (trimStart_l l) = trimStart_l l.
Proof. apply trimStart_l_id. intros c l'. apply trimStart_l_head. Qed.

Lemma trimStart_l_all_white l : forallb is_white l = true -> trimStart_l l = [].
Proof. induction l as [|c l IH]; cbn; [done|]. destruct (is_white c); cbn; [done | done]. Qed.

Lemma trimEnd_l_length l : length (trimEnd_l l) <= length l.
Proof.
  unfold trimEnd_l. rewrite length_rev, <- (length_rev l). apply trimStart_l_length.
Qed.

Lemma trimEnd_l_prefix l : trimEnd_l l `prefix_of` l.
Proof.
  unfold trimEnd_l. destruct (trimStart_l_suffix (rev l)) as [k Hk].
  exists (rev k). apply (f_equal (@rev _)) in Hk.
  rewrite rev_involutive, rev_app_distr in Hk. done.
Qed.

Lemma trimEnd_l_last l c l' : trimEnd_l l = l' ++ [c] -> is_white c = false.
Proof.
  unfold trimEnd_l. intros H. apply (f_equal (@rev _)) in H.
  rewrite rev_involutive, rev_app_distr in H. cbn in H.
  by apply trimStart_l_head in H.
Qed.

Lemma trimEnd_l_idemp l : trimEnd_l (trimEnd_l l) = trimEnd_l l.
Proof. unfold trimEnd_l. by rewrite rev_involutive, trimStart_l_idemp. Qed.

(** Trimming the end keeps a non-white head in place. *)
Lemma trimEnd_l_cons c l :
  is_white c = false -> trimEnd_l (c :: l) = c :: trimEnd_l l.
Proof.
  intros Hc. unfold trimEnd_l. cbn [rev].
  assert (forall k, trimStart_l (k ++ [c]) = trimStart_l k ++ [c]) as ->.
  { intros k. induction k as [|d k IH]; cbn; [by rewrite Hc|].
    destruct (is_white d); [done | done]. }
  by rewrite rev_app_distr.
Qed.

Lemma trim_l_head l c l' : trim_l l = c :: l' -> is_white c = false.
Proof.
  unfold trim_l. destruct (trimStart_l l) as [|d k] eqn:E; [done|].
  pose proof (trimStart_l_head _ _ _ E) as Hd.
  rewrite trimEnd_l_cons by done. by intros [= <- _].
Qed.

Lemma trim_l_last l c l' : trim_l l = l' ++ [c] -> is_white c = false.
Proof. apply trimEnd_l_last. Qed.

Lemma trim_l_length l : length (trim_l l) <= length l.
Proof.
  unfold trim_l. pose proof (trimEnd_l_length (trimStart_l l)).
  pose proof (trimStart_l_length l). lia.
Qed.

Lemma trim_l_idemp l : trim_l (trim_l l) = trim_l l.
Proof.
  unfold trim_l at 1. rewrite trimStart_l_id by apply trim_l_head.
  apply trimEnd_l_idemp.
Qed.

Lemma trim_idemp s : trim (trim s) = trim s.
Proof. unfold trim. by rewrite chars_text, trim_l_idemp. Qed.

Lemma trim_length s : String.length (trim s) <= String.length s.
Proof. unfold trim. rewrite length_text, <- length_chars. apply trim_l_length. Qed.

(** A text that neither begins nor ends with white space is its own
    trimming. *)
Lemma trim_l_id l c d :
  head l = Some c -> last l = Some d -> is_white c = false -> is_white d = false ->
  trim_l l = l.
Proof.
  intros Hh Hl Hc Hd. unfold trim_l, trimEnd_l.
  rewrite (trimStart_l_id l) by (intros ? ? ->; by simplify_eq/=).
  rewrite trimStart_l_id, rev_involutive; [done|].
  intros c' l' E. rewrite rev_alt in E. change (rev_append l []) with (reverse l) in E.
  pose proof (head_reverse l) as H. rewrite E, Hl in H. by simplify_eq/=.
Qed.

Lemma trim_id s c d :
  head (chars s) = Some c -> last (chars s) = Some d ->
  is_white c = false -> is_white d = false -> trim s = s.
Proof. intros. unfold trim. by rewrite (trim_l_id _ c d), text_chars. Qed.

Lemma append_empty_r s : s +:+ "" = s.
Proof. apply chars_inj. by rewrite chars_app, app_nil_r. Qed.

Lemma length_append s1 s2 :
  String.length (s1 +:+ s2) = String.length s1 + String.length s2.
Proof. by rewrite <- !length_chars, chars_app, length_app. Qed.

(** ** includes *)

Lemma prefix_b_spec p l : prefix_b p l = true <-> p `prefix_of` l.
Proof.
  revert l. induction p as [|a p IH]; intros [|b l]; cbn.
  - split; [intros _; apply prefix_nil | done].
  - split; [intros _; apply prefix_nil | done].
  - split; [done | intros [k Hk]; done].
  - rewrite andb_true_iff, IH. split.
    + intros [Hab Hp]. apply Ascii.eqb_eq in Hab as ->. by apply prefix_cons.
    + intros [k Hk]. injection Hk as -> ->. split; [apply Ascii.eqb_refl|].
      by exists k.
Qed.

Lemma includes_l_spec p l :
  includes_l p l = true <-> exists a b, l = a ++ p ++ b.
Proof.
  induction l as [|c l IH]; cbn [includes_l]; rewrite orb_true_iff, prefix_b_spec.
  - split.
    + intros [[k Hk]|]; [|done]. exists [], k. done.
    + intros (a & b & H). left. symmetry in H.
      apply app_eq_nil in H as [-> H]. apply app_eq_nil in H as [-> _]. done.
  - rewrite IH. split.
    + intros [[k Hk]|(a & b & ->)]; [by exists [], k | by exists (c :: a), b].
    + intros ([|d a] & b & H); [left; by exists b|].
      right. injection H as -> ->. by exists a, b.
Qed.

Lemma includes_l_nil l : includes_l [] l = true.
Proof. apply includes_l_spec. by exists [], l. Qed.

(** ** split and join *)

Lemma split_l_nonempty sep l : split_l sep l <> [].
Proof.
  destruct l as [|c l]; cbn; [done|].
  destruct (Ascii.eqb c sep); [done|]. by destruct (split_l sep l).
Qed.

Lemma join_l_cons sep w ws :
  ws <> [] -> join_l sep (w :: ws) = w ++ sep ++ join_l sep ws.
Proof. by destruct ws. Qed.

Lemma join_split_l sep l : join_l [sep] (split_l sep l) = l.
Proof.
  induction l as [|c l IH]; cbn [split_l]; [done|].
  destruct (Ascii.eqb_spec c sep) as [->|Hne].
  - rewrite join_l_cons by apply split_l_nonempty. cbn. by rewrite IH.
  - pose proof (split_l_nonempty sep l) as Hn.
    destruct (split_l sep l) as [|w ws]; [done|].
    destruct ws as [|w' ws]; cbn in *; by rewrite <- IH.
Qed.

Lemma split_l_no_sep sep l : Forall (Forall (fun c => c <> sep)) (split_l sep l).
Proof.
  induction l as [|c l IH]; cbn [split_l]; [by repeat constructor|].
  destruct (Ascii.eqb_spec c sep) as [->|Hne]; [by constructor|].
  destruct (split_l sep l) as [|w ws]; [by repeat constructor|].
  inversion IH; subst. constructor; [by constructor | done].
Qed.

Lemma join_split sep s : join (String sep "") (split sep s) = s.
Proof.
  unfold join, split. rewrite map_map.
  erewrite map_ext by (intros; apply chars_text). rewrite map_id.
  cbn. by rewrite join_split_l, text_chars.
Qed.

(** ** Case *)

Lemma lower_idemp c : lower (lower c) = lower c.
Proof.
  unfold lower. destruct (is_upper c) eqn:E; [|by rewrite E].
  unfold is_upper in *. apply andb_true_iff in E as [H1 H2].
  apply Nat.leb_le in H1, H2.
  rewrite nat_ascii_embedding by lia.
  replace (nat_of_ascii c + 32 <=? 90)%nat with false; [by rewrite andb_false_r|].
  symmetry. apply Nat.leb_gt. lia.
Qed.

Lemma toLowerCase_idemp s : toLowerCase (toLowerCase s) = toLowerCase s.
Proof.
  unfold toLowerCase. rewrite chars_text, map_map. f_equal.
  apply map_ext. intros. apply lower_idemp.
Qed.

Lemma toLowerCase_length s : String.length (toLowerCase s) = String.length s.
Proof. unfold toLowerCase. by rewrite length_text, length_map, length_chars. Qed.

(** ** indexOf *)

Lemma indexOf_ge a x : (-1 <= indexOf a x < Z.of_nat (length a))%Z.
Proof.
  unfold indexOf. destruct (list_find _ a) as [[i y]|] eqn:E; [|lia].
  apply list_find_Some in E as (Hi & _). apply lookup_lt_Some in Hi. lia.
Qed.

Lemma indexOf_lookup a x i :
  indexOf a x = Z.of_nat i -> a !! i = Some x.
Proof.
  unfold indexOf. destruct (list_find _ a) as [[j y]|] eqn:E; [|lia].
  intros H. apply Nat2Z.inj in H as ->.
  by apply list_find_Some in E as (Hi & -> & _).
Qed.

Lemma indexOf_absent a x : x ∉ a <-> indexOf a x = (-1)%Z.
Proof.
  unfold indexOf. destruct (list_find _ a) as [[j y]|] eqn:E.
  - apply list_find_Some in E as (Hi & -> & _).
    split; [intros H; destruct H; by eapply list_elem_of_lookup_2 | lia].
  - split; [done|]. intros _ Hx.
    apply list_find_None in E. rewrite Forall_forall in E. by apply (E x).
Qed.

(** ** The script-block pattern *)

Lemma strip_prefix_ci_length p l r :
  strip_prefix_ci p l = Some r -> length l = length p + length r.
Proof.
  revert l. induction p as [|a p IH]; intros [|b l]; cbn; try done.
  - by intros [= <-].
  - by intros [= <-].
  - destruct (Ascii.eqb a (lower b)); [|done]. intros H. by rewrite (IH _ H).
Qed.

Lemma close_len_bound l n : close_len l = Some n -> 9 <= n <= length l.
Proof.
  revert n. induction l as [|c l IH]; intros n; cbn -[close_tag strip_prefix_ci].
  - destruct (strip_prefix_ci close_tag []) eqn:E; [|done]. by cbn in E.
  - destruct (strip_prefix_ci close_tag (c :: l)) eqn:E.
    + intros [= <-]. apply strip_prefix_ci_length in E. cbn in *. lia.
    + destruct (close_len l) as [m|]; [|done]. intros [= <-].
      specialize (IH m eq_refl). cbn. lia.
Qed.

(** A match of the script-block pattern at the head of a text has at
    least 16 characters and does not run past the end of the text. *)
Lemma match_script_bound l n : match_script l = Some n -> 16 <= n <= length l.
Proof.
  unfold match_script.
  destruct (strip_prefix_ci open_tag l) as [r|] eqn:E; [|done].
  destruct (word_boundary r); [|done].
  destruct (close_len r) as [m|] eqn:Em; [|done]. intros [= <-].
  apply strip_prefix_ci_length in E. apply close_len_bound in Em.
  cbn in *. lia.
Qed.

Lemma strip_go_length k l : length (strip_go k l) <= length l.
Proof.
  revert k. induction l as [|c l IH]; intros k; cbn -[match_script]; [lia|].
  destruct k as [|k]; [|specialize (IH k); lia].
  destruct (match_script (c :: l)) as [[|m]|].
  - specialize (IH 0). cbn. lia.
  - specialize (IH m). lia.
  - specialize (IH 0). cbn. lia.
Qed.

Lemma lower_eq_lt c : lower c = "<" -> c = "<".
Proof.
  unfold lower. destruct (is_upper c) eqn:E; [|done].
  unfold is_upper in E. apply andb_true_iff in E as [H1 H2].
  apply Nat.leb_le in H1, H2. intros H. apply (f_equal nat_of_ascii) in H.
  rewrite nat_ascii_embedding in H by lia.
  change (nat_of_ascii "<") with 60 in H. lia.
Qed.

(** A match starts with [<]. *)
Lemma match_script_head c l n : match_script (c :: l) = Some n -> c = "<".
Proof.
  unfold match_script. change open_tag with ("<" :: chars "script").
  cbn [strip_prefix_ci].
  destruct (Ascii.eqb_spec "<" (lower c)) as [E|]; [|done].
  intros _. by apply lower_eq_lt.
Qed.

Lemma strip_go_miss c l :
  match_script (c :: l) = None -> strip_go 0 (c :: l) = c :: strip_go 0 l.
Proof. intros H. cbn [strip_go]. by rewrite H. Qed.

Lemma strip_go_hit c l n :
  match_script (c :: l) = Some (S n) -> strip_go 0 (c :: l) = strip_go n l.
Proof. intros H. cbn [strip_go]. by rewrite H. Qed.

(** A text with no [<] is left alone. *)
Lemma strip_go_no_lt l :
  Forall (fun c => c <> "<") l -> strip_go 0 l = l.
Proof.
  induction 1 as [|c l Hc _ IH]; [done|].
  rewrite strip_go_miss, IH; [done|].
  destruct (match_script (c :: l)) eqn:E; [|done].
  by apply match_script_head in E.
Qed.

(** ** Script blocks *)

(** The closing tag starts with the character [<]. *)
Lemma close_tag_lt c l : c <> "<" -> strip_prefix_ci close_tag (c :: l) = None.
Proof.
  intros Hc.
  change (strip_prefix_ci close_tag (c :: l))
    with (if Ascii.eqb "<" (lower c) then strip_prefix_ci (chars "/script>") l else None).
  destruct (Ascii.eqb_spec "<" (lower c)) as [E|]; [|done].
  symmetry in E. by apply lower_eq_lt in E.
Qed.

Lemma close_len_cons c l :
  close_len (c :: l) =
  match strip_prefix_ci close_tag (c :: l) with
  | Some _ => Some (length close_tag)
  | None => S <$> close_len l
  end.
Proof. done. Qed.

Lemma close_len_here l r :
  strip_prefix_ci close_tag l = Some r -> close_len l = Some (length close_tag).
Proof. destruct l as [|c l]; [done|]. rewrite close_len_cons. by intros ->. Qed.

(** The closing tag does not start inside a run of other characters. *)
Lemma close_len_run u l :
  Forall (fun c => c <> "<") u ->
  close_len (u ++ l) = (fun m => length u + m) <$> close_len l.
Proof.
  induction 1 as [|c u Hc _ IH]; [rewrite app_nil_l; by destruct (close_len l)|].
  change (close_len ((c :: u) ++ l))
    with (match strip_prefix_ci close_tag (c :: u ++ l) with
          | Some _ => Some (length close_tag)
          | None => S <$> close_len (u ++ l)
          end).
  rewrite close_tag_lt, IH by done. by destruct (close_len l).
Qed.

(** A run of characters other than [<] is copied. *)
Lemma strip_go_run u l :
  Forall (fun c => c <> "<") u -> strip_go 0 (u ++ l) = u ++ strip_go 0 l.
Proof.
  induction 1 as [|c u Hc _ IH]; [done|].
  rewrite <- !app_comm_cons, strip_go_miss, IH; [done|].
  destruct (match_script (c :: u ++ l)) eqn:E; [|done].
  by apply match_script_head in E.
Qed.

(** The characters of a match are dropped, and the scan goes on after
    them. *)
Lemma strip_go_skip u l : strip_go (length u) (u ++ l) = strip_go 0 l.
Proof. induction u as [|c u IH]; [done|]. exact IH. Qed.

(** A block without attributes whose body has no [<] is a match, which
    ends with its closing tag. *)
Lemma match_script_block body post :
  Forall (fun c => c <> "<") body ->
  match_script (chars "<script>" ++ body ++ close_tag ++ post) =
  Some (S (length (chars "script>" ++ body ++ close_tag))).
Proof.
  intros H. unfold match_script.
  change (strip_prefix_ci open_tag (chars "<script>" ++ body ++ close_tag ++ post))
    with (Some (">" :: body ++ close_tag ++ post)).
  change (word_boundary (">" :: body ++ close_tag ++ post)) with true. cbv iota.
  rewrite (app_comm_cons body), (close_len_run (">" :: body)) by (by constructor).
  rewrite (close_len_here (close_tag ++ post) post) by reflexivity.
  cbn. f_equal. rewrite !length_app. cbn. lia.
Qed.

Lemma strip_go_block body post :
  Forall (fun c => c <> "<") body ->
  strip_go 0 (chars "<script>" ++ body ++ close_tag ++ post) = strip_go 0 post.
Proof.
  intros H. pose proof (match_script_block body post H) as Hm.
  change (chars "<script>" ++ body ++ close_tag ++ post)
    with ("<" :: (chars "script>" ++ body ++ close_tag ++ post)) in *.
  rewrite (strip_go_hit _ _ _ Hm).
  rewrite <- (strip_go_skip (chars "script>" ++ body ++ close_tag) post).
  by rewrite <- !app_assoc.
Qed.

(** A block that stands between the letters of an opening tag is
    removed, and what is left is the tag. *)
Lemma strip_go_nested inner body :
  Forall (fun c => c <> "<") inner -> Forall (fun c => c <> "<") body ->
  strip_go 0 (chars "<scr" ++ chars "<script>" ++ inner ++ close_tag ++
              chars "ipt>" ++ body ++ close_tag) =
  chars "<script>" ++ body ++ close_tag.
Proof.
  intros Hi Hb.
  change (chars "<scr" ++ ?l) with ("<" :: chars "scr" ++ l).
  rewrite strip_go_miss by reflexivity.
  rewrite (strip_go_run (chars "scr")) by (by repeat constructor).
  rewrite strip_go_block by done.
  rewrite (app_assoc (chars "ipt>")), strip_go_run
    by (apply Forall_app; split; [by repeat constructor | done]).
  by rewrite <- app_assoc.
Qed.

Lemma strip_scripts_length s : String.length (strip_scripts s) <= String.length s.
Proof.
  unfold strip_scripts, strip_scripts_l.
  rewrite length_text, <- length_chars. apply strip_go_length.
Qed.

(** ** Instances *)

Lemma match_script_bound_witness :
  16 <= 25 <= length (chars "<script>alert(1)</script>!").
Proof. by apply match_script_bound; vm_compute. Defined.
