(* ===== verification/Regex.v ===== *)
(** * Regex: the pattern of [sanitizeInput] as a regular expression

    [sanitizeInput] ([src/script.js], line 191) removes the matches of a
    regular expression with the flags [g] and [i]: the opening tag, a word
    boundary, a greedy run of characters other than the less-than sign, a
    greedy repetition of a group (a negative look-ahead for the closing
    tag, a less-than sign, a greedy run of other characters), and the
    closing tag.  [JsString] models a match of that pattern by a direct
    scan, [match_script].  This file gives the pattern as a term of a small
    language of regular expressions ([script_re]), the backtracking matcher
    of ECMAScript for that language ([re_run]: continuations, greedy
    repetition that refuses an empty iteration, negative look-ahead, word
    boundary), and the proof that the scan computes what the matcher
    computes.

    A position is the character before it and the text after it.  The
    repetition is bounded by the length of the text left, which each
    iteration shortens: no fuel is given from outside, and
    [re_loop_fuel] shows that a larger bound changes nothing. *)

From S2P Require Import Prelude.
From S2P Require Import JsString.

#[local] Open Scope list_scope.

(** ** The language *)

Inductive re : Type :=
| Eps
| Chr (p : ascii -> bool)
| Seq (r1 r2 : re)
| Star (r : re)
| NotAhead (r : re)
| WordBoundary.

Record pos : Type := mkPos { before : option ascii; rest : list ascii }.

(** ** The matcher *)

(** Greedy repetition of [body] followed by [k]: an iteration that does
    not move is refused; when every further iteration fails the
    continuation is tried where the repetition stands. *)
Fixpoint re_loop (body : pos -> (pos -> option pos) -> option pos)
    (k : pos -> option pos) (n : nat) (x : pos) : option pos :=
  match n with
  | 0 => k x
  | S n' =>
      match body x (fun y => if (length (rest y) <? length (rest x))%nat
                             then re_loop body k n' y else None) with
      | Some z => Some z
      | None => k x
      end
  end.

Definition word_at (c : option ascii) : bool := from_option is_word false c.

(** [re_run r x k]: the end of the first match of [r] at [x], in the
    order of backtracking, that the continuation [k] accepts. *)
Fixpoint re_run (r : re) (x : pos) (k : pos -> option pos) : option pos :=
  match r with
  | Eps => k x
  | Chr p =>
      match rest x with
      | c :: l => if p c then k (mkPos (Some c) l) else None
      | [] => None
      end
  | Seq r1 r2 => re_run r1 x (fun y => re_run r2 y k)
  | Star r' => re_loop (re_run r') k (length (rest x)) x
  | NotAhead r' =>
      match re_run r' x Some with
      | Some _ => None
      | None => k x
      end
  | WordBoundary =>
      if xorb (word_at (before x)) (word_at (head (rest x))) then k x else None
  end.

(** The length of the match of [r] at the head of [l], after the
    character [b]. *)
Definition re_match (r : re) (b : option ascii) (l : list ascii) : option nat :=
  (fun y => length l - length (rest y)) <$> re_run r (mkPos b l) Some.

(** [l.replace(r, '')] for a pattern [r] with the flag [g]: the matches
    are looked for from left to right, each search starting where the
    last match ended, or one character further when the match is empty;
    [n] counts the characters of the current match still to be dropped and
    [b] is the character before the position. *)
Fixpoint re_strip (r : re) (n : nat) (b : option ascii) (l : list ascii) : list ascii :=
  match l with
  | [] => []
  | c :: l' =>
      match n with
      | S k => re_strip r k (Some c) l'
      | 0 => match re_match r b l with
             | Some (S k) => re_strip r k (Some c) l'
             | _ => c :: re_strip r 0 (Some c) l'
             end
      end
  end.

(** ** The pattern of line 191 *)

(** A character under the flag [i]: letters are compared without case;
    the pattern is given in lower case. *)
Definition chr_ci (a : ascii) : re := Chr (fun c => Ascii.eqb a (lower c)).

Definition lit_ci (p : list ascii) : re := foldr (fun a r => Seq (chr_ci a) r) Eps p.

(** A greedy run of characters other than the less-than sign. *)
Definition other (c : ascii) : bool := negb (Ascii.eqb c "<").
Definition not_lt : re := Star (Chr other).

(** The group that is repeated: not at the closing tag, a less-than
    sign, and a run of other characters. *)
Definition script_group : re :=
  Seq (NotAhead (lit_ci close_tag)) (Seq (Chr (fun c => Ascii.eqb c "<")) not_lt).

Definition script_re : re :=
  Seq (lit_ci open_tag)
    (Seq WordBoundary
       (Seq not_lt (Seq (Star script_group) (lit_ci close_tag)))).

(** ** Auxiliary functions of the proofs *)

(** The character before the position reached after reading [u]. *)
Definition after (u : list ascii) (b : option ascii) : option ascii :=
  foldl (fun _ c => Some c) b u.

(** The longest prefix of [l] in the class [p]. *)
Fixpoint run_of (p : ascii -> bool) (l : list ascii) : list ascii :=
  match l with
  | c :: l' => if p c then c :: run_of p l' else []
  | [] => []
  end.

(** The continuation of the pattern after its repetition: the closing
    tag, and nothing after it. *)
Definition close_k (x : pos) : option pos := re_run (lit_ci close_tag) x Some.

(** * Lemmas *)

(** ** Literals *)

Lemma strip_prefix_ci_drop p l r : strip_prefix_ci p l = Some r -> r = drop (length p) l.
Proof.
  revert l. induction p as [|a p IH]; intros [|c l] H; simplify_eq/=; [done..|].
  destruct (Ascii.eqb a (lower c)); [by apply IH | done].
Qed.

(** A literal is matched as [strip_prefix_ci] reads it. *)
Lemma re_run_lit p b l k :
  re_run (lit_ci p) (mkPos b l) k =
  match strip_prefix_ci p l with
  | Some r => k (mkPos (after (take (length p) l) b) r)
  | None => None
  end.
Proof.
  revert b l. induction p as [|a p IH]; intros b l; [done|].
  destruct l as [|c l]; [done|]. cbn. destruct (Ascii.eqb a (lower c)); [|done].
  by rewrite IH.
Qed.

(** ** Repetition *)

(** A match looks at its continuation only at positions that are not
    before the one it starts from. *)
Lemma re_loop_ext body k k' n x :
  (forall x k k', (forall y, length (rest y) <= length (rest x) -> k y = k' y) ->
                  body x k = body x k') ->
  (forall y, length (rest y) <= length (rest x) -> k y = k' y) ->
  re_loop body k n x = re_loop body k' n x.
Proof.
  intros Hbody. revert x. induction n as [|n IH]; intros x Hk; cbn [re_loop]; [by apply Hk|].
  rewrite (Hk x) by done.
  rewrite (Hbody x _ (fun y => if (length (rest y) <? length (rest x))%nat
                               then re_loop body k' n y else None)); [done|].
  intros y Hy. destruct (Nat.ltb_spec (length (rest y)) (length (rest x))); [|done].
  apply IH. intros z Hz. apply Hk. lia.
Qed.

Lemma re_run_ext r x k k' :
  (forall y, length (rest y) <= length (rest x) -> k y = k' y) ->
  re_run r x k = re_run r x k'.
Proof.
  revert x k k'. induction r as [|p|r1 IH1 r2 IH2|r IH|r IH|]; intros x k k' Hk; cbn [re_run].
  - by apply Hk.
  - destruct (rest x) as [|c l] eqn:E; [done|]. destruct (p c); [|done].
    apply Hk. cbn. lia.
  - apply IH1. intros y Hy. apply IH2. intros z Hz. apply Hk. lia.
  - by apply re_loop_ext.
  - destruct (re_run r x Some); [done | by apply Hk].
  - destruct (xorb _ _); [by apply Hk | done].
Qed.

(** A match whose continuation always fails, fails. *)
Lemma re_run_fail r x : re_run r x (fun _ => None) = None.
Proof.
  revert x. induction r as [|p|r1 IH1 r2 IH2|r IH|r IH|]; intros x; cbn [re_run].
  - done.
  - destruct (rest x) as [|c l]; [done|]. by destruct (p c).
  - rewrite (re_run_ext r1 x _ (fun _ => None)); [apply IH1 | intros y _; apply IH2].
  - generalize (length (rest x)). intros n. revert x.
    induction n as [|n IHn]; intros x; cbn [re_loop]; [done|].
    rewrite (re_run_ext r x _ (fun _ => None)); [by rewrite IH|].
    intros y _. by destruct (_ <? _)%nat.
  - by destruct (re_run r x Some).
  - by destruct (xorb _ _).
Qed.

(** The bound of a repetition is never reached: from the length of the
    text left on, a larger bound gives the same match. *)
Lemma re_loop_fuel r k n x :
  length (rest x) <= n ->
  re_loop (re_run r) k n x = re_loop (re_run r) k (length (rest x)) x.
Proof.
  assert (forall m n x, length (rest x) <= m -> m <= n ->
            re_loop (re_run r) k n x = re_loop (re_run r) k m x) as H.
  { clear n x. induction m as [|m IH]; intros n x Hx Hn.
    - destruct n as [|n]; [done|]. cbn [re_loop].
      rewrite (re_run_ext r x _ (fun _ => None)), re_run_fail; [done|].
      intros y _. destruct (Nat.ltb_spec (length (rest y)) (length (rest x))); [lia|done].
    - destruct n as [|n]; [lia|]. cbn [re_loop].
      rewrite (re_run_ext r x _ (fun y => if (length (rest y) <? length (rest x))%nat
                                         then re_loop (re_run r) k m y else None)); [done|].
      intros y _. destruct (Nat.ltb_spec (length (rest y)) (length (rest x))); [|done].
      apply IH; lia. }
  intros Hn. by apply H.
Qed.

(** A greedy run of a class of characters goes to the end of the run
    when the continuation refuses to start inside it. *)
Lemma re_loop_class p k n b l :
  (forall b' c l', p c = true -> k (mkPos b' (c :: l')) = None) ->
  length l <= n ->
  re_loop (re_run (Chr p)) k n (mkPos b l) =
  k (mkPos (after (run_of p l) b) (drop (length (run_of p l)) l)).
Proof.
  intros Hk. revert n b. induction l as [|c l IH]; intros n b Hn.
  - by destruct n.
  - destruct n as [|n]; [cbn in Hn; lia|]. cbn [length] in Hn.
    cbn [re_loop re_run rest run_of]. destruct (p c) eqn:Hc; [|done].
    cbn [rest length after foldl drop]. rewrite (proj2 (Nat.ltb_lt _ _)) by lia.
    rewrite IH by lia.
    destruct (k _) eqn:E; [done|]. by apply Hk.
Qed.

(** ** The scan *)

Lemma run_of_other l :
  Forall (fun c => c <> "<"%char) (run_of other l) /\
  l = run_of other l ++ drop (length (run_of other l)) l /\
  (drop (length (run_of other l)) l = [] \/
   exists l', drop (length (run_of other l)) l = "<"%char :: l').
Proof.
  induction l as [|c l IH]; cbn [run_of]; [split_and!; [done|done|by left]|].
  destruct (other c) eqn:Ho; unfold other in Ho;
    destruct (Ascii.eqb_spec c "<") as [->|Hc]; try done.
  - destruct IH as (IH1 & IH2 & IH3). split_and!; [by constructor| |done].
    cbn. by f_equal.
  - split_and!; [done|done|]. right. by eexists.
Qed.

(** The repeated group fails where the text does not go on with the
    character [<], and so does the closing tag. *)
Lemma re_loop_group_fail n b c l :
  c <> "<"%char ->
  re_loop (re_run script_group) close_k n (mkPos b (c :: l)) = None.
Proof.
  intros Hc.
  assert (close_k (mkPos b (c :: l)) = None) as Hclose.
  { unfold close_k. by rewrite re_run_lit, close_tag_lt. }
  assert (forall k, re_run script_group (mkPos b (c :: l)) k = None) as Hgroup.
  { intros k. unfold script_group. cbn [re_run]. unfold close_k in Hclose.
    rewrite Hclose. cbn [rest]. by destruct (Ascii.eqb_spec c "<"). }
  destruct n as [|n]; cbn [re_loop]; [done|]. by rewrite Hgroup.
Qed.

Lemma re_run_star r x k :
  re_run (Star r) x k = re_loop (re_run r) k (length (rest x)) x.
Proof. done. Qed.

(** The repetition of the group followed by the closing tag ends after
    the first closing tag of the text. *)
Lemma re_loop_group n b l :
  length l <= n -> l = [] \/ (exists l', l = "<"%char :: l') ->
  rest <$> re_loop (re_run script_group) close_k n (mkPos b l) =
  (fun m => drop m l) <$> close_len l.
Proof.
  revert b l. induction n as [|n IH]; intros b l Hn Hl.
  { destruct l; [|cbn in Hn; lia]. done. }
  cbn [re_loop]. unfold script_group at 1, close_k at 2. cbn [re_run].
  rewrite !re_run_lit.
  destruct (strip_prefix_ci close_tag l) as [r|] eqn:E.
  { rewrite (close_len_here _ _ E). cbn. by rewrite (strip_prefix_ci_drop _ _ _ E). }
  cbn [rest]. destruct Hl as [->|[l' ->]]; [done|].
  rewrite Ascii.eqb_refl. unfold not_lt. rewrite re_run_star. cbn [rest].
  rewrite re_loop_class; [|intros b' c l'' Hc|done].
  2:{ destruct (_ <? _)%nat; [|done]. apply re_loop_group_fail.
      intros ->. by vm_compute in Hc. }
  destruct (run_of_other l') as (Hu & Hl' & Hnext).
  set (u := run_of other l') in *. set (l2 := drop (length u) l') in *.
  assert (length l' = length u + length l2) as Hlen by (by rewrite Hl' at 1; rewrite length_app).
  cbn [rest length] in *. rewrite (proj2 (Nat.ltb_lt _ _)) by lia.
  specialize (IH (after u (Some "<"%char)) l2 ltac:(lia) Hnext).
  rewrite close_len_cons, E, Hl', (close_len_run _ _ Hu).
  destruct (re_loop _ _ _ _) as [z|]; destruct (close_len l2) as [m|];
    cbn [fmap option_fmap option_map] in IH |- *; try done.
  injection IH as ->. f_equal. cbn [drop]. by rewrite drop_app_add.
Qed.

(** ** The opening tag and the word boundary *)

Lemma lower_word c : lower c = "t"%char -> is_word c = true.
Proof.
  unfold lower, is_word. destruct (is_upper c); [done|]. by intros ->.
Qed.

Lemma strip_prefix_ci_last p a l r b :
  strip_prefix_ci (p ++ [a]) l = Some r ->
  exists c, after (take (length (p ++ [a])) l) b = Some c /\ lower c = a.
Proof.
  revert l b. induction p as [|a' p IH]; intros [|c l] b H; try done.
  - cbn in H. destruct (Ascii.eqb_spec a (lower c)) as [->|]; [|done].
    exists c. by destruct l.
  - cbn [app strip_prefix_ci] in H. destruct (Ascii.eqb a' (lower c)); [|done].
    destruct (IH l (Some c) H) as (c' & Hc' & <-). by exists c'.
Qed.

Lemma word_boundary_at r : word_boundary r = negb (word_at (head r)).
Proof. by destruct r. Qed.

(** ** The scan is the match of the pattern *)

(** C15. The scan that models a match of the pattern of sanitizeInput
    computes, at every position of every text, the match of the regular
    expression of line 191 under the backtracking semantics of ECMAScript
    (greedy repetitions, negative look-ahead, word boundary, no regard to
    case): both find a match of the same length or none. *)
Theorem match_script_regex b l : re_match script_re b l = match_script l.
Proof.
  unfold re_match, match_script, script_re. cbn [re_run]. rewrite re_run_lit.
  destruct (strip_prefix_ci open_tag l) as [r|] eqn:E; [|done].
  destruct (strip_prefix_ci_last (chars "<scrip") "t" l r b E) as (c & Hb & Hc%lower_word).
  change (length (chars "<scrip" ++ ["t"%char])) with (length open_tag) in Hb.
  rewrite Hb. cbn [before rest word_at from_option].
  rewrite Hc, word_boundary_at. cbn [xorb].
  destruct (word_at (head r)); cbn [negb]; [done|].
  change (fun y0 => re_run (lit_ci close_tag) y0 Some) with close_k.
  unfold not_lt. rewrite re_run_star. cbn [rest].
  rewrite re_loop_class; [|intros b' c' l' Hc'|done].
  2:{ apply re_loop_group_fail. intros ->. by vm_compute in Hc'. }
  destruct (run_of_other r) as (Hu & Hr & Hnext).
  set (u := run_of other r) in *. set (l2 := drop (length u) r) in *. cbn [rest].
  pose proof (re_loop_group (length l2) (after u (Some c)) l2 (le_n _) Hnext) as Hg.
  pose proof (strip_prefix_ci_length _ _ _ E) as Hlen.
  rewrite Hr at 1. rewrite (close_len_run _ _ Hu).
  destruct (re_loop _ _ _ _) as [z|]; destruct (close_len l2) as [m|] eqn:Em;
    cbn [fmap option_fmap option_map] in Hg |- *; try done.
  injection Hg as Hz. apply close_len_bound in Em. f_equal.
  assert (length r = length u + length l2) as Hlen2 by (by rewrite Hr at 1; rewrite length_app).
  rewrite Hz, length_drop. lia.
Qed.

(** Removing the matches of the pattern from a text, as [replace] does
    with the flag [g], is what the scan of [JsString] computes. *)
Theorem strip_scripts_regex l : strip_scripts_l l = re_strip script_re 0 None l.
Proof.
  unfold strip_scripts_l. generalize (@None ascii) 0.
  induction l as [|c l IH]; intros b n; [done|].
  cbn [strip_go re_strip]. rewrite match_script_regex.
  destruct n as [|n]; [|by apply IH].
  destruct (match_script (c :: l)) as [[|k]|]; by rewrite ?(IH (Some c)).
Qed.

(** ** Instances *)

(** The tag name is followed by a word boundary, the match is found
    without regard to case, a less-than sign inside the block goes into
    the match, and the match ends at the first closing tag. *)
Example script_re_demo :
  re_match script_re None (chars "<SCRIPT src=x>if (a<b) <script>;</script >c</Script>!")
    = Some 52 /\
  re_match script_re None (chars "<scripts></script>") = None /\
  re_match script_re None (chars "<script></script") = None /\
  text (re_strip script_re 0 None (chars "a<script>x</script>b</script>c")) = "ab</script>c".
Proof. by vm_compute. Qed.
