(* ===== verification/Model.v ===== *)
(** * Model: the data of the program

    The records are the object literals of [src/script.js]: a report is the
    object built by [collectReportData] (lines 144-162) and extended by
    [routeReport] (lines 207-208) and [saveDraft] (lines 306-307); a
    timeline entry is the object pushed at lines 157-161, 210-214 and
    263-267; a user is the object of [registerUser] (lines 866-874); the
    settings are the object of [getSettings] (lines 747-754); an evidence
    file is the object of [getEvidenceFiles] (lines 342-347).

    A property that an object may lack is an [option]: [undefined] is
    [None].  [isDraft] is only ever set to [true], so the absent property is
    [false].  Assignment to a property is the [set_] function of the
    field. *)

From S2P Require Import Prelude.

#[local] Open Scope string_scope.

(** ** Timeline entries *)

Record TimelineEntry : Type := mkEntry {
  ev_status : string;
  ev_date : Z;
  ev_description : string
}.

(** ** Evidence files *)

Record File : Type := mkFile {
  file_name : string;
  file_size : Z;
  file_type : string;
  file_lastModified : Z
}.

(** ** The value of [report.assignedTo]

    [routingRules[category] || 'General Administration'] reads a property
    of an object literal.  The property is found on the literal (a string),
    or on [Object.prototype], where it is a function, or for [__proto__]
    the prototype object itself; all of these are truthy. *)
Inductive assignee : Type :=
| Authority (name : string)
| NativeFunction (name : string)
| PlainObject.

(** ** Reports and drafts *)

Record Report : Type := mkReport {
  oid : nat;
  id : string;
  title : string;
  category : string;
  priority : string;
  location : string;
  description : string;
  evidence : option (list File);
  isPublic : bool;
  isAnonymous : bool;
  submittedBy : option string;
  submittedAt : Z;
  status : string;
  timeline : list TimelineEntry;
  assignedTo : option assignee;
  routedAt : option Z;
  isDraft : bool;
  savedAt : option Z
}.

(** ** Users *)

Record User : Type := mkUser {
  user_id : string;
  user_name : string;
  user_email : string;
  user_phone : string;
  user_location : string;
  user_registeredAt : Z;
  user_isVerified : bool
}.

(** ** Settings *)

Record Settings : Type := mkSettings {
  highContrast : bool;
  largeText : bool;
  screenReader : bool;
  language : string;
  emailNotifications : bool;
  smsNotifications : bool
}.

(** ** Decidable equality *)

#[export] Instance TimelineEntry_eq_dec : EqDecision TimelineEntry.
Proof. solve_decision. Defined.
#[export] Instance File_eq_dec : EqDecision File.
Proof. solve_decision. Defined.
#[export] Instance assignee_eq_dec : EqDecision assignee.
Proof. solve_decision. Defined.
#[export] Instance Report_eq_dec : EqDecision Report.
Proof. solve_decision. Defined.
#[export] Instance User_eq_dec : EqDecision User.
Proof. solve_decision. Defined.
#[export] Instance Settings_eq_dec : EqDecision Settings.
Proof. solve_decision. Defined.

(** ** Status and category constants *)

Definition SUBMITTED : string := "submitted".
Definition ROUTED : string := "routed".
Definition UNDER_REVIEW : string := "under-review".
Definition IN_PROGRESS : string := "in-progress".
Definition RESOLVED : string := "resolved".

(** The array literal of lines 283 and 460. *)
Definition pending_statuses : list string := [SUBMITTED; UNDER_REVIEW; IN_PROGRESS].

(** The categories of the routing table (lines 197-204). *)
Definition categories : list string :=
  ["infrastructure"; "public-safety"; "environment"; "transportation";
   "public-services"; "corruption"; "accessibility"; "other"].

(** ** Property assignment *)

(** The object identity given to a report object when it is created. *)
Definition set_oid (v : nat) (r : Report) : Report :=
  {| oid := v;
     id := id r;
     title := title r;
     category := category r;
     priority := priority r;
     location := location r;
     description := description r;
     evidence := evidence r;
     isPublic := isPublic r;
     isAnonymous := isAnonymous r;
     submittedBy := submittedBy r;
     submittedAt := submittedAt r;
     status := status r;
     timeline := timeline r;
     assignedTo := assignedTo r;
     routedAt := routedAt r;
     isDraft := isDraft r;
     savedAt := savedAt r |}.

(** [data.title = ...] (line 182). *)
Definition set_title (v : string) (r : Report) : Report :=
  {| oid := oid r;
     id := id r;
     title := v;
     category := category r;
     priority := priority r;
     location := location r;
     description := description r;
     evidence := evidence r;
     isPublic := isPublic r;
     isAnonymous := isAnonymous r;
     submittedBy := submittedBy r;
     submittedAt := submittedAt r;
     status := status r;
     timeline := timeline r;
     assignedTo := assignedTo r;
     routedAt := routedAt r;
     isDraft := isDraft r;
     savedAt := savedAt r |}.

(** [data.description = ...] (line 183). *)
Definition set_description (v : string) (r : Report) : Report :=
  {| oid := oid r;
     id := id r;
     title := title r;
     category := category r;
     priority := priority r;
     location := location r;
     description := v;
     evidence := evidence r;
     isPublic := isPublic r;
     isAnonymous := isAnonymous r;
     submittedBy := submittedBy r;
     submittedAt := submittedAt r;
     status := status r;
     timeline := timeline r;
     assignedTo := assignedTo r;
     routedAt := routedAt r;
     isDraft := isDraft r;
     savedAt := savedAt r |}.

(** [data.location = ...] (line 184). *)
Definition set_location (v : string) (r : Report) : Report :=
  {| oid := oid r;
     id := id r;
     title := title r;
     category := category r;
     priority := priority r;
     location := v;
     description := description r;
     evidence := evidence r;
     isPublic := isPublic r;
     isAnonymous := isAnonymous r;
     submittedBy := submittedBy r;
     submittedAt := submittedAt r;
     status := status r;
     timeline := timeline r;
     assignedTo := assignedTo r;
     routedAt := routedAt r;
     isDraft := isDraft r;
     savedAt := savedAt r |}.

(** [report.status = newStatus] (line 262). *)
Definition set_status (v : string) (r : Report) : Report :=
  {| oid := oid r;
     id := id r;
     title := title r;
     category := category r;
     priority := priority r;
     location := location r;
     description := description r;
     evidence := evidence r;
     isPublic := isPublic r;
     isAnonymous := isAnonymous r;
     submittedBy := submittedBy r;
     submittedAt := submittedAt r;
     status := v;
     timeline := timeline r;
     assignedTo := assignedTo r;
     routedAt := routedAt r;
     isDraft := isDraft r;
     savedAt := savedAt r |}.

(** The array [report.timeline] after a [push]. *)
Definition set_timeline (v : list TimelineEntry) (r : Report) : Report :=
  {| oid := oid r;
     id := id r;
     title := title r;
     category := category r;
     priority := priority r;
     location := location r;
     description := description r;
     evidence := evidence r;
     isPublic := isPublic r;
     isAnonymous := isAnonymous r;
     submittedBy := submittedBy r;
     submittedAt := submittedAt r;
     status := status r;
     timeline := v;
     assignedTo := assignedTo r;
     routedAt := routedAt r;
     isDraft := isDraft r;
     savedAt := savedAt r |}.

(** [report.assignedTo = ...] (line 207). *)
Definition set_assignedTo (v : option assignee) (r : Report) : Report :=
  {| oid := oid r;
     id := id r;
     title := title r;
     category := category r;
     priority := priority r;
     location := location r;
     description := description r;
     evidence := evidence r;
     isPublic := isPublic r;
     isAnonymous := isAnonymous r;
     submittedBy := submittedBy r;
     submittedAt := submittedAt r;
     status := status r;
     timeline := timeline r;
     assignedTo := v;
     routedAt := routedAt r;
     isDraft := isDraft r;
     savedAt := savedAt r |}.

(** [report.routedAt = ...] (line 208). *)
Definition set_routedAt (v : option Z) (r : Report) : Report :=
  {| oid := oid r;
     id := id r;
     title := title r;
     category := category r;
     priority := priority r;
     location := location r;
     description := description r;
     evidence := evidence r;
     isPublic := isPublic r;
     isAnonymous := isAnonymous r;
     submittedBy := submittedBy r;
     submittedAt := submittedAt r;
     status := status r;
     timeline := timeline r;
     assignedTo := assignedTo r;
     routedAt := v;
     isDraft := isDraft r;
     savedAt := savedAt r |}.

(** [data.isDraft = true] (line 306). *)
Definition set_isDraft (v : bool) (r : Report) : Report :=
  {| oid := oid r;
     id := id r;
     title := title r;
     category := category r;
     priority := priority r;
     location := location r;
     description := description r;
     evidence := evidence r;
     isPublic := isPublic r;
     isAnonymous := isAnonymous r;
     submittedBy := submittedBy r;
     submittedAt := submittedAt r;
     status := status r;
     timeline := timeline r;
     assignedTo := assignedTo r;
     routedAt := routedAt r;
     isDraft := v;
     savedAt := savedAt r |}.

(** [data.savedAt = ...] (line 307). *)
Definition set_savedAt (v : option Z) (r : Report) : Report :=
  {| oid := oid r;
     id := id r;
     title := title r;
     category := category r;
     priority := priority r;
     location := location r;
     description := description r;
     evidence := evidence r;
     isPublic := isPublic r;
     isAnonymous := isAnonymous r;
     submittedBy := submittedBy r;
     submittedAt := submittedAt r;
     status := status r;
     timeline := timeline r;
     assignedTo := assignedTo r;
     routedAt := routedAt r;
     isDraft := isDraft r;
     savedAt := v |}.

(** A report as [collectReportData] builds it, for the examples. *)
Definition demo_report : Report :=
  {| oid := 0; id := "4fzyo82mvloyw3v28"; title := "Pothole on Elm Street";
     category := "infrastructure"; priority := "high"; location := "Elm Street";
     description := "A deep pothole damages cars every day.";
     evidence := Some []; isPublic := true; isAnonymous := false;
     submittedBy := None; submittedAt := 1700000000000; status := SUBMITTED;
     timeline := [mkEntry SUBMITTED 1700000000000 "Report submitted by citizen"];
     assignedTo := None; routedAt := None; isDraft := false; savedAt := None |}.

(** [report.timeline.push(e)]. *)
Definition push_timeline (e : TimelineEntry) (r : Report) : Report :=
  set_timeline (timeline r ++ [e]) r.

(** Two reports that differ at most by their object identity: what the
    program can observe of a report without comparing references. *)
Definition same_data (r1 r2 : Report) : Prop := set_oid 0 r1 = set_oid 0 r2.

#[export] Instance same_data_dec r1 r2 : Decision (same_data r1 r2).
Proof. unfold same_data. apply _. Defined.

#[export] Instance same_data_equiv : Equivalence same_data.
Proof.
  unfold same_data. split.
  - by intros r.
  - by intros r1 r2.
  - intros r1 r2 r3 H1 H2. by rewrite H1.
Qed.

Lemma same_data_set_oid n r : same_data (set_oid n r) r.
Proof. reflexivity. Qed.

Lemma same_data_oid_eq r1 r2 : same_data r1 r2 -> oid r1 = oid r2 -> r1 = r2.
Proof.
  unfold same_data. destruct r1, r2; cbn. intros [=] ?. by subst.
Qed.
