(* ===== verification/Router.v ===== *)
(** * Router: [routeReport] ([src/script.js], lines 195-217)

    The routing table is an object literal read with [routingRules[c]]:
    the property is looked up on the literal first and on
    [Object.prototype] next, and [||] replaces a falsy result by
    ['General Administration'].  [property_get] is that lookup,
    [or_default] that operator, [route] their composition and
    [routeReport] the method, which also stamps the report and appends the
    [routed] entry to its timeline without touching its status.
    [route_spec] is the routing that the specification describes, a case
    analysis on the category, which [route] is compared with. *)

From stdpp Require Import gmap.
From S2P Require Import Prelude.
From S2P Require Import JsString.
From S2P Require Import Model.

#[local] Open Scope string_scope.

(** ** The table *)

Definition routingRules_entries : list (string * string) :=
  [("infrastructure", "Municipal Public Works Department");
   ("public-safety", "Police Department");
   ("environment", "Environmental Protection Agency");
   ("transportation", "Transportation Department");
   ("public-services", "Municipal Services");
   ("corruption", "Anti-Corruption Commission");
   ("accessibility", "Disability Rights Office");
   ("other", "General Administration")].

Definition routingRules : gmap string string := list_to_map routingRules_entries.

(** The function-valued properties every object inherits from
    [Object.prototype], with the name of the function: [constructor] is
    the function [Object]. *)
Definition object_prototype_functions : list (string * string) :=
  [("constructor", "Object");
   ("hasOwnProperty", "hasOwnProperty");
   ("isPrototypeOf", "isPrototypeOf");
   ("propertyIsEnumerable", "propertyIsEnumerable");
   ("toLocaleString", "toLocaleString");
   ("toString", "toString");
   ("valueOf", "valueOf");
   ("__defineGetter__", "__defineGetter__");
   ("__defineSetter__", "__defineSetter__");
   ("__lookupGetter__", "__lookupGetter__");
   ("__lookupSetter__", "__lookupSetter__")].

Definition object_prototype : gmap string string :=
  list_to_map object_prototype_functions.

(** The property names an object literal answers besides its own. *)
Definition inherited_names : list string :=
  "__proto__" :: object_prototype_functions.*1.

(** ** The routing of the specification *)

(** What the specification asks of the router ([spec.md], Router and
    Glossary): a fixed answer for each of seven categories, and
    [General Administration] for [other] and for every other text. *)
Definition route_spec (category : string) : string :=
  if decide (category = "infrastructure") then "Municipal Public Works Department"
  else if decide (category = "public-safety") then "Police Department"
  else if decide (category = "environment") then "Environmental Protection Agency"
  else if decide (category = "transportation") then "Transportation Department"
  else if decide (category = "public-services") then "Municipal Services"
  else if decide (category = "corruption") then "Anti-Corruption Commission"
  else if decide (category = "accessibility") then "Disability Rights Office"
  else "General Administration".

(** ** Property lookup and [||] *)

(** [o[key]] for an object literal [o] with string values: the own
    property, else the inherited one, else [undefined]. *)
Definition property_get (o : gmap string string) (key : string) : option assignee :=
  match o !! key with
  | Some v => Some (Authority v)
  | None =>
      if decide (key = "__proto__") then Some PlainObject
      else NativeFunction <$> object_prototype !! key
  end.

(** Truthiness of the values [property_get] returns. *)
Definition truthy (v : option assignee) : bool :=
  match v with
  | None => false
  | Some (Authority s) => bool_decide (s <> "")
  | Some _ => true
  end.

(** [v || d]. *)
Definition or_default (v : option assignee) (d : assignee) : assignee :=
  match v with
  | Some a => if truthy v then a else d
  | None => d
  end.

(** [routingRules[category] || 'General Administration']. *)
Definition route (category : string) : assignee :=
  or_default (property_get routingRules category) (Authority "General Administration").

(** ** Conversion to text in a template literal *)

(** [`${v}`]: a string is itself; a built-in function prints as native
    code; a plain object as [[object Object]]. *)
Definition assignee_text (a : assignee) : string :=
  match a with
  | Authority s => s
  | NativeFunction f => "function " +:+ f +:+ "() { [native code] }"
  | PlainObject => "[object Object]"
  end.

(** ** routeReport *)

(** The method, at clock reading [now]. *)
Definition routeReport (now : Z) (report : Report) : Report :=
  let a := route (category report) in
  let report := set_assignedTo (Some a) report in
  let report := set_routedAt (Some now) report in
  push_timeline {| ev_status := ROUTED;
                   ev_date := now;
                   ev_description := "Report routed to " +:+ assignee_text a |}
                report.

(** ** The table *)

Lemma routingRules_lookup c a :
  (c, a) ∈ routingRules_entries -> routingRules !! c = Some a.
Proof.
  intros H. apply elem_of_list_to_map_1; [|done].
  compute_done.
Qed.

Lemma routingRules_dom c :
  is_Some (routingRules !! c) <-> c ∈ categories.
Proof.
  split.
  - intros [a Ha]. apply elem_of_list_to_map_2 in Ha.
    change categories with (routingRules_entries.*1).
    apply list_elem_of_fmap. by exists (c, a).
  - change categories with (routingRules_entries.*1).
    intros ((c' & a) & -> & H)%list_elem_of_fmap.
    exists a. by apply routingRules_lookup.
Qed.

Lemma routingRules_values_nonempty c a : routingRules !! c = Some a -> a <> "".
Proof.
  intros H%elem_of_list_to_map_2.
  assert (Forall (fun p => p.2 <> "") routingRules_entries) as HF by compute_done.
  rewrite Forall_forall in HF. apply (HF _ H).
Qed.

Lemma object_prototype_dom c :
  is_Some (object_prototype !! c) <-> c ∈ object_prototype_functions.*1.
Proof.
  split.
  - intros [f Hf]. apply elem_of_list_to_map_2 in Hf.
    apply list_elem_of_fmap. by exists (c, f).
  - intros ((c' & f) & -> & H)%list_elem_of_fmap. exists f.
    apply elem_of_list_to_map_1; [|done].
    compute_done.
Qed.

(** ** route *)

(** Every category of the table is routed to its authority. *)
Lemma route_known c a :
  (c, a) ∈ routingRules_entries -> route c = Authority a.
Proof.
  intros H. unfold route, property_get.
  rewrite (routingRules_lookup _ _ H). cbn.
  rewrite bool_decide_eq_true_2; [done|].
  eapply routingRules_values_nonempty, routingRules_lookup, H.
Qed.

(** A text that is neither a category nor an inherited property name goes
    to the default authority. *)
Lemma route_unknown c :
  c ∉ categories -> c ∉ inherited_names ->
  route c = Authority "General Administration".
Proof.
  intros Hc Hi. unfold route, property_get.
  destruct (routingRules !! c) as [a|] eqn:E.
  { destruct Hc. apply routingRules_dom. by exists a. }
  unfold inherited_names in Hi. apply not_elem_of_cons in Hi as [Hp Hi].
  rewrite decide_False by done.
  destruct (object_prototype !! c) as [f|] eqn:Ef; [|done].
  destruct Hi. apply object_prototype_dom. by exists f.
Qed.

(** An inherited property name is routed to a value that is not a text. *)
Lemma route_inherited c :
  c ∈ inherited_names -> forall s, route c <> Authority s.
Proof.
  intros Hc s.
  assert (forallb (fun c => match route c with Authority _ => false | _ => true end)
            inherited_names = true) as HF by (vm_compute; reflexivity).
  rewrite forallb_forall in HF. apply list_elem_of_In, HF in Hc.
  by destruct (route c).
Qed.

(** Every other text is routed to the name of an authority. *)
Lemma route_authority_known c : c ∉ inherited_names -> exists s, route c = Authority s.
Proof.
  intros Hi. destruct (decide (c ∈ categories)) as [Hc|Hc].
  - apply routingRules_dom in Hc as [a Ha]. exists a.
    apply route_known. by apply elem_of_list_to_map_2 in Ha.
  - exists "General Administration". by apply route_unknown.
Qed.

(** No category of the table is the name of an inherited function. *)
Lemma categories_not_functions c :
  c ∈ categories -> c ∉ object_prototype_functions.*1.
Proof.
  assert (Forall (fun c => c ∉ object_prototype_functions.*1) categories) as HF
    by compute_done.
  rewrite Forall_forall in HF. apply HF.
Qed.

(** The categories for which the lookup yields a function are the names
    of the functions of [Object.prototype]. *)
Lemma route_function c :
  (exists f, route c = NativeFunction f) <-> c ∈ object_prototype_functions.*1.
Proof.
  split.
  - intros [f Hf]. destruct (decide (c ∈ inherited_names)) as [Hc|Hc].
    + unfold inherited_names in Hc. apply elem_of_cons in Hc as [-> |Hc]; [done|done].
    + apply route_authority_known in Hc as [s Hs]. congruence.
  - intros Hc. assert (c ∉ categories) as Hn by (intros H; by apply categories_not_functions in H).
    apply object_prototype_dom in Hc as [f Hf]. exists f. unfold route, property_get.
    destruct (routingRules !! c) as [a|] eqn:E.
    { destruct Hn. apply routingRules_dom. by exists a. }
    rewrite decide_False, Hf; [done|]. intros ->. by vm_compute in Hf.
Qed.

(** C22. The value that routeReport assigns is the name of an authority
    exactly when the category is not a name that object literals inherit
    (constructor, toString, __proto__ and the like): for those the lookup
    in the table yields a function or an object, not a text. *)
Lemma route_authority_iff c :
  (exists s, route c = Authority s) <-> c ∉ inherited_names.
Proof.
  split; [|apply route_authority_known].
  intros [s Hs] Hc. by eapply route_inherited.
Qed.

Lemma route_text_nonempty c : assignee_text (route c) <> "".
Proof.
  destruct (route c) as [s|f|] eqn:E; cbn; [|done|done].
  unfold route, or_default in E. destruct (property_get routingRules c) as [a|]; cbn in E.
  - destruct a as [s'| |]; cbn in E; try done.
    case_bool_decide; by simplify_eq.
  - by simplify_eq.
Qed.

(** ** routeReport *)

Section routeReport.
Context (now : Z) (r : Report).

Lemma routeReport_status : status (routeReport now r) = status r.
Proof. reflexivity. Qed.

Lemma routeReport_assignedTo :
  assignedTo (routeReport now r) = Some (route (category r)).
Proof. reflexivity. Qed.

Lemma routeReport_routedAt : routedAt (routeReport now r) = Some now.
Proof. reflexivity. Qed.

Lemma routeReport_timeline :
  timeline (routeReport now r) =
  (timeline r ++ [mkEntry ROUTED now
                    ("Report routed to " +:+ assignee_text (route (category r)))])%list.
Proof. reflexivity. Qed.

Lemma routeReport_id : id (routeReport now r) = id r.
Proof. reflexivity. Qed.

Lemma routeReport_oid : oid (routeReport now r) = oid r.
Proof. reflexivity. Qed.

(** Routing changes nothing but [assignedTo], [routedAt] and the
    timeline. *)
Lemma routeReport_frame :
  set_timeline [] (set_routedAt None (set_assignedTo None (routeReport now r))) =
  set_timeline [] (set_routedAt None (set_assignedTo None r)).
Proof. reflexivity. Qed.

End routeReport.

#[export] Hint Rewrite routeReport_status routeReport_assignedTo
  routeReport_routedAt routeReport_timeline routeReport_id routeReport_oid : js_rw.

(** ** The table and the routing of a report *)

(** C9. The lookup in the object literal with its default implements the
    routing of the specification on every text that is not a name that
    object literals inherit: each of the seven categories with an
    authority of its own goes to that authority, and other and every
    unknown text go to General Administration. *)
Theorem route_refines_spec c :
  c ∉ inherited_names -> route c = Authority (route_spec c).
Proof.
  intros Hi. destruct (decide (c ∈ categories)) as [Hc|Hc].
  - unfold categories in Hc. set_unfold.
    repeat (destruct Hc as [-> |Hc]; [reflexivity|]). done.
  - rewrite route_unknown by done. f_equal. unfold route_spec.
    repeat (case_decide; [subst; destruct Hc; compute_done|]). done.
Qed.

Lemma route_refines_spec_witness :
  route "corruption" = Authority "Anti-Corruption Commission" /\
  route "noise" = Authority "General Administration".
Proof. split; apply route_refines_spec; compute_done. Defined.

(** For a report whose category is in the table, routeReport assigns
    the authority of the table, appends as last timeline entry the routed
    entry that names it, and keeps the status. *)
Theorem routeReport_known now r :
  category r ∈ categories ->
  exists a, (category r, a) ∈ routingRules_entries /\
            assignedTo (routeReport now r) = Some (Authority a) /\
            last (timeline (routeReport now r)) =
              Some (mkEntry ROUTED now ("Report routed to " +:+ a)) /\
            status (routeReport now r) = status r.
Proof.
  intros [a Ha]%routingRules_dom. apply elem_of_list_to_map_2 in Ha.
  exists a. rewrite routeReport_timeline, last_snoc, routeReport_assignedTo.
  by rewrite (route_known _ _ Ha).
Qed.

Lemma routeReport_known_witness :
  category demo_report ∈ categories /\
  assignedTo (routeReport 5 demo_report) =
    Some (Authority "Municipal Public Works Department").
Proof.
  split; [compute_done|].
  destruct (routeReport_known 5 demo_report) as (a & Ha & -> & _); [compute_done|].
  f_equal. apply route_known in Ha. by rewrite <- Ha.
Defined.
