(* ===== verification/Validator.v ===== *)
(** * Validator: [validateReportData] and [sanitizeInput]
    ([src/script.js], lines 166-192)

    [validateReportData] collects the error messages in the order of its
    three tests, then sanitizes the three free-text fields of the object it
    was given, valid or not, and returns the verdict, the messages and the
    object.  The tests read the fields before they are sanitized.

    [sanitizeInput] is specified on the texts made of script blocks
    ([with_blocks]): it removes every block, in one pass, so that a block
    nested in a tag leaves a block, and a title that is a block passes
    the tests and comes out empty. *)

From S2P Require Import Prelude.
From S2P Require Import JsString.
From S2P Require Import Model.

#[local] Open Scope string_scope.

(** ** Definitions *)

(** [!s] for a string. *)
Definition falsy (s : string) : bool := bool_decide (s = "").

(** [sanitizeInput] (lines 189-192). *)
Definition sanitizeInput (input : string) : string :=
  if falsy input then "" else strip_scripts (trim input).

Definition title_error : string := "Title must be at least 5 characters long".
Definition category_error : string := "Please select a category".
Definition description_error : string :=
  "Description must be at least 20 characters long".

(** The tests of lines 169, 173 and 177. *)
Definition title_bad (data : Report) : bool :=
  falsy (title data) || (String.length (trim (title data)) <? 5)%nat.
Definition category_bad (data : Report) : bool := falsy (category data).
Definition description_bad (data : Report) : bool :=
  falsy (description data) || (String.length (trim (description data)) <? 20)%nat.

(** [errors.push(e)] under [if (c)]. *)
Definition push_if (c : bool) (e : string) (errors : list string) : list string :=
  if c then (errors ++ [e])%list else errors.

(** The object returned at line 186. *)
Record Validation : Type := mkValidation {
  isValid : bool;
  errors : list string;
  data : Report
}.

(** Lines 182-184. *)
Definition sanitize_fields (data : Report) : Report :=
  let data := set_title (sanitizeInput (title data)) data in
  let data := set_description (sanitizeInput (description data)) data in
  set_location (sanitizeInput (location data)) data.

(** [validateReportData] (lines 166-187). *)
Definition validateReportData (data : Report) : Validation :=
  let errors := [] in
  let errors := push_if (title_bad data) title_error errors in
  let errors := push_if (category_bad data) category_error errors in
  let errors := push_if (description_bad data) description_error errors in
  let data := sanitize_fields data in
  {| isValid := bool_decide (length errors = 0); errors := errors; data := data |}.

(** A script block without attributes, a text without the character
    [<], and the text made of pieces that are each followed by a script
    block: what the theorems on [sanitizeInput] are stated with. *)
Definition script_block (body : string) : string := "<script>" +:+ body +:+ "</script>".

Definition no_lt (s : string) : Prop := Forall (fun c => c <> "<"%char) (chars s).

#[export] Instance no_lt_dec s : Decision (no_lt s).
Proof. unfold no_lt. apply _. Defined.

Definition with_blocks (bs : list (string * string)) (tail : string) : string :=
  foldr (fun b s => b.1 +:+ script_block b.2 +:+ s) tail bs.

Definition without_blocks (bs : list (string * string)) (tail : string) : string :=
  foldr (fun b s => b.1 +:+ s) tail bs.

(** What the tests mean. *)
Definition title_ok (data : Report) : Prop := 5 <= String.length (trim (title data)).
Definition category_ok (data : Report) : Prop := category data <> "".
Definition description_ok (data : Report) : Prop :=
  20 <= String.length (trim (description data)).

(** ** The tests *)

Lemma falsy_spec s : falsy s = true <-> s = "".
Proof. unfold falsy. apply bool_decide_eq_true. Qed.

Lemma trim_empty : trim "" = "".
Proof. reflexivity. Qed.

Lemma title_bad_spec d : title_bad d = false <-> title_ok d.
Proof.
  unfold title_bad, title_ok. rewrite orb_false_iff, Nat.ltb_ge.
  split; [by intros [_ ?]|]. intros H. split; [|done].
  apply bool_decide_eq_false. intros E. rewrite E, trim_empty in H. cbn in H. lia.
Qed.

Lemma category_bad_spec d : category_bad d = false <-> category_ok d.
Proof. unfold category_bad, category_ok, falsy. apply bool_decide_eq_false. Qed.

Lemma description_bad_spec d : description_bad d = false <-> description_ok d.
Proof.
  unfold description_bad, description_ok. rewrite orb_false_iff, Nat.ltb_ge.
  split; [by intros [_ ?]|]. intros H. split; [|done].
  apply bool_decide_eq_false. intros E. rewrite E, trim_empty in H. cbn in H. lia.
Qed.

Lemma push_if_nil c e l : push_if c e l = [] <-> c = false /\ l = [].
Proof.
  destruct c; cbn; [|naive_solver].
  split; [|naive_solver]. intros H. by apply app_eq_nil in H as [_ ?].
Qed.

Lemma push_if_elem_of c e l x :
  x ∈ push_if c e l <-> x ∈ l \/ (c = true /\ x = e).
Proof. destruct c; cbn; [|naive_solver]. rewrite elem_of_app, list_elem_of_singleton. naive_solver. Qed.

(** ** The verdict *)

Lemma validate_errors_nil d :
  errors (validateReportData d) = [] <->
  title_ok d /\ category_ok d /\ description_ok d.
Proof.
  cbn. rewrite !push_if_nil.
  rewrite <- title_bad_spec, <- category_bad_spec, <- description_bad_spec.
  naive_solver.
Qed.

Lemma validate_isValid_errors d :
  isValid (validateReportData d) = true <-> errors (validateReportData d) = [].
Proof.
  cbn [isValid validateReportData errors]. rewrite bool_decide_eq_true.
  apply length_zero_iff_nil.
Qed.

(** C7. validateReportData accepts a report exactly when its trimmed title
    has at least 5 characters, its category is not empty and its trimmed
    description has at least 20 characters. *)
Lemma validate_isValid_iff d :
  isValid (validateReportData d) = true <->
  title_ok d /\ category_ok d /\ description_ok d.
Proof. by rewrite validate_isValid_errors, validate_errors_nil. Qed.

(** C21. The errors of validateReportData are exactly the messages of the
    tests that fail: the title message when the title is too short, the
    category message when no category is selected, the description message
    when the description is too short. *)
Lemma validate_errors_elem_of d e :
  e ∈ errors (validateReportData d) <->
  (e = title_error /\ ~ title_ok d) \/
  (e = category_error /\ ~ category_ok d) \/
  (e = description_error /\ ~ description_ok d).
Proof.
  cbn. rewrite !push_if_elem_of, elem_of_nil.
  rewrite <- title_bad_spec, <- category_bad_spec, <- description_bad_spec.
  rewrite !not_false_iff_true. naive_solver.
Qed.

(** The messages come in the order of the tests. *)
Lemma validate_errors_sublist d :
  errors (validateReportData d) `sublist_of`
  [title_error; category_error; description_error].
Proof.
  cbn. destruct (title_bad d), (category_bad d), (description_bad d); cbn;
    repeat first [ apply sublist_nil_l | apply sublist_skip | apply sublist_cons ].
Qed.

(** ** The sanitized object *)

Lemma validate_data d : data (validateReportData d) = sanitize_fields d.
Proof. reflexivity. Qed.

(** Sanitizing changes the three text fields only. *)
Lemma sanitize_fields_frame d :
  set_location "" (set_description "" (set_title "" (sanitize_fields d))) =
  set_location "" (set_description "" (set_title "" d)).
Proof. reflexivity. Qed.

(** ** sanitizeInput *)

Lemma sanitizeInput_unfold s : sanitizeInput s = strip_scripts (trim s).
Proof.
  unfold sanitizeInput. destruct (falsy s) eqn:E; [|done].
  apply falsy_spec in E as ->. reflexivity.
Qed.

Lemma sanitizeInput_length s : String.length (sanitizeInput s) <= String.length s.
Proof.
  rewrite sanitizeInput_unfold.
  etrans; [apply strip_scripts_length | apply trim_length].
Qed.

(** On a text that has no < character sanitizeInput only trims. *)
Lemma sanitizeInput_no_lt s :
  Forall (fun c => c <> "<"%char) (chars s) -> sanitizeInput s = trim s.
Proof.
  intros H. rewrite sanitizeInput_unfold. unfold strip_scripts, strip_scripts_l, trim.
  rewrite chars_text. f_equal. apply strip_go_no_lt.
  unfold trim_l. eapply Forall_forall. intros c Hc.
  rewrite Forall_forall in H. apply H.
  destruct (trimEnd_l_prefix (trimStart_l (chars s))) as [k1 Hk1].
  destruct (trimStart_l_suffix (chars s)) as [k2 Hk2].
  rewrite Hk2, Hk1. set_solver.
Qed.

(** ** What the validation lets through *)

Lemma sanitizeInput_no_lt_witness :
  sanitizeInput "  Elm Street " = "Elm Street".
Proof. rewrite sanitizeInput_no_lt; [reflexivity|]. by vm_compute; repeat constructor. Defined.

(** ** Script blocks *)

Lemma strip_scripts_run pre s :
  no_lt pre -> strip_scripts (pre +:+ s) = pre +:+ strip_scripts s.
Proof.
  intros H. unfold strip_scripts, strip_scripts_l.
  by rewrite chars_app, strip_go_run, text_app, text_chars.
Qed.

Lemma strip_scripts_block body s :
  no_lt body -> strip_scripts (script_block body +:+ s) = strip_scripts s.
Proof.
  intros H. unfold strip_scripts, strip_scripts_l, script_block.
  rewrite !chars_app, <- !app_assoc. f_equal. by apply strip_go_block.
Qed.

Lemma strip_scripts_no_lt s : no_lt s -> strip_scripts s = s.
Proof.
  intros H. unfold strip_scripts, strip_scripts_l. by rewrite strip_go_no_lt, text_chars.
Qed.

(** Every block is removed, and nothing else. *)
Lemma strip_scripts_blocks bs tail :
  Forall (fun b => no_lt b.1 /\ no_lt b.2) bs -> no_lt tail ->
  strip_scripts (with_blocks bs tail) = without_blocks bs tail.
Proof.
  intros Hbs Ht. unfold with_blocks, without_blocks.
  induction Hbs as [|[pre body] bs [Hp Hb] _ IH]; cbn [foldr fst snd].
  - by apply strip_scripts_no_lt.
  - by rewrite strip_scripts_run, strip_scripts_block, IH.
Qed.

(** A text between [<] and [>] neither begins nor ends with white
    space. *)
Lemma trim_delimited s : trim ("<" +:+ s +:+ ">") = "<" +:+ s +:+ ">".
Proof.
  apply (trim_id _ "<"%char ">"%char); [done| |done..].
  change ("<" +:+ s +:+ ">") with (("<" +:+ s) +:+ ">").
  by rewrite (chars_app _ ">"), last_app.
Qed.

Lemma script_block_delimited body :
  script_block body = "<" +:+ ("script>" +:+ body +:+ "</script") +:+ ">".
Proof.
  apply chars_inj. unfold script_block. rewrite !chars_app. cbn. by rewrite <- !app_assoc.
Qed.

Lemma trim_script_block body : trim (script_block body) = script_block body.
Proof. rewrite script_block_delimited. apply trim_delimited. Qed.

Lemma script_block_length body :
  String.length (script_block body) = 17 + String.length body.
Proof. unfold script_block. rewrite !length_append. cbn. lia. Qed.

Lemma sanitizeInput_script_block body : no_lt body -> sanitizeInput (script_block body) = "".
Proof.
  intros Hb. rewrite sanitizeInput_unfold, trim_script_block.
  rewrite <- (append_empty_r (script_block body)). by rewrite strip_scripts_block.
Qed.

(** C34. sanitizeInput removes every script block: when the trimmed input
    is made of texts without the character <, each followed by a script
    block whose body has no <, and of a last such text, what it returns is
    those texts one after the other, whatever the number of blocks. *)
Theorem sanitizeInput_blocks input bs tail :
  trim input = with_blocks bs tail ->
  Forall (fun b => no_lt b.1 /\ no_lt b.2) bs -> no_lt tail ->
  sanitizeInput input = without_blocks bs tail.
Proof. intros E Hbs Ht. rewrite sanitizeInput_unfold, E. by apply strip_scripts_blocks. Qed.

Lemma sanitizeInput_blocks_witness :
  sanitizeInput "  Elm <script>alert(1)</script>Street<script>x</script> 5 " =
  "Elm Street 5".
Proof.
  apply (sanitizeInput_blocks _ [("Elm ", "alert(1)"); ("Street", "x")] " 5");
    [reflexivity | compute_done..].
Defined.

(** C36. The tests of the validation read the title as typed and the
    report keeps the sanitized title: every report whose title is a script
    block, with a category and a description long enough, is accepted by
    validateReportData and comes out with the empty title. *)
Theorem valid_report_empty_title d body :
  no_lt body -> title d = script_block body -> category_ok d -> description_ok d ->
  isValid (validateReportData d) = true /\ title (data (validateReportData d)) = "".
Proof.
  intros Hb Ht Hc Hd. split.
  - rewrite validate_isValid_errors, validate_errors_nil. split; [|done].
    unfold title_ok. rewrite Ht, trim_script_block, script_block_length. lia.
  - cbn. rewrite Ht. by apply sanitizeInput_script_block.
Qed.

Lemma valid_report_empty_title_witness :
  let d := set_title "<script>x</script>" demo_report in
  isValid (validateReportData d) = true /\ title (data (validateReportData d)) = "".
Proof.
  apply (valid_report_empty_title _ "x"); [compute_done | reflexivity | compute_done..].
Defined.

(** C37. sanitizeInput removes the script blocks in one pass, so that what
    it returns can be a script block: the text in which a block stands
    between the letters of an opening tag, followed by any payload without
    the character < and a closing tag, is turned into the script block of
    that payload, which a second call removes. *)
Theorem sanitizeInput_single_pass inner body :
  no_lt inner -> no_lt body ->
  sanitizeInput ("<scr" +:+ script_block inner +:+ "ipt>" +:+ body +:+ "</script>") =
    script_block body /\
  sanitizeInput (script_block body) = "".
Proof.
  intros Hi Hb. split; [|by apply sanitizeInput_script_block].
  rewrite sanitizeInput_unfold.
  assert ("<scr" +:+ script_block inner +:+ "ipt>" +:+ body +:+ "</script>" =
          "<" +:+ ("scr" +:+ script_block inner +:+ "ipt>" +:+ body +:+ "</script") +:+ ">")
    as -> by (apply chars_inj; rewrite !chars_app;
              by repeat first [progress cbn | rewrite <- app_assoc]).
  rewrite trim_delimited. apply chars_inj. unfold strip_scripts, strip_scripts_l, script_block.
  rewrite chars_text, !chars_app, <- !app_assoc.
  exact (strip_go_nested (chars inner) (chars body) Hi Hb).
Qed.

Lemma sanitizeInput_single_pass_witness :
  sanitizeInput "<scr<script></script>ipt>alert(1)</script>" = "<script>alert(1)</script>" /\
  sanitizeInput "<script>alert(1)</script>" = "".
Proof. apply (sanitizeInput_single_pass "" "alert(1)"); compute_done. Defined.
