(* ===== verification/Lifecycle.v ===== *)
(** * Lifecycle: the state machine of a report

    The two places of [src/script.js] that move a report forward:
    [updateReportStatus] (lines 259-278), which finds the first report
    with a given id, overwrites its status and appends a timeline entry,
    and the callback of [simulateResolution] (lines 287-299), which
    computes the next status of a report from its current one.

    The file defines both on the list of reports ([update_status],
    [nextStatus], [advance]), the abstract machine over the enumeration
    [Status] with its refinement, and the well-formedness of a report
    ([wf_report]): its timeline, read without the [routed] entries, is a
    non-empty prefix of submitted, under-review, in-progress, resolved, and
    its status is the last of them. *)

From stdpp Require Import gmap.
From S2P Require Import Prelude.
From S2P Require Import JsString.
From S2P Require Import Model.

#[local] Open Scope string_scope.

(** ** updateReportStatus on the list of reports *)

(** Lines 262-267: the assignments to the report that was found. *)
Definition apply_status (now : Z) (newStatus description : string) (r : Report) : Report :=
  push_timeline {| ev_status := newStatus; ev_date := now; ev_description := description |}
                (set_status newStatus r).

(** Lines 260-267: [find] the first report with the id and mutate it;
    nothing happens when there is none. *)
Definition update_status (now : Z) (reportId newStatus description : string)
    (reports : list Report) : list Report :=
  update_first (fun r => id r = reportId) (apply_status now newStatus description) reports.

(** ** The callback of simulateResolution *)

(** Line 288. *)
Definition statuses : list string := [UNDER_REVIEW; IN_PROGRESS; RESOLVED].

(** Lines 292-296. *)
Definition descriptions : gmap string string :=
  list_to_map
    [(UNDER_REVIEW, "Report is being reviewed by authorities");
     (IN_PROGRESS, "Authorities have started working on this issue");
     (RESOLVED, "Issue has been successfully resolved")].

(** Lines 289-291: [None] when the guard of line 290 fails.  Under the
    guard the index is within the array. *)
Definition nextStatus (status : string) : option string :=
  let currentIndex := indexOf statuses status in
  if (currentIndex <? Z.of_nat (length statuses) - 1)%Z
  then statuses !! Z.to_nat (currentIndex + 1)
  else None.

(** The arguments of the call of line 297, when it is made. *)
Definition advance_call (status : string) : option (string * string) :=
  next ← nextStatus status;
  d ← descriptions !! next;
  Some (next, d).

(** Lines 288-298 on the list of reports, for the captured report [r]. *)
Definition advance (now : Z) (r : Report) (reports : list Report) : list Report :=
  match advance_call (status r) with
  | Some (next, d) => update_status now (id r) next d reports
  | None => reports
  end.

(** Lines 282-284 and 459-461: the reports still to be resolved. *)
Definition is_pending (r : Report) : bool := array_includes pending_statuses (status r).
Definition pendingReports (reports : list Report) : list Report :=
  filter (fun r => is_pending r = true) reports.

(** ** The abstract machine *)

Inductive Status : Type := Submitted | UnderReview | InProgress | Resolved.

#[export] Instance Status_eq_dec : EqDecision Status.
Proof. solve_decision. Defined.

Definition status_name (s : Status) : string :=
  match s with
  | Submitted => SUBMITTED
  | UnderReview => UNDER_REVIEW
  | InProgress => IN_PROGRESS
  | Resolved => RESOLVED
  end.

Definition all_statuses : list Status := [Submitted; UnderReview; InProgress; Resolved].

Definition status_of_name (n : string) : option Status :=
  snd <$> list_find (fun s => status_name s = n) all_statuses.

Definition next (s : Status) : option Status :=
  match s with
  | Submitted => Some UnderReview
  | UnderReview => Some InProgress
  | InProgress => Some Resolved
  | Resolved => None
  end.

Definition rank (s : Status) : nat :=
  match s with
  | Submitted => 0
  | UnderReview => 1
  | InProgress => 2
  | Resolved => 3
  end.

(** One transition of the abstract machine. *)
Inductive step : Status -> Status -> Prop :=
| step_next s s' : next s = Some s' -> step s s'.

(** ** Well-formed reports *)

(** The statuses of the timeline, without those of the [routed]
    entries. *)
Definition lifecycle (r : Report) : list string :=
  filter (fun s => s <> ROUTED) (ev_status <$> timeline r).

Definition canonical : list string := status_name <$> all_statuses.

Definition wf_report (r : Report) : Prop :=
  head (ev_status <$> timeline r) = Some SUBMITTED /\
  lifecycle r `prefix_of` canonical /\
  last (lifecycle r) = Some (status r).

#[export] Instance wf_report_dec r : Decision (wf_report r).
Proof. unfold wf_report. apply _. Defined.

(** ** The table of descriptions and the next status *)

Lemma status_name_inj : Inj (=) (=) status_name.
Proof. intros [] [] H; done. Qed.

Lemma status_of_name_name s : status_of_name (status_name s) = Some s.
Proof. by destruct s. Qed.

Lemma status_of_name_Some n s : status_of_name n = Some s -> status_name s = n.
Proof.
  unfold status_of_name. destruct (list_find _ _) as [[i s']|] eqn:E; [|done].
  intros [= <-]. by apply list_find_Some in E as (_ & ? & _).
Qed.

(** What holds of every report of the application whatever the order in
    which the timers fire: the timeline starts with the submission, the
    status is the last one the timeline records, [ROUTED] left aside, and
    it is one of the four statuses. *)
Definition consistent (r : Report) : Prop :=
  head (ev_status <$> timeline r) = Some SUBMITTED /\
  last (lifecycle r) = Some (status r) /\
  status r ∈ canonical.

(** The dates of the timeline increase and none is after the clock. *)
Definition chronological (clk : Z) (r : Report) : Prop :=
  Sorted Z.le (ev_date <$> timeline r) /\
  Forall (fun e => (ev_date e <= clk)%Z) (timeline r).

Definition report_ok (clk : Z) (r : Report) : Prop :=
  consistent r /\ chronological clk r.

#[export] Instance report_ok_dec clk r : Decision (report_ok clk r).
Proof. unfold report_ok, consistent, chronological. apply _. Defined.

(** On the four statuses, the computation of the callback is the
    transition function of the abstract machine. *)
Lemma nextStatus_refines s : nextStatus (status_name s) = status_name <$> next s.
Proof. by destruct s. Qed.

(** Any text that is not in the array of line 288 counts as the state
    before the first: [indexOf] is -1 and the next status is the first. *)
Lemma nextStatus_unknown n : n ∉ statuses -> nextStatus n = Some UNDER_REVIEW.
Proof. intros H%indexOf_absent. unfold nextStatus. by rewrite H. Qed.

Lemma nextStatus_None n : nextStatus n = None <-> n = RESOLVED.
Proof.
  split; [|by intros ->].
  destruct (decide (n ∈ statuses)) as [H|H].
  - unfold statuses in H. set_unfold. destruct H as [->|[->|[->|[]]]]; done.
  - by rewrite nextStatus_unknown.
Qed.

Lemma nextStatus_in n n' : nextStatus n = Some n' -> n' ∈ statuses.
Proof.
  unfold nextStatus. case_match; [|done]. intros Hl. by eapply list_elem_of_lookup_2.
Qed.

Lemma descriptions_total n : n ∈ statuses -> is_Some (descriptions !! n).
Proof.
  unfold statuses. set_unfold. intros [->|[->|[->|[]]]]; by eexists.
Qed.

(** The call of line 297 is made unless the report is resolved. *)
Lemma advance_call_None n : advance_call n = None <-> n = RESOLVED.
Proof.
  rewrite <- nextStatus_None. unfold advance_call.
  destruct (nextStatus n) as [n'|] eqn:E; [|done].
  destruct (descriptions_total n' (nextStatus_in _ _ E)) as [d Hd].
  simpl. by rewrite Hd.
Qed.

Lemma advance_call_next n n' d : advance_call n = Some (n', d) -> nextStatus n = Some n'.
Proof.
  unfold advance_call. destruct (nextStatus n) as [m|]; [|done]. simpl.
  destruct (descriptions !! m); [|done]. by intros [= -> _].
Qed.

(** ** The abstract machine *)

Lemma step_rank s s' : step s s' -> rank s' = S (rank s).
Proof. intros [a b H]. by destruct a; simplify_eq/=. Qed.

Lemma step_deterministic s s1 s2 : step s s1 -> step s s2 -> s1 = s2.
Proof. intros [a b H1] H2. inversion H2; subst. congruence. Qed.

Lemma Resolved_absorbing s : ~ step Resolved s.
Proof. intros H. by inversion H. Qed.

Lemma rtc_step_rank s s' : rtc step s s' -> rank s <= rank s'.
Proof.
  induction 1 as [|s1 s2 s3 H _ IH]; [done|].
  apply step_rank in H. lia.
Qed.

(** The status never goes back. *)
Lemma rtc_step_antisym s s' : rtc step s s' -> rtc step s' s -> s = s'.
Proof.
  intros H1%rtc_step_rank H2%rtc_step_rank.
  destruct s, s'; cbn in *; done || lia.
Qed.

(** Every status reaches [Resolved], in at most three transitions. *)
Lemma reaches_Resolved s : exists n, n <= 3 /\ nsteps step n s Resolved.
Proof.
  destruct s.
  - exists 3. split; [lia|]. repeat (econstructor; [by constructor|]). constructor.
  - exists 2. split; [lia|]. repeat (econstructor; [by constructor|]). constructor.
  - exists 1. split; [lia|]. repeat (econstructor; [by constructor|]). constructor.
  - exists 0. split; [lia|]. constructor.
Qed.

(** ** apply_status and update_status *)

Section apply_status.
Context (now : Z) (newStatus description : string) (r : Report).

Lemma apply_status_status : status (apply_status now newStatus description r) = newStatus.
Proof. reflexivity. Qed.

Lemma apply_status_timeline :
  timeline (apply_status now newStatus description r) =
  (timeline r ++ [mkEntry newStatus now description])%list.
Proof. reflexivity. Qed.

Lemma apply_status_id : id (apply_status now newStatus description r) = id r.
Proof. reflexivity. Qed.

Lemma apply_status_oid : oid (apply_status now newStatus description r) = oid r.
Proof. reflexivity. Qed.

(** Nothing but the status and the timeline changes. *)
Lemma apply_status_frame :
  set_timeline [] (set_status "" (apply_status now newStatus description r)) =
  set_timeline [] (set_status "" r).
Proof. reflexivity. Qed.

(** The timeline is append-only. *)
Lemma apply_status_timeline_prefix :
  timeline r `prefix_of` timeline (apply_status now newStatus description r).
Proof. rewrite apply_status_timeline. by apply prefix_app_r. Qed.

Lemma apply_status_lifecycle :
  newStatus <> ROUTED ->
  lifecycle (apply_status now newStatus description r) =
  (lifecycle r ++ [newStatus])%list.
Proof.
  intros H. unfold lifecycle. rewrite apply_status_timeline, fmap_app, filter_app.
  cbn. by rewrite decide_True.
Qed.

End apply_status.

#[export] Hint Rewrite apply_status_status apply_status_timeline apply_status_id
  apply_status_oid : js_rw.

Section update_status.
Context (now : Z) (reportId newStatus description : string).

Lemma update_status_length reports :
  length (update_status now reportId newStatus description reports) = length reports.
Proof. apply update_first_length. Qed.

(** An id that no report has: nothing happens. *)
Lemma update_status_absent reports :
  reportId ∉ id <$> reports ->
  update_status now reportId newStatus description reports = reports.
Proof.
  intros H. apply update_first_none. apply Forall_forall. intros r Hr E.
  apply H. apply list_elem_of_fmap. by exists r.
Qed.

Lemma update_status_cons_hit r reports :
  id r = reportId ->
  update_status now reportId newStatus description (r :: reports) =
  apply_status now newStatus description r :: reports.
Proof. apply (update_first_cons_hit (fun r => id r = reportId)). Qed.

Lemma update_status_cons_miss r reports :
  id r <> reportId ->
  update_status now reportId newStatus description (r :: reports) =
  r :: update_status now reportId newStatus description reports.
Proof. apply (update_first_cons_miss (fun r => id r = reportId)). Qed.

(** The ids and the object identities stay where they are. *)
Lemma update_status_ids reports :
  id <$> update_status now reportId newStatus description reports = id <$> reports.
Proof.
  induction reports as [|r reports IH]; [done|].
  destruct (decide (id r = reportId)) as [E|E].
  - by rewrite update_status_cons_hit.
  - rewrite update_status_cons_miss by done. cbn. by rewrite IH.
Qed.

Lemma update_status_oids reports :
  oid <$> update_status now reportId newStatus description reports = oid <$> reports.
Proof.
  induction reports as [|r reports IH]; [done|].
  destruct (decide (id r = reportId)) as [E|E].
  - by rewrite update_status_cons_hit.
  - rewrite update_status_cons_miss by done. cbn. by rewrite IH.
Qed.

(** C26. updateReportStatus leaves every report with another identifier as
    it was, in the same order. *)
Lemma update_status_others reports :
  filter (fun r => id r <> reportId) (update_status now reportId newStatus description reports) =
  filter (fun r => id r <> reportId) reports.
Proof.
  induction reports as [|r reports IH]; [done|].
  destruct (decide (id r = reportId)) as [E|E].
  - rewrite update_status_cons_hit by done.
    rewrite !filter_cons_False; [done | by intros ? | by intros ?].
  - rewrite update_status_cons_miss by done.
    rewrite !filter_cons_True by done. by rewrite IH.
Qed.

(** Every timeline is extended, never cut or reordered. *)
Lemma update_status_timelines reports :
  Forall2 (fun r r' => timeline r `prefix_of` timeline r') reports
    (update_status now reportId newStatus description reports).
Proof.
  induction reports as [|r reports IH]; [constructor|].
  destruct (decide (id r = reportId)) as [E|E].
  - rewrite update_status_cons_hit by done. constructor.
    + apply apply_status_timeline_prefix.
    + by apply Forall_Forall2_diag, Forall_true.
  - rewrite update_status_cons_miss by done. by constructor.
Qed.

(** C27. The report that updateReportStatus changes is the first one with
    the identifier: at its position the list holds that report with the
    new status and the new timeline entry. *)
Lemma update_status_found reports i r :
  list_find (fun r => id r = reportId) reports = Some (i, r) ->
  update_status now reportId newStatus description reports !! i =
  Some (apply_status now newStatus description r).
Proof.
  intros H. unfold update_status, update_first. rewrite H.
  apply list_lookup_insert_eq. apply list_find_Some in H as [H _].
  by eapply lookup_lt_Some.
Qed.

End update_status.

(** ** Well-formed reports *)

Lemma canonical_unfold : canonical = [SUBMITTED; UNDER_REVIEW; IN_PROGRESS; RESOLVED].
Proof. reflexivity. Qed.

(** The lifecycle of a well-formed report is the list of the statuses up
    to its own. *)
Lemma wf_report_lifecycle r :
  wf_report r ->
  exists s, status r = status_name s /\ lifecycle r = take (S (rank s)) canonical.
Proof.
  intros (_ & [k Hk] & Hl). rewrite canonical_unfold in *.
  destruct (lifecycle r) as [|a [|b [|c [|d [|e l]]]]]; simplify_eq/=;
    [exists Submitted | exists UnderReview | exists InProgress | exists Resolved];
    split; cbn; congruence.
Qed.

Lemma wf_report_status r : wf_report r -> status r ∈ canonical.
Proof.
  intros (s & -> & _)%wf_report_lifecycle. by destruct s; compute_done.
Qed.

Lemma wf_report_timeline_nonempty r : wf_report r -> timeline r <> [].
Proof. intros [H _] E. by rewrite E in H. Qed.

(** A well-formed report has at most four entries besides the [routed]
    ones. *)
Lemma wf_report_lifecycle_length r : wf_report r -> 1 <= length (lifecycle r) <= 4.
Proof.
  intros (s & _ & ->)%wf_report_lifecycle. by destruct s; cbn; lia.
Qed.

(** Moving a well-formed report to its next status keeps it
    well-formed. *)
Lemma apply_status_wf now r n d :
  wf_report r -> nextStatus (status r) = Some n ->
  wf_report (apply_status now n d r).
Proof.
  intros Hwf Hn. pose proof Hwf as (s & Hs & Hl)%wf_report_lifecycle.
  destruct Hwf as (Hh & _ & _).
  rewrite Hs, nextStatus_refines in Hn.
  destruct (next s) as [s'|] eqn:Es; simplify_eq/=.
  assert (status_name s' <> ROUTED) as Hr by by destruct s'.
  split_and!.
  - rewrite apply_status_timeline, fmap_app.
    destruct (timeline r); [done|]. done.
  - rewrite apply_status_lifecycle, Hl by done.
    destruct s; simplify_eq/=; by eexists.
  - rewrite apply_status_lifecycle by done. by rewrite last_snoc.
Qed.

(** And only that: an update of a well-formed report with any status but
    the next one of its own leaves a report that is not well formed. *)
Lemma apply_status_wf_inv now r n d :
  wf_report r -> wf_report (apply_status now n d r) -> nextStatus (status r) = Some n.
Proof.
  intros (s & Hs & Hl)%wf_report_lifecycle (_ & [k Hk] & Hlast).
  rewrite apply_status_status in Hlast. rewrite Hs.
  destruct (decide (n = ROUTED)) as [-> |Hn].
  - unfold lifecycle in Hlast, Hl. rewrite apply_status_timeline, fmap_app, filter_app in Hlast.
    cbn in Hlast. rewrite decide_False, app_nil_r, Hl in Hlast by (by intros []).
    by destruct s.
  - rewrite apply_status_lifecycle, Hl, canonical_unfold in Hk by done.
    by destruct s; simplify_eq/=.
Qed.

(** The only status from which a report goes under review is
    [submitted]. *)
Lemma wf_under_review now r d :
  wf_report r -> wf_report (apply_status now UNDER_REVIEW d r) -> status r = SUBMITTED.
Proof.
  intros Hwf H. pose proof (apply_status_wf_inv _ _ _ _ Hwf H) as Hn.
  apply wf_report_lifecycle in Hwf as (s & Hs & _). rewrite Hs in *. by destruct s.
Qed.

(** C16. The timer callback of simulateResolution keeps every report well
    formed (its life cycle is a prefix of submitted, under-review, in-
    progress, resolved ending in its status), provided the report found by
    identifier has the status the callback read. *)
Lemma advance_wf now r reports :
  Forall wf_report reports ->
  (forall i r', list_find (fun x => id x = id r) reports = Some (i, r') ->
                status r' = status r) ->
  Forall wf_report (advance now r reports).
Proof.
  intros Hwf Hfirst. unfold advance.
  destruct (advance_call (status r)) as [[n d]|] eqn:E; [|done].
  apply advance_call_next in E.
  unfold update_status, update_first.
  destruct (list_find _ reports) as [[i r']|] eqn:Ef; [|done].
  apply Forall_insert; [done|].
  apply apply_status_wf.
  - apply list_find_Some in Ef as (Hi & _). rewrite Forall_lookup in Hwf. by eapply Hwf.
  - by rewrite (Hfirst _ _ eq_refl).
Qed.

(** A resolved report is never changed by the callback. *)
Lemma advance_resolved now r reports :
  status r = RESOLVED -> advance now r reports = reports.
Proof. intros H. unfold advance. by rewrite H. Qed.

(** ** Pending reports *)

Lemma is_pending_spec r :
  is_pending r = true <-> status r ∈ [SUBMITTED; UNDER_REVIEW; IN_PROGRESS].
Proof. unfold is_pending, array_includes. apply bool_decide_eq_true. Qed.

Lemma is_pending_wf r : wf_report r -> is_pending r = true <-> status r <> RESOLVED.
Proof.
  intros (s & Hs & _)%wf_report_lifecycle. rewrite is_pending_spec, Hs.
  destruct s; cbn; set_solver.
Qed.

(** A pending report is always moved: the guard of line 290 holds. *)
Lemma is_pending_advance_call r :
  is_pending r = true -> is_Some (advance_call (status r)).
Proof.
  intros H. destruct (advance_call (status r)) eqn:E; [by eexists|].
  apply advance_call_None in E. rewrite is_pending_spec, E in H. set_solver.
Qed.

(** ** The invariant of the reports *)

Lemma wf_report_consistent r : wf_report r -> consistent r.
Proof.
  intros Hwf. destruct Hwf as (Hh & Hp & Hl) eqn:E. split_and!; [done..|].
  by apply wf_report_status.
Qed.

Lemma lifecycle_push e r :
  lifecycle (push_timeline e r) =
  (lifecycle r ++ if decide (ev_status e = ROUTED) then [] else [ev_status e])%list.
Proof.
  unfold lifecycle, push_timeline. destruct r; cbn.
  rewrite fmap_app, filter_app. f_equal. cbn.
  unfold filter, list_filter. by repeat case_decide.
Qed.

Lemma head_push e r :
  timeline r <> [] ->
  head (ev_status <$> timeline (push_timeline e r)) = head (ev_status <$> timeline r).
Proof. destruct r as [? ? ? ? ? ? ? ? ? ? ? ? ? [|e0 tl]]; by cbn. Qed.

Lemma consistent_timeline r : consistent r -> timeline r <> [].
Proof. intros [H _] E. by rewrite E in H. Qed.

Lemma push_chronological e r :
  chronological (ev_date e) r -> chronological (ev_date e) (push_timeline e r).
Proof.
  intros [Hs Hb]. unfold chronological, push_timeline. destruct r; cbn in *.
  split.
  - rewrite fmap_app. apply Sorted_snoc_Forall; [done|]. by apply Forall_fmap.
  - apply Forall_app. split; [done|]. by repeat constructor.
Qed.

Lemma chronological_mono clk clk' r :
  (clk <= clk')%Z -> chronological clk r -> chronological clk' r.
Proof.
  intros Hle [Hs Hb]. split; [done|]. eapply Forall_impl; [done|]. cbn. lia.
Qed.

Lemma apply_status_consistent now n d r :
  consistent r -> n ∈ canonical -> consistent (apply_status now n d r).
Proof.
  intros Hc Hn. pose proof (consistent_timeline _ Hc) as Hne.
  destruct Hc as (Hh & Hl & Hs). unfold apply_status. split_and!.
  - rewrite head_push by (by destruct r). by destruct r.
  - rewrite lifecycle_push. cbn [ev_status]. rewrite decide_False.
    + rewrite last_snoc. by destruct r.
    + intros ->. revert Hn. rewrite canonical_unfold. compute_done.
  - by destruct r.
Qed.

Lemma apply_status_chronological now n d r :
  chronological now r -> chronological now (apply_status now n d r).
Proof.
  intros H. unfold apply_status.
  apply (push_chronological (mkEntry n now d)). by destruct r.
Qed.

Lemma apply_status_ok now n d r :
  report_ok now r -> n ∈ canonical -> report_ok now (apply_status now n d r).
Proof.
  intros [Hc Hch] Hn. split; [by apply apply_status_consistent | by apply apply_status_chronological].
Qed.

Lemma update_status_ok now i n d reports :
  n ∈ canonical -> Forall (report_ok now) reports ->
  Forall (report_ok now) (update_status now i n d reports).
Proof.
  intros Hn. apply update_first_Forall. intros r _ Hr. by apply apply_status_ok.
Qed.

Lemma report_ok_mono clk clk' r : (clk <= clk')%Z -> report_ok clk r -> report_ok clk' r.
Proof. intros Hle [Hc Hch]. split; [done|]. by eapply chronological_mono. Qed.

Lemma statuses_canonical n : n ∈ statuses -> n ∈ canonical.
Proof. rewrite canonical_unfold. unfold statuses. set_unfold. naive_solver. Qed.

(** The invariant of a report looks at its status and its timeline
    only. *)
Lemma report_ok_ext clk r r' :
  status r' = status r -> timeline r' = timeline r ->
  report_ok clk r -> report_ok clk r'.
Proof.
  unfold report_ok, consistent, chronological, lifecycle. by intros -> ->.
Qed.

(** A report as it is created. *)
Lemma new_report_ok t d r :
  status r = SUBMITTED -> timeline r = [mkEntry SUBMITTED t d] -> report_ok t r.
Proof.
  intros Hs Ht. unfold report_ok, consistent, chronological, lifecycle.
  rewrite Hs, Ht, canonical_unfold. cbn.
  split_and!; [done | compute_done | by left | repeat constructor | ].
  constructor; [cbn; lia | constructor].
Qed.

(** An entry [ROUTED] does not count in the life cycle. *)
Lemma push_routed_ok e r :
  ev_status e = ROUTED -> report_ok (ev_date e) r -> report_ok (ev_date e) (push_timeline e r).
Proof.
  intros He [Hc Hch]. split; [|by apply push_chronological].
  pose proof (consistent_timeline _ Hc) as Hne. destruct Hc as (Hh & Hl & Hs).
  split_and!.
  - by rewrite head_push.
  - rewrite lifecycle_push, decide_True, app_nil_r by done. by destruct r.
  - by destruct r.
Qed.

(** The same for well-formed reports. *)
Lemma wf_report_ext r r' :
  status r' = status r -> timeline r' = timeline r -> wf_report r -> wf_report r'.
Proof. unfold wf_report, lifecycle. by intros -> ->. Qed.

Lemma new_report_wf t d r :
  status r = SUBMITTED -> timeline r = [mkEntry SUBMITTED t d] -> wf_report r.
Proof.
  intros Hs Ht. unfold wf_report, lifecycle. rewrite Hs, Ht, canonical_unfold.
  split_and!; [done | by eexists | done].
Qed.

Lemma push_routed_wf e r :
  ev_status e = ROUTED -> wf_report r -> wf_report (push_timeline e r).
Proof.
  intros He Hwf. pose proof (wf_report_timeline_nonempty _ Hwf) as Hne.
  destruct Hwf as (Hh & Hp & Hl). split_and!.
  - by rewrite head_push.
  - by rewrite lifecycle_push, decide_True, app_nil_r.
  - rewrite lifecycle_push, decide_True, app_nil_r by done. by destruct r.
Qed.

(** ** Refinement *)

(** C8. The status computed by the timer callback of simulateResolution
    from a status of the life cycle is the one the abstract machine
    submitted, under-review, in-progress, resolved steps to, and none is
    computed exactly when the machine has no step. *)
Theorem nextStatus_simulation s n :
  nextStatus (status_name s) = Some n <-> exists s', step s s' /\ n = status_name s'.
Proof.
  rewrite nextStatus_refines, fmap_Some. split.
  - intros (s' & Hs' & ->). exists s'. by split; [constructor|].
  - intros (s' & [a b Hs'] & ->). by exists b.
Qed.

Lemma advance_wf_witness :
  Forall wf_report (advance 7 demo_report [demo_report]).
Proof.
  apply advance_wf; [apply Forall_singleton; compute_done|].
  intros i r' H. vm_compute in H. by injection H as _ <-.
Defined.

(** C28. Every status computed by the timer callback of simulateResolution
    comes strictly later in the list under-review, in-progress, resolved
    than the status it is computed from, so a report is moved at most
    three times. *)
Theorem nextStatus_progress n n' :
  nextStatus n = Some n' -> (indexOf statuses n < indexOf statuses n')%Z.
Proof.
  intros H. destruct (decide (n ∈ statuses)) as [Hn|Hn].
  - unfold statuses in Hn. set_unfold.
    destruct Hn as [->|[->|[->|[]]]]; vm_compute in H; simplify_eq; by vm_compute.
  - rewrite nextStatus_unknown in H by done. simplify_eq.
    apply indexOf_absent in Hn. rewrite Hn. by vm_compute.
Qed.

Lemma nextStatus_progress_witness :
  (indexOf statuses SUBMITTED < indexOf statuses UNDER_REVIEW)%Z.
Proof. by apply nextStatus_progress; vm_compute. Defined.

Lemma update_status_found_witness :
  update_status 7 (id demo_report) RESOLVED "" [demo_report] !! 0 =
  Some (apply_status 7 RESOLVED "" demo_report).
Proof. by apply update_status_found; vm_compute. Defined.
