(* ===== verification/Json.v ===== *)
(** * Json: the snapshot written to [localStorage]

    [saveToLocalStorage] ([src/script.js], lines 688-697) serializes the
    object [{reports, drafts, currentUser, settings}] with
    [JSON.stringify], and [loadFromLocalStorage] (lines 699-715) reads it
    back with [JSON.parse].  This file holds the JSON tree, the tree that
    [JSON.stringify] builds for each record of [Model] ([toJSON]) and the
    reading of a tree as a record ([ofJSON]).

    [JSON.stringify] leaves out a property whose value is [undefined] or a
    function: [obj] builds an object from optional members.  Members are
    written in one fixed order; time stamps are written as numbers.  The
    object identity of a report is not written: [ofJSON] gives every report
    the identity 0 and the loader gives it a fresh one. *)

From S2P Require Import Prelude.
From S2P Require Import JsString.
From S2P Require Import Model.
From S2P Require Import Router.

#[local] Open Scope string_scope.

(** ** The tree *)

#[local] Set Warnings "-register-all".

Inductive json : Type :=
| JNull
| JBool (b : bool)
| JNum (z : Z)
| JStr (s : string)
| JArr (l : list json)
| JObj (members : list (string * json)).

(** An object from optional members: the absent ones are left out. *)
Definition obj (fs : list (string * option json)) : json :=
  JObj (omap (fun p => pair p.1 <$> p.2) fs).

(** [j[k]] for an object [j]: [None] is [undefined]. *)
Definition field (k : string) (j : json) : option json :=
  match j with
  | JObj ms => (fun p => p.2) <$> (snd <$> list_find (fun p => p.1 = k) ms)
  | _ => None
  end.

(** The value of key [k] in a list of optional members. *)
Definition assoc (k : string) (fs : list (string * option json)) : option json :=
  (snd <$> list_find (fun p => p.1 = k) fs) ≫= (fun p => p.2).

(** ** The interface of a serializable type *)

Class Codec (A : Type) : Type := {
  toJSON : A -> json;
  ofJSON : json -> option A
}.

(** Reading back what was written gives the value. *)
Class CodecOk (A : Type) `{Codec A} : Prop :=
  codec_ok : forall a : A, ofJSON (toJSON a) = Some a.

#[export] Instance string_codec : Codec string := {|
  toJSON s := JStr s;
  ofJSON j := match j with JStr s => Some s | _ => None end
|}.

#[export] Instance bool_codec : Codec bool := {|
  toJSON b := JBool b;
  ofJSON j := match j with JBool b => Some b | _ => None end
|}.

#[export] Instance Z_codec : Codec Z := {|
  toJSON z := JNum z;
  ofJSON j := match j with JNum z => Some z | _ => None end
|}.

#[export] Instance list_codec {A} `{Codec A} : Codec (list A) := {|
  toJSON l := JArr (toJSON <$> l);
  ofJSON j := match j with JArr l => mapM ofJSON l | _ => None end
|}.

(** A member that must be present, and one that may be absent. *)
Definition req {A} `{Codec A} (k : string) (j : json) : option A :=
  field k j ≫= ofJSON.
Definition opt {A} `{Codec A} (k : string) (j : json) : option (option A) :=
  match field k j with
  | Some v => Some <$> ofJSON v
  | None => Some None
  end.

(** ** The records *)

#[export] Instance TimelineEntry_codec : Codec TimelineEntry := {|
  toJSON e := obj [("status", Some (toJSON (ev_status e)));
                   ("date", Some (toJSON (ev_date e)));
                   ("description", Some (toJSON (ev_description e)))];
  ofJSON j :=
    s ← req "status" j; d ← req "date" j; t ← req "description" j;
    Some (mkEntry s d t)
|}.

#[export] Instance File_codec : Codec File := {|
  toJSON f := obj [("name", Some (toJSON (file_name f)));
                   ("size", Some (toJSON (file_size f)));
                   ("type", Some (toJSON (file_type f)));
                   ("lastModified", Some (toJSON (file_lastModified f)))];
  ofJSON j :=
    n ← req "name" j; s ← req "size" j; t ← req "type" j; m ← req "lastModified" j;
    Some (mkFile n s t m)
|}.

(** What [JSON.stringify] writes for [assignedTo]: a text for a text,
    nothing for a function, the empty object for [Object.prototype], which
    has no enumerable property. *)
Definition assignee_toJSON (a : assignee) : option json :=
  match a with
  | Authority s => Some (JStr s)
  | NativeFunction _ => None
  | PlainObject => Some (JObj [])
  end.

Definition assignee_ofJSON (j : json) : option assignee :=
  match j with
  | JStr s => Some (Authority s)
  | JObj [] => Some PlainObject
  | _ => None
  end.

Definition report_members (r : Report) : list (string * option json) :=
  [("id", Some (toJSON (id r)));
   ("title", Some (toJSON (title r)));
   ("category", Some (toJSON (category r)));
   ("priority", Some (toJSON (priority r)));
   ("location", Some (toJSON (location r)));
   ("description", Some (toJSON (description r)));
   ("evidence", toJSON <$> evidence r);
   ("isPublic", Some (toJSON (isPublic r)));
   ("isAnonymous", Some (toJSON (isAnonymous r)));
   ("submittedBy", toJSON <$> submittedBy r);
   ("submittedAt", Some (toJSON (submittedAt r)));
   ("status", Some (toJSON (status r)));
   ("timeline", Some (toJSON (timeline r)));
   ("assignedTo", assignedTo r ≫= assignee_toJSON);
   ("routedAt", toJSON <$> routedAt r);
   ("isDraft", if isDraft r then Some (JBool true) else None);
   ("savedAt", toJSON <$> savedAt r)].

Definition report_ofJSON (j : json) : option Report :=
  i ← req "id" j; t ← req "title" j; c ← req "category" j; p ← req "priority" j;
  l ← req "location" j; d ← req "description" j; e ← opt "evidence" j;
  pu ← req "isPublic" j; an ← req "isAnonymous" j; sb ← opt "submittedBy" j;
  sa ← req "submittedAt" j; st ← req "status" j; tl ← req "timeline" j;
  a ← match field "assignedTo" j with
      | Some v => Some <$> assignee_ofJSON v
      | None => Some None
      end;
  ra ← opt "routedAt" j;
  dr ← opt "isDraft" j; sv ← opt "savedAt" j;
  Some (mkReport 0 i t c p l d e pu an sb sa st tl a ra (default false dr) sv).

#[export] Instance Report_codec : Codec Report := {|
  toJSON r := obj (report_members r);
  ofJSON := report_ofJSON
|}.

#[export] Instance User_codec : Codec User := {|
  toJSON u := obj [("id", Some (toJSON (user_id u)));
                   ("name", Some (toJSON (user_name u)));
                   ("email", Some (toJSON (user_email u)));
                   ("phone", Some (toJSON (user_phone u)));
                   ("location", Some (toJSON (user_location u)));
                   ("registeredAt", Some (toJSON (user_registeredAt u)));
                   ("isVerified", Some (toJSON (user_isVerified u)))];
  ofJSON j :=
    i ← req "id" j; n ← req "name" j; e ← req "email" j; p ← req "phone" j;
    l ← req "location" j; r ← req "registeredAt" j; v ← req "isVerified" j;
    Some (mkUser i n e p l r v)
|}.

#[export] Instance Settings_codec : Codec Settings := {|
  toJSON s := obj [("highContrast", Some (toJSON (highContrast s)));
                   ("largeText", Some (toJSON (largeText s)));
                   ("screenReader", Some (toJSON (screenReader s)));
                   ("language", Some (toJSON (language s)));
                   ("emailNotifications", Some (toJSON (emailNotifications s)));
                   ("smsNotifications", Some (toJSON (smsNotifications s)))];
  ofJSON j :=
    h ← req "highContrast" j; l ← req "largeText" j; s ← req "screenReader" j;
    g ← req "language" j; e ← req "emailNotifications" j; m ← req "smsNotifications" j;
    Some (mkSettings h l s g e m)
|}.

(** ** The snapshot (lines 689-694) *)

Record Snapshot : Type := mkSnapshot {
  snap_reports : list Report;
  snap_drafts : list Report;
  snap_currentUser : option User;
  snap_settings : Settings
}.

(** [currentUser] is [null] when there is no user. *)
Definition snapshot_toJSON (s : Snapshot) : json :=
  obj [("reports", Some (toJSON (snap_reports s)));
       ("drafts", Some (toJSON (snap_drafts s)));
       ("currentUser", Some (from_option toJSON JNull (snap_currentUser s)));
       ("settings", Some (toJSON (snap_settings s)))].

(** Truthiness of a JSON value, for [||] and [if]. *)
Definition json_truthy (j : json) : bool :=
  match j with
  | JNull => false
  | JBool b => b
  | JNum z => negb (z =? 0)%Z
  | JStr s => negb (bool_decide (s = ""))
  | JArr _ | JObj _ => true
  end.

(** [parsed.k || d] read as a value of type [A]: the default when the
    member is absent or falsy. *)
Definition field_or {A} `{Codec A} (k : string) (d : A) (j : json) : option A :=
  match field k j with
  | Some v => if json_truthy v then ofJSON v else Some d
  | None => Some d
  end.

(** The stored report without what [JSON.stringify] drops. *)
Definition stored_assignee (a : option assignee) : option assignee :=
  match a with
  | Some (NativeFunction _) => None
  | _ => a
  end.
Definition stored (r : Report) : Report :=
  set_oid 0 (set_assignedTo (stored_assignee (assignedTo r)) r).

(** A report that [JSON.stringify] writes whole. *)
Definition storable (r : Report) : Prop :=
  forall f, assignedTo r <> Some (NativeFunction f).

#[export] Instance storable_dec r : Decision (storable r).
Proof.
  unfold storable. destruct (assignedTo r) as [[s|f|]|].
  - left. by intros f.
  - right. intros H. by apply (H f).
  - left. by intros f.
  - left. by intros f.
Defined.

(** What [loadFromLocalStorage] reads in a tree (lines 704-708): each of
    the three lists or values, with its default, and the settings if they
    are there. *)
Definition snapshot_read (j : json) :
    option (list Report * list Report * option User * option Settings) :=
  rs ← field_or "reports" [] j;
  ds ← field_or "drafts" [] j;
  u ← match field "currentUser" j with
      | Some v => if json_truthy v then Some <$> ofJSON v else Some None
      | None => Some None
      end;
  s ← match field "settings" j with
      | Some v => if json_truthy v then Some <$> ofJSON v else Some None
      | None => Some None
      end;
  Some (rs, ds, u, s).

(** ** Objects *)

Lemma field_obj k fs : NoDup fs.*1 -> field k (obj fs) = assoc k fs.
Proof.
  unfold assoc. induction fs as [|[k' [v|]] fs IH]; intros Hnd; [done|..].
  - cbn. destruct (decide (k' = k)) as [->|Hne]; [done|].
    apply NoDup_cons in Hnd as [_ Hnd]. specialize (IH Hnd).
    cbn in IH. destruct (list_find _ (omap _ fs)) as [[i p]|];
      destruct (list_find _ fs) as [[i' p']|]; by simplify_eq/=.
  - apply NoDup_cons in Hnd as [Hk Hnd]. specialize (IH Hnd).
    cbn. cbn in IH. rewrite IH.
    destruct (decide (k' = k)) as [->|Hne]; cbn.
    + destruct (list_find _ fs) as [[i p]|] eqn:E; [|done]. cbn.
      apply list_find_Some in E as (Hi & Hp & _). destruct Hk.
      apply list_elem_of_fmap. exists p. split; [done|].
      by eapply list_elem_of_lookup_2.
    + by destruct (list_find _ fs) as [[i p]|].
Qed.

(** ** Round trips of the interface *)

#[export] Instance string_codec_ok : CodecOk string.
Proof. by intros s. Qed.
#[export] Instance bool_codec_ok : CodecOk bool.
Proof. by intros s. Qed.
#[export] Instance Z_codec_ok : CodecOk Z.
Proof. by intros s. Qed.

#[export] Instance list_codec_ok {A} `{CodecOk A} : CodecOk (list A).
Proof.
  intros l. cbn. induction l as [|a l IH]; [done|].
  cbn. rewrite codec_ok. cbn. by rewrite IH.
Qed.

Lemma req_obj {A} `{CodecOk A} k fs (a : A) :
  NoDup fs.*1 -> assoc k fs = Some (toJSON a) -> req k (obj fs) = Some a.
Proof. intros Hnd Hk. unfold req. rewrite field_obj, Hk by done. cbn. apply codec_ok. Qed.

Lemma opt_obj {A} `{CodecOk A} k fs (a : option A) :
  NoDup fs.*1 -> assoc k fs = toJSON <$> a -> opt k (obj fs) = Some a.
Proof.
  intros Hnd Hk. unfold opt. rewrite field_obj, Hk by done.
  destruct a as [a|]; cbn; [|done]. by rewrite codec_ok.
Qed.

(** Solves the round trip of a record whose members are all present. *)
Ltac codec_record :=
  intros []; cbn -[obj req];
  repeat (erewrite req_obj; [cbn -[obj req] | compute_done | reflexivity]);
  done.

#[export] Instance TimelineEntry_codec_ok : CodecOk TimelineEntry.
Proof. codec_record. Qed.
#[export] Instance File_codec_ok : CodecOk File.
Proof. codec_record. Qed.
#[export] Instance User_codec_ok : CodecOk User.
Proof. codec_record. Qed.
#[export] Instance Settings_codec_ok : CodecOk Settings.
Proof. codec_record. Qed.

Lemma assignee_roundtrip a :
  match assignee_toJSON a with
  | Some j => assignee_ofJSON j = Some a
  | None => exists f, a = NativeFunction f
  end.
Proof. destruct a; cbn; eauto. Qed.

(** ** Reports *)

Lemma report_members_NoDup r : NoDup (report_members r).*1.
Proof. compute_done. Qed.

(** Reading back a written report gives the report without what
    [JSON.stringify] drops. *)
Lemma report_roundtrip r : ofJSON (toJSON r) = Some (stored r).
Proof.
  pose proof (report_members_NoDup r) as Hnd.
  cbn -[obj req opt report_members]. unfold report_ofJSON.
  repeat (erewrite req_obj; [cbn -[obj req opt report_members field] | exact Hnd | reflexivity]).
  rewrite (opt_obj "evidence" _ (evidence r)), (opt_obj "submittedBy" _ (submittedBy r)),
    (opt_obj "routedAt" _ (routedAt r)), (opt_obj "savedAt" _ (savedAt r))
    by (exact Hnd || reflexivity).
  rewrite (opt_obj "isDraft" _ (if isDraft r then Some true else None))
    by (exact Hnd || (unfold report_members; destruct (isDraft r); reflexivity)).
  rewrite field_obj by done. cbn -[obj req opt report_members field].
  unfold stored, stored_assignee.
  destruct r as [? ? ? ? ? ? ? ? ? ? ? ? ? ? [[?|?|]|] ? [] ?]; reflexivity.
Qed.

Lemma stored_storable r : storable r -> stored r = set_oid 0 r.
Proof.
  intros H. unfold stored, stored_assignee.
  destruct (assignedTo r) as [[s|f|]|] eqn:E; try by destruct r; simplify_eq/=.
  by destruct (H f).
Qed.

Lemma stored_same_data r : storable r -> same_data (stored r) r.
Proof. intros H. by rewrite stored_storable. Qed.

#[export] Instance storable_proper : Proper (same_data ==> iff) storable.
Proof.
  intros r1 r2 H. unfold storable.
  assert (assignedTo r1 = assignedTo r2) as ->; [|done].
  unfold same_data in H. by destruct r1, r2; simplify_eq/=.
Qed.

(** The written tree does not depend on the object identity. *)
Lemma toJSON_same_data (r1 r2 : Report) : same_data r1 r2 -> toJSON r1 = toJSON r2.
Proof. unfold same_data. by destruct r1, r2; intros; simplify_eq/=. Qed.

Lemma list_roundtrip {A} `{Codec A} (f : A -> A) (l : list A) :
  (forall a, ofJSON (toJSON a) = Some (f a)) -> ofJSON (toJSON l) = Some (f <$> l).
Proof.
  intros Hf. change (mapM ofJSON (toJSON <$> l) = Some (f <$> l)).
  apply mapM_Some. rewrite Forall2_fmap_l, Forall2_fmap_r.
  apply Forall_Forall2_diag, Forall_forall. intros a _. apply Hf.
Qed.

Lemma reports_roundtrip (l : list Report) : ofJSON (toJSON l) = Some (stored <$> l).
Proof. apply list_roundtrip, report_roundtrip. Qed.

Lemma field_obj_Some k fs v :
  NoDup fs.*1 -> assoc k fs = Some v -> field k (obj fs) = Some v.
Proof. intros Hnd <-. by apply field_obj. Qed.

Lemma field_or_obj {A} `{Codec A} k (d : A) fs v :
  NoDup fs.*1 -> assoc k fs = Some v ->
  field_or k d (obj fs) = if json_truthy v then ofJSON v else Some d.
Proof. intros Hnd Hk. unfold field_or. by rewrite (field_obj_Some _ _ v). Qed.

(** ** The snapshot *)

(** Reading back a written snapshot: the reports and drafts without what
    [JSON.stringify] drops, the same user, the same settings. *)
Lemma snapshot_roundtrip s :
  snapshot_read (snapshot_toJSON s) =
  Some (stored <$> snap_reports s, stored <$> snap_drafts s,
        snap_currentUser s, Some (snap_settings s)).
Proof.
  unfold snapshot_read, snapshot_toJSON.
  erewrite !field_or_obj by first [reflexivity | compute_done].
  erewrite !field_obj_Some by first [reflexivity | compute_done].
  change (json_truthy (toJSON (snap_reports s))) with true.
  change (json_truthy (toJSON (snap_drafts s))) with true.
  change (json_truthy (toJSON (snap_settings s))) with true.
  rewrite !reports_roundtrip, codec_ok. cbn -[toJSON ofJSON].
  destruct (snap_currentUser s) as [u|]; cbn -[toJSON ofJSON]; [|done].
  change (json_truthy (toJSON u)) with true. by rewrite codec_ok.
Qed.

(** ** Round trip of a report *)

(** C17. A report whose assignee is not a function is read back from its
    JSON with the same data, its object identity apart. *)
Theorem report_json_roundtrip (r : Report) :
  storable r -> exists r', ofJSON (toJSON r) = Some r' /\ same_data r' r.
Proof.
  intros Hr. exists (stored r). split; [apply report_roundtrip | by apply stored_same_data].
Qed.

Lemma report_json_roundtrip_witness :
  is_Some (ofJSON (A := Report) (toJSON demo_report)).
Proof.
  destruct (report_json_roundtrip demo_report) as (r' & -> & _); [compute_done | by eexists].
Defined.

(** C38. What is stored of the assignee that routeReport gives: every
    routed report is written and read back, and the report that is read
    has the assignee of the routed one unless the category is the name of
    a function that object literals inherit (constructor, toString,
    valueOf and the like); then the assignee is a function, JSON.stringify
    leaves the member out, and the report comes back without an assignee. *)
Theorem routed_assignee_stored now r :
  ofJSON (toJSON (routeReport now r)) = Some (stored (routeReport now r)) /\
  assignedTo (stored (routeReport now r)) =
    if decide (category r ∈ object_prototype_functions.*1) then None
    else Some (route (category r)).
Proof.
  split; [apply report_roundtrip|]. cbn.
  destruct (decide _) as [Hc|Hc].
  - apply route_function in Hc as [f ->]. done.
  - destruct (route (category r)) as [s|f|] eqn:E; [done| |done].
    destruct Hc. apply route_function. by exists f.
Qed.
