(* ===== verification/Dashboard.v ===== *)
(** * Dashboard: what the views compute

    The computations behind the views of [src/script.js]: the counters of
    [updateDashboard] (lines 456-469), the in-place sort and the five
    most recent reports of [updateRecentActivity] (lines 471-496), the
    filters of [getFilteredReports] (lines 426-449), the cards of
    [displayReports] (lines 355-424) and the formatting helpers
    (lines 938-977).  A view is the data its template prints. *)

From Stdlib Require Import DecimalString.
From S2P Require Import Prelude.
From S2P Require Import JsString.
From S2P Require Import Model.
From S2P Require Import Router.
From S2P Require Import Lifecycle.

#[local] Open Scope string_scope.

(** ** Formatting helpers *)

(** [`${n}`] for an integer. *)
Definition Z_to_string (z : Z) : string := NilZero.string_of_int (Z.to_int z).

(** [formatStatus] and [formatCategory] (lines 938-948). *)
Definition formatStatus (status : string) : string :=
  join " " (capitalize <$> split "-" status).
Definition formatCategory (category : string) : string :=
  join " " (capitalize <$> split "-" category).

(** [formatPriority] (lines 950-952). *)
Definition formatPriority (priority : string) : string := capitalize priority.

(** [getTimeAgo] (lines 964-977) at clock reading [now]; [Math.floor] of
    a quotient is the floor division of [Z]. *)
Definition getTimeAgo (now date : Z) : string :=
  let diff := (now - date)%Z in
  let minutes := (diff / 60000)%Z in
  let hours := (diff / 3600000)%Z in
  let days := (diff / 86400000)%Z in
  if (0 <? days)%Z then Z_to_string days +:+ "d ago"
  else if (0 <? hours)%Z then Z_to_string hours +:+ "h ago"
  else if (0 <? minutes)%Z then Z_to_string minutes +:+ "m ago"
  else "Just now".

(** [status.replace(/[^a-z]/g, '-')] (line 382). *)
Definition status_class (status : string) : string :=
  text ((fun c => if is_lower c then c else "-"%char) <$> chars status).

(** ** Sorting by submission time *)

(** The comparator of lines 448 and 476 is negative exactly when its
    first argument was submitted after its second. *)
Definition newer (a b : Report) : bool := (submittedAt b <? submittedAt a)%Z.

(** [reports.sort(comparator)]. *)
Definition sort_reports (reports : list Report) : list Report := sort_by newer reports.

(** ** updateDashboard *)

(** Lines 457-461. *)
Definition totalReports (reports : list Report) : nat := length reports.
Definition resolvedReports (reports : list Report) : nat :=
  length (filter (fun r => status r = RESOLVED) reports).
Definition pendingCount (reports : list Report) : nat := length (pendingReports reports).

(** Line 466. *)
Definition activeUsers (isOffline : bool) : string :=
  if isOffline then "1 (You)" else "1,247".

(** ** updateRecentActivity *)

(** One item of the recent activity (lines 484-495). *)
Record ActivityRow : Type := mkActivityRow {
  act_resolved : bool;
  act_title : string;
  act_status : string;
  act_time : string
}.

Definition activity_row (now : Z) (r : Report) : ActivityRow :=
  {| act_resolved := bool_decide (status r = RESOLVED);
     act_title := title r;
     act_status := formatStatus (status r);
     act_time := getTimeAgo now (submittedAt r) |}.

(** Lines 475-477, on the sorted list. *)
Definition recentReports (reports : list Report) : list Report :=
  take 5 (sort_reports reports).

(** ** getFilteredReports *)

(** The test of lines 434-437. *)
Definition matches_search (term : string) (r : Report) : bool :=
  includes (toLowerCase (title r)) term || includes (toLowerCase (id r)) term.

(** [if (x) { filtered = filtered.filter(p) }] for an optional text [x]:
    absent and empty are falsy. *)
Definition filter_if (x : option string) (p : string -> Report -> bool)
    (l : list Report) : list Report :=
  match x with
  | Some s => if bool_decide (s = "") then l else filter (fun r => p s r = true) l
  | None => l
  end.

(** Lines 426-449: [searchTerm] is the lower-cased text of the search box,
    the two others the values of the select boxes; each is [None] when its
    element is missing. *)
Definition getFilteredReports (searchTerm statusFilter categoryFilter : option string)
    (reports : list Report) : list Report :=
  let filtered := reports in
  let filtered := filter_if searchTerm matches_search filtered in
  let filtered := filter_if statusFilter (fun s r => bool_decide (status r = s)) filtered in
  let filtered := filter_if categoryFilter (fun c r => bool_decide (category r = c)) filtered in
  sort_reports filtered.

(** ** displayReports *)

(** One card of the tracking list (lines 375-422); the dates are left as
    time stamps. *)
Record ReportCard : Type := mkReportCard {
  card_title : string;
  card_id : string;
  card_status_class : string;
  card_status : string;
  card_category : string;
  card_priority : string;
  card_location : string;
  card_submitted : Z;
  card_assigned : string;
  card_description : string;
  card_timeline : list (string * Z)
}.

(** [s || d] for a text. *)
Definition text_or (s d : string) : string := if bool_decide (s = "") then d else s.

Definition report_card (r : Report) : ReportCard :=
  {| card_title := title r;
     card_id := substring0 8 (id r);
     card_status_class := status_class (status r);
     card_status := formatStatus (status r);
     card_category := formatCategory (category r);
     card_priority := formatPriority (priority r);
     card_location := text_or (location r) "Not specified";
     card_submitted := submittedAt r;
     card_assigned := from_option assignee_text "Pending" (assignedTo r);
     card_description :=
       substring0 200 (description r) +:+
       (if (200 <? String.length (description r))%nat then "..." else "");
     card_timeline := (fun e => (ev_description e, ev_date e)) <$> timeline r |}.

(** What [displayReports] shows: the empty state (lines 359-371) or the
    cards of the filtered reports. *)
Inductive ReportsView : Type :=
| EmptyState
| Cards (cards : list ReportCard).

Definition reports_view (searchTerm statusFilter categoryFilter : option string)
    (reports : list Report) : ReportsView :=
  if bool_decide (length reports = 0) then EmptyState
  else Cards (report_card <$> getFilteredReports searchTerm statusFilter categoryFilter reports).

(** The order in which a sorted list shows two neighbours. *)
Definition newest_first (a b : Report) : Prop := (submittedAt b <= submittedAt a)%Z.

(** ** Sorting *)

Lemma newer_asym a b : newer a b = true -> newer b a = false.
Proof. unfold newer. rewrite Z.ltb_lt, Z.ltb_ge. lia. Qed.

Lemma not_after_newer a b : not_after newer a b <-> newest_first a b.
Proof. unfold not_after, newer, newest_first. by rewrite Z.ltb_ge. Qed.

Lemma sort_reports_Permutation reports : sort_reports reports ≡ₚ reports.
Proof. apply sort_by_Permutation. Qed.

(** The sorted list shows the reports from the newest to the oldest. *)
Lemma sort_reports_Sorted reports : Sorted newest_first (sort_reports reports).
Proof.
  eapply Sorted_weaken; [|apply sort_by_Sorted, newer_asym].
  intros a b. apply not_after_newer.
Qed.

(** The sort of the reports by submission date is stable: reports
    submitted at the same time keep their relative order. *)
Lemma sort_reports_stable t reports :
  filter (fun r => submittedAt r = t) (sort_reports reports) =
  filter (fun r => submittedAt r = t) reports.
Proof.
  set (q := fun r => bool_decide (submittedAt r = t)).
  assert (forall l : list Report,
    filter (fun r => submittedAt r = t) l = filter (fun r => q r = true) l) as Hq.
  { intros l. apply list_filter_iff. intros r. unfold q. by rewrite bool_decide_eq_true. }
  rewrite !Hq. apply sort_by_stable.
  intros x y Hx%bool_decide_eq_true Hy%bool_decide_eq_true.
  unfold newer. rewrite Z.ltb_ge. lia.
Qed.

Lemma sort_reports_idemp reports : sort_reports (sort_reports reports) = sort_reports reports.
Proof. apply sort_by_idemp, newer_asym. Qed.

Lemma sort_reports_length reports : length (sort_reports reports) = length reports.
Proof. apply sort_by_length. Qed.

Lemma sort_reports_Forall (P : Report -> Prop) reports :
  Forall P reports <-> Forall P (sort_reports reports).
Proof. by rewrite sort_reports_Permutation. Qed.

(** ** Counters *)

Lemma counters_Permutation l1 l2 :
  l1 ≡ₚ l2 ->
  totalReports l1 = totalReports l2 /\ resolvedReports l1 = resolvedReports l2 /\
  pendingCount l1 = pendingCount l2.
Proof.
  intros H. unfold totalReports, resolvedReports, pendingCount, pendingReports.
  by rewrite H.
Qed.

(** C25. When every report is well formed, the total shown on the
    dashboard is the sum of the resolved and the pending counters. *)
Lemma counters_add_up reports :
  Forall wf_report reports ->
  totalReports reports = resolvedReports reports + pendingCount reports.
Proof.
  unfold totalReports, resolvedReports, pendingCount, pendingReports.
  induction 1 as [|r reports Hr _ IH]; [done|].
  rewrite !filter_cons. pose proof (is_pending_wf r Hr) as Hp.
  destruct (decide (status r = RESOLVED)) as [E|E];
    destruct (decide (is_pending r = true)) as [P|P]; cbn; try lia.
  - by apply Hp in P.
  - destruct P. by apply Hp.
Qed.

Lemma pendingCount_le reports : pendingCount reports <= totalReports reports.
Proof. apply length_filter. Qed.

(** ** Recent activity *)

(** The recent activity shows five reports at most, and all of them
    when there are five or fewer. *)
Lemma recentReports_length reports : length (recentReports reports) = length reports `min` 5.
Proof. unfold recentReports. rewrite length_take, sort_reports_length. lia. Qed.

Lemma recentReports_subseteq reports : recentReports reports ⊆ reports.
Proof.
  intros r Hr. apply (sort_by_elem_of newer).
  unfold recentReports in Hr. by eapply subseteq_take.
Qed.

Lemma newest_first_trans : Transitive newest_first.
Proof. intros a b c. unfold newest_first. lia. Qed.

(** C24. No report left out of the recent activity was submitted after one
    that is shown. *)
Lemma recentReports_newest reports r r' :
  r ∈ recentReports reports -> r' ∈ drop 5 (sort_reports reports) ->
  newest_first r r'.
Proof.
  intros Hr Hr'. unfold recentReports in Hr.
  pose proof (@Sorted_StronglySorted _ _ newest_first_trans _
                (sort_reports_Sorted reports)) as Hs.
  rewrite <- (take_drop 5 (sort_reports reports)) in Hs.
  by eapply StronglySorted_app_1_elem_of.
Qed.

(** ** Filters *)

Lemma filter_if_subseteq x p l : filter_if x p l ⊆ l.
Proof.
  destruct x as [s|]; cbn; [|done]. case_bool_decide; [done|].
  intros r. rewrite list_elem_of_filter. naive_solver.
Qed.

Lemma filter_if_elem_of x p l r :
  r ∈ filter_if x p l <->
  r ∈ l /\ (forall s, x = Some s -> s <> "" -> p s r = true).
Proof.
  destruct x as [s|]; cbn; [|naive_solver]. case_bool_decide.
  - naive_solver.
  - rewrite list_elem_of_filter. naive_solver.
Qed.

(** C23. A report is in the list of getFilteredReports exactly when it is
    one of the reports and passes each filter that is set: the search term
    is in its lower-cased title or identifier, its status is the selected
    one, its category is the selected one. *)
Lemma getFilteredReports_elem_of term st cat reports r :
  r ∈ getFilteredReports term st cat reports <->
  r ∈ reports /\
  (forall s, term = Some s -> s <> "" -> matches_search s r = true) /\
  (forall s, st = Some s -> s <> "" -> status r = s) /\
  (forall s, cat = Some s -> s <> "" -> category r = s).
Proof.
  unfold getFilteredReports.
  rewrite (sort_by_elem_of newer), !filter_if_elem_of.
  setoid_rewrite bool_decide_eq_true. naive_solver.
Qed.

Lemma getFilteredReports_Sorted term st cat reports :
  Sorted newest_first (getFilteredReports term st cat reports).
Proof. apply sort_reports_Sorted. Qed.

(** With no filter set the list is the sorted list of all reports. *)
Lemma getFilteredReports_none reports :
  getFilteredReports None None None reports = sort_reports reports.
Proof. reflexivity. Qed.

(** The tracking list never shows more reports than there are. *)
Lemma getFilteredReports_length term st cat reports :
  length (getFilteredReports term st cat reports) <= length reports.
Proof.
  unfold getFilteredReports. rewrite sort_reports_length.
  assert (forall x p l, length (filter_if x p l) <= length l) as H.
  { intros [s|] p l; cbn; [|done]. case_bool_decide; [done|]. apply length_filter. }
  etrans; [apply H|]. etrans; [apply H|]. apply H.
Qed.

(** ** Formatting *)

Lemma getTimeAgo_just_now now date :
  (now - date < 60000)%Z -> getTimeAgo now date = "Just now".
Proof.
  intros H. unfold getTimeAgo.
  assert ((now - date) / 86400000 < 1)%Z by (apply Z.div_lt_upper_bound; lia).
  assert ((now - date) / 3600000 < 1)%Z by (apply Z.div_lt_upper_bound; lia).
  assert ((now - date) / 60000 < 1)%Z by (apply Z.div_lt_upper_bound; lia).
  by rewrite !(proj2 (Z.ltb_ge _ _)) by lia.
Qed.

(** For a date one day or more before the clock, getTimeAgo is the
    number of whole days followed by 'd ago'. *)
Lemma getTimeAgo_days now date :
  (86400000 <= now - date)%Z ->
  getTimeAgo now date = Z_to_string ((now - date) / 86400000) +:+ "d ago".
Proof.
  intros H. unfold getTimeAgo.
  assert (0 < (now - date) / 86400000)%Z by (apply Z.div_str_pos; lia).
  by rewrite (proj2 (Z.ltb_lt _ _)).
Qed.

Lemma status_class_length status : String.length (status_class status) = String.length status.
Proof. unfold status_class. by rewrite length_text, length_fmap, length_chars. Qed.

(** ** Instances *)

Lemma recentReports_newest_witness :
  newest_first demo_report (set_oid 1 demo_report).
Proof.
  apply (recentReports_newest
           (demo_report :: replicate 5 (set_oid 1 demo_report))); compute_done.
Defined.

Lemma counters_add_up_witness :
  totalReports [demo_report] = resolvedReports [demo_report] + pendingCount [demo_report].
Proof. apply counters_add_up, Forall_singleton. compute_done. Defined.

Lemma getTimeAgo_days_witness :
  getTimeAgo 1700000000000 1699800000000 = "2d ago".
Proof. by rewrite getTimeAgo_days. Defined.
