(* ===== verification/IdGen.v ===== *)
(** * IdGen: [generateId] ([src/script.js], lines 934-936)

    [Math.random().toString(36).substr(2, 9) + Date.now().toString(36)]:
    nine characters at most of the text of a random number, followed by
    the clock in base 36.  The text of the random number is an input;
    [toString36] is [Number.prototype.toString] with radix 36 on integers,
    defined by well-founded recursion on the number, and [parse36] reads
    its digits back.  Two identifiers with random parts of the same
    length are equal only if both parts and the clock are
    ([generateId_inj]); without a separator between the parts, a shorter
    random part can collide with a longer one
    ([generateId_collision]). *)

From Equations Require Import Equations.
From S2P Require Import Prelude.
From S2P Require Import JsString.

#[local] Open Scope string_scope.

(** ** Definitions *)

(** The digit of a value below 36: [0-9] then [a-z]. *)
Definition digit36 (d : N) : ascii :=
  if (d <? 10)%N then ascii_of_N (48 + d) else ascii_of_N (87 + d).

(** The value of a digit. *)
Definition value36 (c : ascii) : option N :=
  let n := N_of_ascii c in
  if (48 <=? n)%N && (n <=? 57)%N then Some (n - 48)%N
  else if (97 <=? n)%N && (n <=? 122)%N then Some (n - 87)%N
  else None.

(** The digits of a natural number in base 36, most significant first.
    The measure is the length of the binary writing of the number, which
    a division by 36 shortens. *)
Equations? digits36 (n : N) : list ascii by wf (N.to_nat (N.log2 n)) lt :=
  digits36 n with decide (n < 36)%N := {
    | left _ := [digit36 n]
    | right _ := digits36 (n / 36) ++ [digit36 (n mod 36)] }.
Proof.
  assert (n / 36 <= n / 2)%N as H1 by (apply N.div_le_compat_l; lia).
  assert (0 < n / 2)%N as H2 by (apply N.div_str_pos; lia).
  pose proof (N.log2_double (n / 2) H2) as H3.
  pose proof (N.Div0.mul_div_le n 2) as H4.
  apply N.log2_le_mono in H1, H4. lia.
Qed.

(** [z.toString(36)] for an integer [z]. *)
Definition toString36 (z : Z) : string :=
  match z with
  | Z0 => "0"
  | Zpos p => text (digits36 (Npos p))
  | Zneg p => "-" +:+ text (digits36 (Npos p))
  end.

(** The number a list of digits denotes, read from the left. *)
Definition parse36 (l : list ascii) : option N :=
  foldl (fun acc c => a ← acc; v ← value36 c; Some (36 * a + v)%N) (Some 0%N) l.

(** [generateId], given the text [rnd] of [Math.random().toString(36)]
    and the clock. *)
Definition generateId (rnd : string) (now : Z) : string :=
  substr 2 9 rnd +:+ toString36 now.

(** ** Digits *)

Lemma value36_digit36 d : (d < 36)%N -> value36 (digit36 d) = Some d.
Proof.
  intros H. unfold value36, digit36.
  destruct (N.ltb_spec d 10).
  - rewrite N_ascii_embedding by lia.
    rewrite (proj2 (N.leb_le _ _)), (proj2 (N.leb_le _ _)) by lia.
    cbn. f_equal. lia.
  - rewrite N_ascii_embedding by lia.
    replace (48 <=? 87 + d)%N with true by (symmetry; apply N.leb_le; lia).
    replace (87 + d <=? 57)%N with false by (symmetry; apply N.leb_gt; lia).
    rewrite (proj2 (N.leb_le _ _)), (proj2 (N.leb_le _ _)) by lia.
    cbn. f_equal. lia.
Qed.

Lemma parse36_app l c :
  parse36 (l ++ [c]) = a ← parse36 l; v ← value36 c; Some (36 * a + v)%N.
Proof. unfold parse36. by rewrite foldl_app. Qed.

(** Reading the digits of a number gives the number. *)
Lemma parse36_digits36 n : parse36 (digits36 n) = Some n.
Proof.
  funelim (digits36 n).
  - cbn. rewrite value36_digit36 by done. cbn. f_equal; lia.
  - rewrite parse36_app.
    match goal with IH : parse36 _ = Some _ |- _ => rewrite IH end.
    cbn. rewrite value36_digit36 by (apply N.mod_lt; lia). cbn. f_equal.
    rewrite (N.div_mod n 36) at 3 by lia. lia.
Qed.

Lemma digits36_inj n m : digits36 n = digits36 m -> n = m.
Proof.
  intros H. apply (f_equal parse36) in H.
  rewrite !parse36_digits36 in H. by simplify_eq.
Qed.

Lemma digits36_nonempty n : digits36 n <> [].
Proof.
  funelim (digits36 n); [done|]. intros E. by apply app_eq_nil in E as [_ ?].
Qed.

(** ** Identifiers *)

Lemma substr_length s a n : String.length (substr a n s) <= n.
Proof. unfold substr. rewrite length_text, length_take. lia. Qed.

Lemma string_app_length s1 s2 :
  String.length (s1 +:+ s2) = String.length s1 + String.length s2.
Proof. by rewrite <- !length_chars, chars_app, length_app. Qed.

(** An identifier is the text of the clock in base 36 preceded by at
    most nine characters of the random text. *)
Lemma generateId_length rnd now :
  String.length (toString36 now) <= String.length (generateId rnd now)
    <= 9 + String.length (toString36 now).
Proof.
  unfold generateId. rewrite string_app_length.
  pose proof (substr_length rnd 2 9). lia.
Qed.

(** Every character of the writing of a number is a digit. *)
Lemma digits36_head n c l : digits36 n = c :: l -> is_Some (value36 c).
Proof.
  revert c l. funelim (digits36 n); intros c k Hk.
  - injection Hk as <- _. rewrite value36_digit36 by done. by eexists.
  - destruct (digits36 (n / 36)) as [|c' k'] eqn:E; [by apply digits36_nonempty in E|].
    injection Hk as -> _. eauto.
Qed.

(** Two integers with the same text in base 36 are equal. *)
Lemma toString36_inj z1 z2 : toString36 z1 = toString36 z2 -> z1 = z2.
Proof.
  assert (forall p, text (digits36 (Npos p)) <> "0") as H0.
  { intros p H. apply (f_equal chars) in H. rewrite chars_text in H.
    apply (f_equal parse36) in H. rewrite parse36_digits36 in H. done. }
  assert (forall p s, text (digits36 (Npos p)) <> "-" +:+ s) as Hm.
  { intros p s H. apply (f_equal chars) in H. rewrite chars_text in H.
    by apply digits36_head in H as [v Hv]. }
  destruct z1 as [|p1|p1], z2 as [|p2|p2]; cbn; intros H; try done.
  - symmetry in H. by apply H0 in H.
  - by apply H0 in H.
  - apply text_inj, digits36_inj in H. by simplify_eq.
  - by apply Hm in H.
  - symmetry in H. by apply Hm in H.
  - injection H as H. apply text_inj, digits36_inj in H. by simplify_eq.
Qed.

(** ** Identifiers *)

Lemma append_inj_length s1 s2 u1 u2 :
  String.length s1 = String.length s2 -> s1 +:+ u1 = s2 +:+ u2 -> s1 = s2 /\ u1 = u2.
Proof.
  intros Hl H. apply (f_equal chars) in H. rewrite !chars_app in H.
  apply app_inj_1 in H as [H1 H2]; [|by rewrite !length_chars].
  split; by apply chars_inj.
Qed.

(** C35. Two identifiers whose random parts have the same length, as they
    have when Math.random gives nine digits or more, are equal only if the
    random parts are equal and the clock is the same: a later report gets
    the identifier of an earlier one only through a repeated random number
    in the same millisecond. *)
Theorem generateId_inj rnd1 rnd2 now1 now2 :
  String.length (substr 2 9 rnd1) = String.length (substr 2 9 rnd2) ->
  generateId rnd1 now1 = generateId rnd2 now2 ->
  substr 2 9 rnd1 = substr 2 9 rnd2 /\ now1 = now2.
Proof.
  intros Hl H. apply append_inj_length in H as [H1 H2]; [|done].
  split; [done|]. by apply toString36_inj.
Qed.

(** Without the hypothesis on the lengths the conclusion fails: a short
    random part followed by a long clock reads as a longer random part
    followed by a shorter clock. *)
Example generateId_collision : generateId "0.a" 41 = generateId "0.a1" 5.
Proof. reflexivity. Qed.

(** ** Instances *)

Lemma generateId_inj_witness :
  substr 2 9 "0.4fzyo82mvyr" = substr 2 9 "0.4fzyo82mvzz" /\
  1700000000000%Z = 1700000000000%Z.
Proof. by apply generateId_inj. Defined.
