(* ===== verification/Analytics.v ===== *)
(** * Analytics: the data of the two charts

    [createResolutionChart] and [createCategoryChart] ([src/script.js],
    lines 504-595) build the configuration of a chart and hand it to the
    constructor [Chart] of the library.  This file holds the
    configuration as data ([Chart], [Dataset]) and the computations that
    fill it:

    - the object [categories] of line 563, with its property reads,
      writes and enumeration as JavaScript defines them: a read that
      finds no own property answers from [Object.prototype], a write to
      [__proto__] of a value that is not an object does nothing, and
      [Object.keys] lists the array indices first, in increasing order,
      and then the other keys in the order in which they were created;
    - the labels of the last seven days and the numbers drawn from
      [Math.random] of lines 516-523.

    The theorems relate the histogram to a reference definition
    ([first_seen] and [occurrences]) on the categories that are neither
    inherited names nor array indices, and show what happens on the
    others. *)

From stdpp Require Import gmap.
From S2P Require Import Prelude.
From S2P Require Import JsString.
From S2P Require Import Model.
From S2P Require Import Router.
From S2P Require Import Dashboard.
From S2P Require Import IdGen.

#[local] Open Scope string_scope.

(** ** Definitions *)

(** *** Charts *)

(** An element of a data array: a number, or the text that [+] gives
    when its left operand is not a number. *)
Inductive datum : Type :=
| Num (n : Z)
| Str (s : string).

#[export] Instance datum_eq_dec : EqDecision datum.
Proof. solve_decision. Defined.

(** [backgroundColor]: one colour, or one per segment. *)
Inductive colours : Type :=
| Colour (c : string)
| Colours (l : list string).

#[export] Instance colours_eq_dec : EqDecision colours.
Proof. solve_decision. Defined.

(** A dataset of the configuration; a field that the literal does not
    have is [None]. *)
Record Dataset : Type := mkDataset {
  ds_label : option string;
  ds_data : list datum;
  ds_borderColor : string;
  ds_backgroundColor : colours;
  ds_fill : option bool;
  ds_borderWidth : option Z
}.

#[export] Instance Dataset_eq_dec : EqDecision Dataset.
Proof. solve_decision. Defined.

(** The argument of [new Chart(ctx, ...)], with the canvas of [ctx]. *)
Record Chart : Type := mkChart {
  chart_canvas : string;
  chart_type : string;
  chart_labels : list string;
  chart_datasets : list Dataset;
  chart_responsive : bool;
  chart_maintainAspectRatio : bool;
  chart_legend : string;
  chart_beginAtZero : option bool
}.

#[export] Instance Chart_eq_dec : EqDecision Chart.
Proof. solve_decision. Defined.

(** *** The object [categories] (lines 563-566) *)

(** An object created by [{}]: its own properties in the order in which
    they were created. *)
Definition jsobj : Type := list (string * datum).

(** The own property [k]. *)
Fixpoint own (o : jsobj) (k : string) : option datum :=
  match o with
  | [] => None
  | (k', v) :: o' => if decide (k' = k) then Some v else own o' k
  end.

(** [o[k] = v] for a key that is not [__proto__]: the property keeps its
    place when it exists and is created last when it does not. *)
Fixpoint assign (o : jsobj) (k : string) (v : datum) : jsobj :=
  match o with
  | [] => [(k, v)]
  | (k', v') :: o' => if decide (k' = k) then (k', v) :: o' else (k', v') :: assign o' k v
  end.

(** [(o[k] || 0) + 1]: a number that is zero and the empty text are
    falsy; when [o] has no own property [k] the read answers from
    [Object.prototype], with a function or with the prototype itself, and
    [+] concatenates the text of that value and the text of 1. *)
Definition bump (o : jsobj) (k : string) : datum :=
  match own o k with
  | Some (Num n) => Num (n + 1)
  | Some (Str s) => if decide (s = "") then Num 1 else Str (s +:+ "1")
  | None =>
      match property_get ∅ k with
      | Some a => Str (assignee_text a +:+ "1")
      | None => Num 1
      end
  end.

(** The body of the loop of line 564.  The setter of [__proto__] ignores
    a value that is not an object. *)
Definition count_category (o : jsobj) (report : Report) : jsobj :=
  let k := category report in
  let v := bump o k in
  if decide (k = "__proto__") then o else assign o k v.

Definition category_counts (reports : list Report) : jsobj :=
  foldl count_category [] reports.

(** The number a text of decimal digits denotes. *)
Definition digit10 (c : ascii) : option N :=
  let n := N_of_ascii c in
  if (48 <=? n)%N && (n <=? 57)%N then Some (n - 48)%N else None.

Definition parse10 (s : string) : option N :=
  foldl (fun acc c => a ← acc; v ← digit10 c; Some (10 * a + v)%N) (Some 0%N)
        (list_ascii_of_string s).

(** An array index: the canonical text of an integer below 2^32 - 1. *)
Definition array_index (k : string) : option N :=
  n ← parse10 k;
  if decide (Z_to_string (Z.of_N n) = k /\ (n < 4294967295)%N) then Some n else None.

(** [Object.keys(o)]: the array indices in increasing order, then the
    other keys in the order of their creation. *)
Definition own_keys (o : jsobj) : list string :=
  (sort_by (fun a b => (a.1 <? b.1)%N)
           (omap (fun p => n ← array_index p.1; Some (n, p.1)) o)).*2 ++
  filter (fun k => array_index k = None) o.*1.

(** [Object.values(o)]. *)
Definition own_values (o : jsobj) : list datum := omap (own o) (own_keys o).

(** *** createCategoryChart (lines 558-595) *)

Definition colors : list string :=
  ["#3b82f6"; "#10b981"; "#f59e0b"; "#ef4444"; "#8b5cf6"; "#06b6d4"; "#84cc16"; "#f97316"].

(** The configuration that [createCategoryChart] gives to [Chart]. *)
Definition category_chart (reports : list Report) : Chart :=
  let categories := category_counts reports in
  let labels := formatCategory <$> own_keys categories in
  let data := own_values categories in
  {| chart_canvas := "categoryChart";
     chart_type := "doughnut";
     chart_labels := labels;
     chart_datasets :=
       [{| ds_label := None; ds_data := data; ds_borderColor := "#ffffff";
           ds_backgroundColor := Colours (take (length labels) colors);
           ds_fill := None; ds_borderWidth := Some 2%Z |}];
     chart_responsive := true;
     chart_maintainAspectRatio := false;
     chart_legend := "bottom";
     chart_beginAtZero := None |}.

(** *** createResolutionChart (lines 504-556) *)

Definition weekdays : list string := ["Sun"; "Mon"; "Tue"; "Wed"; "Thu"; "Fri"; "Sat"].

(** [toLocaleDateString('en-US', { weekday: 'short' })] of the day [i]
    days before the day of the time stamp [t], for a browser whose time
    zone is UTC: the first of January 1970 was a Thursday. *)
Definition weekday_before (t : Z) (i : Z) : string :=
  nth (Z.to_nat ((t / 86400000 - i + 4) mod 7)) weekdays "".

(** [Math.floor(r * k)] for the number [r] that the text of
    [r.toString(36)] denotes: the digits after the point, read in base
    36. *)
Definition random_floor (k : Z) (r : string) : Z :=
  let digits := list_ascii_of_string (substr 2 (String.length r) r) in
  match parse36 digits with
  | Some n => (k * Z.of_N n) / 36 ^ Z.of_nat (length digits)
  | None => 0
  end.

(** The days of the loop of line 516: [i] from 6 down to 0. *)
Definition chart_days : list Z := [6; 5; 4; 3; 2; 1; 0]%Z.

(** The configuration that [createResolutionChart] gives to [Chart],
    from the label and the two numbers of each day. *)
Definition resolution_chart (rows : list (string * Z * Z)) : Chart :=
  {| chart_canvas := "resolutionChart";
     chart_type := "line";
     chart_labels := (fun row => row.1.1) <$> rows;
     chart_datasets :=
       [{| ds_label := Some "Submitted"; ds_data := (fun row => Num row.1.2) <$> rows;
           ds_borderColor := "#3b82f6";
           ds_backgroundColor := Colour "rgba(59, 130, 246, 0.1)";
           ds_fill := Some true; ds_borderWidth := None |};
        {| ds_label := Some "Resolved"; ds_data := (fun row => Num row.2) <$> rows;
           ds_borderColor := "#10b981";
           ds_backgroundColor := Colour "rgba(16, 185, 129, 0.1)";
           ds_fill := Some true; ds_borderWidth := None |}];
     chart_responsive := true;
     chart_maintainAspectRatio := false;
     chart_legend := "top";
     chart_beginAtZero := Some true |}.

(** *** The reference *)

(** The distinct elements of a list, in the order in which they first
    occur. *)
Fixpoint first_seen (l : list string) : list string :=
  match l with
  | [] => []
  | x :: l' => x :: filter (fun y => y <> x) (first_seen l')
  end.

(** How many times [c] occurs. *)
Definition occurrences (c : string) (l : list string) : Z :=
  Z.of_nat (length (filter (fun x => x = c) l)).

(** The key is neither answered by [Object.prototype] nor an array
    index: every category of the form of the page is. *)
Definition plain (k : string) : Prop := (k ∉ inherited_names) /\ (array_index k = None).

#[export] Instance plain_dec k : Decision (plain k).
Proof. unfold plain. apply _. Defined.

(** The sum of the numbers of a data array. *)
Definition data_sum (data : list datum) : Z :=
  foldr (fun d acc => match d with Num n => (n + acc)%Z | Str _ => acc end) 0%Z data.

(** The object that the reference describes. *)
Definition histogram (l : list string) : jsobj :=
  (fun c => (c, Num (occurrences c l))) <$> first_seen l.

(** A report of the category [c], for the examples. *)
Definition report_of (c : string) : Report :=
  {| oid := 0; id := ""; title := ""; category := c; priority := ""; location := "";
     description := ""; evidence := None; isPublic := true; isAnonymous := false;
     submittedBy := None; submittedAt := 0; status := "submitted"; timeline := [];
     assignedTo := None; routedAt := None; isDraft := false; savedAt := None |}.

(** * Lemmas *)

(** ** Properties of an object *)

Lemma own_assign o k v : own (assign o k v) k = Some v.
Proof.
  induction o as [|[k' v'] o IH]; cbn; [by rewrite decide_True|].
  destruct (decide (k' = k)) as [-> |Hne]; cbn; [by rewrite decide_True|].
  by rewrite decide_False.
Qed.

Lemma own_assign_ne o k v k' : k' <> k -> own (assign o k v) k' = own o k'.
Proof.
  intros Hne. induction o as [|[k0 v0] o IH]; cbn; [by rewrite decide_False|].
  destruct (decide (k0 = k)) as [-> |Hk]; cbn.
  - by rewrite !decide_False.
  - destruct (decide (k0 = k')); [done | exact IH].
Qed.

(** An assignment creates the property last or leaves the keys as they
    are. *)
Lemma assign_keys o k v :
  (assign o k v).*1 = if decide (k ∈ o.*1) then o.*1 else (o.*1 ++ [k])%list.
Proof.
  induction o as [|[k' v'] o IH]; cbn; [by rewrite decide_False by apply not_elem_of_nil|].
  destruct (decide (k' = k)) as [-> |Hne]; cbn.
  - rewrite decide_True; [done | left].
  - rewrite IH. destruct (decide (k ∈ o.*1)) as [Hin|Hin].
    + rewrite decide_True; [done | by right].
    + rewrite decide_False; [done|]. intros [E|?]%elem_of_cons; [congruence | done].
Qed.

Lemma own_None o k : own o k = None <-> k ∉ o.*1.
Proof.
  induction o as [|[k' v'] o IH]; cbn; [split; [intros _; apply not_elem_of_nil | done]|].
  destruct (decide (k' = k)) as [-> |Hne].
  - split; [done|]. intros []. left.
  - rewrite IH, not_elem_of_cons. naive_solver.
Qed.

(** ** The reference *)

Lemma elem_of_first_seen l x : x ∈ first_seen l <-> x ∈ l.
Proof.
  induction l as [|y l IH]; [done|]. cbn.
  rewrite !elem_of_cons, list_elem_of_filter, IH.
  destruct (decide (x = y)); naive_solver.
Qed.

Lemma NoDup_first_seen l : NoDup (first_seen l).
Proof.
  induction l as [|y l IH]; cbn; [constructor|].
  apply NoDup_cons. split; [|by apply NoDup_filter].
  by intros [? _]%list_elem_of_filter.
Qed.

(** The elements are listed in the order in which they first occur. *)
Lemma first_seen_snoc l k :
  first_seen (l ++ [k]) = if decide (k ∈ l) then first_seen l else (first_seen l ++ [k])%list.
Proof.
  induction l as [|x l IH]; [done|]. cbn. rewrite IH.
  destruct (decide (k ∈ l)) as [Hin|Hin].
  - rewrite decide_True; [done | by right].
  - rewrite filter_app. destruct (decide (k = x)) as [-> |Hne].
    + rewrite (decide_True (P := x ∈ x :: l)) by left.
      rewrite filter_cons_False by naive_solver. by rewrite filter_nil, app_nil_r.
    + rewrite (decide_False (P := k ∈ x :: l)) by (intros [?|?]%elem_of_cons; done).
      by rewrite filter_cons_True, filter_nil.
Qed.

Lemma occurrences_snoc c l k :
  occurrences c (l ++ [k]) = (occurrences c l + if decide (k = c) then 1 else 0)%Z.
Proof.
  unfold occurrences. rewrite filter_app, length_app.
  destruct (decide (k = c));
    [rewrite filter_cons_True by done | rewrite filter_cons_False by done]; cbn; lia.
Qed.

Lemma occurrences_notin c l : c ∉ l -> occurrences c l = 0%Z.
Proof.
  induction l as [|x l IH]; [done|]. intros [Hne Hin]%not_elem_of_cons.
  unfold occurrences in *. rewrite filter_cons_False by congruence. by apply IH.
Qed.

(** ** The histogram *)

Lemma own_histogram l k :
  own (histogram l) k = if decide (k ∈ l) then Some (Num (occurrences k l)) else None.
Proof.
  unfold histogram. rewrite <- (decide_ext _ _ _ _ (elem_of_first_seen l k)).
  induction (first_seen l) as [|c ks IH]; cbn; [done|].
  destruct (decide (c = k)) as [-> |Hne].
  - rewrite decide_True; [done | left].
  - rewrite IH. destruct (decide (k ∈ ks)) as [Hin|Hin].
    + rewrite decide_True; [done | by right].
    + rewrite decide_False; [done|]. intros [?|?]%elem_of_cons; done.
Qed.

(** Assigning to a key of a table changes its line, or adds one. *)
Lemma assign_fmap_hit (f : string -> datum) ks k v :
  NoDup ks -> k ∈ ks ->
  assign ((fun c => (c, f c)) <$> ks) k v =
  (fun c => (c, if decide (c = k) then v else f c)) <$> ks.
Proof.
  induction ks as [|c ks IH]; intros Hnd Hin; [by apply elem_of_nil in Hin|].
  apply NoDup_cons in Hnd as [Hc Hnd]. cbn. destruct (decide (c = k)) as [-> |Hne].
  - f_equal. apply list_fmap_ext. intros i c Hi. rewrite decide_False; [done|].
    intros ->. by apply list_elem_of_lookup_2 in Hi.
  - f_equal. apply IH; [done|]. by apply elem_of_cons in Hin as [?|?].
Qed.

Lemma assign_fmap_miss (f : string -> datum) ks k v :
  k ∉ ks ->
  assign ((fun c => (c, f c)) <$> ks) k v = (((fun c => (c, f c)) <$> ks) ++ [(k, v)])%list.
Proof.
  induction ks as [|c ks IH]; intros Hin; [done|].
  apply not_elem_of_cons in Hin as [Hne Hin]. cbn.
  rewrite decide_False by done. by rewrite IH.
Qed.

Lemma property_get_plain k : k ∉ inherited_names -> property_get ∅ k = None.
Proof.
  intros [Hne Hk]%not_elem_of_cons. unfold property_get.
  rewrite lookup_empty, decide_False by done.
  destruct (object_prototype !! k) eqn:E; [|done].
  destruct Hk. apply object_prototype_dom. by eexists.
Qed.

(** One more report of a category that [Object.prototype] does not
    answer for. *)
Lemma histogram_snoc l k :
  k ∉ inherited_names ->
  assign (histogram l) k (bump (histogram l) k) = histogram (l ++ [k]).
Proof.
  intros Hk. unfold bump. rewrite own_histogram. unfold histogram.
  rewrite first_seen_snoc. destruct (decide (k ∈ l)) as [Hin|Hin].
  - rewrite assign_fmap_hit by (by apply NoDup_first_seen || by apply elem_of_first_seen).
    apply list_fmap_ext. intros i c _. rewrite occurrences_snoc.
    destruct (decide (c = k)) as [-> |Hne]; [by rewrite decide_True|].
    rewrite decide_False by done. by rewrite Z.add_0_r.
  - rewrite property_get_plain by done.
    rewrite assign_fmap_miss by (by rewrite elem_of_first_seen).
    rewrite fmap_app. cbn. rewrite occurrences_snoc, occurrences_notin, decide_True by done.
    f_equal. apply list_fmap_ext. intros i c Hc%list_elem_of_lookup_2.
    rewrite elem_of_first_seen in Hc.
    rewrite occurrences_snoc, decide_False; [by rewrite Z.add_0_r|]. by intros ->.
Qed.

Lemma category_counts_snoc rs r :
  category_counts (rs ++ [r]) = count_category (category_counts rs) r.
Proof. unfold category_counts. by rewrite foldl_app. Qed.

(** On the categories that [Object.prototype] does not answer for, the
    object [categories] is the histogram. *)
Lemma category_counts_histogram rs :
  Forall (fun k => k ∉ inherited_names) (category <$> rs) ->
  category_counts rs = histogram (category <$> rs).
Proof.
  induction rs as [|r rs IH] using rev_ind; intros H; [done|].
  rewrite fmap_app in H. apply Forall_app in H as [H Hr]. cbn in Hr.
  rewrite Forall_singleton in Hr.
  rewrite category_counts_snoc, IH, fmap_app by done. unfold count_category.
  rewrite decide_False by (intros E; apply Hr; rewrite E; left).
  by apply histogram_snoc.
Qed.

(** ** Enumeration *)

Lemma omap_None {A B} (f : A -> option B) l : Forall (fun x => f x = None) l -> omap f l = [].
Proof. induction 1 as [|x l Hx _ IH]; cbn; [done|]. by rewrite Hx. Qed.

Lemma omap_Some {A B} (f : A -> option B) (g : A -> B) l :
  Forall (fun x => f x = Some (g x)) l -> omap f l = g <$> l.
Proof. induction 1 as [|x l Hx _ IH]; cbn; [done|]. by rewrite Hx, IH. Qed.

(** Without array indices the keys come in the order of their creation. *)
Lemma own_keys_plain (o : jsobj) :
  Forall (fun k => array_index k = None) o.*1 -> own_keys o = o.*1.
Proof.
  intros H. unfold own_keys. rewrite omap_None.
  - cbn. induction H as [|k ks Hk _ IH]; [done|]. by rewrite filter_cons_True, IH.
  - apply Forall_fmap in H. eapply Forall_impl; [exact H|]. intros p Hp. cbn in *. by rewrite Hp.
Qed.

Lemma histogram_keys l : (histogram l).*1 = first_seen l.
Proof. unfold histogram. rewrite <- list_fmap_compose. apply list_fmap_id. Qed.

Lemma own_keys_histogram l :
  Forall plain l -> own_keys (histogram l) = first_seen l.
Proof.
  intros H. rewrite own_keys_plain; [apply histogram_keys|]. rewrite histogram_keys.
  apply Forall_forall. intros k Hk. rewrite elem_of_first_seen in Hk.
  eapply Forall_forall in H; [|done]. apply H.
Qed.

Lemma own_values_histogram l :
  Forall plain l ->
  own_values (histogram l) = (fun c => Num (occurrences c l)) <$> first_seen l.
Proof.
  intros H. unfold own_values. rewrite own_keys_histogram by done.
  apply omap_Some, Forall_forall. intros k Hk. rewrite elem_of_first_seen in Hk.
  by rewrite own_histogram, decide_True.
Qed.

(** ** Sums *)

Lemma data_sum_num n d : data_sum (Num n :: d) = (n + data_sum d)%Z.
Proof. done. Qed.

Lemma data_sum_add (f g : string -> Z) ks :
  data_sum ((fun c => Num (f c + g c)) <$> ks) =
  (data_sum ((fun c => Num (f c)) <$> ks) + data_sum ((fun c => Num (g c)) <$> ks))%Z.
Proof.
  induction ks as [|c ks IH]; [done|]. rewrite !fmap_cons, !data_sum_num, IH. lia.
Qed.

(** A key is counted once. *)
Lemma data_sum_indicator (k : string) (ks : list string) :
  NoDup ks ->
  data_sum ((fun c => Num (if decide (k = c) then 1 else 0)) <$> ks) =
  if decide (k ∈ ks) then 1%Z else 0%Z.
Proof.
  induction 1 as [|c ks Hc _ IH]; [done|]. rewrite fmap_cons, data_sum_num, IH.
  destruct (decide (k = c)) as [-> |Hne].
  - rewrite (decide_True (P := c ∈ c :: ks)) by left. by rewrite decide_False.
  - destruct (decide (k ∈ ks)) as [Hin|Hin].
    + rewrite decide_True; [done | by right].
    + rewrite decide_False; [done|]. intros [?|?]%elem_of_cons; done.
Qed.

Lemma data_sum_app d1 d2 : data_sum (d1 ++ d2) = (data_sum d1 + data_sum d2)%Z.
Proof.
  induction d1 as [|[n|s] d1 IH]; [done|..]; rewrite <- app_comm_cons;
    [rewrite !data_sum_num, IH; lia | exact IH].
Qed.

Lemma histogram_sum l :
  data_sum ((fun c => Num (occurrences c l)) <$> first_seen l) = Z.of_nat (length l).
Proof.
  induction l as [|k l IH] using rev_ind; [done|].
  rewrite first_seen_snoc, length_app. cbn [length].
  rewrite (list_fmap_ext _ (fun c => Num (occurrences c l + if decide (k = c) then 1 else 0)))
    by (intros; by rewrite occurrences_snoc).
  destruct (decide (k ∈ l)) as [Hin|Hin].
  - rewrite data_sum_add, IH, data_sum_indicator by apply NoDup_first_seen.
    rewrite decide_True by (by apply elem_of_first_seen). lia.
  - rewrite fmap_app, data_sum_app, data_sum_add, IH, data_sum_indicator
      by apply NoDup_first_seen.
    rewrite decide_False by (by rewrite elem_of_first_seen). cbn.
    rewrite occurrences_notin, decide_True by done. lia.
Qed.

(** ** Random numbers *)

Lemma value36_lt c v : value36 c = Some v -> (v < 36)%N.
Proof.
  unfold value36. intros H.
  destruct (_ && _) eqn:E1 in H.
  - injection H as <-. apply andb_prop in E1 as [_ E%N.leb_le]. lia.
  - destruct (_ && _) eqn:E2 in H; [|done]. injection H as <-.
    apply andb_prop in E2 as [_ E%N.leb_le]. lia.
Qed.

(** The digits after the point denote a number below one. *)
Lemma parse36_lt l n : parse36 l = Some n -> (n < 36 ^ N.of_nat (length l))%N.
Proof.
  revert n. induction l as [|c l IH] using rev_ind; intros n H.
  - injection H as <-. cbn. lia.
  - rewrite parse36_app in H. destruct (parse36 l) as [a|]; [|done]. cbn in H.
    destruct (value36 c) as [v|] eqn:Ev; [|done]. injection H as <-.
    apply value36_lt in Ev. specialize (IH a eq_refl).
    rewrite length_app, Nat2N.inj_add, N.pow_add_r. cbn. nia.
Qed.

Lemma random_floor_bounds k r : (0 < k)%Z -> (0 <= random_floor k r < k)%Z.
Proof.
  intros Hk. unfold random_floor.
  destruct (parse36 _) as [n|] eqn:E; [|lia].
  apply parse36_lt, N2Z.inj_lt in E. rewrite N2Z.inj_pow, nat_N_Z in E.
  split; [apply Z.div_pos; lia|]. apply Z.div_lt_upper_bound; nia.
Qed.

(** ** The category chart *)

(** C39. When no category is a name that object literals inherit or an
    array index, the chart of createCategoryChart is the histogram of the
    categories: its labels are the formatted distinct categories in the
    order in which they first occur among the reports, and its data are
    the numbers of reports of each. *)
Theorem category_chart_histogram rs :
  Forall plain (category <$> rs) ->
  chart_labels (category_chart rs) = formatCategory <$> first_seen (category <$> rs) /\
  ds_data <$> chart_datasets (category_chart rs) =
    [(fun c => Num (occurrences c (category <$> rs))) <$> first_seen (category <$> rs)].
Proof.
  intros H. unfold category_chart. cbn.
  rewrite category_counts_histogram by (eapply Forall_impl; [exact H|]; by intros k [? _]).
  by rewrite own_keys_histogram, own_values_histogram.
Qed.

Lemma category_chart_histogram_witness :
  chart_labels (category_chart (report_of <$> ["environment"; "other"; "environment"])) =
  formatCategory <$> first_seen ["environment"; "other"; "environment"].
Proof.
  exact (proj1 (category_chart_histogram
                  (report_of <$> ["environment"; "other"; "environment"])
                  ltac:(compute_done))).
Defined.

(** On such reports the numbers of the chart add up to the number of
    reports: every report is in one segment. *)
Theorem category_chart_total rs :
  Forall plain (category <$> rs) ->
  data_sum (own_values (category_counts rs)) = Z.of_nat (length rs).
Proof.
  intros H.
  rewrite category_counts_histogram by (eapply Forall_impl; [exact H|]; by intros k [? _]).
  by rewrite own_values_histogram, histogram_sum, length_fmap.
Qed.

Lemma category_chart_total_witness :
  data_sum (own_values (category_counts (report_of <$> ["environment"; "other"]))) = 2%Z.
Proof.
  exact (category_chart_total (report_of <$> ["environment"; "other"]) ltac:(compute_done)).
Defined.

(** A category that is the name of a property of Object.prototype
    is not counted: for constructor the segment holds the text of a
    function followed by 1 for each report, and a report of the category
    __proto__ is in no segment.  A category that is an array index comes
    first. *)
Example category_chart_inherited :
  let c := category_chart (report_of <$> ["other"; "constructor"; "__proto__"; "7";
                                          "constructor"]) in
  chart_labels c = ["7"; "Other"; "Constructor"] /\
  ds_data <$> chart_datasets c =
    [[Num 1; Num 1; Str "function Object() { [native code] }11"]].
Proof. by vm_compute. Qed.

(** The segments of the category chart have a colour each exactly
    when there are at most eight categories: the list of colours is cut
    to the number of labels and has eight entries. *)
Theorem category_chart_colours rs cs :
  ds_backgroundColor <$> chart_datasets (category_chart rs) = [Colours cs] ->
  length cs = length (chart_labels (category_chart rs)) <->
  length (chart_labels (category_chart rs)) <= 8.
Proof. cbn. intros [= <-]. rewrite length_take. cbn. lia. Qed.

Lemma category_chart_colours_witness :
  length (take 2 colors) = 2 <-> 2 <= 8.
Proof.
  exact (category_chart_colours (report_of <$> ["environment"; "other"]) (take 2 colors)
           eq_refl).
Defined.
