(* ===== verification/World.v ===== *)
(** * World: the state the handlers run in

    The fields of the class instance ([src/script.js], lines 5-14) and the
    parts of the browser the methods read and write:

    - [currentUser]: [this.currentUser];
    - [isOffline]: [this.isOffline];
    - [reports]: [this.reports];
    - [drafts]: [this.drafts];
    - [dom]: the elements of the document that have an id;
    - [page]: the elements as the page was loaded, which [form.reset()] restores;
    - [body_classes]: [document.body.classList];
    - [navItems]: the navigation items: their [data-section] and whether they are active;
    - [localStorage]: the entry [civicConnectData] of [localStorage];
    - [timers]: the pending [setTimeout] callbacks with the time they are due, in the order they were set;
    - [clock]: the clock, in milliseconds;
    - [random]: the texts [Math.random().toString(36)] will return;
    - [online]: [navigator.onLine];
    - [next_oid]: the next object identity;
    - [next_node]: the next notification node;
    - [notifications]: the notification nodes shown;
    - [recentActivity]: what [#recentActivity] shows;
    - [reportsView]: what [#reportsContainer] shows;
    - [console]: the messages written to the console;
    - [charts]: the charts given to the constructor [Chart], in the order of the calls;
    - [reloaded]: [location.reload()] was called: the page is gone;

    and the primitives the methods are written with: reading the clock,
    [document.getElementById], property reads and writes on an element
    (a [TypeError] when the element is missing), [setTimeout],
    [Math.random] and the console.  The fields [analytics] and
    [stakeholders] of the class are never read and are left out. *)

From stdpp Require Import gmap.
From S2P Require Import Prelude.
From S2P Require Import JsString.
From S2P Require Import Model.
From S2P Require Import Json.
From S2P Require Import Dashboard.
From S2P Require Import Analytics.

#[local] Open Scope string_scope.
#[local] Open Scope js_scope.

(** ** Elements *)

Record Element : Type := mkElement {
  value : string;
  checked : bool;
  textContent : string;
  files : list File;
  classList : list string
}.

Definition set_value (v : string) (e : Element) : Element :=
  {| value := v; checked := checked e; textContent := textContent e;
     files := files e; classList := classList e |}.
Definition set_checked (v : bool) (e : Element) : Element :=
  {| value := value e; checked := v; textContent := textContent e;
     files := files e; classList := classList e |}.
Definition set_textContent (v : string) (e : Element) : Element :=
  {| value := value e; checked := checked e; textContent := v;
     files := files e; classList := classList e |}.
Definition set_classList (v : list string) (e : Element) : Element :=
  {| value := value e; checked := checked e; textContent := textContent e;
     files := files e; classList := v |}.

(** [classList.add(c)] and [classList.remove(c)]. *)
Definition class_add (c : string) (l : list string) : list string :=
  if bool_decide (c ∈ l) then l else (l ++ [c])%list.
Definition class_remove (c : string) (l : list string) : list string :=
  filter (fun x => x <> c) l.
(** [classList.toggle(c, force)]. *)
Definition class_toggle (c : string) (force : bool) (l : list string) : list string :=
  if force then class_add c l else class_remove c l.

(** ** Timers, notifications, storage *)

(** The callbacks given to [setTimeout]: line 238 (with the id of the
    report), line 287 (with the report object), line 1067, line 807 and
    line 918 (with the node). *)
Inductive Task : Type :=
| TaskUnderReview (reportId : string)
| TaskAdvance (report : nat)
| TaskSimulate
| TaskShowRegistration
| TaskRemoveNotification (node : nat).

Record Notification : Type := mkNotification {
  n_type : string;
  n_title : string;
  n_message : string
}.

(** What the storage entry holds: a text that [JSON.parse] reads as a
    tree, or one it rejects. *)
Inductive Stored : Type :=
| StoredJson (j : json)
| StoredGarbage (s : string).

(** ** The world *)

Record World : Type := mkWorld {
  currentUser : option User;
  isOffline : bool;
  reports : list Report;
  drafts : list Report;
  dom : gmap string Element;
  page : gmap string Element;
  body_classes : list string;
  navItems : list (string * bool);
  localStorage : option Stored;
  timers : list (Z * Task);
  clock : Z;
  random : list string;
  online : bool;
  next_oid : nat;
  next_node : nat;
  notifications : list (nat * Notification);
  recentActivity : option (list ActivityRow);
  reportsView : option ReportsView;
  console : list string;
  charts : list Chart;
  reloaded : bool
}.

Definition set_currentUser (v : option User) (w : World) : World :=
  {| currentUser := v;
     isOffline := isOffline w;
     reports := reports w;
     drafts := drafts w;
     dom := dom w;
     page := page w;
     body_classes := body_classes w;
     navItems := navItems w;
     localStorage := localStorage w;
     timers := timers w;
     clock := clock w;
     random := random w;
     online := online w;
     next_oid := next_oid w;
     next_node := next_node w;
     notifications := notifications w;
     recentActivity := recentActivity w;
     reportsView := reportsView w;
     console := console w;
     charts := charts w;
     reloaded := reloaded w |}.

Definition set_isOffline (v : bool) (w : World) : World :=
  {| currentUser := currentUser w;
     isOffline := v;
     reports := reports w;
     drafts := drafts w;
     dom := dom w;
     page := page w;
     body_classes := body_classes w;
     navItems := navItems w;
     localStorage := localStorage w;
     timers := timers w;
     clock := clock w;
     random := random w;
     online := online w;
     next_oid := next_oid w;
     next_node := next_node w;
     notifications := notifications w;
     recentActivity := recentActivity w;
     reportsView := reportsView w;
     console := console w;
     charts := charts w;
     reloaded := reloaded w |}.

Definition set_reports (v : list Report) (w : World) : World :=
  {| currentUser := currentUser w;
     isOffline := isOffline w;
     reports := v;
     drafts := drafts w;
     dom := dom w;
     page := page w;
     body_classes := body_classes w;
     navItems := navItems w;
     localStorage := localStorage w;
     timers := timers w;
     clock := clock w;
     random := random w;
     online := online w;
     next_oid := next_oid w;
     next_node := next_node w;
     notifications := notifications w;
     recentActivity := recentActivity w;
     reportsView := reportsView w;
     console := console w;
     charts := charts w;
     reloaded := reloaded w |}.

Definition set_drafts (v : list Report) (w : World) : World :=
  {| currentUser := currentUser w;
     isOffline := isOffline w;
     reports := reports w;
     drafts := v;
     dom := dom w;
     page := page w;
     body_classes := body_classes w;
     navItems := navItems w;
     localStorage := localStorage w;
     timers := timers w;
     clock := clock w;
     random := random w;
     online := online w;
     next_oid := next_oid w;
     next_node := next_node w;
     notifications := notifications w;
     recentActivity := recentActivity w;
     reportsView := reportsView w;
     console := console w;
     charts := charts w;
     reloaded := reloaded w |}.

Definition set_dom (v : gmap string Element) (w : World) : World :=
  {| currentUser := currentUser w;
     isOffline := isOffline w;
     reports := reports w;
     drafts := drafts w;
     dom := v;
     page := page w;
     body_classes := body_classes w;
     navItems := navItems w;
     localStorage := localStorage w;
     timers := timers w;
     clock := clock w;
     random := random w;
     online := online w;
     next_oid := next_oid w;
     next_node := next_node w;
     notifications := notifications w;
     recentActivity := recentActivity w;
     reportsView := reportsView w;
     console := console w;
     charts := charts w;
     reloaded := reloaded w |}.

Definition set_page (v : gmap string Element) (w : World) : World :=
  {| currentUser := currentUser w;
     isOffline := isOffline w;
     reports := reports w;
     drafts := drafts w;
     dom := dom w;
     page := v;
     body_classes := body_classes w;
     navItems := navItems w;
     localStorage := localStorage w;
     timers := timers w;
     clock := clock w;
     random := random w;
     online := online w;
     next_oid := next_oid w;
     next_node := next_node w;
     notifications := notifications w;
     recentActivity := recentActivity w;
     reportsView := reportsView w;
     console := console w;
     charts := charts w;
     reloaded := reloaded w |}.

Definition set_body_classes (v : list string) (w : World) : World :=
  {| currentUser := currentUser w;
     isOffline := isOffline w;
     reports := reports w;
     drafts := drafts w;
     dom := dom w;
     page := page w;
     body_classes := v;
     navItems := navItems w;
     localStorage := localStorage w;
     timers := timers w;
     clock := clock w;
     random := random w;
     online := online w;
     next_oid := next_oid w;
     next_node := next_node w;
     notifications := notifications w;
     recentActivity := recentActivity w;
     reportsView := reportsView w;
     console := console w;
     charts := charts w;
     reloaded := reloaded w |}.

Definition set_navItems (v : list (string * bool)) (w : World) : World :=
  {| currentUser := currentUser w;
     isOffline := isOffline w;
     reports := reports w;
     drafts := drafts w;
     dom := dom w;
     page := page w;
     body_classes := body_classes w;
     navItems := v;
     localStorage := localStorage w;
     timers := timers w;
     clock := clock w;
     random := random w;
     online := online w;
     next_oid := next_oid w;
     next_node := next_node w;
     notifications := notifications w;
     recentActivity := recentActivity w;
     reportsView := reportsView w;
     console := console w;
     charts := charts w;
     reloaded := reloaded w |}.

Definition set_localStorage (v : option Stored) (w : World) : World :=
  {| currentUser := currentUser w;
     isOffline := isOffline w;
     reports := reports w;
     drafts := drafts w;
     dom := dom w;
     page := page w;
     body_classes := body_classes w;
     navItems := navItems w;
     localStorage := v;
     timers := timers w;
     clock := clock w;
     random := random w;
     online := online w;
     next_oid := next_oid w;
     next_node := next_node w;
     notifications := notifications w;
     recentActivity := recentActivity w;
     reportsView := reportsView w;
     console := console w;
     charts := charts w;
     reloaded := reloaded w |}.

Definition set_timers (v : list (Z * Task)) (w : World) : World :=
  {| currentUser := currentUser w;
     isOffline := isOffline w;
     reports := reports w;
     drafts := drafts w;
     dom := dom w;
     page := page w;
     body_classes := body_classes w;
     navItems := navItems w;
     localStorage := localStorage w;
     timers := v;
     clock := clock w;
     random := random w;
     online := online w;
     next_oid := next_oid w;
     next_node := next_node w;
     notifications := notifications w;
     recentActivity := recentActivity w;
     reportsView := reportsView w;
     console := console w;
     charts := charts w;
     reloaded := reloaded w |}.

Definition set_clock (v : Z) (w : World) : World :=
  {| currentUser := currentUser w;
     isOffline := isOffline w;
     reports := reports w;
     drafts := drafts w;
     dom := dom w;
     page := page w;
     body_classes := body_classes w;
     navItems := navItems w;
     localStorage := localStorage w;
     timers := timers w;
     clock := v;
     random := random w;
     online := online w;
     next_oid := next_oid w;
     next_node := next_node w;
     notifications := notifications w;
     recentActivity := recentActivity w;
     reportsView := reportsView w;
     console := console w;
     charts := charts w;
     reloaded := reloaded w |}.

Definition set_random (v : list string) (w : World) : World :=
  {| currentUser := currentUser w;
     isOffline := isOffline w;
     reports := reports w;
     drafts := drafts w;
     dom := dom w;
     page := page w;
     body_classes := body_classes w;
     navItems := navItems w;
     localStorage := localStorage w;
     timers := timers w;
     clock := clock w;
     random := v;
     online := online w;
     next_oid := next_oid w;
     next_node := next_node w;
     notifications := notifications w;
     recentActivity := recentActivity w;
     reportsView := reportsView w;
     console := console w;
     charts := charts w;
     reloaded := reloaded w |}.

Definition set_online (v : bool) (w : World) : World :=
  {| currentUser := currentUser w;
     isOffline := isOffline w;
     reports := reports w;
     drafts := drafts w;
     dom := dom w;
     page := page w;
     body_classes := body_classes w;
     navItems := navItems w;
     localStorage := localStorage w;
     timers := timers w;
     clock := clock w;
     random := random w;
     online := v;
     next_oid := next_oid w;
     next_node := next_node w;
     notifications := notifications w;
     recentActivity := recentActivity w;
     reportsView := reportsView w;
     console := console w;
     charts := charts w;
     reloaded := reloaded w |}.

Definition set_next_oid (v : nat) (w : World) : World :=
  {| currentUser := currentUser w;
     isOffline := isOffline w;
     reports := reports w;
     drafts := drafts w;
     dom := dom w;
     page := page w;
     body_classes := body_classes w;
     navItems := navItems w;
     localStorage := localStorage w;
     timers := timers w;
     clock := clock w;
     random := random w;
     online := online w;
     next_oid := v;
     next_node := next_node w;
     notifications := notifications w;
     recentActivity := recentActivity w;
     reportsView := reportsView w;
     console := console w;
     charts := charts w;
     reloaded := reloaded w |}.

Definition set_next_node (v : nat) (w : World) : World :=
  {| currentUser := currentUser w;
     isOffline := isOffline w;
     reports := reports w;
     drafts := drafts w;
     dom := dom w;
     page := page w;
     body_classes := body_classes w;
     navItems := navItems w;
     localStorage := localStorage w;
     timers := timers w;
     clock := clock w;
     random := random w;
     online := online w;
     next_oid := next_oid w;
     next_node := v;
     notifications := notifications w;
     recentActivity := recentActivity w;
     reportsView := reportsView w;
     console := console w;
     charts := charts w;
     reloaded := reloaded w |}.

Definition set_notifications (v : list (nat * Notification)) (w : World) : World :=
  {| currentUser := currentUser w;
     isOffline := isOffline w;
     reports := reports w;
     drafts := drafts w;
     dom := dom w;
     page := page w;
     body_classes := body_classes w;
     navItems := navItems w;
     localStorage := localStorage w;
     timers := timers w;
     clock := clock w;
     random := random w;
     online := online w;
     next_oid := next_oid w;
     next_node := next_node w;
     notifications := v;
     recentActivity := recentActivity w;
     reportsView := reportsView w;
     console := console w;
     charts := charts w;
     reloaded := reloaded w |}.

Definition set_recentActivity (v : option (list ActivityRow)) (w : World) : World :=
  {| currentUser := currentUser w;
     isOffline := isOffline w;
     reports := reports w;
     drafts := drafts w;
     dom := dom w;
     page := page w;
     body_classes := body_classes w;
     navItems := navItems w;
     localStorage := localStorage w;
     timers := timers w;
     clock := clock w;
     random := random w;
     online := online w;
     next_oid := next_oid w;
     next_node := next_node w;
     notifications := notifications w;
     recentActivity := v;
     reportsView := reportsView w;
     console := console w;
     charts := charts w;
     reloaded := reloaded w |}.

Definition set_reportsView (v : option ReportsView) (w : World) : World :=
  {| currentUser := currentUser w;
     isOffline := isOffline w;
     reports := reports w;
     drafts := drafts w;
     dom := dom w;
     page := page w;
     body_classes := body_classes w;
     navItems := navItems w;
     localStorage := localStorage w;
     timers := timers w;
     clock := clock w;
     random := random w;
     online := online w;
     next_oid := next_oid w;
     next_node := next_node w;
     notifications := notifications w;
     recentActivity := recentActivity w;
     reportsView := v;
     console := console w;
     charts := charts w;
     reloaded := reloaded w |}.

Definition set_console (v : list string) (w : World) : World :=
  {| currentUser := currentUser w;
     isOffline := isOffline w;
     reports := reports w;
     drafts := drafts w;
     dom := dom w;
     page := page w;
     body_classes := body_classes w;
     navItems := navItems w;
     localStorage := localStorage w;
     timers := timers w;
     clock := clock w;
     random := random w;
     online := online w;
     next_oid := next_oid w;
     next_node := next_node w;
     notifications := notifications w;
     recentActivity := recentActivity w;
     reportsView := reportsView w;
     console := v;
     charts := charts w;
     reloaded := reloaded w |}.

Definition set_charts (v : list Chart) (w : World) : World :=
  {| currentUser := currentUser w;
     isOffline := isOffline w;
     reports := reports w;
     drafts := drafts w;
     dom := dom w;
     page := page w;
     body_classes := body_classes w;
     navItems := navItems w;
     localStorage := localStorage w;
     timers := timers w;
     clock := clock w;
     random := random w;
     online := online w;
     next_oid := next_oid w;
     next_node := next_node w;
     notifications := notifications w;
     recentActivity := recentActivity w;
     reportsView := reportsView w;
     console := console w;
     charts := v;
     reloaded := reloaded w |}.

Definition set_reloaded (v : bool) (w : World) : World :=
  {| currentUser := currentUser w;
     isOffline := isOffline w;
     reports := reports w;
     drafts := drafts w;
     dom := dom w;
     page := page w;
     body_classes := body_classes w;
     navItems := navItems w;
     localStorage := localStorage w;
     timers := timers w;
     clock := clock w;
     random := random w;
     online := online w;
     next_oid := next_oid w;
     next_node := next_node w;
     notifications := notifications w;
     recentActivity := recentActivity w;
     reportsView := reportsView w;
     console := console w;
     charts := charts w;
     reloaded := v |}.

#[export] Instance Element_eq_dec : EqDecision Element.
Proof. solve_decision. Defined.
#[export] Instance Task_eq_dec : EqDecision Task.
Proof. solve_decision. Defined.
#[export] Instance Notification_eq_dec : EqDecision Notification.
Proof. solve_decision. Defined.

(** ** Primitives *)

(** [new Date()] and [Date.now()]. *)
Definition now : M World Z := gets clock.

(** [document.getElementById(i)]: [None] is [null]. *)
Definition getElementById (i : string) : M World (option Element) :=
  gets (fun w => dom w !! i).

(** [document.getElementById(i).p] for a property [p]: a [TypeError]
    when there is no such element. *)
Definition element (i : string) : M World Element :=
  e <- getElementById i ;;
  match e with
  | Some e => ret e
  | None => throw (TypeError i)
  end.

(** [document.getElementById(i).p = v]: the same, for a write. *)
Definition update_element (i : string) (f : Element -> Element) : M World unit :=
  _ <- element i ;;
  modify (fun w => set_dom (alter f i (dom w)) w).

(** A write guarded by [if (e)]. *)
Definition update_element_if (i : string) (f : Element -> Element) : M World unit :=
  modify (fun w => set_dom (alter f i (dom w)) w).

(** [setTimeout(task, delay)]. *)
Definition setTimeout (task : Task) (delay : Z) : M World unit :=
  modify (fun w => set_timers (timers w ++ [((clock w + delay)%Z, task)])%list w).

(** [Math.random().toString(36)]: the next text of the tape; the text of
    zero when the tape is empty. *)
Definition random_text : M World string :=
  w <- get ;;
  match random w with
  | [] => ret "0"
  | s :: rest => put (set_random rest w) ;; ret s
  end.

(** [Math.floor(Math.random() * k)]. *)
Definition random_below (k : Z) : M World Z :=
  r <- random_text ;;
  ret (random_floor k r).

(** [new Chart(ctx, config)]. *)
Definition new_chart (c : Chart) : M World unit :=
  modify (fun w => set_charts (charts w ++ [c])%list w).

(** [console.log] and [console.error]. *)
Definition console_log (msg : string) : M World unit :=
  modify (fun w => set_console (console w ++ [msg])%list w).

(** A new object: its identity. *)
Definition fresh_oid : M World nat :=
  w <- get ;;
  put (set_next_oid (S (next_oid w)) w) ;;
  ret (next_oid w).

(** ** What the primitives do *)

Lemma element_Some i e w : dom w !! i = Some e -> element i w = (Done e, w).
Proof. intros H. unfold element, getElementById, bind, gets. by rewrite H. Qed.

Lemma element_None i w : dom w !! i = None -> element i w = (Throw (TypeError i), w).
Proof. intros H. unfold element, getElementById, bind, gets. by rewrite H. Qed.

Lemma update_element_Some i f e w :
  dom w !! i = Some e ->
  update_element i f w = (Done tt, set_dom (<[i := f e]> (dom w)) w).
Proof.
  intros H. unfold update_element. rewrite (bind_done _ _ _ _ _ (element_Some _ _ _ H)).
  unfold modify. do 2 f_equal. apply map_eq. intros j.
  destruct (decide (i = j)) as [->|Hne].
  - by rewrite lookup_alter_eq, lookup_insert_eq, H.
  - by rewrite lookup_alter_ne, lookup_insert_ne.
Qed.

Lemma update_element_None i f w :
  dom w !! i = None -> update_element i f w = (Throw (TypeError i), w).
Proof.
  intros H. unfold update_element. by rewrite (bind_throws _ _ _ _ _ (element_None _ _ H)).
Qed.

Lemma class_add_elem_of c l x : x ∈ class_add c l <-> x = c \/ x ∈ l.
Proof.
  unfold class_add. case_bool_decide; [naive_solver|].
  rewrite elem_of_app, list_elem_of_singleton. naive_solver.
Qed.

Lemma class_remove_elem_of c l x : x ∈ class_remove c l <-> x <> c /\ x ∈ l.
Proof. unfold class_remove. by rewrite list_elem_of_filter. Qed.

Lemma class_add_idemp c l : class_add c (class_add c l) = class_add c l.
Proof.
  unfold class_add at 1. rewrite bool_decide_eq_true_2; [done|].
  apply class_add_elem_of. by left.
Qed.

Lemma class_add_NoDup c l : NoDup l -> NoDup (class_add c l).
Proof.
  intros H. unfold class_add. case_bool_decide; [done|].
  apply NoDup_app. split_and!; [done| |apply NoDup_singleton].
  intros x Hx ->%list_elem_of_singleton. done.
Qed.
