(* ===== verification/App.v ===== *)
(** * App: the methods of [CivicConnectApp] and the events of the page

    One computation of [M World] per method of the class of
    [src/script.js], written in the order of its statements, then the
    callbacks of the timers ([run_task]), the events of the browser
    ([handler]) and the runs of event sequences ([run]).  The file ends
    with a page that has every element the methods look up, [demo_page],
    the worlds computed from it on which the theorems of the development
    are instantiated, and the two methods whose behaviour on a branch
    needs no more than their definition.

    A listener exists only if its element did when the page was set up
    ([enabled]).  An exception that no [catch] takes ends the handler and
    leaves the state as it is at the throw.  [location.reload()] marks the
    world as [reloaded]; the next event is then the loading of the page,
    which drops the timers and builds a new instance.

    The form fields that [reportForm.reset()] restores are taken to be the
    eight inputs that [collectReportData] reads.  A [select] element is
    taken to have an option for every value assigned to it. *)

From stdpp Require Import gmap.
From S2P Require Import Prelude.
From S2P Require Import JsString.
From S2P Require Import Model.
From S2P Require Import Router.
From S2P Require Import Validator.
From S2P Require Import Lifecycle.
From S2P Require Import Json.
From S2P Require Import Dashboard.
From S2P Require Import IdGen.
From S2P Require Import Analytics.
From S2P Require Import World.

#[local] Open Scope string_scope.
#[local] Open Scope js_scope.

(** ** Utility functions *)

(** [this.generateId()] (lines 934-936). *)
Definition newId : M World string :=
  r <- random_text ;;
  t <- now ;;
  ret (generateId r t).

(** [getEvidenceFiles] (lines 336-352). *)
Definition getEvidenceFiles : M World (list File) :=
  fileInput <- getElementById "evidence" ;;
  ret (match fileInput with
       | Some e => files e
       | None => []
       end).

(** ** Notifications (lines 888-931) *)

Definition showNotification (type title message : string) : M World unit :=
  container <- getElementById "notificationContainer" ;;
  match container with
  | None => ret tt
  | Some _ =>
      w <- get ;;
      let node := next_node w in
      put (set_next_node (S node)
             (set_notifications
                (notifications w ++ [(node, mkNotification type title message)])%list w)) ;;
      setTimeout (TaskRemoveNotification node) 5000
  end.

(** The body of the callbacks of lines 918-922 and 926-930. *)
Definition removeNotification (node : nat) : M World unit :=
  modify (fun w => set_notifications (filter (fun p => p.1 <> node) (notifications w)) w).

(** ** INPUT: collectReportData (lines 143-163) *)

Definition collectReportData : M World Report :=
  i <- newId ;;
  issueTitle <- element "issueTitle" ;;
  issueCategory <- element "issueCategory" ;;
  priority <- element "priority" ;;
  location <- element "location" ;;
  description <- element "description" ;;
  evidence <- getEvidenceFiles ;;
  publicReport <- element "publicReport" ;;
  anonymousReport <- element "anonymousReport" ;;
  w <- get ;;
  let submittedBy :=
    if isOffline w then Some "offline_user" else user_id <$> currentUser w in
  t <- now ;;
  o <- fresh_oid ;;
  ret {| oid := o; id := i; title := value issueTitle; category := value issueCategory;
         Model.priority := value priority; Model.location := value location;
         Model.description := value description; Model.evidence := Some evidence;
         isPublic := checked publicReport; isAnonymous := checked anonymousReport;
         Model.submittedBy := submittedBy; submittedAt := t; status := SUBMITTED;
         timeline := [mkEntry SUBMITTED t "Report submitted by citizen"];
         assignedTo := None; routedAt := None; isDraft := false; savedAt := None |}.

(** ** Local storage *)

(** [getSettings] (lines 746-755): [?.checked || false] and
    [?.value || 'en']. *)
Definition getSettings : M World Settings :=
  w <- get ;;
  let chk i := from_option checked false (dom w !! i) in
  ret {| highContrast := chk "highContrast";
         largeText := chk "largeText";
         screenReader := chk "screenReader";
         language := from_option (fun e => text_or (value e) "en") "en" (dom w !! "language");
         emailNotifications := chk "emailNotifications";
         smsNotifications := chk "smsNotifications" |}.

(** [saveToLocalStorage] (lines 688-697).  [localStorage.setItem] is
    assumed not to throw: the storage is enabled and its quota is not
    reached. *)
Definition saveToLocalStorage : M World unit :=
  settings <- getSettings ;;
  modify (fun w =>
    set_localStorage
      (Some (StoredJson (snapshot_toJSON
         (mkSnapshot (reports w) (drafts w) (currentUser w) settings)))) w).

(** [toggleScreenReaderSupport] (lines 792-801) sets [aria-label]
    attributes, which the model does not hold. *)
Definition toggleScreenReaderSupport (enabled : bool) : M World unit := ret tt.

Definition add_body_class (c : string) : M World unit :=
  modify (fun w => set_body_classes (class_add c (body_classes w)) w).

(** [applySettings] (lines 757-790). *)
Definition applySettings (settings : Settings) : M World unit :=
  when (highContrast settings)
    (add_body_class "high-contrast" ;;
     update_element_if "highContrast" (set_checked true)) ;;
  when (largeText settings)
    (add_body_class "large-text" ;;
     update_element_if "largeText" (set_checked true)) ;;
  when (screenReader settings)
    (toggleScreenReaderSupport true ;;
     update_element_if "screenReader" (set_checked true)) ;;
  when (negb (falsy (language settings)))
    (update_element_if "language" (set_value (language settings))) ;;
  when (emailNotifications settings)
    (update_element_if "emailNotifications" (set_checked true)) ;;
  when (smsNotifications settings)
    (update_element_if "smsNotifications" (set_checked true)).

(** The objects that [JSON.parse] builds are new: each gets an
    identity. *)
Definition assign_oids (n : nat) (l : list Report) : list Report :=
  imap (fun i r => set_oid (n + i) r) l.

(** The assignments of lines 704-710 for a tree that was read. *)
Definition install_snapshot
    (s : list Report * list Report * option User * option Settings) : M World unit :=
  let '(rs, ds, u, settings) := s in
  modify (fun w =>
    set_next_oid (next_oid w + length rs + length ds)
      (set_currentUser u
         (set_drafts (assign_oids (next_oid w + length rs) ds)
            (set_reports (assign_oids (next_oid w) rs) w)))) ;;
  match settings with
  | Some settings => applySettings settings
  | None => ret tt
  end.

(** [loadFromLocalStorage] (lines 699-715).  [JSON.parse] throws on a
    text that is not JSON, and reading a property of [null] throws: both
    are caught and logged.  A tree whose members are not of the types of
    the model is outside the model. *)
Definition loadFromLocalStorage : M World unit :=
  w <- get ;;
  match localStorage w with
  | None => ret tt
  | Some (StoredGarbage s) =>
      if falsy s then ret tt
      else console_log "Error loading from localStorage:"
  | Some (StoredJson JNull) => console_log "Error loading from localStorage:"
  | Some (StoredJson j) =>
      match snapshot_read j with
      | Some s => install_snapshot s
      | None => throw (IllTyped "civicConnectData")
      end
  end.

(** ** Dashboard *)

(** [updateRecentActivity] (lines 471-496): the sort is in place.  The
    view is the list of the rows that are shown: the empty list stands
    for the paragraph of lines 479-481 that says that there is no recent
    activity. *)
Definition updateRecentActivity : M World unit :=
  container <- getElementById "recentActivity" ;;
  match container with
  | None => ret tt
  | Some _ =>
      modify (fun w => set_reports (sort_reports (reports w)) w) ;;
      modify (fun w =>
        set_recentActivity (Some (activity_row (clock w) <$> take 5 (reports w))) w)
  end.

Definition nat_to_string (n : nat) : string := Z_to_string (Z.of_nat n).

(** [updateDashboard] (lines 456-469). *)
Definition updateDashboard : M World unit :=
  w <- get ;;
  update_element "totalReports"
    (set_textContent (nat_to_string (totalReports (reports w)))) ;;
  update_element "resolvedReports"
    (set_textContent (nat_to_string (resolvedReports (reports w)))) ;;
  update_element "pendingReports"
    (set_textContent (nat_to_string (pendingCount (reports w)))) ;;
  update_element "activeUsers" (set_textContent (activeUsers (isOffline w))) ;;
  updateRecentActivity.

(** [displayReports] (lines 355-424) with the reading of the filters of
    [getFilteredReports] (lines 429-431). *)
Definition displayReports : M World unit :=
  container <- getElementById "reportsContainer" ;;
  match container with
  | None => ret tt
  | Some _ =>
      modify (fun w =>
        let searchTerm := (fun e => toLowerCase (value e)) <$> dom w !! "searchReports" in
        let statusFilter := value <$> dom w !! "statusFilter" in
        let categoryFilter := value <$> dom w !! "categoryFilter" in
        set_reportsView
          (Some (reports_view searchTerm statusFilter categoryFilter (reports w))) w)
  end.

(** ** Navigation (lines 94-138) *)

(** ** Analytics (lines 499-595) *)

(** [createResolutionChart]: the loop of line 516 reads the clock and
    draws two numbers for each of the last seven days. *)
Definition createResolutionChart : M World unit :=
  canvas <- getElementById "resolutionChart" ;;
  match canvas with
  | None => ret tt
  | Some _ =>
      rows <- map_m (fun i =>
                date <- now ;;
                submitted <- random_below 10 ;;
                resolved <- random_below 8 ;;
                ret (weekday_before date i, (submitted + 5)%Z, (resolved + 3)%Z))
              chart_days ;;
      new_chart (resolution_chart rows)
  end.

Definition createCategoryChart : M World unit :=
  canvas <- getElementById "categoryChart" ;;
  match canvas with
  | None => ret tt
  | Some _ =>
      w <- get ;;
      new_chart (category_chart (reports w))
  end.

Definition updateAnalytics : M World unit :=
  createResolutionChart ;;
  createCategoryChart.

(** ** Sections (lines 121-138) *)

(** [displayStakeholders] registers listeners only. *)
Definition loadSectionData (sectionId : string) : M World unit :=
  if decide (sectionId = "dashboard") then updateDashboard
  else if decide (sectionId = "track") then displayReports
  else if decide (sectionId = "analytics") then updateAnalytics
  else ret tt.

(** The first navigation item for a section becomes active. *)
Fixpoint activate_nav (sectionId : string) (items : list (string * bool)) :
    list (string * bool) :=
  match items with
  | [] => []
  | (s, a) :: rest =>
      if decide (s = sectionId) then (s, true) :: rest
      else (s, a) :: activate_nav sectionId rest
  end.

Definition deactivate (e : Element) : Element :=
  if bool_decide ("content-section" ∈ classList e)
  then set_classList (class_remove "active" (classList e)) e
  else e.

Definition navigateToSection (sectionId : string) : M World unit :=
  modify (fun w => set_dom (deactivate <$> dom w) w) ;;
  modify (fun w => set_navItems ((fun p => (p.1, false)) <$> navItems w) w) ;;
  update_element_if sectionId (fun e => set_classList (class_add "active" (classList e)) e) ;;
  modify (fun w => set_navItems (activate_nav sectionId (navItems w)) w) ;;
  loadSectionData sectionId.

(** ** RESOLUTION: updateReportStatus (lines 259-278) *)

Definition resolved_message (title : string) : string :=
  "Your report " +:+ dquote +:+ title +:+ dquote +:+ " has been resolved.".

Definition updateReportStatus (reportId newStatus description : string) : M World unit :=
  w <- get ;;
  match list_find (fun r => id r = reportId) (reports w) with
  | Some (_, report) =>
      put (set_reports
             (update_status (clock w) reportId newStatus description (reports w)) w) ;;
      saveToLocalStorage ;;
      updateDashboard ;;
      when (bool_decide (newStatus = RESOLVED))
        (showNotification "success" "Issue Resolved" (resolved_message (title report)))
  | None => ret tt
  end.

(** [simulateResolution] (lines 281-301): one timer per pending report,
    staggered by its index. *)
Definition simulateResolution : M World unit :=
  w <- get ;;
  for_each (fun p => setTimeout (TaskAdvance (oid p.2)) ((Z.of_nat p.1 + 1) * 10000))
           (imap pair (pendingReports (reports w))).

(** The callback of line 287 for the report object [o]: it reads the
    status the object has when the timer fires. *)
Definition advance_task (o : nat) : M World unit :=
  w <- get ;;
  match list_find (fun r => oid r = o) (reports w) with
  | Some (_, report) =>
      match advance_call (status report) with
      | Some (nextStatus, description) =>
          updateReportStatus (id report) nextStatus description
      | None => ret tt
      end
  | None => ret tt
  end.

(** ** Form (lines 979-981) *)

Definition form_fields : list string :=
  ["issueTitle"; "issueCategory"; "priority"; "location"; "description";
   "evidence"; "publicReport"; "anonymousReport"].

Definition reset_field (w : World) (d : gmap string Element) (i : string) :
    gmap string Element :=
  match page w !! i with
  | Some e => alter (fun _ => e) i d
  | None => d
  end.

Definition clearReportForm : M World unit :=
  _ <- element "reportForm" ;;
  modify (fun w => set_dom (foldl (reset_field w) (dom w) form_fields) w).

(** ** Submission (lines 220-256) *)

Definition submitted_message (i : string) : string :=
  "Your report has been submitted with ID: " +:+ substring0 8 i +:+
  ". You can track its progress in the tracking section.".

Definition submitReport : M World unit :=
  try_catch
    (data <- collectReportData ;;
     let validation := validateReportData data in
     if negb (isValid validation) then
       showNotification "error" "Validation Error" (join ", " (errors validation))
     else
       t <- now ;;
       let routedReport := routeReport t (Validator.data validation) in
       modify (fun w => set_reports (reports w ++ [routedReport])%list w) ;;
       saveToLocalStorage ;;
       setTimeout (TaskUnderReview (id routedReport)) 2000 ;;
       clearReportForm ;;
       showNotification "success" "Report Submitted" (submitted_message (id routedReport)) ;;
       navigateToSection "track")
    (fun _ =>
       console_log "Error submitting report:" ;;
       showNotification "error" "Submission Failed"
         "There was an error submitting your report. Please try again.").

(** ** Drafts (lines 304-313) *)

Definition saveDraft : M World unit :=
  data <- collectReportData ;;
  t <- now ;;
  let data := set_savedAt (Some t) (set_isDraft true data) in
  modify (fun w => set_drafts (drafts w ++ [data])%list w) ;;
  saveToLocalStorage ;;
  showNotification "info" "Draft Saved" "Your report has been saved as a draft.".

(** ** Registration (lines 804-885) *)

Definition showRegistrationModal : M World unit :=
  update_element_if "registrationModal"
    (fun e => set_classList (class_add "show" (classList e)) e).

Definition hideRegistrationModal : M World unit :=
  update_element_if "registrationModal"
    (fun e => set_classList (class_remove "show" (classList e)) e).

Definition initializeRegistration : M World unit :=
  w <- get ;;
  when (bool_decide (currentUser w = None)) (setTimeout TaskShowRegistration 1000).

Definition welcome_message (name : string) : string :=
  "Welcome to CivicConnect, " +:+ name +:+
  "! You can now start reporting issues in your community.".

Definition registerUser : M World unit :=
  name <- element "regName" ;;
  email <- element "regEmail" ;;
  phone <- element "regPhone" ;;
  location <- element "regLocation" ;;
  if falsy (value name) || falsy (value email) then
    showNotification "error" "Registration Error" "Name and email are required."
  else
    i <- newId ;;
    t <- now ;;
    modify (set_currentUser
              (Some {| user_id := i; user_name := value name; user_email := value email;
                       user_phone := value phone; user_location := value location;
                       user_registeredAt := t; user_isVerified := true |})) ;;
    update_element "userName" (set_textContent (value name)) ;;
    update_element "userEmail" (set_textContent (value email)) ;;
    saveToLocalStorage ;;
    hideRegistrationModal ;;
    showNotification "success" "Welcome!" (welcome_message (value name)).

(** [logout] (lines 983-987). *)
Definition logout : M World unit :=
  modify (set_currentUser None) ;;
  modify (set_localStorage None) ;;
  modify (set_reloaded true).

(** ** Online status (lines 658-685) *)

Definition syncOfflineData : M World unit := console_log "Syncing offline data...".

Definition updateOnlineStatus (isOnline : bool) : M World unit :=
  modify (set_isOffline (negb isOnline)) ;;
  update_element_if "offlineStatus"
    (fun e =>
       set_classList (class_toggle "offline" (negb isOnline) (classList e))
         (set_textContent (if isOnline then " Online" else " Offline") e)) ;;
  when isOnline syncOfflineData.

Definition checkOnlineStatus : M World unit :=
  modify (fun w => set_isOffline (negb (online w)) w) ;;
  w <- get ;;
  updateOnlineStatus (negb (isOffline w)).

(** [setupOfflineCapabilities] (lines 642-656); the registration of the
    service worker is left out. *)
Definition setupOfflineCapabilities : M World unit := syncOfflineData.

(** ** Mock data (lines 990-1070) *)

Definition day : Z := 24 * 60 * 60 * 1000.

Definition mockReport1 (o : nat) (i : string) (t : Z) : Report :=
  {| oid := o; id := i; title := "Broken streetlight on Main Street";
     category := "infrastructure"; priority := "medium";
     location := "Main Street & 5th Avenue";
     description := "The streetlight at the intersection of Main Street and 5th Avenue has been broken for over a week, creating a safety hazard for pedestrians and drivers.";
     evidence := None; isPublic := true; isAnonymous := false;
     submittedBy := Some "demo_user"; submittedAt := (t - 2 * day)%Z;
     status := IN_PROGRESS;
     timeline :=
       [mkEntry SUBMITTED (t - 2 * day)%Z "Report submitted by citizen";
        mkEntry UNDER_REVIEW (t - 129600000)%Z "Report is being reviewed by authorities";
        mkEntry IN_PROGRESS (t - 1 * day)%Z "Authorities have started working on this issue"];
     assignedTo := Some (Authority "Municipal Public Works Department");
     routedAt := None; isDraft := false; savedAt := None |}.

Definition mockReport2 (o : nat) (i : string) (t : Z) : Report :=
  {| oid := o; id := i; title := "Illegal dumping in Central Park";
     category := "environment"; priority := "high";
     location := "Central Park, North Section";
     description := "Someone has been illegally dumping construction waste in the north section of Central Park. This is damaging the environment and creating an eyesore.";
     evidence := None; isPublic := true; isAnonymous := true;
     submittedBy := Some "anonymous"; submittedAt := (t - 5 * day)%Z;
     status := RESOLVED;
     timeline :=
       [mkEntry SUBMITTED (t - 5 * day)%Z "Report submitted by citizen";
        mkEntry UNDER_REVIEW (t - 4 * day)%Z "Report is being reviewed by authorities";
        mkEntry IN_PROGRESS (t - 2 * day)%Z "Cleanup crew dispatched to the location";
        mkEntry RESOLVED (t - 1 * day)%Z "Illegal waste removed and area cleaned up"];
     assignedTo := Some (Authority "Environmental Protection Agency");
     routedAt := None; isDraft := false; savedAt := None |}.

Definition generateMockData : M World unit :=
  w <- get ;;
  when (bool_decide (length (reports w) = 0))
    (i1 <- newId ;;
     o1 <- fresh_oid ;;
     i2 <- newId ;;
     o2 <- fresh_oid ;;
     t <- now ;;
     modify (set_reports [mockReport1 o1 i1 t; mockReport2 o2 i2 t]) ;;
     saveToLocalStorage) ;;
  setTimeout TaskSimulate 5000.

(** ** Construction (lines 5-24) *)

(** [setupEventListeners] registers the listeners, which [enabled] and
    [handler] stand for. *)
Definition init : M World unit :=
  checkOnlineStatus ;;
  loadFromLocalStorage ;;
  generateMockData ;;
  updateDashboard ;;
  setupOfflineCapabilities ;;
  initializeRegistration.

Definition constructor : M World unit :=
  modify (fun w => set_drafts [] (set_reports [] (set_isOffline false (set_currentUser None w)))) ;;
  init.

(** The page as it is loaded again: the document of the page, no timer,
    no notification, no view. *)
Definition fresh_page (w : World) : World :=
  set_reloaded false
    (set_console []
       (set_charts []
          (set_reportsView None
             (set_recentActivity None
                (set_notifications []
                   (set_timers []
                      (set_navItems ((fun p => (p.1, false)) <$> navItems w)
                         (set_body_classes [] (set_dom (page w) w))))))))).

(** ** Timers and events *)

(** The callbacks, by the place they were set. *)
Definition run_task (t : Task) : M World unit :=
  match t with
  | TaskUnderReview reportId =>
      updateReportStatus reportId UNDER_REVIEW "Report is being reviewed by authorities"
  | TaskAdvance o => advance_task o
  | TaskSimulate => simulateResolution
  | TaskShowRegistration => showRegistrationModal
  | TaskRemoveNotification node => removeNotification node
  end.

(** The position of the timer to fire: the first among those due
    earliest. *)
Definition next_timer (ts : list (Z * Task)) : option (nat * (Z * Task)) :=
  list_find (fun p => Forall (fun q => (p.1 <= q.1)%Z) ts) ts.

Inductive Event : Type :=
| EvLoad
| EvTimer
| EvWait (dt : Z)
| EvInput (i v : string)
| EvCheck (i : string) (b : bool)
| EvFiles (fs : list File)
| EvSubmit
| EvSaveDraft
| EvRegister
| EvLogout
| EvNavigate (sectionId : string)
| EvOnline (isOnline : bool)
| EvCloseNotification (node : nat)
| EvCloseModal.

(** The listeners of [setupAccessibilitySettings] (lines 718-744). *)
Definition setting_changed (i : string) (b : bool) : M World unit :=
  if decide (i = "highContrast") then
    modify (fun w => set_body_classes (class_toggle "high-contrast" b (body_classes w)) w) ;;
    saveToLocalStorage
  else if decide (i = "largeText") then
    modify (fun w => set_body_classes (class_toggle "large-text" b (body_classes w)) w) ;;
    saveToLocalStorage
  else if decide (i = "screenReader") then
    toggleScreenReaderSupport b ;; saveToLocalStorage
  else ret tt.

(** The listeners of the search box and of the two filters (lines
    66-74). *)
Definition filter_changed (i : string) : M World unit :=
  if bool_decide (i ∈ ["searchReports"; "statusFilter"; "categoryFilter"])
  then displayReports else ret tt.

Definition handler (ev : Event) : M World unit :=
  match ev with
  | EvLoad => modify fresh_page ;; constructor
  | EvTimer =>
      w <- get ;;
      match next_timer (timers w) with
      | Some (k, (due, task)) =>
          put (set_clock (clock w `max` due)%Z (set_timers (delete k (timers w)) w)) ;;
          run_task task
      | None => ret tt
      end
  | EvWait dt => modify (fun w => set_clock (clock w + dt)%Z w)
  | EvInput i v => update_element_if i (set_value v) ;; filter_changed i
  | EvCheck i b => update_element_if i (set_checked b) ;; setting_changed i b
  | EvFiles fs =>
      update_element_if "evidence"
        (fun e => mkElement (value e) (checked e) (textContent e) fs (classList e))
  | EvSubmit => submitReport
  | EvSaveDraft => saveDraft
  | EvRegister => registerUser
  | EvLogout => logout
  | EvNavigate sectionId => navigateToSection sectionId
  | EvOnline isOnline =>
      modify (set_online isOnline) ;; updateOnlineStatus isOnline
  | EvCloseNotification node => removeNotification node
  | EvCloseModal => hideRegistrationModal
  end.

(** When the browser can deliver an event.  The page can be loaded
    again at any time; once [location.reload()] was called nothing else
    happens before it is.  Time does not go back; an element takes input
    if it exists, a listener fires if its element was there to attach
    it to, and the modal is closed by its button or by a click on its
    backdrop. *)
Definition enabled (ev : Event) (w : World) : Prop :=
  match ev with
  | EvLoad => True
  | _ =>
      reloaded w = false /\
      match ev with
      | EvWait dt => (0 <= dt)%Z
      | EvInput i _ | EvCheck i _ => is_Some (dom w !! i)
      | EvFiles _ => is_Some (dom w !! "evidence")
      | EvSubmit => is_Some (dom w !! "reportForm")
      | EvSaveDraft => is_Some (dom w !! "saveDraftBtn")
      | EvRegister => is_Some (dom w !! "registrationForm")
      | EvLogout => is_Some (dom w !! "logoutBtn")
      | EvNavigate sectionId => sectionId ∈ (navItems w).*1
      | EvCloseNotification node => node ∈ (notifications w).*1
      | EvCloseModal =>
          is_Some (dom w !! "closeModal") \/ is_Some (dom w !! "registrationModal")
      | _ => True
      end
  end.

#[export] Instance enabled_dec ev w : Decision (enabled ev w).
Proof. destruct ev; cbn; apply _. Defined.

(** The events of a run, and when the browser can deliver them one
    after the other. *)
Definition run (evs : list Event) (w : World) : World :=
  foldl (fun w ev => exec (handler ev) w) w evs.

Fixpoint runnable (evs : list Event) (w : World) : Prop :=
  match evs with
  | [] => True
  | ev :: evs => enabled ev w /\ runnable evs (exec (handler ev) w)
  end.

#[export] Instance runnable_dec evs w : Decision (runnable evs w).
Proof. revert w. induction evs; intros w; cbn; apply _. Defined.

(** ** A page

    A document that has every element the methods look up, and a browser
    about to load it: the worlds on which the theorems are instantiated. *)

Definition blank : Element := mkElement "" false "" [] [].

Definition page_ids : list string :=
  ["issueTitle"; "issueCategory"; "priority"; "location"; "description";
   "evidence"; "publicReport"; "anonymousReport"; "reportForm"; "saveDraftBtn";
   "notificationContainer"; "recentActivity"; "reportsContainer"; "searchReports";
   "statusFilter"; "categoryFilter"; "totalReports"; "resolvedReports";
   "pendingReports"; "activeUsers"; "registrationModal"; "registrationForm";
   "regName"; "regEmail"; "regPhone"; "regLocation"; "userName"; "userEmail";
   "logoutBtn"; "closeModal"; "highContrast"; "largeText"; "screenReader";
   "language"; "emailNotifications"; "smsNotifications"; "offlineStatus";
   "resolutionChart"; "categoryChart"].

Definition demo_page : gmap string Element :=
  list_to_map ((fun i => (i, blank)) <$> page_ids).

Definition demo_boot : World :=
  {| currentUser := None; isOffline := false; reports := []; drafts := [];
     dom := demo_page; page := demo_page; body_classes := [];
     navItems := [("dashboard", true); ("report", false); ("track", false)];
     localStorage := None; timers := []; clock := 1700000000000;
     random := ["0.4fzyo82mvyr"; "0.9xk2b7h1c3d"; "0.1a2b3c4d5e6"]; online := true;
     next_oid := 0; next_node := 0; notifications := []; recentActivity := None;
     reportsView := None; console := []; charts := []; reloaded := true |}.

(** The page is loaded and a citizen fills the form. *)
Definition demo_fill : list Event :=
  [EvLoad;
   EvInput "issueTitle" "  Pothole on Elm Street <script>alert(1)</script> ";
   EvInput "issueCategory" "infrastructure"; EvInput "priority" "high";
   EvInput "location" "Elm Street";
   EvInput "description" "A deep pothole damages cars every day.";
   EvCheck "publicReport" true].

Definition demo_loaded : World := run [EvLoad] demo_boot.
Definition demo_filled : World := run demo_fill demo_boot.
Definition demo_submitted : World := run (demo_fill ++ [EvSubmit]) demo_boot.

(** The same run until no timer is left. *)
Definition demo_done : World :=
  run (demo_fill ++ [EvSubmit] ++ replicate 12 EvTimer) demo_boot.

(** What the first loading stores. *)
Definition demo_snapshot : Snapshot :=
  {| snap_reports := [mockReport1 0 "4fzyo82mvloyw3v28" 1700000000000;
                      mockReport2 1 "9xk2b7h1cloyw3v28" 1700000000000];
     snap_drafts := []; snap_currentUser := None;
     snap_settings := mkSettings false false false "en" false false |}.

Definition demo_settings : Settings := mkSettings false false false "en" false false.

(** What [collectReportData] reads in the form as it was filled. *)
Definition demo_data : Report :=
  value_or (result collectReportData demo_filled) demo_report.

(** A page with no element. *)
Definition demo_bare : World := set_dom ∅ demo_loaded.

(** A page whose header has no element for the name of the user, and a
    visitor who filled the registration form. *)
Definition demo_unnamed : World :=
  let w := run [EvLoad; EvInput "regName" "Ada"; EvInput "regEmail" "ada@example.org"]
               demo_boot in
  set_dom (delete "userName" (dom w)) w.

(** * Lemmas *)

(** ** Early returns *)

(** When no report has the identifier, updateReportStatus returns and
    changes nothing. *)
Lemma updateReportStatus_absent reportId newStatus description w :
  reportId ∉ id <$> reports w ->
  updateReportStatus reportId newStatus description w = (Done tt, w).
Proof.
  intros Hid. unfold updateReportStatus, bind, get.
  destruct (list_find _ _) as [[k r]|] eqn:E; [|done].
  apply list_find_Some in E as (Hk & <- & _). destruct Hid.
  apply list_elem_of_fmap_2. by eapply list_elem_of_lookup_2.
Qed.

Lemma updateReportStatus_absent_witness :
  updateReportStatus "none" RESOLVED "" demo_loaded = (Done tt, demo_loaded).
Proof. apply updateReportStatus_absent. compute_done. Defined.

(** C31. When reading the form raises an exception, saveDraft lets it
    escape: nothing is appended to the drafts and nothing is stored. *)
Lemma saveDraft_unreadable w e :
  result collectReportData w = Throw e ->
  saveDraft w = (Throw e, exec collectReportData w).
Proof.
  intros Hc%result_throw. unfold saveDraft. by rewrite (bind_throws _ _ _ _ _ Hc).
Qed.

Lemma saveDraft_unreadable_witness :
  saveDraft demo_bare = (Throw (TypeError "issueTitle"), exec collectReportData demo_bare).
Proof. apply saveDraft_unreadable. by vm_compute. Defined.

(** C32. When the registration form is filled and the page has no element
    userName, registerUser assigns the user of the instance and then
    raises a TypeError before it stores anything: the user is registered
    in memory and absent from the storage. *)
Lemma registerUser_unsaved w n e p l :
  dom w !! "regName" = Some n -> dom w !! "regEmail" = Some e ->
  dom w !! "regPhone" = Some p -> dom w !! "regLocation" = Some l ->
  falsy (value n) = false -> falsy (value e) = false ->
  dom w !! "userName" = None ->
  result registerUser w = Throw (TypeError "userName") /\
  user_name <$> currentUser (exec registerUser w) = Some (value n) /\
  localStorage (exec registerUser w) = localStorage w.
Proof.
  intros Hn He Hp Hl Hvn Hve Hu.
  unfold result, exec, registerUser, newId, random_text, now, update_element.
  rewrite (bind_done _ _ _ _ _ (element_Some _ _ _ Hn)).
  rewrite (bind_done _ _ _ _ _ (element_Some _ _ _ He)).
  rewrite (bind_done _ _ _ _ _ (element_Some _ _ _ Hp)).
  rewrite (bind_done _ _ _ _ _ (element_Some _ _ _ Hl)).
  rewrite Hvn, Hve. cbn [orb].
  destruct (random w) eqn:Hrandom; js_run; rewrite ?Hrandom; js_run.
  all: unfold element, getElementById; js_run; by rewrite Hu.
Qed.

Lemma registerUser_unsaved_witness :
  result registerUser demo_unnamed = Throw (TypeError "userName").
Proof.
  exact (proj1 (registerUser_unsaved demo_unnamed
                  (set_value "Ada" blank) (set_value "ada@example.org" blank) blank blank
                  ltac:(by vm_compute) ltac:(by vm_compute) ltac:(by vm_compute)
                  ltac:(by vm_compute) eq_refl eq_refl ltac:(by vm_compute))).
Defined.
