(* ===== verification/Handlers.v ===== *)
(** * Handlers: what the methods do

    The functional behaviour of the methods of [App], on each of their
    branches: what a submission appends, stores and schedules, what is
    left alone when the form is invalid or cannot be read, what a status
    update and the simulation of the back end do, what is restored from
    the storage, which timer fires, and which charts the analytics
    section draws.

    The methods that only show something (notifications, views,
    navigation) are specified by what they leave alone: [frame] is the
    invariant they keep, proved once per method with the rules of
    [returns].  The theorems are instantiated on the worlds that [App]
    computes from [demo_page]. *)

From stdpp Require Import gmap.
From S2P Require Import Prelude.
From S2P Require Import JsString.
From S2P Require Import Model.
From S2P Require Import Router.
From S2P Require Import Validator.
From S2P Require Import Lifecycle.
From S2P Require Import Json.
From S2P Require Import Dashboard.
From S2P Require Import IdGen.
From S2P Require Import Analytics.
From S2P Require Import World.
From S2P Require Import App.

#[local] Open Scope string_scope.
#[local] Open Scope js_scope.

(** ** Frames *)

(** What the views, the notifications and the form leave alone. *)
Definition persistent (w : World) : option User * list Report * option Stored * Z :=
  (currentUser w, drafts w, localStorage w, clock w).

(** A method leaves the persistent part alone, keeps the reports up to
    [R] and removes no timer. *)
Definition frame (R : relation (list Report)) (rs : list Report)
    (x : option User * list Report * option Stored * Z)
    (ts : list (Z * Task)) (w : World) : Prop :=
  R (reports w) rs /\ persistent w = x /\ ts `prefix_of` timers w.

(** The world without the random tape and the identity counter: what
    [collectReportData] does not change. *)
Definition observable (w : World) : World := set_next_oid 0 (set_random [] w).

(** A method that returns whatever the world. *)
Definition total {A} (c : M World A) : Prop := forall w, is_done (result c w).

(** The timers that [simulateResolution] sets: one per pending report,
    ten seconds apart. *)
Definition resolution_timers (w : World) : list (Z * Task) :=
  imap (fun k r => ((clock w + (Z.of_nat k + 1) * 10000)%Z, TaskAdvance (oid r)))
       (pendingReports (reports w)).

(** The elements that [collectReportData] dereferences, in the order in
    which it does. *)
Definition form_inputs : list string :=
  ["issueTitle"; "issueCategory"; "priority"; "location"; "description";
   "publicReport"; "anonymousReport"].

(** The rows that the loop of [createResolutionChart] pushes for the days
    [l] at the clock [t], from the texts of the tape, and what is left of
    the tape: two texts per day, the text of zero when the tape is
    empty. *)
Fixpoint resolution_rows (t : Z) (tape : list string) (l : list Z) :
    list (string * Z * Z) * list string :=
  match l with
  | [] => ([], tape)
  | i :: l' =>
      let rest := resolution_rows t (tail (tail tape)) l' in
      ((weekday_before t i, (random_floor 10 (hd "0" tape) + 5)%Z,
        (random_floor 8 (hd "0" (tail tape)) + 3)%Z) :: rest.1, rest.2)
  end.

(** * Lemmas *)

(** ** Frames *)

Ltac frame_leaf :=
  intros;
  match goal with H : frame _ _ _ _ _ |- _ => destruct H as (? & <- & ?) end;
  split_and!; [cbn; try done | reflexivity | cbn; try done; by apply prefix_app_r].
Ltac frame_run :=
  repeat first [ solve [eauto with js] | wp_step | apply returns_modify; solve [frame_leaf] ].

(** What a frame says of each part. *)
Lemma frame_reports rs x ts w : frame eq rs x ts w -> reports w = rs.
Proof. by intros (? & _). Qed.

Lemma frame_drafts R rs u ds st c ts w : frame R rs (u, ds, st, c) ts w -> drafts w = ds.
Proof. by intros (_ & [= _ ? _ _] & _). Qed.

Lemma frame_localStorage R rs u ds st c ts w :
  frame R rs (u, ds, st, c) ts w -> localStorage w = st.
Proof. by intros (_ & [= _ _ ? _] & _). Qed.

Lemma frame_clock R rs u ds st c ts w : frame R rs (u, ds, st, c) ts w -> clock w = c.
Proof. by intros (_ & [= _ _ _ ?] & _). Qed.

Section frame.
Context (R : relation (list Report)) (rs : list Report)
  (x : option User * list Report * option Stored * Z) (ts : list (Z * Task)).

Lemma frame_setTimeout t d : returns (frame R rs x ts) (setTimeout t d).
Proof. apply returns_modify. frame_leaf. Qed.

Lemma frame_update_element_if i f : returns (frame R rs x ts) (update_element_if i f).
Proof. apply returns_modify. frame_leaf. Qed.

Lemma frame_getElementById i : returns (frame R rs x ts) (getElementById i).
Proof. apply returns_gets. Qed.

Lemma frame_console_log m : returns (frame R rs x ts) (console_log m).
Proof. apply returns_modify. frame_leaf. Qed.

Hint Resolve frame_setTimeout frame_update_element_if frame_getElementById
  frame_console_log : js.

Lemma frame_showNotification ty t m : returns (frame R rs x ts) (showNotification ty t m).
Proof.
  intros w Hw. unfold showNotification, getElementById. repeat wp_step; [|done].
  apply (returns_wp (frame R rs x ts)); [apply frame_setTimeout | frame_leaf | done].
Qed.

Lemma frame_displayReports : returns (frame R rs x ts) displayReports.
Proof. unfold displayReports. frame_run. Qed.

Hint Resolve frame_showNotification frame_displayReports : js.

Lemma frame_navigateToSection_track : returns (frame R rs x ts) (navigateToSection "track").
Proof. unfold navigateToSection, loadSectionData. cbn. frame_run. Qed.

Lemma clearReportForm_run w form :
  dom w !! "reportForm" = Some form ->
  clearReportForm w = (Done tt, set_dom (foldl (reset_field w) (dom w) form_fields) w).
Proof.
  intros H. unfold clearReportForm. by rewrite (bind_done _ _ _ _ _ (element_Some _ _ _ H)).
Qed.

(** The end of a submission: the form is reset, the citizen is told and
    the tracking section is shown. *)
Lemma submit_tail m w :
  (frame R rs x ts) w -> is_Some (dom w !! "reportForm") ->
  wp (clearReportForm ;; showNotification "success" "Report Submitted" m ;;
      navigateToSection "track")
     (fun o w' => o = Done tt /\ (frame R rs x ts) w') w.
Proof.
  intros Hf [form Hform]. wp_step. eapply wp_done; [exact (clearReportForm_run _ _ Hform)|].
  apply (returns_wp (frame R rs x ts));
    [by apply returns_bind; auto using frame_navigateToSection_track with js
    | frame_leaf | by intros []].
Qed.

(** The handler of a failed submission. *)
Lemma frame_submit_failed :
  returns (frame R rs x ts) (console_log "Error submitting report:" ;;
             showNotification "error" "Submission Failed"
               "There was an error submitting your report. Please try again.").
Proof. frame_run. Qed.

Lemma frame_applySettings st : returns (frame R rs x ts) (applySettings st).
Proof. unfold applySettings, add_body_class, toggleScreenReaderSupport. frame_run. Qed.

End frame.

(** The dashboard permutes the reports. *)
Section frame_perm.
Context (rs : list Report) (x : option User * list Report * option Stored * Z)
  (ts : list (Z * Task)).

Lemma frame_updateRecentActivity : keeps (frame (≡ₚ) rs x ts) updateRecentActivity.
Proof.
  unfold updateRecentActivity, getElementById. repeat wp_step.
  all: apply keeps_modify; intros w (Hr & <- & Hts); split_and!; try done.
  cbn. by rewrite sort_reports_Permutation.
Qed.

Lemma frame_updateDashboard : keeps (frame (≡ₚ) rs x ts) updateDashboard.
Proof.
  unfold updateDashboard, update_element, element, getElementById.
  repeat first [ wp_step | apply frame_updateRecentActivity | solve [auto with js]
               | apply keeps_modify; intros ? (? & <- & ?); by split_and! ].
Qed.

End frame_perm.

(** ** Reading the form *)

Lemma keeps_observable_collect x : keeps (fun w => observable w = x) collectReportData.
Proof.
  intros w Hw. unfold collectReportData, newId, getEvidenceFiles, random_text, fresh_oid,
    now, element, getElementById.
  repeat wp_step; done.
Qed.

Lemma collectReportData_observable w o w1 :
  collectReportData w = (o, w1) -> observable w1 = observable w.
Proof.
  intros H. pose proof (keeps_observable_collect (observable w) w eq_refl) as Hk.
  unfold wp, exec in Hk. by rewrite H in Hk.
Qed.

Lemma observable_fields w1 w :
  observable w1 = observable w ->
  reports w1 = reports w /\ persistent w1 = persistent w /\
  timers w1 = timers w /\ dom w1 = dom w.
Proof.
  intros H. split_and!;
    [apply (f_equal reports) in H | apply (f_equal persistent) in H
    | apply (f_equal timers) in H | apply (f_equal dom) in H]; exact H.
Qed.

(** C29. collectReportData raises the TypeError of the first of the seven
    inputs it dereferences that is missing from the page, and returns a
    report when none is missing. *)
Lemma collectReportData_result w :
  match list_find (fun i => dom w !! i = None) form_inputs with
  | Some (_, i) => result collectReportData w = Throw (TypeError i)
  | None => is_done (result collectReportData w)
  end.
Proof.
  unfold form_inputs, result, collectReportData, newId, getEvidenceFiles, random_text,
    fresh_oid, now, element, getElementById.
  destruct (random w) eqn:Hrandom; js_run; rewrite ?Hrandom; js_run.
  all: destruct (dom w !! "issueTitle"); [cbn|by cbn].
  all: destruct (dom w !! "issueCategory"); [cbn|by cbn].
  all: destruct (dom w !! "priority"); [cbn|by cbn].
  all: destruct (dom w !! "location"); [cbn|by cbn].
  all: destruct (dom w !! "description"); [cbn|by cbn].
  all: destruct (dom w !! "publicReport"); [cbn|by cbn].
  all: by destruct (dom w !! "anonymousReport"); cbn.
Qed.

(** ** Local storage *)

Lemma getSettings_run w : exists st, getSettings w = (Done st, w).
Proof. by eexists. Qed.

Lemma getSettings_dom w w1 st :
  getSettings w = (Done st, exec getSettings w) -> dom w1 = dom w ->
  getSettings w1 = (Done st, w1).
Proof.
  unfold getSettings, bind, get, ret. cbn. intros [= <-] H. by rewrite H.
Qed.

(** What [saveToLocalStorage] writes. *)
Lemma saveToLocalStorage_run w st :
  getSettings w = (Done st, w) ->
  saveToLocalStorage w =
  (Done tt, set_localStorage
              (Some (StoredJson (snapshot_toJSON
                 (mkSnapshot (reports w) (drafts w) (currentUser w) st)))) w).
Proof. intros H. unfold saveToLocalStorage. by rewrite (bind_done _ _ _ _ _ H). Qed.

(** ** Submission *)

(** C5. When the form can be read, the report is valid and the form
    element exists, submitReport returns, appends exactly the sanitized
    and routed report to the reports, stores the snapshot of the new list,
    the drafts, the user and the settings, sets the timer that puts the
    report under review two seconds later, and changes nothing else that
    persists. *)
Lemma submitReport_valid_run w data st :
  result collectReportData w = Done data ->
  isValid (validateReportData data) = true ->
  is_Some (dom w !! "reportForm") ->
  result getSettings w = Done st ->
  let rs := (reports w ++ [routeReport (clock w) (sanitize_fields data)])%list in
  wp submitReport
    (fun o w' =>
       o = Done tt /\
       frame eq rs
         (currentUser w, drafts w,
          Some (StoredJson (snapshot_toJSON (mkSnapshot rs (drafts w) (currentUser w) st))),
          clock w)
         (timers w ++ [((clock w + 2000)%Z, TaskUnderReview (id data))])%list w') w.
Proof.
  intros Hc%result_done Hv Hform Hst%result_done rs.
  match goal with |- wp _ (fun o w' => _ /\ frame _ _ ?a ?b w') _ => set (x := a); set (ts := b) end.
  destruct (observable_fields _ _ (collectReportData_observable _ _ _ Hc))
    as (Hr & Hp & Hts & Hdom).
  injection Hp as Hu Hd _ Hclk.
  unfold submitReport. apply wp_try_catch, wp_bind. eapply wp_done; [exact Hc|].
  rewrite Hv. cbn [negb]. cbv beta iota. unfold now.
  repeat wp_step. eapply wp_done.
  { apply saveToLocalStorage_run, (getSettings_dom w); [done|]. cbn. exact Hdom. }
  unfold setTimeout at 1. do 2 wp_step.
  eapply wp_mono; [apply (submit_tail eq rs x ts); [|cbn; by rewrite Hdom]|by intros o s' [-> Hs']].
  rewrite validate_data.
  split_and!; unfold persistent; cbn; rewrite ?Hr, ?Hd, ?Hu, ?Hclk, ?Hts; done.
Qed.

(** C19. When validation fails, submitReport returns without changing the
    reports, the drafts, the user, the storage or the clock, and without
    removing a timer. *)
Lemma submitReport_invalid_run w data :
  result collectReportData w = Done data ->
  isValid (validateReportData data) = false ->
  wp submitReport
    (fun o w' => o = Done tt /\ frame eq (reports w) (persistent w) (timers w) w') w.
Proof.
  intros Hc%result_done Hv.
  destruct (observable_fields _ _ (collectReportData_observable _ _ _ Hc))
    as (Hr & Hp & Hts & Hdom).
  unfold submitReport. apply wp_try_catch, wp_bind. eapply wp_done; [exact Hc|].
  rewrite Hv. cbn [negb]. cbv beta iota.
  apply (returns_wp (frame eq (reports w) (persistent w) (timers w)));
    [apply frame_showNotification | by rewrite <- Hr, <- Hp, <- Hts | by intros []].
Qed.

(** C20. When reading the form raises an exception (an input is missing),
    submitReport catches it and returns without changing the reports, the
    drafts, the user, the storage or the clock. *)
Lemma submitReport_unreadable_run w e :
  result collectReportData w = Throw e ->
  wp submitReport
    (fun o w' => o = Done tt /\ frame eq (reports w) (persistent w) (timers w) w') w.
Proof.
  intros Hc%result_throw.
  destruct (observable_fields _ _ (collectReportData_observable _ _ _ Hc))
    as (Hr & Hp & Hts & Hdom).
  unfold submitReport. apply wp_try_catch, wp_bind. unfold wp at 1, result, exec. rewrite Hc. cbn.
  apply (returns_wp (frame eq (reports w) (persistent w) (timers w)));
    [apply frame_submit_failed | by rewrite <- Hr, <- Hp, <- Hts | by intros []].
Qed.

(** C6. submitReport never lets an exception escape: whatever the world,
    every exception raised while reading, validating, storing or showing
    is caught by its handler, which returns. *)
Lemma submitReport_returns : total submitReport.
Proof.
  intros w. change (wp submitReport (fun o _ => is_done o) w).
  unfold submitReport. apply wp_try_catch, wp_any. intros [a|e] s'; [done|].
  apply (returns_wp (frame eq (reports s') (persistent s') []));
    [apply frame_submit_failed | by split_and!; [| |apply prefix_nil] | done].
Qed.

(** ** Drafts *)

(** C30. When the form can be read, saveDraft returns, appends the report
    read, marked as a draft saved at the clock, to the drafts, stores the
    snapshot, and leaves the reports, the user and the clock as they are. *)
Lemma saveDraft_run w data st :
  result collectReportData w = Done data ->
  result getSettings w = Done st ->
  let ds := (drafts w ++ [set_savedAt (Some (clock w)) (set_isDraft true data)])%list in
  wp saveDraft
    (fun o w' =>
       o = Done tt /\
       frame eq (reports w)
         (currentUser w, ds,
          Some (StoredJson (snapshot_toJSON (mkSnapshot (reports w) ds (currentUser w) st))),
          clock w) (timers w) w') w.
Proof.
  intros Hc%result_done Hst%result_done ds.
  destruct (observable_fields _ _ (collectReportData_observable _ _ _ Hc))
    as (Hr & Hp & Hts & Hdom).
  injection Hp as Hu Hd _ Hclk.
  unfold saveDraft. apply wp_bind. eapply wp_done; [exact Hc|]. unfold now.
  repeat wp_step. eapply wp_done.
  { apply saveToLocalStorage_run, (getSettings_dom w); [done|]. cbn. exact Hdom. }
  eapply returns_wp; [apply frame_showNotification| |by intros []].
  split_and!; unfold persistent; cbn; rewrite ?Hr, ?Hd, ?Hu, ?Hclk, ?Hts; done.
Qed.

(** ** Status updates *)

(** C10. When a report has the identifier, updateReportStatus gives the
    first such report the new status and a new timeline entry, stores the
    snapshot of the reports as they are then, and leaves the reports a
    permutation of that list (the dashboard sorts them in place), whether
    or not the dashboard update raises an exception. *)
Lemma updateReportStatus_found reportId newStatus description w st :
  reportId ∈ id <$> reports w ->
  result getSettings w = Done st ->
  let rs := update_status (clock w) reportId newStatus description (reports w) in
  wp (updateReportStatus reportId newStatus description)
    (fun _ w' =>
       frame (≡ₚ) rs
         (currentUser w, drafts w,
          Some (StoredJson (snapshot_toJSON (mkSnapshot rs (drafts w) (currentUser w) st))),
          clock w) (timers w) w') w.
Proof.
  intros Hid Hst%result_done rs. unfold updateReportStatus. wp_step. wp_step.
  destruct (list_find _ _) as [[k r]|] eqn:E.
  2:{ apply list_elem_of_fmap_1 in Hid as (r & -> & Hr).
      eapply list_find_None, Forall_forall in E; [|exact Hr]. done. }
  repeat wp_step. eapply wp_done; [by apply saveToLocalStorage_run, (getSettings_dom w)|].
  match goal with |- wp _ _ ?s => assert (frame (≡ₚ) rs
         (currentUser w, drafts w,
          Some (StoredJson (snapshot_toJSON (mkSnapshot rs (drafts w) (currentUser w) st))),
          clock w) (timers w) s) as Hfr by done end.
  wp_step. eapply keeps_wp; [apply frame_updateDashboard|exact Hfr|].
  intros [[]|e] s' Hs'; [|done]. wp_step. wp_step; [|done].
  eapply returns_wp; [apply frame_showNotification|done..].
Qed.

(** The callback of [simulateResolution] does on the reports of the
    world what [advance] does on a list of reports, for the report object
    that the timer holds. *)
Lemma advance_task_advance o k r w :
  list_find (fun r => oid r = o) (reports w) = Some (k, r) ->
  wp (advance_task o) (fun _ w' => reports w' ≡ₚ advance (clock w) r (reports w)) w.
Proof.
  intros Hf. unfold advance_task, advance. wp_step. wp_step. rewrite Hf.
  destruct (advance_call (status r)) as [[n d]|]; [|by unfold wp, exec].
  destruct (getSettings_run w) as [st Hst].
  eapply wp_mono; [eapply (updateReportStatus_found _ _ _ _ st); [|unfold result; by rewrite Hst]|].
  - apply list_find_Some in Hf as (Hk%list_elem_of_lookup_2 & _). by apply list_elem_of_fmap_2.
  - by intros _ w' (Hp & _).
Qed.

(** ** Timers *)

Lemma set_timers_id w : set_timers (timers w) w = w.
Proof. by destruct w. Qed.

Lemma for_each_setTimeout {A} (task : A -> Task) (delay : A -> Z) l w :
  for_each (fun p => setTimeout (task p) (delay p)) l w =
  (Done tt,
   set_timers (timers w ++ ((fun p => ((clock w + delay p)%Z, task p)) <$> l))%list w).
Proof.
  revert w. induction l as [|p l IH]; intros w.
  - cbn. by rewrite app_nil_r, set_timers_id.
  - cbn [for_each]. unfold bind at 1, setTimeout at 1, modify. rewrite IH. cbn.
    by rewrite <- app_assoc.
Qed.

(** C18. simulateResolution returns, sets exactly one timer per pending
    report, in the order of the reports, due 10 seconds times its position
    after the clock, and changes nothing else. *)
Lemma simulateResolution_run w :
  simulateResolution w =
  (Done tt, set_timers (timers w ++ resolution_timers w)%list w).
Proof.
  unfold simulateResolution, resolution_timers, bind, get.
  rewrite for_each_setTimeout. do 3 f_equal. apply list_eq. intros k.
  rewrite list_lookup_fmap, !list_lookup_imap. by destruct (_ !! k).
Qed.

(** The timer that fires is due, none is due before it, and those set
    before it are due later. *)
Lemma next_timer_Some ts k due task :
  next_timer ts = Some (k, (due, task)) ->
  ts !! k = Some (due, task) /\
  Forall (fun q => (due <= q.1)%Z) ts /\
  forall j q, j < k -> ts !! j = Some q -> (due < q.1)%Z.
Proof.
  unfold next_timer. intros (Hk & Hmin & Hfirst)%list_find_Some. split_and!; [done..|].
  intros j q Hj Hq. destruct (Z.lt_ge_cases due q.1) as [|Hle]; [done|].
  destruct (Hfirst j q Hq Hj). eapply Forall_impl; [exact Hmin|]. cbn. lia.
Qed.

(** A pending timer can always fire. *)
Lemma next_timer_is_Some ts : ts <> [] -> is_Some (next_timer ts).
Proof.
  intros Hne. unfold next_timer.
  assert (exists p, p ∈ ts /\ Forall (fun q => (p.1 <= q.1)%Z) ts) as (p & Hp & Hmin).
  { induction ts as [|a ts IH]; [done|]. clear Hne. destruct ts as [|b ts].
    - exists a. split; [left|]. constructor; [cbn; lia | constructor].
    - destruct IH as (p & Hp & Hmin); [done|].
      destruct (Z.le_ge_cases a.1 p.1).
      + exists a. split; [left|]. constructor; [cbn; lia|].
        eapply Forall_impl; [exact Hmin|]. cbn. lia.
      + exists p. split; [by right|]. constructor; [cbn; lia | done]. }
  destruct (list_find (fun p => Forall (fun q => (p.1 <= q.1)%Z) ts) ts) eqn:E; [done|].
  eapply list_find_None, Forall_forall in E; [|exact Hp]. done.
Qed.

(** ** Restoring *)

Lemma loadFromLocalStorage_snapshot s w :
  localStorage w = Some (StoredJson (snapshot_toJSON s)) ->
  loadFromLocalStorage w =
  install_snapshot (stored <$> snap_reports s, stored <$> snap_drafts s,
                    snap_currentUser s, Some (snap_settings s)) w.
Proof.
  intros H. unfold loadFromLocalStorage, bind, get. rewrite H.
  assert (exists ms, snapshot_toJSON s = JObj ms) as [ms E] by (by eexists).
  rewrite E. cbv beta iota. by rewrite <- E, snapshot_roundtrip.
Qed.

Lemma assign_oids_same_data n l : Forall2 same_data (assign_oids n l) l.
Proof.
  apply Forall2_same_length_lookup_2; [unfold assign_oids; by rewrite length_imap|].
  intros k r r' [r0 [Hr0 ->]]%list_lookup_imap_Some Hr'. simplify_eq.
  apply same_data_set_oid.
Qed.

(** What the installation of a snapshot leaves: its reports and drafts
    as new objects, its user; the settings are applied when there are
    some. *)
Lemma install_snapshot_run rs ds u st w :
  wp (install_snapshot (rs, ds, u, st))
    (fun o w' =>
       o = Done tt /\
       frame eq (assign_oids (next_oid w) rs)
         (u, assign_oids (next_oid w + length rs) ds, localStorage w, clock w)
         (timers w) w') w.
Proof.
  unfold install_snapshot. wp_step. wp_step.
  assert (frame eq (assign_oids (next_oid w) rs)
            (u, assign_oids (next_oid w + length rs) ds, localStorage w, clock w)
            (timers w)
            (set_next_oid (next_oid w + length rs + length ds)
               (set_currentUser u
                  (set_drafts (assign_oids (next_oid w + length rs) ds)
                     (set_reports (assign_oids (next_oid w) rs) w))))) as Hf
    by (by split_and!; unfold persistent; cbn).
  destruct st; [|done].
  eapply returns_wp; [apply frame_applySettings|exact Hf|by intros []].
Qed.

(** C14. When the storage holds a snapshot written by saveToLocalStorage,
    loadFromLocalStorage returns and sets the reports, the drafts and the
    user to those of the snapshot, each report as JSON.stringify keeps it
    and as a new object, changing neither the storage nor the clock nor
    the timers. *)
Lemma loadFromLocalStorage_restores s w :
  localStorage w = Some (StoredJson (snapshot_toJSON s)) ->
  wp loadFromLocalStorage
    (fun o w' =>
       o = Done tt /\
       frame eq (assign_oids (next_oid w) (stored <$> snap_reports s))
         (snap_currentUser s,
          assign_oids (next_oid w + length (stored <$> snap_reports s))
                      (stored <$> snap_drafts s),
          localStorage w, clock w) (timers w) w') w.
Proof.
  intros H. eapply wp_ext; [exact (loadFromLocalStorage_snapshot s w H)|].
  apply install_snapshot_run.
Qed.

(** ** Analytics *)

Lemma set_random_id w : set_random (random w) w = w.
Proof. by destruct w. Qed.

Lemma random_text_run w :
  random_text w = (Done (hd "0" (random w)), set_random (tail (random w)) w).
Proof.
  unfold random_text, bind, get. destruct (random w) eqn:E; cbn; [|done].
  by rewrite <- E, set_random_id.
Qed.

Lemma random_below_run k w :
  random_below k w =
  (Done (random_floor k (hd "0" (random w))), set_random (tail (random w)) w).
Proof. unfold random_below. by rewrite (bind_done _ _ _ _ _ (random_text_run w)). Qed.

(** The loop of [createResolutionChart] computes the rows of the
    reference and takes their texts from the tape. *)
Lemma resolution_loop_run l w :
  map_m (fun i =>
           date <- now ;;
           submitted <- random_below 10 ;;
           resolved <- random_below 8 ;;
           ret (weekday_before date i, (submitted + 5)%Z, (resolved + 3)%Z)) l w =
  (Done (resolution_rows (clock w) (random w) l).1,
   set_random (resolution_rows (clock w) (random w) l).2 w).
Proof.
  revert w. induction l as [|i l IH]; intros w; cbn [map_m resolution_rows fst snd].
  - by rewrite set_random_id.
  - unfold now at 1, gets at 1, bind at 1 2.
    rewrite (bind_done _ _ _ _ _ (random_below_run 10 w)).
    rewrite (bind_done _ _ _ _ _ (random_below_run 8 _)).
    unfold ret at 1. unfold bind at 1. rewrite IH. reflexivity.
Qed.

Lemma resolution_rows_labels t tape l :
  (fun row => row.1.1) <$> (resolution_rows t tape l).1 = weekday_before t <$> l.
Proof. revert tape. induction l as [|i l IH]; intros tape; cbn; [done|]. by rewrite IH. Qed.

Lemma resolution_rows_tape t tape l :
  (resolution_rows t tape l).2 = drop (2 * length l) tape.
Proof.
  revert tape. induction l as [|i l IH]; intros tape; cbn [resolution_rows snd length]; [done|].
  rewrite IH. replace (2 * S (length l)) with (S (S (2 * length l))) by lia.
  by destruct tape as [|? [|? ?]]; cbn; rewrite ?drop_nil.
Qed.

Lemma resolution_rows_bounds t tape l :
  Forall (fun row => (5 <= row.1.2 <= 14)%Z /\ (3 <= row.2 <= 10)%Z)
         (resolution_rows t tape l).1.
Proof.
  revert tape. induction l as [|i l IH]; intros tape; cbn; constructor; [|apply IH]. cbn.
  pose proof (random_floor_bounds 10 (hd "0" tape)).
  pose proof (random_floor_bounds 8 (hd "0" (tail tape))). lia.
Qed.

Lemma createResolutionChart_run w :
  is_Some (dom w !! "resolutionChart") ->
  createResolutionChart w =
  (Done tt,
   set_charts (charts w ++ [resolution_chart (resolution_rows (clock w) (random w) chart_days).1])
     (set_random (drop 14 (random w)) w)).
Proof.
  intros [e He]. unfold createResolutionChart, getElementById, gets, bind at 1. rewrite He.
  rewrite (bind_done _ _ _ _ _ (resolution_loop_run chart_days w)).
  by rewrite resolution_rows_tape.
Qed.

Lemma createCategoryChart_run w :
  is_Some (dom w !! "categoryChart") ->
  createCategoryChart w =
  (Done tt, set_charts (charts w ++ [category_chart (reports w)]) w).
Proof. intros [e He]. unfold createCategoryChart, getElementById, gets, bind, get. by rewrite He. Qed.

(** When the page has the two canvases, updateAnalytics returns and
    gives two charts to the library: first the chart of the last seven
    days, whose numbers come from the next fourteen values of
    Math.random, then the chart of the categories of the reports; it
    changes nothing that persists and sets no timer. *)
Lemma updateAnalytics_run w :
  is_Some (dom w !! "resolutionChart") -> is_Some (dom w !! "categoryChart") ->
  wp updateAnalytics
    (fun o w' =>
       o = Done tt /\
       charts w' =
         (charts w ++ [resolution_chart (resolution_rows (clock w) (random w) chart_days).1;
                       category_chart (reports w)])%list /\
       random w' = drop 14 (random w) /\
       frame eq (reports w) (persistent w) (timers w) w') w.
Proof.
  intros Hr Hc. unfold updateAnalytics. apply wp_bind.
  eapply wp_done; [by apply createResolutionChart_run|].
  eapply wp_done; [by apply createCategoryChart_run|].
  split_and!; [done | by cbn; rewrite <- app_assoc | done | by split_and!].
Qed.

(** Without the canvases nothing is drawn and no number is drawn. *)
Lemma updateAnalytics_absent w :
  dom w !! "resolutionChart" = None -> dom w !! "categoryChart" = None ->
  updateAnalytics w = (Done tt, w).
Proof.
  intros Hr Hc. unfold updateAnalytics.
  assert (createResolutionChart w = (Done tt, w)) as H1.
  { unfold createResolutionChart, getElementById, gets, bind. by rewrite Hr. }
  rewrite (bind_done _ _ _ _ _ H1).
  unfold createCategoryChart, getElementById, gets, bind. by rewrite Hc.
Qed.

(** The labels of seven days in a row are the days of the week. *)
Lemma week_labels t :
  weekday_before t <$> chart_days ≡ₚ weekdays /\
  last (weekday_before t <$> chart_days) = Some (weekday_before t 0).
Proof.
  split; [|done]. unfold weekday_before, chart_days. cbn [fmap list_fmap].
  pose proof (Z.mod_pos_bound (t / 86400000 + 4) 7 eq_refl) as Hm.
  replace (t / 86400000 - 6 + 4)%Z with (t / 86400000 + 4 - 6)%Z by lia.
  replace (t / 86400000 - 5 + 4)%Z with (t / 86400000 + 4 - 5)%Z by lia.
  replace (t / 86400000 - 4 + 4)%Z with (t / 86400000 + 4 - 4)%Z by lia.
  replace (t / 86400000 - 3 + 4)%Z with (t / 86400000 + 4 - 3)%Z by lia.
  replace (t / 86400000 - 2 + 4)%Z with (t / 86400000 + 4 - 2)%Z by lia.
  replace (t / 86400000 - 1 + 4)%Z with (t / 86400000 + 4 - 1)%Z by lia.
  replace (t / 86400000 - 0 + 4)%Z with (t / 86400000 + 4 - 0)%Z by lia.
  rewrite <- !(Zminus_mod_idemp_l (t / 86400000 + 4)).
  set (m := ((t / 86400000 + 4) mod 7)%Z) in *.
  assert (m = 0 \/ m = 1 \/ m = 2 \/ m = 3 \/ m = 4 \/ m = 5 \/ m = 6)%Z
    as [-> |[-> |[-> |[-> |[-> |[-> | ->]]]]]] by lia; vm_compute; solve_Permutation.
Qed.

Lemma resolution_rows_length t tape l : length (resolution_rows t tape l).1 = length l.
Proof. revert tape. induction l as [|i l IH]; intros tape; cbn; [done|]. by rewrite IH. Qed.

(** C40. On a page with the canvas, createResolutionChart returns and
    draws one chart more, whose labels are the seven days of the week,
    each once, ending with the day of the clock, and whose two data arrays
    have seven numbers each, between 5 and 14 for the submitted ones and
    between 3 and 10 for the resolved ones. *)
Theorem createResolutionChart_bounds w :
  is_Some (dom w !! "resolutionChart") ->
  let c := resolution_chart (resolution_rows (clock w) (random w) chart_days).1 in
  wp createResolutionChart
     (fun o w' => o = Done tt /\ charts w' = (charts w ++ [c])%list) w /\
  chart_labels c ≡ₚ weekdays /\
  last (chart_labels c) = Some (weekday_before (clock w) 0) /\
  exists xs ys,
    ds_data <$> chart_datasets c = [Num <$> xs; Num <$> ys] /\
    length xs = 7 /\ length ys = 7 /\
    Forall (fun n => 5 <= n <= 14)%Z xs /\ Forall (fun n => 3 <= n <= 10)%Z ys.
Proof.
  intros Hc c. subst c. cbn [resolution_chart chart_labels chart_datasets].
  rewrite resolution_rows_labels.
  pose proof (resolution_rows_bounds (clock w) (random w) chart_days) as Hb.
  pose proof (resolution_rows_length (clock w) (random w) chart_days) as Hl.
  set (rows := (resolution_rows (clock w) (random w) chart_days).1) in *.
  split_and!; [|apply week_labels..|].
  - eapply wp_done; [by apply createResolutionChart_run|]. done.
  - exists ((fun row => row.1.2) <$> rows), ((fun row => row.2) <$> rows).
    rewrite !length_fmap, !Forall_fmap. cbn [fmap list_fmap ds_data].
    rewrite <- !list_fmap_compose.
    split_and!; [done..| |]; (eapply Forall_impl; [exact Hb|]); by intros row [? ?].
Qed.

(** ** Instances on the page of the example *)

Lemma submitReport_valid_run_witness :
  reports (exec submitReport demo_filled) =
  (reports demo_filled ++ [routeReport (clock demo_filled) (sanitize_fields demo_data)])%list.
Proof.
  destruct (submitReport_valid_run demo_filled demo_data demo_settings) as (_ & Hf);
    [by vm_compute | by vm_compute | compute_done | by vm_compute |].
  exact (frame_reports _ _ _ _ Hf).
Defined.

Lemma submitReport_invalid_run_witness :
  reports (exec submitReport demo_loaded) = reports demo_loaded.
Proof.
  destruct (submitReport_invalid_run demo_loaded
              (value_or (result collectReportData demo_loaded) demo_report))
    as (_ & Hf); [by vm_compute | by vm_compute |].
  exact (frame_reports _ _ _ _ Hf).
Defined.

Lemma submitReport_unreadable_run_witness :
  reports (exec submitReport demo_bare) = reports demo_bare.
Proof.
  destruct (submitReport_unreadable_run demo_bare (TypeError "issueTitle"))
    as (_ & Hf); [by vm_compute|].
  exact (frame_reports _ _ _ _ Hf).
Defined.

Lemma saveDraft_run_witness :
  drafts (exec saveDraft demo_filled) =
  (drafts demo_filled ++
   [set_savedAt (Some (clock demo_filled)) (set_isDraft true demo_data)])%list.
Proof.
  destruct (saveDraft_run demo_filled demo_data demo_settings) as (_ & Hf);
    [by vm_compute | by vm_compute |].
  exact (frame_drafts _ _ _ _ _ _ _ _ Hf).
Defined.

Lemma updateReportStatus_found_witness :
  clock (exec (updateReportStatus "4fzyo82mvloyw3v28" RESOLVED "") demo_loaded) =
  clock demo_loaded.
Proof.
  apply (frame_clock (≡ₚ) _ _ _ _ _ _ _
           (updateReportStatus_found "4fzyo82mvloyw3v28" RESOLVED "" demo_loaded
              demo_settings ltac:(compute_done) ltac:(by vm_compute))).
Defined.

Lemma next_timer_Some_witness :
  timers demo_loaded !! 1 = Some (1700000001000%Z, TaskShowRegistration).
Proof. by apply (next_timer_Some _ 1 _ TaskShowRegistration); vm_compute. Defined.

Lemma next_timer_is_Some_witness : is_Some (next_timer (timers demo_loaded)).
Proof. by apply next_timer_is_Some; vm_compute. Defined.

Lemma loadFromLocalStorage_restores_witness :
  reports (exec loadFromLocalStorage demo_loaded) =
  assign_oids (next_oid demo_loaded) (stored <$> snap_reports demo_snapshot).
Proof.
  destruct (loadFromLocalStorage_restores demo_snapshot demo_loaded) as (_ & Hf);
    [by vm_compute|].
  exact (frame_reports _ _ _ _ Hf).
Defined.

(** In the run where the page is loaded, a citizen submits a valid
    report and every timer fires, no timer is left while the report of the
    citizen is still in progress: the simulated back end moves each
    pending report by one status, once. *)
Example demo_done_stuck :
  timers demo_done = [] /\
  (fun r => (title r, status r)) <$> pendingReports (reports demo_done) =
    [("Pothole on Elm Street ", IN_PROGRESS)].
Proof. by vm_compute. Qed.


Lemma demo_loaded_canvases :
  is_Some (dom demo_loaded !! "resolutionChart") /\
  is_Some (dom demo_loaded !! "categoryChart").
Proof. split; compute_done. Qed.

Lemma updateAnalytics_run_witness :
  random (exec updateAnalytics demo_loaded) = drop 14 (random demo_loaded).
Proof.
  destruct (updateAnalytics_run demo_loaded (proj1 demo_loaded_canvases)
              (proj2 demo_loaded_canvases)) as (_ & _ & H & _).
  exact H.
Defined.

Lemma createResolutionChart_bounds_witness :
  chart_labels
    (resolution_chart (resolution_rows (clock demo_loaded) (random demo_loaded) chart_days).1)
  ≡ₚ weekdays.
Proof.
  exact (proj1 (proj2 (createResolutionChart_bounds demo_loaded (proj1 demo_loaded_canvases)))).
Defined.
