(* ===== verification/Invariant.v ===== *)
(** * Invariant: what holds of every world the page can reach

    The invariant [inv] of the worlds, the proof that every method of
    [App] keeps it (by symbolic execution with the rules of [wp], one lemma
    per method, collected in the hint database [js]), and its consequences
    for the worlds reachable from the first loading of the page.  A run
    starts in a browser whose storage holds nothing that the application
    wrote ([unwritten]): nothing, a text that [JSON.parse] rejects,
    [null], or a tree in which [loadFromLocalStorage] finds no report and
    no draft. *)

From stdpp Require Import gmap.
From S2P Require Import Prelude.
From S2P Require Import JsString.
From S2P Require Import Model.
From S2P Require Import Router.
From S2P Require Import Validator.
From S2P Require Import Lifecycle.
From S2P Require Import Json.
From S2P Require Import Dashboard.
From S2P Require Import IdGen.
From S2P Require Import World.
From S2P Require Import App.
From S2P Require Import Handlers.

#[local] Open Scope string_scope.
#[local] Open Scope js_scope.

(** ** Reachable worlds *)

(** One turn of the event loop. *)
Definition turn (w w' : World) : Prop :=
  exists ev, enabled ev w /\ w' = exec (handler ev) w.

(** What the key of the application may hold before the application has
    ever written it: nothing, a text that is not JSON, [null], or a tree
    in which [loadFromLocalStorage] finds no report and no draft (another
    program of the same origin, an older version, a hand edit). *)
Definition unwritten_tree (j : json) : Prop :=
  match snapshot_read j with
  | Some ([], [], _, _) => True
  | _ => False
  end.

Definition unwritten (st : option Stored) : Prop :=
  match st with
  | Some (StoredJson j) => unwritten_tree j
  | _ => True
  end.

(** A browser that is about to load the page for the first time: no
    instance yet, no timer, and a storage that the application has not
    written. *)
Definition boot (w : World) : Prop :=
  reloaded w = true /\ timers w = [] /\ reports w = [] /\ drafts w = [] /\
  unwritten (localStorage w).

(** A first visit of a browser in which another program has left a text
    that is not JSON under the key of the application. *)
Definition demo_corrupt : World :=
  set_localStorage (Some (StoredGarbage "{reports:")) demo_boot.

Definition reachable (w : World) : Prop :=
  exists w0, boot w0 /\ rtc turn w0 w.

#[export] Instance unwritten_dec st : Decision (unwritten st).
Proof.
  destruct st as [[j|g]|]; cbn; [|apply _..]. unfold unwritten_tree.
  destruct (snapshot_read j) as [[[[[|??] [|??]] ?] ?]|]; apply _.
Defined.

#[export] Instance boot_dec w : Decision (boot w).
Proof. unfold boot. apply _. Defined.

(** ** The invariant *)

(** What is stored is what the browser started with, or a snapshot that
    the application wrote, of reports that satisfy the invariant of the
    reports. *)
Definition storage_ok (clk : Z) (st : option Stored) : Prop :=
  unwritten st \/
  exists s, st = Some (StoredJson (snapshot_toJSON s)) /\
            Forall (report_ok clk) (snap_reports s) /\
            Forall (report_ok clk) (snap_drafts s).

(** The invariant: the reports and the drafts satisfy the invariant of the
    reports for the clock of the world; so does what is stored; the
    object identities in use are below [next_oid], and those of the
    reports are distinct. *)
Record inv (w : World) : Prop := mkInv {
  inv_reports : Forall (report_ok (clock w)) (reports w);
  inv_drafts : Forall (report_ok (clock w)) (drafts w);
  inv_storage : storage_ok (clock w) (localStorage w);
  inv_oids : Forall (fun o => o < next_oid w) (oid <$> reports w);
  inv_draft_oids : Forall (fun o => o < next_oid w) (oid <$> drafts w);
  inv_NoDup : NoDup (oid <$> reports w)
}.

(** What [collectReportData] returns: a report with a new identity. *)
Definition collected (w : World) (data : Report) : Prop :=
  report_ok (clock w) data /\ oid data < next_oid w /\
  oid data ∉ oid <$> reports w.

(** ** The invariant is kept by every method *)

Lemma Forall_lt_mono n m (l : list nat) :
  n <= m -> Forall (fun o => o < n) l -> Forall (fun o => o < m) l.
Proof. intros Hle Hl. eapply Forall_impl; [done|]. cbn. lia. Qed.

#[export] Hint Extern 2 (Forall (fun o => o < _) (oid <$> _)) =>
  (eapply Forall_lt_mono; [|eassumption]; cbn; lia) : js.
#[export] Hint Extern 2 (Forall (fun o => o < _) (_ :: _)) =>
  (repeat (apply Forall_cons_2; [cbn; lia|]); apply Forall_nil_2) : js.
#[export] Hint Resolve Forall_nil_2 NoDup_nil_2 : js.
#[export] Hint Extern 2 (NoDup [?n; S ?n]) => exact (NoDup_seq n 2) : js.

Lemma storage_ok_unwritten clk st : unwritten st -> storage_ok clk st.
Proof. by left. Qed.

Lemma storage_ok_None clk : storage_ok clk None.
Proof. by left. Qed.
#[export] Hint Resolve storage_ok_None : js.

Ltac inv_frame :=
  intros;
  match goal with H : inv _ |- _ => destruct H end;
  constructor; cbn in *; eauto with js.


(** *** Primitives *)

Lemma keeps_setTimeout t d : keeps inv (setTimeout t d).
Proof. apply keeps_modify. inv_frame. Qed.

Lemma keeps_update_element_if i f : keeps inv (update_element_if i f).
Proof. apply keeps_modify. inv_frame. Qed.

Lemma keeps_getElementById i : keeps inv (getElementById i).
Proof. apply keeps_gets. Qed.

Lemma keeps_element i : keeps inv (element i).
Proof. unfold element. repeat wp_step; eauto using keeps_getElementById with js. Qed.

Lemma keeps_update_element i f : keeps inv (update_element i f).
Proof.
  unfold update_element. wp_step; [apply keeps_element|]. apply keeps_modify. inv_frame.
Qed.

Lemma keeps_console_log m : keeps inv (console_log m).
Proof. apply keeps_modify. inv_frame. Qed.

Lemma keeps_now : keeps inv now.
Proof. apply keeps_gets. Qed.

Lemma keeps_random_text : keeps inv random_text.
Proof. intros w Hw. unfold random_text. repeat wp_step; revert Hw; inv_frame. Qed.

#[export] Hint Resolve keeps_setTimeout keeps_update_element_if keeps_getElementById
  keeps_element keeps_update_element keeps_console_log keeps_now keeps_random_text : js.

(** Runs the symbolic execution of a goal [keeps inv c] to its leaves. *)
Ltac keeps_run :=
  repeat first [ solve [eauto with js] | wp_step | apply keeps_modify; solve [inv_frame] ].

(** The same for a goal [wp c Q w] with [inv w] at hand: the reads are
    unfolded, a call that keeps the invariant is stepped over, and the
    invariant at the call is left when [inv_frame] does not prove it. *)
Ltac wp_call :=
  lazymatch goal with
  | |- wp _ _ _ =>
      apply (keeps_wp inv);
      [solve [eauto with js] | try solve [assumption | inv_frame] | intros [?|?] ? ?]
  end.
Ltac wp_inv :=
  repeat first
    [ wp_step
    | progress unfold now, getElementById, element, fresh_oid, random_text
    | wp_call ].

Lemma keeps_newId : keeps inv newId.
Proof. unfold newId. keeps_run. Qed.

Lemma keeps_showNotification ty t m : keeps inv (showNotification ty t m).
Proof.
  intros w Hw. unfold showNotification. wp_inv; done.
Qed.

Lemma keeps_removeNotification n : keeps inv (removeNotification n).
Proof. apply keeps_modify. inv_frame. Qed.

Lemma keeps_getSettings : keeps inv getSettings.
Proof. intros w Hw. unfold getSettings. by repeat wp_step. Qed.

Lemma keeps_saveToLocalStorage : keeps inv saveToLocalStorage.
Proof.
  unfold saveToLocalStorage. wp_step; [apply keeps_getSettings|].
  apply keeps_modify. inv_frame. right. by eexists.
Qed.

#[export] Hint Resolve keeps_newId keeps_showNotification keeps_removeNotification
  keeps_getSettings keeps_saveToLocalStorage : js.

Lemma keeps_add_body_class c : keeps inv (add_body_class c).
Proof. apply keeps_modify. inv_frame. Qed.
#[export] Hint Resolve keeps_add_body_class : js.

Lemma keeps_applySettings s : keeps inv (applySettings s).
Proof. unfold applySettings, toggleScreenReaderSupport. keeps_run. Qed.

#[export] Hint Resolve keeps_applySettings : js.

(** *** Views *)

Lemma inv_permute w rs :
  rs ≡ₚ reports w -> inv w -> inv (set_reports rs w).
Proof.
  intros Hp. inv_frame.
  all: by rewrite ?Hp.
Qed.

Lemma keeps_updateRecentActivity : keeps inv updateRecentActivity.
Proof.
  unfold updateRecentActivity. keeps_run.
  apply keeps_modify. intros w. apply inv_permute, sort_reports_Permutation.
Qed.
#[export] Hint Resolve keeps_updateRecentActivity : js.

Lemma keeps_updateDashboard : keeps inv updateDashboard.
Proof. unfold updateDashboard. keeps_run. Qed.

Lemma keeps_displayReports : keeps inv displayReports.
Proof. unfold displayReports. keeps_run. Qed.
#[export] Hint Resolve keeps_updateDashboard keeps_displayReports : js.

Lemma keeps_random_below k : keeps inv (random_below k).
Proof. unfold random_below. keeps_run. Qed.

Lemma keeps_new_chart c : keeps inv (new_chart c).
Proof. apply keeps_modify. inv_frame. Qed.

#[export] Hint Resolve keeps_random_below keeps_new_chart : js.

Lemma keeps_updateAnalytics : keeps inv updateAnalytics.
Proof. unfold updateAnalytics, createResolutionChart, createCategoryChart. keeps_run. Qed.
#[export] Hint Resolve keeps_updateAnalytics : js.

Lemma keeps_loadSectionData s : keeps inv (loadSectionData s).
Proof. unfold loadSectionData. keeps_run. Qed.
#[export] Hint Resolve keeps_loadSectionData : js.

Lemma keeps_navigateToSection s : keeps inv (navigateToSection s).
Proof. unfold navigateToSection. keeps_run. Qed.
#[export] Hint Resolve keeps_navigateToSection : js.

(** *** Status updates *)

Lemma keeps_updateReportStatus i n d :
  n ∈ canonical -> keeps inv (updateReportStatus i n d).
Proof.
  intros Hn w Hw. unfold updateReportStatus. wp_inv; try done.
  inv_frame.
  all: rewrite ?update_status_oids; eauto using update_status_ok.
Qed.

#[export] Hint Resolve keeps_updateReportStatus : js.

Lemma keeps_simulateResolution : keeps inv simulateResolution.
Proof. intros w Hw. unfold simulateResolution. wp_inv. by apply keeps_for_each; eauto with js. Qed.

Lemma keeps_advance_task o : keeps inv (advance_task o).
Proof.
  intros w Hw. unfold advance_task. wp_inv; try done.
  match goal with H : advance_call _ = Some _ |- _ => apply advance_call_next, nextStatus_in in H end.
  apply (keeps_wp inv); [|done..]. by apply keeps_updateReportStatus, statuses_canonical.
Qed.
#[export] Hint Resolve keeps_simulateResolution keeps_advance_task : js.

Lemma keeps_clearReportForm : keeps inv clearReportForm.
Proof. unfold clearReportForm. keeps_run. Qed.
#[export] Hint Resolve keeps_clearReportForm : js.

(** *** Reports as they are made *)

Lemma routeReport_ok t r : report_ok t r -> report_ok t (routeReport t r).
Proof.
  intros Hr. unfold routeReport.
  apply (push_routed_ok (mkEntry ROUTED t _)); [done|].
  by eapply report_ok_ext; [| |exact Hr]; destruct r.
Qed.

Lemma sanitize_fields_ok t r : report_ok t r -> report_ok t (sanitize_fields r).
Proof. apply report_ok_ext; by destruct r. Qed.

Lemma stored_ok t r : report_ok t r -> report_ok t (stored r).
Proof. apply report_ok_ext; by destruct r. Qed.

Lemma set_oid_ok t o r : report_ok t r -> report_ok t (set_oid o r).
Proof. apply report_ok_ext; by destruct r. Qed.

Lemma mockReport1_ok o i t : report_ok t (mockReport1 o i t).
Proof.
  split; [split_and!; [done | compute_done | rewrite canonical_unfold; set_unfold; tauto]|].
  unfold chronological, mockReport1, day. cbn.
  split; repeat constructor; cbn; lia.
Qed.

Lemma mockReport2_ok o i t : report_ok t (mockReport2 o i t).
Proof.
  split; [split_and!; [done | compute_done | rewrite canonical_unfold; set_unfold; tauto]|].
  unfold chronological, mockReport2, day. cbn.
  split; repeat constructor; cbn; lia.
Qed.

#[export] Hint Resolve routeReport_ok sanitize_fields_ok stored_ok set_oid_ok
  mockReport1_ok mockReport2_ok : js.

Lemma collectReportData_spec w :
  inv w ->
  wp collectReportData
     (fun o w' => inv w' /\ match o with Done data => collected w' data | Throw _ => True end) w.
Proof.
  intros Hw. unfold collectReportData, getEvidenceFiles. wp_inv; try done.
  split; [inv_frame|].
  match goal with H : inv _ |- _ => destruct H end.
  split_and!; cbn.
  - by eapply new_report_ok.
  - lia.
  - intros Hin. eapply Forall_forall in Hin; [|done]. cbn in Hin. lia.
Qed.

(** Adding a report that was collected. *)
Lemma inv_add_report w r :
  inv w -> report_ok (clock w) r -> oid r < next_oid w -> oid r ∉ oid <$> reports w ->
  inv (set_reports (reports w ++ [r])%list w).
Proof.
  inv_frame; rewrite ?fmap_app; try (apply Forall_app_2; [done | by apply Forall_singleton]).
  apply NoDup_app. split_and!; [done| |apply NoDup_singleton].
  intros o Ho ->%list_elem_of_singleton. done.
Qed.

Lemma inv_add_draft w r :
  inv w -> report_ok (clock w) r -> oid r < next_oid w ->
  inv (set_drafts (drafts w ++ [r])%list w).
Proof.
  inv_frame; rewrite ?fmap_app; (apply Forall_app_2; [done | by apply Forall_singleton]).
Qed.

Lemma keeps_submitReport : keeps inv submitReport.
Proof.
  intros w Hw. unfold submitReport. wp_step.
  wp_step. eapply wp_mono; [by apply collectReportData_spec|].
  intros [data|e] w1 [Hw1 Hdata]; [|wp_inv; done].
  destruct Hdata as (Hok & Hlt & Hnew). wp_inv; try done.
  rewrite validate_data. apply inv_add_report; auto with js.
  all: by destruct data.
Qed.

Lemma keeps_saveDraft : keeps inv saveDraft.
Proof.
  intros w Hw. unfold saveDraft. wp_step.
  eapply wp_mono; [by apply collectReportData_spec|].
  intros [data|e] w1 [Hw1 Hdata]; [|done].
  destruct Hdata as (Hok & Hlt & Hnew). wp_inv; try done.
  apply inv_add_draft; [done| |by destruct data].
  eapply report_ok_ext; [| |exact Hok]; by destruct data.
Qed.

Lemma keeps_registerUser : keeps inv registerUser.
Proof.
  unfold registerUser, hideRegistrationModal. keeps_run.
Qed.

Lemma keeps_logout : keeps inv logout.
Proof. unfold logout. keeps_run. Qed.

Lemma keeps_updateOnlineStatus b : keeps inv (updateOnlineStatus b).
Proof. unfold updateOnlineStatus, syncOfflineData. keeps_run. Qed.
#[export] Hint Resolve keeps_updateOnlineStatus : js.

Lemma keeps_checkOnlineStatus : keeps inv checkOnlineStatus.
Proof. unfold checkOnlineStatus. keeps_run. Qed.

Lemma keeps_initializeRegistration : keeps inv initializeRegistration.
Proof. unfold initializeRegistration. keeps_run. Qed.

#[export] Hint Resolve keeps_submitReport keeps_saveDraft keeps_registerUser keeps_logout
  keeps_checkOnlineStatus keeps_initializeRegistration : js.

(** *** Loading *)

Lemma assign_oids_oid n l : oid <$> assign_oids n l = seq n (length l).
Proof.
  unfold assign_oids. revert n. induction l as [|r l IH]; intros n; [done|].
  cbn. rewrite <- IH. f_equal; [destruct r; cbn; lia|].
  f_equal. apply imap_ext. intros i x _. cbn. f_equal. lia.
Qed.

Lemma assign_oids_Forall (P : Report -> Prop) n l :
  (forall o r, P r -> P (set_oid o r)) -> Forall P l -> Forall P (assign_oids n l).
Proof.
  intros HP Hl. apply Forall_lookup. intros i r Hi.
  apply list_lookup_imap_Some in Hi as (r' & Hi & ->).
  apply HP. by eapply Forall_lookup_1.
Qed.

Lemma Forall_seq_lt n k m : n + k <= m -> Forall (fun o => o < m) (seq n k).
Proof. intros H. apply Forall_forall. intros o Ho%elem_of_seq. lia. Qed.

Lemma keeps_install_snapshot rs ds u st w :
  inv w -> Forall (report_ok (clock w)) rs -> Forall (report_ok (clock w)) ds ->
  wp (install_snapshot (rs, ds, u, st)) (fun _ w' => inv w') w.
Proof.
  intros Hw Hrs Hds. unfold install_snapshot. wp_step. wp_step.
  assert (inv (set_next_oid (next_oid w + length rs + length ds)
            (set_currentUser u
               (set_drafts (assign_oids (next_oid w + length rs) ds)
                  (set_reports (assign_oids (next_oid w) rs) w))))) as Hw'.
  { revert Hw. inv_frame; rewrite ?assign_oids_oid;
      auto using assign_oids_Forall, set_oid_ok, NoDup_seq.
    all: apply Forall_seq_lt; lia. }
  destruct st; wp_inv; done.
Qed.

(** What [loadFromLocalStorage] does with a storage that the application
    has not written: nothing, a line on the console (the handler of the
    catch), or the installation of a snapshot without reports. *)
Lemma loadFromLocalStorage_unwritten w :
  unwritten (localStorage w) ->
  loadFromLocalStorage w = ret tt w \/
  loadFromLocalStorage w = console_log "Error loading from localStorage:" w \/
  exists u s, loadFromLocalStorage w = install_snapshot ([], [], u, s) w.
Proof.
  unfold loadFromLocalStorage, bind, get. cbn.
  destruct (localStorage w) as [[j|g]|]; cbn; [|destruct (falsy g); auto..|auto].
  unfold unwritten_tree. intros Hj.
  destruct (snapshot_read j) as [[[[[|??] [|??]] u] s]|]; try done.
  destruct j; eauto.
Qed.

Lemma keeps_loadFromLocalStorage : keeps inv loadFromLocalStorage.
Proof.
  intros w Hw. destruct (inv_storage _ Hw) as [Hst|(s & E & Hrs & Hds)].
  - destruct (loadFromLocalStorage_unwritten w Hst) as [E|[E|(u & s & E)]];
      (eapply wp_ext; [exact E|]); [done | by apply keeps_console_log |].
    by apply keeps_install_snapshot.
  - eapply wp_ext; [exact (loadFromLocalStorage_snapshot s w E)|].
    apply keeps_install_snapshot; [done|..]; apply Forall_fmap;
      (eapply Forall_impl; [done|]); intros r; apply stored_ok.
Qed.

Lemma keeps_generateMockData : keeps inv generateMockData.
Proof.
  intros w Hw. unfold generateMockData, newId. wp_inv; try done.
  all: inv_frame.
Qed.

#[export] Hint Resolve keeps_loadFromLocalStorage keeps_generateMockData : js.

Lemma keeps_init : keeps inv init.
Proof. unfold init, setupOfflineCapabilities, syncOfflineData. keeps_run. Qed.
#[export] Hint Resolve keeps_init : js.

Lemma keeps_constructor : keeps inv constructor.
Proof.
  unfold constructor. keeps_run.
Qed.

Lemma inv_fresh_page w : inv w -> inv (fresh_page w).
Proof. unfold fresh_page. inv_frame. Qed.

Lemma storage_ok_mono clk clk' st :
  (clk <= clk')%Z -> storage_ok clk st -> storage_ok clk' st.
Proof.
  intros Hle [Hst|(s & -> & Hrs & Hds)]; [by left|]. right. exists s.
  split_and!; [done|..]; (eapply Forall_impl; [done|]); intros r; by apply report_ok_mono.
Qed.

Lemma inv_clock w clk : (clock w <= clk)%Z -> inv w -> inv (set_clock clk w).
Proof.
  intros Hle. inv_frame; eauto using storage_ok_mono.
  all: (eapply Forall_impl; [done|]); intros r; by apply report_ok_mono.
Qed.

Lemma keeps_run_task t : keeps inv (run_task t).
Proof.
  destruct t; cbn; unfold showRegistrationModal; eauto with js.
  apply keeps_updateReportStatus. rewrite canonical_unfold. set_unfold. tauto.
Qed.
#[export] Hint Resolve keeps_run_task keeps_constructor : js.

Lemma handler_inv ev w : enabled ev w -> inv w -> inv (exec (handler ev) w).
Proof.
  intros Hen Hw. change (wp (handler ev) (fun _ w' => inv w') w).
  destruct ev; cbn [handler]; unfold setting_changed, filter_changed, hideRegistrationModal.
  all: try (apply (keeps_wp inv); [solve [keeps_run] | done | done]).
  - wp_inv; try done. apply inv_clock; [cbn; lia | inv_frame].
  - destruct Hen as [_ Hdt]. wp_step. apply inv_clock; [cbn; lia | done].
Qed.

Lemma turn_inv w w' : turn w w' -> inv w -> inv w'.
Proof. intros (ev & Hen & ->). by apply handler_inv. Qed.

Lemma boot_inv w : boot w -> inv w.
Proof.
  intros (_ & _ & Hr & Hd & Hs). constructor; rewrite ?Hr, ?Hd; cbn; auto with js.
  by apply storage_ok_unwritten.
Qed.

Lemma reachable_inv w : reachable w -> inv w.
Proof.
  intros (w0 & Hb%boot_inv & Hsteps).
  induction Hsteps; eauto using turn_inv.
Qed.

(** ** Runs *)

Lemma run_reachable evs w : boot w -> runnable evs w -> reachable (run evs w).
Proof.
  intros Hb Hr. exists w. split; [done|]. clear Hb.
  revert w Hr. induction evs as [|ev evs IH]; intros w Hr; [done|].
  destruct Hr as [Hen Hr]. eapply rtc_l; [by exists ev|]. by apply IH.
Qed.

Lemma demo_submitted_reachable : reachable demo_submitted.
Proof. apply run_reachable; compute_done. Qed.

(** ** Consequences of the invariant *)

(** C1. In every world reachable from the first loading of the page by
    events of the browser, every report and every draft has a timeline
    that starts with the submission, a status that is the last one its
    timeline records (routed left aside) and is one of submitted, under-
    review, in-progress, resolved, and dates that increase and are not
    after the clock. *)
Theorem reachable_reports_ok w :
  reachable w ->
  Forall (report_ok (clock w)) (reports w) /\ Forall (report_ok (clock w)) (drafts w).
Proof. intros [] %reachable_inv. by split. Qed.

Lemma reachable_reports_ok_witness :
  Forall (report_ok (clock demo_submitted)) (reports demo_submitted).
Proof. apply reachable_reports_ok, demo_submitted_reachable. Defined.

(** C33. Whatever the browser held under the key of the application before
    the first visit (nothing, a text that is not JSON, null, a tree
    without reports), in every world reachable from there
    loadFromLocalStorage returns and changes neither the storage nor the
    clock: the errors of JSON.parse and of the reads in null are caught,
    and what the application itself has stored it can read. *)
Theorem reachable_storage_readable w :
  reachable w ->
  wp loadFromLocalStorage
    (fun o w' => o = Done tt /\ localStorage w' = localStorage w /\ clock w' = clock w) w.
Proof.
  intros Hw%reachable_inv.
  assert (wp loadFromLocalStorage
            (fun o w' => o = Done tt /\ exists rs u ds ts,
               frame eq rs (u, ds, localStorage w, clock w) ts w') w) as H.
  { destruct (inv_storage _ Hw) as [Hst|(s & E & _)].
    - destruct (loadFromLocalStorage_unwritten w Hst) as [E|[E|(u & s & E)]];
        (eapply wp_ext; [exact E|]).
      1,2: split; [done|]; exists (reports w), (currentUser w), (drafts w), [];
        by split_and!; [..|apply prefix_nil].
      eapply wp_mono; [apply install_snapshot_run|]. intros o w' [-> H]. eauto 10.
    - eapply wp_ext; [exact (loadFromLocalStorage_snapshot s w E)|].
      eapply wp_mono; [apply install_snapshot_run|]. intros o w' [-> H]. eauto 10. }
  eapply wp_mono; [exact H|].
  by intros o w' (-> & rs & u & ds & ts & _ & [= _ _ -> ->] & _).
Qed.

Lemma reachable_storage_readable_witness :
  wp loadFromLocalStorage
    (fun o w' => o = Done tt /\ localStorage w' = localStorage demo_corrupt /\
                 clock w' = clock demo_corrupt) demo_corrupt.
Proof.
  apply reachable_storage_readable. exists demo_corrupt. split; [compute_done|apply rtc_refl].
Defined.
