(* ===== verification/Durable.v ===== *)
(** * Durable: what a reload of the page gives back

    [saveToLocalStorage] is called after each change of the reports and of
    the drafts ([src/script.js], lines 235, 269, 310 and 1063), and
    [loadFromLocalStorage] reads the snapshot when the page is loaded
    (line 19).  This file shows that the two agree in every world the page
    can reach: the storage holds the reports and the drafts of the running
    instance, the reports up to their order (the dashboard sorts them in
    place after they were stored), so that loading the page again gives
    them back.

    Most methods change nothing of what is stored: [same_store] is the
    equivalence of the worlds they do not tell apart, and [quiet] says
    that a computation stays in the class of the world it starts from.
    The invariant is stated up to that equivalence ([Proper] instances),
    so that the methods that only show something need one lemma each.
    [logout] (lines 983-987) removes the snapshot and reloads the page:
    while the page is gone the storage holds nothing that the application
    wrote ([reachable_gone]): it is empty, or as the browser had it at
    the first visit.

    [localStorage.setItem] is assumed not to throw (the storage is
    enabled and its quota is not reached): [saveToLocalStorage] always
    stores. *)

From stdpp Require Import gmap.
From S2P Require Import Prelude.
From S2P Require Import JsString.
From S2P Require Import Model.
From S2P Require Import Router.
From S2P Require Import Validator.
From S2P Require Import Lifecycle.
From S2P Require Import Json.
From S2P Require Import Dashboard.
From S2P Require Import IdGen.
From S2P Require Import World.
From S2P Require Import App.
From S2P Require Import Handlers.
From S2P Require Import Invariant.

#[local] Open Scope string_scope.
#[local] Open Scope js_scope.

(** ** Definitions *)

(** Two worlds with the same stored state: the same reports up to their
    order, the same drafts, the same storage, and the page is gone in
    both or in neither. *)
Definition same_store (w w' : World) : Prop :=
  reports w ≡ₚ reports w' /\ drafts w = drafts w' /\
  localStorage w = localStorage w' /\ reloaded w = reloaded w'.

(** A computation that changes nothing of it, whether it returns or
    throws. *)
Definition quiet {A} (c : M World A) : Prop := forall w0, keeps (same_store w0) c.

(** The storage holds the snapshot [s], and a reload would give the
    reports (up to order) and the drafts of the world. *)
Definition holds (s : Snapshot) (w : World) : Prop :=
  localStorage w = Some (StoredJson (snapshot_toJSON s)) /\
  stored <$> snap_reports s ≡ₚ stored <$> reports w /\
  stored <$> snap_drafts s = stored <$> drafts w.

Definition durable (w : World) : Prop := exists s, holds s w.

(** The page has reports, and they are stored. *)
Definition stocked (w : World) : Prop := durable w /\ reports w <> [].

(** While the page is there, it has reports and they are stored. *)
Definition live (w : World) : Prop := reloaded w = false -> stocked w.

(** The page is there: only [logout] makes it go. *)
Definition there (w : World) : Prop := reloaded w = false.

(** What a reload gives back: the reports of [w'] are those of [w] as
    [JSON.stringify] keeps them, up to their order, and so are the drafts,
    in their order. *)
Definition restored (w w' : World) : Prop :=
  stored <$> reports w' ≡ₚ stored <$> reports w /\
  stored <$> drafts w' = stored <$> drafts w.

(** * Lemmas *)

(** ** The equivalence *)

#[export] Instance same_store_equiv : Equivalence same_store.
Proof.
  split.
  - by intros w.
  - intros w1 w2 (? & ? & ? & ?). by split_and!.
  - intros w1 w2 w3 (? & ? & ? & ?) (? & ? & ? & ?). split_and!; by etrans.
Qed.

#[export] Instance holds_proper s : Proper (same_store ==> iff) (holds s).
Proof.
  intros w1 w2 (Hr & Hd & Hs & _). unfold holds. by rewrite Hr, Hd, Hs.
Qed.

#[export] Instance durable_proper : Proper (same_store ==> iff) durable.
Proof. intros w1 w2 H. unfold durable. by setoid_rewrite H. Qed.

#[export] Instance reports_proper : Proper (same_store ==> (≡ₚ)) reports.
Proof. by intros w1 w2 (Hr & _). Qed.

#[export] Instance stocked_proper : Proper (same_store ==> iff) stocked.
Proof.
  assert (forall w1 w2, same_store w1 w2 -> stocked w1 -> stocked w2) as Himp.
  { intros w1 w2 H [Hd Hne]. split; [by rewrite <- H|].
    intros E. apply Hne, Permutation_nil_r. destruct H as (-> & _). by rewrite E. }
  intros w1 w2 H. split; apply Himp; [done | by symmetry].
Qed.

#[export] Instance live_proper : Proper (same_store ==> iff) live.
Proof.
  intros w1 w2 H. unfold live. pose proof H as (_ & _ & _ & Hre).
  rewrite Hre. by setoid_rewrite H.
Qed.

(** A quiet computation keeps whatever is stated up to the equivalence. *)
Lemma quiet_keeps {A} (c : M World A) (P : World -> Prop) :
  Proper (same_store ==> iff) P -> quiet c -> keeps P c.
Proof.
  intros HP Hc w Hw. apply (keeps_wp (same_store w)); [apply Hc | done |].
  intros _ w' Hw'. by rewrite <- Hw'.
Qed.

Lemma quiet_exec {A} (c : M World A) w : quiet c -> same_store w (exec c w).
Proof. intros Hc. by apply (keeps_exec (same_store w) c); [apply Hc|]. Qed.

(** ** The methods that store nothing *)

Create HintDb quiet.

Ltac quiet_leaf :=
  intros;
  match goal with H : same_store _ _ |- _ => destruct H as (? & ? & ? & ?) end;
  split_and!; cbn; done.

(** Runs a goal [keeps (same_store w0) c] to its leaves. *)
Ltac quiet_run :=
  repeat first [ solve [eauto with quiet] | wp_step | apply keeps_modify; solve [quiet_leaf] ].

Lemma quiet_at {A} (c : M World A) w0 : quiet c -> keeps (same_store w0) c.
Proof. intros H. apply H. Qed.

#[export] Hint Extern 1 (keeps (same_store _) _) => apply quiet_at : quiet.

Lemma quiet_setTimeout t d : quiet (setTimeout t d).
Proof. intros w0. apply keeps_modify. quiet_leaf. Qed.

Lemma quiet_update_element_if i f : quiet (update_element_if i f).
Proof. intros w0. apply keeps_modify. quiet_leaf. Qed.

Lemma quiet_getElementById i : quiet (getElementById i).
Proof. intros w0. apply keeps_gets. Qed.

Lemma quiet_element i : quiet (element i).
Proof.
  intros w0. unfold element. repeat wp_step; by apply quiet_at, quiet_getElementById.
Qed.

Lemma quiet_update_element i f : quiet (update_element i f).
Proof.
  intros w0. unfold update_element. wp_step; [apply quiet_at, quiet_element|].
  apply keeps_modify. quiet_leaf.
Qed.

Lemma quiet_console_log m : quiet (console_log m).
Proof. intros w0. apply keeps_modify. quiet_leaf. Qed.

Lemma quiet_now : quiet now.
Proof. intros w0. apply keeps_gets. Qed.

Lemma quiet_random_text : quiet random_text.
Proof. intros w0 w Hw. unfold random_text. repeat wp_step; quiet_leaf. Qed.

Lemma quiet_fresh_oid : quiet fresh_oid.
Proof. intros w0 w Hw. unfold fresh_oid. repeat wp_step; quiet_leaf. Qed.

#[export] Hint Resolve quiet_setTimeout quiet_update_element_if quiet_getElementById
  quiet_element quiet_update_element quiet_console_log quiet_now quiet_random_text
  quiet_fresh_oid : quiet.

Lemma quiet_getSettings : quiet getSettings.
Proof. intros w0 w Hw. unfold getSettings. by repeat wp_step. Qed.

Lemma quiet_showNotification ty t m : quiet (showNotification ty t m).
Proof.
  intros w0 w Hw. unfold showNotification, getElementById. repeat wp_step; [|done].
  apply (keeps_wp (same_store w0)); [apply quiet_setTimeout | quiet_leaf | done].
Qed.

Lemma quiet_removeNotification n : quiet (removeNotification n).
Proof. intros w0. apply keeps_modify. quiet_leaf. Qed.

Lemma quiet_collectReportData : quiet collectReportData.
Proof. intros w0. unfold collectReportData, newId, getEvidenceFiles. quiet_run. Qed.

Lemma quiet_applySettings st : quiet (applySettings st).
Proof.
  intros w0. unfold applySettings, add_body_class, toggleScreenReaderSupport. quiet_run.
Qed.

Lemma quiet_updateRecentActivity : quiet updateRecentActivity.
Proof.
  intros w0. unfold updateRecentActivity. quiet_run.
  apply keeps_modify. intros w (Hr & ? & ? & ?). split_and!; cbn; [|done..].
  by rewrite Hr, sort_reports_Permutation.
Qed.

#[export] Hint Resolve quiet_getSettings quiet_showNotification quiet_removeNotification
  quiet_collectReportData quiet_applySettings quiet_updateRecentActivity : quiet.

Lemma quiet_updateDashboard : quiet updateDashboard.
Proof. intros w0. unfold updateDashboard. quiet_run. Qed.

Lemma quiet_displayReports : quiet displayReports.
Proof. intros w0. unfold displayReports. quiet_run. Qed.

#[export] Hint Resolve quiet_updateDashboard quiet_displayReports : quiet.

Lemma quiet_updateAnalytics : quiet updateAnalytics.
Proof.
  intros w0.
  unfold updateAnalytics, createResolutionChart, createCategoryChart, random_below, new_chart.
  quiet_run.
Qed.
#[export] Hint Resolve quiet_updateAnalytics : quiet.

Lemma quiet_navigateToSection s : quiet (navigateToSection s).
Proof. intros w0. unfold navigateToSection, loadSectionData. quiet_run. Qed.

Lemma quiet_clearReportForm : quiet clearReportForm.
Proof. intros w0. unfold clearReportForm. quiet_run. Qed.

Lemma quiet_simulateResolution : quiet simulateResolution.
Proof.
  intros w0 w Hw. unfold simulateResolution. wp_step. wp_step.
  by apply keeps_for_each; eauto with quiet.
Qed.

Lemma quiet_updateOnlineStatus b : quiet (updateOnlineStatus b).
Proof. intros w0. unfold updateOnlineStatus, syncOfflineData. quiet_run. Qed.

#[export] Hint Resolve quiet_navigateToSection quiet_clearReportForm
  quiet_simulateResolution quiet_updateOnlineStatus : quiet.

Lemma quiet_checkOnlineStatus : quiet checkOnlineStatus.
Proof. intros w0. unfold checkOnlineStatus. quiet_run. Qed.

Lemma quiet_initializeRegistration : quiet initializeRegistration.
Proof. intros w0. unfold initializeRegistration. quiet_run. Qed.

Lemma quiet_modal : quiet showRegistrationModal /\ quiet hideRegistrationModal.
Proof. split; apply quiet_update_element_if. Qed.

#[export] Hint Resolve quiet_checkOnlineStatus quiet_initializeRegistration : quiet.

(** ** The methods that store *)

Lemma stored_set_oid o r : stored (set_oid o r) = stored r.
Proof. by destruct r. Qed.

Lemma stored_idemp r : stored (stored r) = stored r.
Proof. by destruct r as [? ? ? ? ? ? ? ? ? ? ? ? ? ? [[?|?|]|] ? ? ?]. Qed.

Lemma stored_assign_oids n l : stored <$> assign_oids n (stored <$> l) = stored <$> l.
Proof.
  apply list_eq. intros k. unfold assign_oids.
  rewrite !list_lookup_fmap, list_lookup_imap, !list_lookup_fmap.
  destruct (l !! k); cbn; [|done]. by rewrite stored_set_oid, stored_idemp.
Qed.

(** What [saveToLocalStorage] leaves: a world whose storage holds its
    reports and drafts. *)
Lemma saveToLocalStorage_durable w :
  wp saveToLocalStorage
     (fun o w' => o = Done tt /\ durable w' /\ reports w' = reports w /\
                  reloaded w' = reloaded w) w.
Proof.
  destruct (getSettings_run w) as [st Hst].
  eapply wp_done; [by apply saveToLocalStorage_run|]. split_and!; [done| |done..].
  by exists (mkSnapshot (reports w) (drafts w) (currentUser w) st).
Qed.

Lemma saveToLocalStorage_stocked w :
  reports w <> [] -> wp saveToLocalStorage (fun o w' => o = Done tt /\ stocked w') w.
Proof.
  intros Hne. eapply wp_mono; [apply saveToLocalStorage_durable|].
  intros o w' (-> & Hd & Hr & _). split; [done|]. split; [done | by rewrite Hr].
Qed.

(** Runs a goal [wp c Q w] with [stocked w] at hand: a call that stores
    nothing is stepped over, [saveToLocalStorage] leaves a stocked world
    if it has a report, which is the goal left. *)
Ltac stocked_frame :=
  match goal with
  | H : stocked ?w |- stocked ?w' =>
      refine (proj1 (stocked_proper w w' _) H); split_and!; cbn; done
  end.
Ltac stocked_run :=
  repeat lazymatch goal with
         | |- stocked _ => first [assumption | stocked_frame]
         | |- wp saveToLocalStorage _ _ =>
             eapply wp_mono; [apply saveToLocalStorage_stocked | intros ? ? [-> ?]]
         | |- wp (bind _ _) _ _ => apply wp_bind
         | |- wp (modify _) _ _ => apply wp_modify
         | |- wp (put _) _ _ => apply wp_put
         | |- wp (ret _) _ _ => apply wp_ret
         | |- wp get _ _ => apply wp_get
         | |- wp (gets _) _ _ => apply wp_gets
         | |- wp (when _ _) _ _ => apply wp_when
         | |- if ?b then _ else _ => destruct b eqn:?
         | |- wp (if ?b then _ else _) _ _ => destruct b eqn:?
         | |- wp (match ?x with _ => _ end) _ _ => destruct x eqn:?
         | |- wp _ _ _ =>
             apply (keeps_wp stocked); [solve [eauto with quiet] | | intros [?|?] ? ?]
         | |- _ => progress cbv beta iota
         end.

Lemma quiet_stocked {A} (c : M World A) : quiet c -> keeps stocked c.
Proof. apply quiet_keeps, _. Qed.

#[export] Hint Extern 5 (keeps stocked _) => apply quiet_stocked : quiet.

Lemma stocked_nonempty w : stocked w -> reports w <> [].
Proof. by intros []. Qed.

Lemma update_status_nonempty t i n d rs : rs <> [] -> update_status t i n d rs <> [].
Proof.
  intros Hne E. apply (f_equal length) in E. unfold update_status in E.
  rewrite update_first_length in E. by destruct rs.
Qed.

Lemma quiet_newId : quiet newId.
Proof. intros w0. unfold newId. quiet_run. Qed.
#[export] Hint Resolve quiet_newId : quiet.

Lemma keeps_stocked_submitReport : keeps stocked submitReport.
Proof.
  unfold submitReport. apply keeps_try_catch; [|intros e; apply quiet_stocked; intros w0; quiet_run].
  intros w Hw. unfold now. stocked_run; try done. cbn. by intros [_ ?]%app_eq_nil.
Qed.

Lemma keeps_stocked_saveDraft : keeps stocked saveDraft.
Proof.
  intros w Hw. unfold saveDraft, now. stocked_run; try done. cbn. eauto using stocked_nonempty.
Qed.

Lemma keeps_stocked_updateReportStatus i n d : keeps stocked (updateReportStatus i n d).
Proof.
  intros w Hw. unfold updateReportStatus. stocked_run; try done.
  all: by apply update_status_nonempty, stocked_nonempty.
Qed.

#[export] Hint Resolve keeps_stocked_updateReportStatus : quiet.

Lemma keeps_stocked_advance_task o : keeps stocked (advance_task o).
Proof. intros w Hw. unfold advance_task. stocked_run; done. Qed.

Lemma keeps_stocked_registerUser : keeps stocked registerUser.
Proof.
  intros w Hw. unfold registerUser, now. stocked_run; try done.
  cbn. eauto using stocked_nonempty.
Qed.

Lemma keeps_stocked_setting_changed i b : keeps stocked (setting_changed i b).
Proof.
  intros w Hw. unfold setting_changed, toggleScreenReaderSupport. stocked_run; try done.
  all: cbn; eauto using stocked_nonempty.
Qed.

#[export] Hint Resolve keeps_stocked_submitReport keeps_stocked_saveDraft
  keeps_stocked_advance_task keeps_stocked_registerUser keeps_stocked_setting_changed : quiet.

(** ** The page stays *)

#[export] Instance there_proper : Proper (same_store ==> iff) there.
Proof. intros w1 w2 (_ & _ & _ & H). unfold there. by rewrite H. Qed.

Lemma quiet_there {A} (c : M World A) : quiet c -> keeps there c.
Proof. apply quiet_keeps, _. Qed.

#[export] Hint Extern 5 (keeps there _) => apply quiet_there : quiet.

Ltac there_run :=
  repeat first [ solve [eauto with quiet] | wp_step
               | apply keeps_modify; intros ? ?; unfold there in *; cbn; done ].

Lemma keeps_there_saveToLocalStorage : keeps there saveToLocalStorage.
Proof. unfold saveToLocalStorage. there_run. Qed.
#[export] Hint Resolve keeps_there_saveToLocalStorage : quiet.

Lemma keeps_there_loadFromLocalStorage : keeps there loadFromLocalStorage.
Proof.
  intros w Hw. unfold loadFromLocalStorage. wp_step. wp_step.
  destruct (localStorage w) as [[j|g]|]; [|by there_run..].
  destruct (snapshot_read j) as [[[[rs ds] u] st]|]; [|by destruct j].
  assert (wp (install_snapshot (rs, ds, u, st)) (fun _ w' => there w') w) as Hi.
  { unfold install_snapshot. wp_step. wp_step. destruct st; [|done].
    apply (keeps_wp there); [apply quiet_there, quiet_applySettings|done..]. }
  destruct j; (exact Hi || by there_run).
Qed.

Lemma keeps_there_generateMockData : keeps there generateMockData.
Proof. unfold generateMockData. there_run. Qed.

#[export] Hint Resolve keeps_there_loadFromLocalStorage keeps_there_generateMockData : quiet.

Lemma keeps_there_init : keeps there init.
Proof. unfold init, setupOfflineCapabilities, syncOfflineData. there_run. Qed.

(** ** Loading the page *)

(** When there is a report, no mock data is made. *)
Lemma generateMockData_skip w :
  reports w <> [] -> generateMockData w = setTimeout TaskSimulate 5000 w.
Proof.
  intros Hne. unfold generateMockData, bind, get.
  rewrite bool_decide_eq_false_2; [done|]. by destruct (reports w).
Qed.

Lemma generateMockData_stocked w :
  (reports w <> [] -> durable w) ->
  wp generateMockData (fun _ w' => stocked w') w.
Proof.
  intros Hw. destruct (decide (reports w = [])) as [E|Hne].
  - unfold generateMockData, newId, now, random_text, fresh_oid.
    repeat lazymatch goal with
           | |- wp saveToLocalStorage _ _ => fail
           | |- _ => wp_step
           end.
    all: try by rewrite E in *.
    all: eapply wp_mono; [by apply saveToLocalStorage_stocked|]; intros ? ? [-> ?].
    all: by apply (keeps_wp stocked); [apply quiet_stocked, quiet_setTimeout|..].
  - eapply wp_ext; [by apply generateMockData_skip|].
    apply (keeps_wp stocked); [apply quiet_stocked, quiet_setTimeout | by split; auto | done].
Qed.

Lemma returns_checkOnlineStatus w0 : returns (same_store w0) checkOnlineStatus.
Proof.
  unfold checkOnlineStatus, updateOnlineStatus, syncOfflineData, update_element_if,
    console_log.
  repeat first [ wp_step | apply returns_modify; quiet_leaf ].
Qed.

(** What [loadFromLocalStorage] restores is what the storage holds. *)
Lemma loadFromLocalStorage_holds s w :
  localStorage w = Some (StoredJson (snapshot_toJSON s)) ->
  wp loadFromLocalStorage (fun o w' => o = Done tt /\ holds s w') w.
Proof.
  intros H. eapply wp_ext; [exact (loadFromLocalStorage_snapshot s w H)|].
  eapply wp_mono; [apply install_snapshot_run|].
  intros o w' (-> & Hr & [= _ Hd Hs _] & _). split; [done|].
  split_and!; [by rewrite Hs | by rewrite Hr, stored_assign_oids
              | by rewrite Hd, stored_assign_oids].
Qed.

(** When the storage holds a snapshot that has a report, the
    initialization leaves the page with that snapshot. *)
Lemma init_holds s w :
  localStorage w = Some (StoredJson (snapshot_toJSON s)) -> snap_reports s <> [] ->
  wp init (fun _ w' => holds s w') w.
Proof.
  intros Hs Hne. unfold init. wp_step.
  apply (returns_wp (same_store w)); [apply returns_checkOnlineStatus | done |].
  intros [] w1 (_ & _ & Hs1 & _). wp_step.
  eapply wp_mono; [apply (loadFromLocalStorage_holds s); by rewrite <- Hs1|].
  intros o w2 [-> H2]. wp_step.
  assert (reports w2 <> []) as Hne2.
  { destruct H2 as (_ & Hp & _). intros E. rewrite E in Hp.
    apply Permutation_nil_r, fmap_nil_inv in Hp. done. }
  eapply wp_ext; [by apply generateMockData_skip|].
  apply (keeps_wp (holds s)); [apply quiet_keeps, quiet_setTimeout; apply _ | done |].
  intros [[]|e] w3 H3; [|done].
  apply (keeps_wp (holds s)); [apply quiet_keeps; [apply _|] | done | done].
  intros w0. unfold setupOfflineCapabilities, syncOfflineData. quiet_run.
Qed.

(** Whatever a well-formed storage holds, the initialization of a page
    without reports leaves a page whose reports are stored. *)
Lemma init_stocked w :
  storage_ok (clock w) (localStorage w) -> reports w = [] ->
  wp init (fun _ w' => stocked w') w.
Proof.
  intros Hst Hr. unfold init. wp_step.
  apply (returns_wp (same_store w)); [apply returns_checkOnlineStatus | done |].
  intros [] w1 (Hr1 & _ & Hs1 & _). wp_step.
  assert (wp loadFromLocalStorage
            (fun o w2 => o = Done tt /\ (reports w2 <> [] -> durable w2)) w1) as Hload.
  { rewrite Hs1 in Hst. destruct Hst as [Hst|(s & E & _)].
    - rewrite Hr in Hr1. symmetry in Hr1. apply Permutation_nil_r in Hr1.
      destruct (loadFromLocalStorage_unwritten w1 Hst) as [E|[E|(u & s & E)]];
        (eapply wp_ext; [exact E|]); [done..|].
      eapply wp_mono; [apply install_snapshot_run|]. by intros o w2 (-> & -> & _).
    - eapply wp_mono; [by apply (loadFromLocalStorage_holds s)|].
      intros o w2 [-> H2]. split; [done|]. intros _. by exists s. }
  eapply wp_mono; [exact Hload|]. intros o w2 [-> H2]. wp_step.
  eapply wp_mono; [by apply generateMockData_stocked|].
  intros [[]|e] w3 H3; [|done].
  apply (keeps_wp stocked); [apply quiet_stocked | done | done].
  intros w0. unfold setupOfflineCapabilities, syncOfflineData. quiet_run.
Qed.

(** ** The events *)

Lemma quiet_filter_changed i : quiet (filter_changed i).
Proof. intros w0. unfold filter_changed. quiet_run. Qed.

Lemma keeps_stocked_run_task t : keeps stocked (run_task t).
Proof.
  destruct t; cbn; eauto with quiet.
  all: apply quiet_stocked; first [apply quiet_modal | eauto with quiet].
Qed.

#[export] Hint Resolve quiet_filter_changed keeps_stocked_run_task : quiet.

(** Every listener but those of the loading and of the logout keeps the
    reports stored. *)
Lemma handler_stocked ev :
  ev <> EvLoad -> ev <> EvLogout -> keeps stocked (handler ev).
Proof.
  intros Hload Hlogout w Hw. destruct ev; try done; cbn [handler].
  all: unfold hideRegistrationModal; stocked_run; done.
Qed.

(** The page as it is when the initialization starts. *)
Lemma constructor_start w :
  exists w1,
    handler EvLoad w = init w1 /\
    reports w1 = [] /\ localStorage w1 = localStorage w /\ clock w1 = clock w /\ there w1.
Proof.
  by exists (set_drafts [] (set_reports [] (set_isOffline false
              (set_currentUser None (fresh_page w))))).
Qed.

Lemma load_stocked w : inv w -> wp (handler EvLoad) (fun _ w' => stocked w' /\ there w') w.
Proof.
  intros Hw. destruct (constructor_start w) as (w1 & Hrun & Hr & Hs & Hc & Hre).
  eapply wp_eq; [exact Hrun|]. apply wp_and.
  - apply init_stocked; [|done]. rewrite Hs, Hc. apply Hw.
  - by apply keeps_there_init.
Qed.

Lemma load_holds s w :
  holds s w -> reports w <> [] -> wp (handler EvLoad) (fun _ w' => holds s w') w.
Proof.
  intros (Hs & Hp & _) Hne. destruct (constructor_start w) as (w1 & Hrun & _ & Hs1 & _).
  eapply wp_eq; [exact Hrun|]. apply init_holds; [by rewrite Hs1|].
  intros E. rewrite E in Hp. symmetry in Hp. by apply Permutation_nil_r, fmap_nil_inv in Hp.
Qed.

Lemma handler_live ev w : enabled ev w -> inv w -> live w -> live (exec (handler ev) w).
Proof.
  intros Hen Hw Hl.
  destruct ev;
    try (intros _; apply (keeps_exec stocked); [by apply handler_stocked | apply Hl, Hen]).
  - intros _. by apply load_stocked.
  - done.
Qed.

Lemma reachable_live w : reachable w -> live w.
Proof.
  intros (w0 & Hb & Hsteps). revert w Hsteps. apply (rtc_ind_r live w0).
  - intros Hre. destruct Hb as (Hb & _). congruence.
  - intros w1 w2 Hsteps (ev & Hen & ->) IH.
    apply handler_live; [done | apply reachable_inv; by exists w0 | done].
Qed.

(** ** After a logout *)

Lemma keeps_there_stored c :
  c = submitReport \/ c = saveDraft \/ c = registerUser \/ c = simulateResolution ->
  keeps there c.
Proof.
  intros [-> |[-> |[-> | ->]]].
  - unfold submitReport. there_run.
  - unfold saveDraft. there_run.
  - unfold registerUser, hideRegistrationModal. there_run.
  - apply quiet_there, quiet_simulateResolution.
Qed.

Lemma keeps_there_updateReportStatus i n d : keeps there (updateReportStatus i n d).
Proof.
  intros w Hw. unfold updateReportStatus. wp_step. wp_step.
  destruct (list_find _ _) as [[k r]|]; [|done]. wp_step. wp_step.
  apply (keeps_wp there); [by there_run | done | done].
Qed.
#[export] Hint Resolve keeps_there_updateReportStatus : quiet.

Lemma keeps_there_run_task t : keeps there (run_task t).
Proof.
  destruct t; cbn; eauto with quiet.
  intros w Hw. unfold advance_task. repeat wp_step; try done.
  by apply keeps_there_updateReportStatus.
Qed.
#[export] Hint Resolve keeps_there_run_task : quiet.

(** Loading the page makes it there. *)
Lemma load_there w : wp (handler EvLoad) (fun _ w' => there w') w.
Proof.
  destruct (constructor_start w) as (w1 & Hrun & _ & _ & _ & Hw1).
  eapply wp_eq; [exact Hrun|]. by apply keeps_there_init.
Qed.

(** Every listener but that of the logout leaves the page there. *)
Lemma handler_there ev : ev <> EvLogout -> keeps there (handler ev).
Proof.
  intros Hev. destruct ev; try done; try (intros w _; apply load_there); cbn [handler];
    unfold setting_changed, toggleScreenReaderSupport, hideRegistrationModal.
  all: try (apply keeps_there_stored; tauto).
  2-9: solve [there_run].
  intros w Hw. wp_step. wp_step. destruct (next_timer _) as [[k [due t]]|]; [|done].
  wp_step. wp_step. by apply keeps_there_run_task.
Qed.

(** While the page is gone the storage holds nothing that the
    application wrote: it is as the browser started with it, or the user
    has logged out and it is empty. *)
Lemma reachable_gone w : reachable w -> reloaded w = true -> unwritten (localStorage w).
Proof.
  intros (w0 & Hb & Hsteps). revert w Hsteps.
  apply (rtc_ind_r (fun w => reloaded w = true -> unwritten (localStorage w)) w0).
  - intros _. apply Hb.
  - intros w1 w2 _ (ev & Hen & ->) _ Hre.
    assert (ev = EvLogout \/ ev <> EvLogout) as [-> |Hev]
      by (destruct ev; first [by left | by right]); [done|].
    assert (there w1 \/ ev = EvLoad) as Hw1 by (destruct ev; first [by right | left; apply Hen]).
    assert (there (exec (handler ev) w1)) as Hth.
    { destruct Hw1 as [Hw1| ->]; [|apply load_there].
      apply (keeps_exec there); [by apply handler_there | exact Hw1]. }
    unfold there in Hth. congruence.
Qed.

(** ** What holds of every world the page can reach *)

(** C2. In every reachable world where the page is there, the storage
    holds a snapshot whose reports are those of the instance up to their
    order (the dashboard sorts them in place after they were stored) and
    whose drafts are its drafts: no change of the reports or of the drafts
    is left unsaved when a listener or a timer callback ends, whether it
    returned or threw. *)
Theorem reachable_durable w : reachable w -> reloaded w = false -> durable w.
Proof. intros Hw Hre. by apply reachable_live. Qed.

(** C3. Loading the page again in a reachable world gives an instance
    whose reports are the reports it had, up to their order, their object
    identity and what JSON.stringify drops, and whose drafts are the
    drafts it had: a reload loses nothing that was submitted or saved as a
    draft, and makes no mock data. *)
Theorem reload_restores w :
  reachable w -> reloaded w = false -> restored w (exec (handler EvLoad) w).
Proof.
  intros Hw Hre. destruct (reachable_live w Hw Hre) as [[s Hs] Hne].
  pose proof (load_holds s w Hs Hne) as (_ & Hr' & Hd'). destruct Hs as (_ & Hr & Hd).
  split; [by rewrite <- Hr', Hr | by rewrite <- Hd', Hd].
Qed.

(** ** Instances *)

Lemma reachable_durable_witness : durable demo_submitted.
Proof. apply reachable_durable; [apply demo_submitted_reachable | by vm_compute]. Defined.

Lemma reload_restores_witness : restored demo_submitted (exec (handler EvLoad) demo_submitted).
Proof. apply reload_restores; [apply demo_submitted_reachable | by vm_compute]. Defined.
