(* ===== verification/Schedule.v ===== *)
(** * Schedule: the life cycle of the reports under the timers

    A report is moved by two kinds of timer callbacks of [src/script.js]:
    the one that [submitReport] sets, which puts the report with a given
    identifier under review two seconds after the submission (lines
    238-240), and those that [simulateResolution] sets, which move the
    report object they hold to its next status (lines 286-299).  Both end
    in [updateReportStatus], which looks the report up by its identifier.

    This file shows that in every run in which the identifiers of the
    reports stay distinct, every report is well formed ([wf_report]): its
    timeline, the [routed] entries aside, is a prefix of submitted,
    under-review, in-progress, resolved, and its status is the last of
    them.  The invariant [sched] relates the timers to the reports: a
    timer of the first kind waits for a report that is still submitted, is
    due at most two seconds after the clock, and is due before every timer
    of the second kind for the same report; timers fire in the order in
    which they are due.

    [view_le] is the preorder of the worlds that the other methods can
    reach: the same reports up to their order, the same clock, and more
    timers of the other kinds only.  [sched] is monotone along it, so
    that the methods that do not touch the life cycle ([calm]) need one
    lemma each.  The loading of the page starts from what is stored:
    [Durable] gives that it is the reports of the page, or nothing that
    the application wrote.

    The theorems are [reachable_distinct_wf], [review_timer_fires] and
    [advance_timer_live]; [review_timer_breaks] shows what the timer of a
    submission does when another report has its identifier, and
    [duplicate_ids_break] is a reachable run in which that happens.  The
    worlds [demo_waiting] and [demo_simulated] continue the run of [App];
    [clash_waiting] and [clash_run] are the same run on a random tape
    that repeats itself. *)

From stdpp Require Import gmap.
From S2P Require Import Prelude.
From S2P Require Import JsString.
From S2P Require Import Model.
From S2P Require Import Router.
From S2P Require Import Validator.
From S2P Require Import Lifecycle.
From S2P Require Import Json.
From S2P Require Import Dashboard.
From S2P Require Import IdGen.
From S2P Require Import World.
From S2P Require Import App.
From S2P Require Import Handlers.
From S2P Require Import Invariant.
From S2P Require Import Durable.

#[local] Open Scope string_scope.
#[local] Open Scope js_scope.

(** ** Definitions *)

(** The timers that do not move a report. *)
Definition calm_task (t : Task) : bool :=
  match t with
  | TaskUnderReview _ | TaskAdvance _ => false
  | _ => true
  end.

(** What a method that does not touch the life cycle can do to the
    world. *)
Definition view_le (w w' : World) : Prop :=
  reports w ≡ₚ reports w' /\ clock w = clock w' /\
  exists ts, timers w' = (timers w ++ ts)%list /\ Forall (fun p => calm_task p.2 = true) ts.

Definition calm {A} (c : M World A) : Prop := forall w0, keeps (view_le w0) c.

(** The identifiers that the timers of [submitReport] wait for. *)
Definition review_ids (ts : list (Z * Task)) : list string :=
  omap (fun p => match p.2 with TaskUnderReview i => Some i | _ => None end) ts.

(** The invariant of the reports and the timers. *)
Record sched (w : World) : Prop := mkSched {
  sched_wf : Forall wf_report (reports w);
  sched_ids : NoDup (id <$> reports w);
  sched_review : forall d i,
    (d, TaskUnderReview i) ∈ timers w ->
    (d <= clock w + 2000)%Z /\
    exists r, r ∈ reports w /\ id r = i /\ status r = SUBMITTED;
  sched_once : NoDup (review_ids (timers w));
  sched_advance : forall d o, (d, TaskAdvance o) ∈ timers w -> o ∈ oid <$> reports w;
  sched_order : forall d d' r,
    r ∈ reports w -> (d, TaskUnderReview (id r)) ∈ timers w ->
    (d', TaskAdvance (oid r)) ∈ timers w -> (d < d')%Z
}.

(** No timer moves a report. *)
Definition idle (w : World) : Prop := Forall (fun p => calm_task p.2 = true) (timers w).

(** The identifiers of the reports are distinct. *)
Definition distinct (w : World) : Prop := NoDup (id <$> reports w).

#[export] Instance distinct_dec w : Decision (distinct w).
Proof. unfold distinct. apply _. Defined.

(** Every report is well formed. *)
Definition well_formed (w : World) : Prop := Forall wf_report (reports w).

#[export] Instance well_formed_dec w : Decision (well_formed w).
Proof. unfold well_formed. apply _. Defined.

(** The invariant holds if the identifiers are distinct. *)
Definition tidy (w : World) : Prop := distinct w -> sched w.

(** A turn of the event loop after which the identifiers are distinct,
    and the worlds reached by such turns. *)
Definition turn_distinct (w w' : World) : Prop := turn w w' /\ distinct w'.

Definition reachable_distinct (w : World) : Prop :=
  exists w0, boot w0 /\ rtc turn_distinct w0 w.

(** The identifiers are distinct after each event of a run. *)
Fixpoint distinct_along (evs : list Event) (w : World) : Prop :=
  match evs with
  | [] => True
  | ev :: evs => distinct (exec (handler ev) w) /\ distinct_along evs (exec (handler ev) w)
  end.

#[export] Instance distinct_along_dec evs w : Decision (distinct_along evs w).
Proof. revert w. induction evs; intros w; cbn; apply _. Defined.

(** The run of [demo_submitted] until the timer of the submission is the
    next to fire. *)
Definition demo_waiting : World := run (demo_fill ++ [EvSubmit; EvTimer]) demo_boot.

(** The same run until the timers of [simulateResolution] are set. *)
Definition demo_simulated : World :=
  run (demo_fill ++ [EvSubmit; EvTimer; EvTimer; EvTimer]) demo_boot.

(** A browser whose [Math.random] gives the same number three times,
    and the run in which a report is submitted in the millisecond in
    which the page was loaded and two timers fire. *)
Definition clash_boot : World := set_random (replicate 3 "0.4fzyo82mvyr") demo_boot.

(** The same run before the timer of the submission fires. *)
Definition clash_waiting : World := run (demo_fill ++ [EvSubmit; EvTimer]) clash_boot.
Definition clash_run : World := run (demo_fill ++ [EvSubmit; EvTimer; EvTimer]) clash_boot.

(** * Lemmas *)

(** ** The preorder *)

#[export] Instance view_le_preorder : PreOrder view_le.
Proof.
  split.
  - intros w. split_and!; [done..|]. exists []. by rewrite app_nil_r.
  - intros w1 w2 w3 (Hr & Hc & ts & Ht & Hts) (Hr' & Hc' & ts' & Ht' & Hts').
    split_and!; [by etrans | by etrans |].
    exists (ts ++ ts')%list. split; [by rewrite Ht', Ht, app_assoc | by apply Forall_app].
Qed.

(** A timer that moves a report was there before. *)
Lemma view_le_timer w w' p :
  view_le w w' -> p ∈ timers w' -> calm_task p.2 = false -> p ∈ timers w.
Proof.
  intros (_ & _ & ts & -> & Hts) [Hp|Hp]%elem_of_app Hc; [done|].
  eapply Forall_forall in Hts; [|done]. congruence.
Qed.

Lemma review_ids_app ts ts' : review_ids (ts ++ ts') = (review_ids ts ++ review_ids ts')%list.
Proof. apply omap_app. Qed.

Lemma review_ids_calm ts : Forall (fun p => calm_task p.2 = true) ts -> review_ids ts = [].
Proof.
  induction 1 as [|[d t] ts Ht _ IH]; [done|]. cbn in *. by destruct t.
Qed.

(** The invariant is monotone. *)
Lemma sched_mono w w' : view_le w w' -> sched w -> sched w'.
Proof.
  intros Hle [Hwf Hids Hrev Honce Hadv Hord]. pose proof Hle as (Hr & Hc & ts & Ht & Hts).
  constructor.
  - by rewrite <- Hr.
  - by rewrite <- Hr.
  - intros d i Hin. apply (view_le_timer _ _ _ Hle) in Hin; [|done].
    destruct (Hrev d i Hin) as (Hd & r & Hin' & Hi & Hs).
    split; [by rewrite <- Hc|]. exists r. by rewrite <- Hr.
  - by rewrite Ht, review_ids_app, (review_ids_calm ts), app_nil_r.
  - intros d o Hin. apply (view_le_timer _ _ _ Hle) in Hin; [|done].
    rewrite <- Hr. by eapply Hadv.
  - intros d d' r Hin Hu Ha. rewrite <- Hr in Hin.
    apply (view_le_timer _ _ _ Hle) in Hu, Ha; [|done..]. by eapply Hord.
Qed.

Lemma idle_mono w w' : view_le w w' -> idle w -> idle w'.
Proof. intros (_ & _ & ts & Ht & Hts) Hw. unfold idle. rewrite Ht. by apply Forall_app. Qed.

Lemma distinct_view_le w w' : view_le w w' -> distinct w' -> distinct w.
Proof. intros (Hr & _) Hd. unfold distinct in *. by rewrite Hr. Qed.

Lemma tidy_mono w w' : view_le w w' -> tidy w -> tidy w'.
Proof. intros Hle Hw Hd. eapply sched_mono; [done|]. by eapply Hw, distinct_view_le. Qed.

Lemma well_formed_mono w w' : view_le w w' -> well_formed w -> well_formed w'.
Proof. intros (Hr & _). unfold well_formed. by rewrite Hr. Qed.

(** The invariant is about the reports, the timers and the clock. *)
Lemma sched_ext w w' :
  reports w' = reports w -> timers w' = timers w -> clock w' = clock w -> sched w -> sched w'.
Proof.
  intros Hr Ht Hc. apply sched_mono. split_and!; [by rewrite Hr | done |].
  exists []. by rewrite app_nil_r.
Qed.

(** A calm computation keeps what is monotone. *)
Lemma calm_keeps {A} (c : M World A) (P : World -> Prop) :
  (forall w w', view_le w w' -> P w -> P w') -> calm c -> keeps P c.
Proof.
  intros HP Hc w Hw. apply (keeps_wp (view_le w)); [apply Hc | done |].
  intros _ w' Hw'. by eapply HP.
Qed.

Lemma calm_at {A} (c : M World A) w0 : calm c -> keeps (view_le w0) c.
Proof. intros H. apply H. Qed.

Lemma calm_exec {A} (c : M World A) w : calm c -> view_le w (exec c w).
Proof. intros Hc. by apply (keeps_exec (view_le w) c); [apply Hc|]. Qed.

(** ** The calm methods *)

Create HintDb calm.

#[export] Hint Extern 1 (keeps (view_le _) _) => apply calm_at : calm.

Ltac calm_leaf :=
  intros;
  match goal with
  | H : view_le _ _ |- _ => destruct H as (? & ? & ? & ? & ?)
  end;
  split_and!; cbn; [done | done | by eexists].

(** Runs a goal [keeps (view_le w0) c] to its leaves. *)
Ltac calm_run :=
  repeat first [ solve [eauto with calm] | wp_step | apply keeps_modify; solve [calm_leaf] ].

Lemma calm_setTimeout t d : calm_task t = true -> calm (setTimeout t d).
Proof.
  intros Ht w0. apply keeps_modify. intros w (Hr & Hc & ts & Hts & Hcalm).
  split_and!; [done..|]. exists (ts ++ [((clock w + d)%Z, t)])%list. cbn.
  split; [by rewrite Hts, app_assoc | apply Forall_app; by repeat constructor].
Qed.

Lemma calm_update_element_if i f : calm (update_element_if i f).
Proof. intros w0. apply keeps_modify. calm_leaf. Qed.

Lemma calm_getElementById i : calm (getElementById i).
Proof. intros w0. apply keeps_gets. Qed.

Lemma calm_element i : calm (element i).
Proof.
  intros w0. unfold element. repeat wp_step; by apply calm_at, calm_getElementById.
Qed.

Lemma calm_update_element i f : calm (update_element i f).
Proof.
  intros w0. unfold update_element. wp_step; [apply calm_at, calm_element|].
  apply keeps_modify. calm_leaf.
Qed.

Lemma calm_console_log m : calm (console_log m).
Proof. intros w0. apply keeps_modify. calm_leaf. Qed.

Lemma calm_now : calm now.
Proof. intros w0. apply keeps_gets. Qed.

Lemma calm_random_text : calm random_text.
Proof. intros w0 w Hw. unfold random_text. repeat wp_step; calm_leaf. Qed.

Lemma calm_fresh_oid : calm fresh_oid.
Proof. intros w0 w Hw. unfold fresh_oid. repeat wp_step; calm_leaf. Qed.

#[export] Hint Resolve calm_update_element_if calm_getElementById
  calm_element calm_update_element calm_console_log calm_now calm_random_text
  calm_fresh_oid : calm.
#[export] Hint Extern 1 (calm (setTimeout _ _)) => (apply calm_setTimeout; reflexivity) : calm.

Lemma calm_getSettings : calm getSettings.
Proof. intros w0 w Hw. unfold getSettings. by repeat wp_step. Qed.
#[export] Hint Resolve calm_getSettings : calm.

Lemma calm_saveToLocalStorage : calm saveToLocalStorage.
Proof. intros w0. unfold saveToLocalStorage. calm_run. Qed.

Lemma calm_showNotification ty t m : calm (showNotification ty t m).
Proof.
  intros w0 w Hw. unfold showNotification, getElementById. repeat wp_step; [|done].
  apply (keeps_wp (view_le w0)); [by apply calm_setTimeout | calm_leaf | done].
Qed.

Lemma calm_removeNotification n : calm (removeNotification n).
Proof. intros w0. apply keeps_modify. calm_leaf. Qed.

Lemma calm_newId : calm newId.
Proof. intros w0. unfold newId. calm_run. Qed.
#[export] Hint Resolve calm_saveToLocalStorage calm_showNotification
  calm_removeNotification calm_newId : calm.

Lemma calm_collectReportData : calm collectReportData.
Proof. intros w0. unfold collectReportData, getEvidenceFiles. calm_run. Qed.

Lemma calm_applySettings st : calm (applySettings st).
Proof.
  intros w0. unfold applySettings, add_body_class, toggleScreenReaderSupport. calm_run.
Qed.

Lemma calm_updateRecentActivity : calm updateRecentActivity.
Proof.
  intros w0. unfold updateRecentActivity. calm_run.
  apply keeps_modify. intros w (Hr & ? & ?). split_and!; cbn; [|done..].
  by rewrite Hr, sort_reports_Permutation.
Qed.

#[export] Hint Resolve calm_collectReportData calm_applySettings
  calm_updateRecentActivity : calm.

Lemma calm_updateDashboard : calm updateDashboard.
Proof. intros w0. unfold updateDashboard. calm_run. Qed.

Lemma calm_displayReports : calm displayReports.
Proof. intros w0. unfold displayReports. calm_run. Qed.

#[export] Hint Resolve calm_updateDashboard calm_displayReports : calm.

Lemma calm_updateAnalytics : calm updateAnalytics.
Proof.
  intros w0.
  unfold updateAnalytics, createResolutionChart, createCategoryChart, random_below, new_chart.
  calm_run.
Qed.
#[export] Hint Resolve calm_updateAnalytics : calm.

Lemma calm_navigateToSection s : calm (navigateToSection s).
Proof. intros w0. unfold navigateToSection, loadSectionData. calm_run. Qed.

Lemma calm_clearReportForm : calm clearReportForm.
Proof. intros w0. unfold clearReportForm. calm_run. Qed.

Lemma calm_updateOnlineStatus b : calm (updateOnlineStatus b).
Proof. intros w0. unfold updateOnlineStatus, syncOfflineData. calm_run. Qed.

#[export] Hint Resolve calm_navigateToSection calm_clearReportForm
  calm_updateOnlineStatus : calm.

Lemma calm_checkOnlineStatus : calm checkOnlineStatus.
Proof. intros w0. unfold checkOnlineStatus. calm_run. Qed.

Lemma calm_initializeRegistration : calm initializeRegistration.
Proof. intros w0. unfold initializeRegistration. calm_run. Qed.

Lemma calm_saveDraft : calm saveDraft.
Proof. intros w0. unfold saveDraft. calm_run. Qed.

Lemma calm_registerUser : calm registerUser.
Proof. intros w0. unfold registerUser, hideRegistrationModal. calm_run. Qed.

Lemma calm_logout : calm logout.
Proof. intros w0. unfold logout. calm_run. Qed.

Lemma calm_setting_changed i b : calm (setting_changed i b).
Proof. intros w0. unfold setting_changed, toggleScreenReaderSupport. calm_run. Qed.

Lemma calm_filter_changed i : calm (filter_changed i).
Proof. intros w0. unfold filter_changed. calm_run. Qed.

#[export] Hint Resolve calm_checkOnlineStatus calm_initializeRegistration calm_saveDraft
  calm_registerUser calm_logout calm_setting_changed calm_filter_changed : calm.

(** ** The invariant under the changes of the clock and of the timers *)

Lemma review_ids_elem_of ts i : i ∈ review_ids ts <-> exists d, (d, TaskUnderReview i) ∈ ts.
Proof.
  unfold review_ids. rewrite list_elem_of_omap. split.
  - intros ([d t] & Hin & Ht). destruct t; simplify_eq/=. by exists d.
  - intros [d Hd]. by exists (d, TaskUnderReview i).
Qed.

Lemma review_ids_sublist ts ts' :
  ts `sublist_of` ts' -> review_ids ts `sublist_of` review_ids ts'.
Proof.
  induction 1 as [|[d t] ts ts' _ IH|[d t] ts ts' _ IH]; [done|..]; cbn;
    destruct t; cbn; first [done | by constructor].
Qed.

(** Time passes. *)
Lemma sched_clock w c : (clock w <= c)%Z -> sched w -> sched (set_clock c w).
Proof.
  intros Hc [Hwf Hids Hrev Honce Hadv Hord]. constructor; cbn; try done.
  intros d i Hin. destruct (Hrev d i Hin) as [Hd Hr]. split; [lia | done].
Qed.

(** Timers fire. *)
Lemma sched_timers w ts : ts `sublist_of` timers w -> sched w -> sched (set_timers ts w).
Proof.
  intros Hts [Hwf Hids Hrev Honce Hadv Hord]. constructor; cbn; try done.
  - intros d i Hin. eapply Hrev, elem_of_sublist; done.
  - eapply sublist_NoDup; [done | by apply review_ids_sublist].
  - intros d o Hin. eapply Hadv, elem_of_sublist; done.
  - intros d d' r Hr Hu Ha. eapply Hord; [done|eapply elem_of_sublist; done..].
Qed.

(** ** The invariant under the changes of the reports *)

(** With distinct identifiers, [updateReportStatus] changes the report
    that has the identifier and no other. *)
Lemma update_status_elem_of clk n d rs r r' :
  NoDup (id <$> rs) -> r ∈ rs ->
  r' ∈ update_status clk (id r) n d rs <->
  (r' ∈ rs /\ id r' <> id r) \/ r' = apply_status clk n d r.
Proof.
  intros Hnd Hr. induction rs as [|x rs IH]; [by apply elem_of_nil in Hr|].
  cbn in Hnd. apply NoDup_cons in Hnd as [Hx Hnd].
  destruct (decide (id x = id r)) as [E|E].
  - rewrite update_status_cons_hit by done.
    assert (x = r) as ->.
    { apply elem_of_cons in Hr as [-> |Hr]; [done|]. destruct Hx. rewrite E.
      by apply list_elem_of_fmap_2. }
    rewrite !elem_of_cons. split.
    + intros [-> |Hin]; [by right|]. left. split; [by right|]. intros E'.
      destruct Hx. rewrite <- E'. by apply list_elem_of_fmap_2.
    + intros [[[-> |Hin] Hne]| ->]; [done | by right | by left].
  - rewrite update_status_cons_miss by done.
    apply elem_of_cons in Hr as [-> |Hr]; [done|].
    rewrite !elem_of_cons, (IH Hnd Hr). naive_solver.
Qed.

(** A report is moved to its next status while no timer of
    [submitReport] waits for it. *)
Lemma sched_update w r n desc :
  sched w -> r ∈ reports w -> id r ∉ review_ids (timers w) ->
  nextStatus (status r) = Some n ->
  sched (set_reports (update_status (clock w) (id r) n desc (reports w)) w).
Proof.
  intros [Hwf Hids Hrev Honce Hadv Hord] Hr Hno Hn.
  pose proof (fun r' => update_status_elem_of (clock w) n desc _ r r' Hids Hr) as Hel.
  constructor; cbn.
  - apply Forall_forall. intros r' [[Hin _]| ->]%Hel; try done.
    + by eapply Forall_forall in Hwf.
    + apply apply_status_wf; [|done]. by eapply Forall_forall in Hwf.
  - by rewrite update_status_ids.
  - intros d i Hin. destruct (Hrev d i Hin) as (Hd & r' & Hr' & Hi & Hs).
    split; [done|]. exists r'. split_and!; [|done..]. apply Hel. left.
    split; [done|]. intros E. apply Hno, review_ids_elem_of. exists d. congruence.
  - done.
  - intros d o Hin. rewrite update_status_oids. by eapply Hadv.
  - intros d d' r' [[Hin _]| ->]%Hel Hu Ha; try done; [by eapply Hord|].
    destruct Hno. apply review_ids_elem_of. exists d. by rewrite apply_status_id in Hu.
Qed.

(** A report is submitted. *)
Lemma sched_push w r :
  sched w -> wf_report r -> status r = SUBMITTED ->
  id r ∉ id <$> reports w -> oid r ∉ oid <$> reports w ->
  sched (set_timers (timers w ++ [((clock w + 2000)%Z, TaskUnderReview (id r))])
           (set_reports (reports w ++ [r]) w)).
Proof.
  intros [Hwf Hids Hrev Honce Hadv Hord] Hr Hs Hid Hoid.
  assert (id r ∉ review_ids (timers w)) as Hno.
  { intros [d Hd]%review_ids_elem_of. destruct (Hrev d _ Hd) as (_ & r' & Hr' & Hi & _).
    apply Hid. rewrite <- Hi. by apply list_elem_of_fmap_2. }
  constructor; cbn.
  - apply Forall_app. split; [done | by apply Forall_singleton].
  - rewrite fmap_app. apply NoDup_app. split_and!; [done| |apply NoDup_singleton].
    by intros i Hi ->%list_elem_of_singleton.
  - intros d i [Hin|Hin%list_elem_of_singleton]%elem_of_app.
    + destruct (Hrev d i Hin) as (Hd & r' & Hr' & Hi & Hs').
      split; [done|]. exists r'. split; [apply elem_of_app; by left | done].
    + simplify_eq. split; [done|]. exists r. split; [apply elem_of_app; right; by left | done].
  - rewrite review_ids_app. cbn. apply NoDup_app. split_and!; [done| |apply NoDup_singleton].
    by intros i Hi ->%list_elem_of_singleton.
  - intros d o [Hin|Hin%list_elem_of_singleton]%elem_of_app; [|done].
    rewrite fmap_app. apply elem_of_app. left. by eapply Hadv.
  - intros d d' r' Hr' Hu Ha.
    apply elem_of_app in Ha as [Ha|Ha%list_elem_of_singleton]; [|done].
    apply elem_of_app in Hr' as [Hr'| ->%list_elem_of_singleton].
    + apply elem_of_app in Hu as [Hu|Hu%list_elem_of_singleton]; [by eapply Hord|].
      destruct Hid. injection Hu as _ <-. by apply list_elem_of_fmap_2.
    + destruct Hoid. by eapply Hadv.
Qed.

(** The simulation of the back end is started. *)
Lemma sched_simulate w :
  sched w -> sched (set_timers (timers w ++ resolution_timers w) w).
Proof.
  intros [Hwf Hids Hrev Honce Hadv Hord].
  assert (forall p, p ∈ resolution_timers w ->
            exists k r, p = ((clock w + (Z.of_nat k + 1) * 10000)%Z, TaskAdvance (oid r)) /\
                        r ∈ reports w) as Hnew.
  { intros p (k & r & -> & Hk)%elem_of_lookup_imap. exists k, r. split; [done|].
    apply list_elem_of_lookup_2 in Hk. by apply list_elem_of_filter in Hk as [_ ?]. }
  assert (review_ids (resolution_timers w) = []) as Hnone.
  { apply elem_of_nil_inv. intros i [d Hd]%review_ids_elem_of.
    by destruct (Hnew _ Hd) as (k & r & ? & _). }
  constructor; cbn; try done.
  - intros d i [Hin|Hin]%elem_of_app; [by apply Hrev|].
    by destruct (Hnew _ Hin) as (k & r & ? & _).
  - by rewrite review_ids_app, Hnone, app_nil_r.
  - intros d o [Hin|Hin]%elem_of_app; [by eapply Hadv|].
    destruct (Hnew _ Hin) as (k & r & [= -> ->] & Hr). by apply list_elem_of_fmap_2.
  - intros d d' r Hr Hu Ha.
    apply elem_of_app in Hu as [Hu|Hu]; [|by destruct (Hnew _ Hu) as (k & r' & ? & _)].
    apply elem_of_app in Ha as [Ha|Ha]; [by eapply Hord|].
    destruct (Hnew _ Ha) as (k & r' & [= -> _] & _).
    destruct (Hrev d _ Hu) as [Hd _]. lia.
Qed.

(** ** The timer callbacks *)

(** While no timer moves a report, the invariant is that of the reports. *)
Lemma sched_idle w : well_formed w -> distinct w -> idle w -> sched w.
Proof.
  intros Hwf Hd Hi.
  assert (forall d t, (d, t) ∈ timers w -> calm_task t = true) as Hcalm.
  { intros d t Hin. by eapply Forall_forall in Hi; [|done]. }
  constructor; [done..| | | |].
  - intros d i Hin. by apply Hcalm in Hin.
  - rewrite review_ids_calm; [constructor | done].
  - intros d o Hin. by apply Hcalm in Hin.
  - intros d d' r _ Hin _. by apply Hcalm in Hin.
Qed.

(** The timer that fires waits for no report any more. *)
Lemma review_ids_delete ts k d i :
  NoDup (review_ids ts) -> ts !! k = Some (d, TaskUnderReview i) ->
  i ∉ review_ids (delete k ts).
Proof.
  intros Hnd Hk. rewrite <- (take_drop_middle ts k _ Hk), review_ids_app in Hnd.
  apply NoDup_app in Hnd as (_ & Hdis & [Hi _]%NoDup_cons).
  rewrite delete_take_drop, review_ids_app. intros [Hin|Hin]%elem_of_app; [|done].
  apply (Hdis i Hin). by left.
Qed.

Lemma sched_fire w k due t :
  sched w -> timers w !! k = Some (due, t) ->
  sched (set_clock (clock w `max` due)%Z (set_timers (delete k (timers w)) w)).
Proof.
  intros Hs Hk. apply sched_clock; [cbn; lia|]. apply sched_timers; [apply sublist_delete | done].
Qed.

(** [updateReportStatus] for a step of the life cycle, when no timer of
    [submitReport] waits for the report. *)
Lemma sched_updateReportStatus i n desc w :
  sched w -> i ∉ review_ids (timers w) ->
  (forall r, r ∈ reports w -> id r = i -> nextStatus (status r) = Some n) ->
  wp (updateReportStatus i n desc) (fun _ w' => sched w') w.
Proof.
  intros Hs Hno Hn. unfold updateReportStatus. wp_step. wp_step.
  destruct (list_find _ _) as [[k r]|] eqn:E; [|done].
  apply list_find_Some in E as (Hk%list_elem_of_lookup_2 & <- & _).
  wp_step. wp_step.
  apply (keeps_wp sched); [apply (calm_keeps _ _ sched_mono); intros w0; calm_run| |done].
  by apply sched_update; [..|apply Hn].
Qed.

(** The callback of [simulateResolution], when no timer of [submitReport]
    waits for its report. *)
Lemma sched_advance_task o w :
  sched w ->
  (forall r d, r ∈ reports w -> oid r = o -> (d, TaskUnderReview (id r)) ∉ timers w) ->
  wp (advance_task o) (fun _ w' => sched w') w.
Proof.
  intros Hs Hno. unfold advance_task. wp_step. wp_step.
  destruct (list_find _ _) as [[k r]|] eqn:E; [|done].
  apply list_find_Some in E as (Hk%list_elem_of_lookup_2 & Ho & _).
  destruct (advance_call (status r)) as [[n d]|] eqn:Ea; [|done].
  apply advance_call_next in Ea.
  apply sched_updateReportStatus; [done| |].
  - intros [d' Hd']%review_ids_elem_of. by eapply Hno.
  - intros r' Hr' Hi.
    by rewrite (NoDup_fmap_elem_eq id _ r' r (sched_ids _ Hs) Hr' Hk Hi).
Qed.

Lemma calm_modal f : calm (update_element_if "registrationModal" f).
Proof. apply calm_update_element_if. Qed.

(** A timer fires. *)
Lemma sched_timer w : sched w -> wp (handler EvTimer) (fun _ w' => sched w') w.
Proof.
  intros Hs. cbn [handler]. wp_step. wp_step.
  destruct (next_timer (timers w)) as [[k [due t]]|] eqn:E; [|done].
  apply next_timer_Some in E as (Hk & Hmin & _).
  wp_step. wp_step.
  pose proof (sched_fire w k due t Hs Hk) as Hs1.
  destruct t as [i|o| | |node]; cbn [run_task].
  - apply sched_updateReportStatus; [done|..].
    + by apply (review_ids_delete _ _ due); [apply Hs|].
    + intros r Hr Hi.
      destruct (sched_review _ Hs due i) as (_ & r0 & Hr0 & Hi0 & Hst);
        [by eapply list_elem_of_lookup_2|].
      rewrite (NoDup_fmap_elem_eq id (reports w) r r0); [by rewrite Hst|apply Hs|done..|congruence].
  - apply sched_advance_task; [done|]. intros r d Hr Ho Hin.
    cbn in Hin. eapply elem_of_sublist in Hin; [|apply sublist_delete].
    assert (d < due)%Z.
    { eapply (sched_order _ Hs); [exact Hr | done |]. rewrite Ho. by eapply list_elem_of_lookup_2. }
    eapply Forall_forall in Hmin; [|exact Hin]. cbn in Hmin. lia.
  - eapply wp_done; [apply simulateResolution_run|]. by apply sched_simulate.
  - by apply (keeps_wp sched); [apply (calm_keeps _ _ sched_mono), calm_modal|..].
  - by apply (keeps_wp sched); [apply (calm_keeps _ _ sched_mono), calm_removeNotification|..].
Qed.

(** ** Submission *)

(** What [collectReportData] returns is a report that was just
    submitted. *)
Lemma collectReportData_new w :
  wp collectReportData
     (fun o _ => match o with
                 | Done data =>
                     status data = SUBMITTED /\
                     exists t d, timeline data = [mkEntry SUBMITTED t d]
                 | Throw _ => True
                 end) w.
Proof.
  unfold collectReportData, getEvidenceFiles, newId, element, getElementById, now,
    fresh_oid, random_text.
  repeat wp_step; try done. all: cbn; eauto.
Qed.

(** The report that [submitReport] appends is well formed. *)
Lemma routed_wf t data :
  status data = SUBMITTED -> (exists t' d, timeline data = [mkEntry SUBMITTED t' d]) ->
  wf_report (routeReport t (sanitize_fields data)).
Proof.
  intros Hs (t' & d & Ht). apply push_routed_wf; [done|].
  apply (new_report_wf t' d); by destruct data.
Qed.

Lemma calm_submit_failed :
  calm (console_log "Error submitting report:" ;;
        showNotification "error" "Submission Failed"
          "There was an error submitting your report. Please try again.").
Proof. intros w0. calm_run. Qed.

(** The invariant of the world is that of the world that
    [collectReportData] left with one more report and one more timer. *)
Lemma tidy_submitted w r st :
  sched w -> wf_report r -> status r = SUBMITTED -> oid r ∉ oid <$> reports w ->
  let w1 := set_localStorage st (set_reports (reports w ++ [r]) w) in
  tidy (set_timers (timers w1 ++ [((clock w1 + 2000)%Z, TaskUnderReview (id r))]) w1).
Proof.
  intros Hs Hwf Hst Hoid w1 Hd.
  eapply sched_ext; [..|apply (sched_push w r)]; try done.
  unfold distinct in Hd. cbn in Hd. rewrite fmap_app in Hd.
  apply NoDup_app in Hd as (_ & Hdis & _). intros Hin. apply (Hdis _ Hin). by left.
Qed.

Lemma sched_submitReport w : inv w -> sched w -> wp submitReport (fun _ w' => tidy w') w.
Proof.
  intros Hinv Hs. unfold submitReport. wp_step. wp_step.
  eapply wp_mono.
  { apply wp_and; [apply wp_and; [by apply collectReportData_spec|apply collectReportData_new]|].
    by apply (calm_at _ w calm_collectReportData). }
  assert (forall (o : outcome unit) s', tidy s' ->
            match o with
            | Done _ => tidy s'
            | Throw _ =>
                wp (console_log "Error submitting report:" ;;
                    showNotification "error" "Submission Failed"
                      "There was an error submitting your report. Please try again.")
                   (fun _ w' => tidy w') s'
            end) as Hpost.
  { intros [a|e] s' Hs'; [done|].
    by apply (keeps_wp tidy); [apply (calm_keeps _ _ tidy_mono), calm_submit_failed|..]. }
  intros [data|e] w1 [[[Hinv1 Hcol] Hnew] Hle]; cbv beta iota;
    [|by apply (Hpost (Throw e)); intros _; eapply sched_mono].
  pose proof (sched_mono _ _ Hle Hs) as Hs1. destruct Hcol as (_ & _ & Hoid).
  destruct (negb _).
  { apply (keeps_wp tidy); [by apply (calm_keeps _ _ tidy_mono); auto with calm|by intros _|apply Hpost]. }
  unfold now. do 4 wp_step. wp_step.
  match goal with |- wp saveToLocalStorage _ ?s => destruct (getSettings_run s) as [st Hst] end.
  eapply wp_done; [by apply saveToLocalStorage_run|]. wp_step. unfold setTimeout at 1. wp_step.
  apply (keeps_wp tidy); [apply (calm_keeps _ _ tidy_mono); intros w0; calm_run| |apply Hpost].
  rewrite validate_data.
  apply (tidy_submitted w1); [done | apply routed_wf; apply Hnew | apply Hnew | exact Hoid].
Qed.

(** ** Loading the page *)

Lemma mockReport_wf o i t : wf_report (mockReport1 o i t) /\ wf_report (mockReport2 o i t).
Proof. split; compute_done. Qed.

Lemma stored_wf r : wf_report (stored r) <-> wf_report r.
Proof. split; apply wf_report_ext; by destruct r. Qed.

(** What is well formed is so when it is stored and read again. *)
Lemma Forall_wf_stored rs rs' :
  stored <$> rs ≡ₚ stored <$> rs' -> Forall wf_report rs -> Forall wf_report rs'.
Proof.
  intros Hp Hwf.
  assert (Forall wf_report (stored <$> rs')) as H.
  { rewrite <- Hp, Forall_fmap. eapply Forall_impl; [exact Hwf|]. intros r. apply stored_wf. }
  rewrite Forall_fmap in H. eapply Forall_impl; [exact H|]. intros r. apply stored_wf.
Qed.

#[export] Instance well_formed_proper : Proper (same_store ==> iff) well_formed.
Proof. intros w w' (Hr & _). unfold well_formed. by rewrite Hr. Qed.

#[export] Hint Extern 5 (keeps well_formed _) =>
  (apply quiet_keeps; [apply _|]) : quiet.

Lemma keeps_wf_generateMockData : keeps well_formed generateMockData.
Proof.
  unfold generateMockData, newId, now, fresh_oid, random_text.
  repeat first [ solve [eauto with quiet] | wp_step
               | apply keeps_modify; intros ? ?; unfold well_formed in *; cbn; try done ].
  repeat constructor; apply mockReport_wf.
Qed.

Lemma keeps_wf_started :
  keeps well_formed
    (generateMockData ;; updateDashboard ;; setupOfflineCapabilities ;; initializeRegistration).
Proof.
  unfold setupOfflineCapabilities, syncOfflineData.
  repeat first [ apply keeps_wf_generateMockData | solve [eauto with quiet] | wp_step ].
Qed.

(** The initialization of a page without reports, when the storage is as
    the browser started with it or the reports of the snapshot that is
    stored are well formed. *)
Lemma init_wf w :
  reports w = [] ->
  unwritten (localStorage w) \/
  (exists s, localStorage w = Some (StoredJson (snapshot_toJSON s)) /\
             Forall wf_report (snap_reports s)) ->
  wp init (fun _ w' => well_formed w') w.
Proof.
  intros Hr Hst. unfold init. wp_step.
  apply (returns_wp (same_store w)); [apply returns_checkOnlineStatus | done |].
  intros [] w1 (Hr1 & _ & Hs1 & _). wp_step. rewrite Hs1 in Hst.
  rewrite Hr in Hr1. symmetry in Hr1. apply Permutation_nil_r in Hr1.
  assert (wp loadFromLocalStorage (fun _ w2 => well_formed w2) w1) as Hload.
  { destruct Hst as [Hb|(s & E & Hwf)].
    - destruct (loadFromLocalStorage_unwritten w1 Hb) as [E|[E|(u & s & E)]];
        (eapply wp_ext; [exact E|]).
      1,2: unfold well_formed, wp, exec; cbn; rewrite Hr1; constructor.
      eapply wp_mono; [apply install_snapshot_run|].
      intros o w2 (_ & Hr2 & _). unfold well_formed. rewrite Hr2. constructor.
    - eapply wp_ext; [exact (loadFromLocalStorage_snapshot s w1 E)|].
      eapply wp_mono; [apply install_snapshot_run|].
      intros o w2 (_ & Hr2 & _). unfold well_formed. rewrite Hr2.
      apply assign_oids_Forall; [intros o' r; by apply wf_report_ext|].
      rewrite Forall_fmap. eapply Forall_impl; [exact Hwf|]. intros r. apply stored_wf. }
  eapply wp_mono; [exact Hload|]. intros [[]|e] w2 H2; [|done].
  by apply (keeps_wp well_formed); [apply keeps_wf_started|..].
Qed.

(** Loading the page in a world that the page can reach. *)
Lemma load_wf w :
  reachable w -> (reloaded w = false -> well_formed w) ->
  wp (handler EvLoad) (fun _ w' => well_formed w') w.
Proof.
  intros Hw Hwf. destruct (constructor_start w) as (w1 & Hrun & Hr & Hs & _).
  eapply wp_eq; [exact Hrun|]. apply init_wf; [done|]. rewrite Hs.
  destruct (reloaded w) eqn:Hre.
  - left. by apply reachable_gone.
  - right. destruct (reachable_live w Hw Hre) as [(s & Hst & Hp & _) _].
    exists s. split; [done|]. apply (Forall_wf_stored (reports w)); [done | by apply Hwf].
Qed.

#[export] Hint Extern 5 (keeps idle _) => apply (calm_keeps _ _ idle_mono) : calm.

Lemma keeps_idle_init : keeps idle init.
Proof.
  unfold init, loadFromLocalStorage, install_snapshot, generateMockData, newId, now,
    fresh_oid, random_text.
  repeat first [ solve [eauto with calm] | wp_step
               | apply keeps_modify; intros ? ?; unfold idle in *; cbn; done ].
Qed.

Lemma load_idle w : wp (handler EvLoad) (fun _ w' => idle w') w.
Proof.
  cbn [handler]. unfold constructor. do 4 wp_step.
  apply keeps_idle_init. constructor.
Qed.

(** ** The events *)

Lemma boot_sched w : boot w -> sched w.
Proof.
  intros (_ & Ht & Hr & _).
  apply sched_idle; unfold well_formed, distinct, idle; rewrite ?Hr, ?Ht; constructor.
Qed.

(** Every listener keeps the invariant as long as the identifiers are
    distinct. *)
Lemma handler_tidy ev w :
  enabled ev w -> reachable w -> sched w -> tidy (exec (handler ev) w).
Proof.
  intros Hen Hw Hs.
  assert (forall c : M World unit, calm c -> tidy (exec c w)) as Hcalm.
  { intros c Hc _. eapply sched_mono; [by apply calm_exec | done]. }
  destruct ev;
    try (apply Hcalm; cbn [handler]; unfold hideRegistrationModal; intros w0; solve [calm_run]).
  - intros Hd. apply sched_idle; [|done|apply load_idle].
    apply load_wf; [done|]. intros _. apply Hs.
  - intros _. by apply sched_timer.
  - intros _. apply sched_clock; [|done]. destruct Hen as [_ Hdt]. lia.
  - apply sched_submitReport; [by apply reachable_inv | done].
Qed.

Lemma reachable_distinct_reachable w : reachable_distinct w -> reachable w.
Proof.
  intros (w0 & Hb & Hsteps). exists w0. split; [done|].
  eapply rtc_subrel; [|done]. by intros ? ? [? _].
Qed.

Lemma reachable_distinct_sched w : reachable_distinct w -> sched w.
Proof.
  intros (w0 & Hb & Hsteps).
  enough (reachable w /\ sched w) as [_ ?] by done.
  revert w Hsteps. apply (rtc_ind_r (fun w => reachable w /\ sched w) w0).
  - split; [exists w0; by split | by apply boot_sched].
  - intros w1 w2 _ [(ev & Hen & ->) Hd] [Hw1 Hs1]. split; [|by apply handler_tidy].
    destruct Hw1 as (w' & Hb' & Hst'). exists w'. split; [done|].
    eapply rtc_r; [done|]. by exists ev.
Qed.


(** ** Runs *)

Lemma run_reachable_distinct evs w :
  boot w -> runnable evs w -> distinct_along evs w -> reachable_distinct (run evs w).
Proof.
  intros Hb Hr Hd. exists w. split; [done|]. clear Hb.
  revert w Hr Hd. induction evs as [|ev evs IH]; intros w Hr Hd; [done|].
  destruct Hr as [Hen Hr], Hd as [Hd1 Hd].
  eapply rtc_l; [split; [by exists ev | done]|]. by apply IH.
Qed.

Lemma demo_done_distinct : reachable_distinct demo_done.
Proof. apply run_reachable_distinct; compute_done. Qed.

Lemma demo_waiting_distinct : reachable_distinct demo_waiting.
Proof. apply run_reachable_distinct; compute_done. Qed.

Lemma demo_simulated_distinct : reachable_distinct demo_simulated.
Proof. apply run_reachable_distinct; compute_done. Qed.

Lemma demo_simulated_timer : (1700000015000%Z, TaskAdvance 2) ∈ timers demo_simulated.
Proof. compute_done. Qed.

Lemma demo_waiting_timer :
  next_timer (timers demo_waiting) =
  Some (1, (1700000002000%Z, TaskUnderReview "1a2b3c4d5loyw3v28")).
Proof. by vm_compute. Qed.

(** ** What holds of every run with distinct identifiers *)

(** C4. In every world reached by turns of the event loop after each of
    which the identifiers of the reports are distinct, every report is
    well formed: its timeline starts with the submission, its life cycle
    (the routed entries aside) is a prefix of submitted, under-review, in-
    progress, resolved, and its status is the last of them. No timer
    callback makes a report skip a status or go back, because the timer of
    submitReport is due before every timer of simulateResolution for the
    same report and timers fire in the order in which they are due. *)
Theorem reachable_distinct_wf w : reachable_distinct w -> well_formed w.
Proof. intros Hw. apply reachable_distinct_sched, Hw. Qed.

Lemma reachable_distinct_wf_witness : well_formed demo_done.
Proof. apply reachable_distinct_wf, demo_done_distinct. Defined.

(** C13. In every run with distinct identifiers, a timer set by
    simulateResolution holds a report object that is one of the reports:
    the callback always finds its report, whatever was submitted, sorted
    or loaded since. *)
Theorem advance_timer_live w d o :
  reachable_distinct w -> (d, TaskAdvance o) ∈ timers w ->
  is_Some (list_find (fun r => oid r = o) (reports w)).
Proof.
  intros Hs%reachable_distinct_sched Hin.
  apply (sched_advance _ Hs), list_elem_of_fmap_1 in Hin as (r & -> & Hr).
  destruct (list_find _ _) eqn:E; [done|].
  eapply list_find_None, Forall_forall in E; [|exact Hr]. done.
Qed.

Lemma advance_timer_live_witness :
  is_Some (list_find (fun r => oid r = 2) (reports demo_simulated)).
Proof.
  exact (advance_timer_live demo_simulated 1700000015000 2
           demo_simulated_distinct demo_simulated_timer).
Defined.

(** C11. In every run with distinct identifiers, when the timer that
    submitReport set is the next to fire, the report it names is still
    submitted, and the callback puts that report under review at the time
    the timer fires: no other callback moved the report in the two seconds
    before. *)
Theorem review_timer_fires w k due i :
  reachable_distinct w -> next_timer (timers w) = Some (k, (due, TaskUnderReview i)) ->
  exists r, r ∈ reports w /\ id r = i /\ status r = SUBMITTED /\
    apply_status (clock w `max` due)%Z UNDER_REVIEW
      "Report is being reviewed by authorities" r ∈ reports (exec (handler EvTimer) w).
Proof.
  intros Hs%reachable_distinct_sched E.
  pose proof E as (Hk%list_elem_of_lookup_2 & _)%next_timer_Some.
  destruct (sched_review _ Hs _ _ Hk) as (_ & r & Hr & <- & Hst).
  exists r. split_and!; [done..|].
  change (wp (handler EvTimer) (fun _ w' => apply_status (clock w `max` due)%Z UNDER_REVIEW
            "Report is being reviewed by authorities" r ∈ reports w') w).
  cbn [handler]. wp_step. wp_step. rewrite E. do 2 wp_step. cbn [run_task].
  match goal with |- wp _ _ ?s => destruct (getSettings_run s) as [st Hst'] end.
  eapply wp_mono; [eapply updateReportStatus_found; [|unfold result; by rewrite Hst']|].
  { by apply list_elem_of_fmap_2. }
  intros _ w' (Hp & _). rewrite Hp.
  apply (update_status_elem_of _ _ _ (reports w) r); [apply Hs | done | by right].
Qed.

Lemma review_timer_fires_witness :
  exists r, r ∈ reports demo_waiting /\ id r = "1a2b3c4d5loyw3v28" /\
    status r = SUBMITTED /\
    apply_status (clock demo_waiting `max` 1700000002000)%Z UNDER_REVIEW
      "Report is being reviewed by authorities" r
    ∈ reports (exec (handler EvTimer) demo_waiting).
Proof.
  exact (review_timer_fires demo_waiting 1 1700000002000 "1a2b3c4d5loyw3v28"
           demo_waiting_distinct demo_waiting_timer).
Defined.

(** ** When two reports have the same identifier *)

Lemma clash_waiting_reachable : reachable clash_waiting.
Proof. apply run_reachable; compute_done. Qed.

Lemma clash_waiting_timer :
  next_timer (timers clash_waiting) =
  Some (1, (1700000002000%Z, TaskUnderReview "4fzyo82mvloyw3v28")).
Proof. by vm_compute. Qed.

Lemma clash_waiting_find :
  list_find (fun r => id r = "4fzyo82mvloyw3v28") (reports clash_waiting) =
  Some (0, mockReport1 0 "4fzyo82mvloyw3v28" 1700000000000).
Proof. by vm_compute. Qed.

(** What the callback of a submission does to the first report with the
    identifier of the timer, whatever that report is. *)
Lemma review_timer_run w k due i j r :
  next_timer (timers w) = Some (k, (due, TaskUnderReview i)) ->
  list_find (fun r => id r = i) (reports w) = Some (j, r) ->
  apply_status (clock w `max` due)%Z UNDER_REVIEW
    "Report is being reviewed by authorities" r ∈ reports (exec (handler EvTimer) w).
Proof.
  intros E Hf.
  change (wp (handler EvTimer) (fun _ w' => apply_status (clock w `max` due)%Z UNDER_REVIEW
            "Report is being reviewed by authorities" r ∈ reports w') w).
  cbn [handler]. wp_step. wp_step. rewrite E. do 2 wp_step. cbn [run_task].
  match goal with |- wp _ _ ?s => destruct (getSettings_run s) as [st Hst'] end.
  eapply wp_mono; [eapply updateReportStatus_found; [|unfold result; by rewrite Hst']|].
  { apply list_find_Some in Hf as (Hj%list_elem_of_lookup_2 & <- & _).
    by apply list_elem_of_fmap_2. }
  intros _ w' (Hp & _). rewrite Hp. apply list_elem_of_lookup_2 with j.
  unfold update_status, update_first. cbn. rewrite Hf.
  apply list_lookup_insert_eq. apply list_find_Some in Hf as [Hf _].
  by eapply lookup_lt_Some.
Qed.

(** C12. The timer that submitReport sets names its report by the
    identifier, and updateReportStatus changes the first report with that
    identifier. Whenever that report is a well-formed report that is no
    longer submitted, which two reports with the same identifier make
    possible, the callback leaves it not well formed: it is put under
    review a second time or after it was resolved. The witness is the
    reachable run in which Math.random gives the same number three times. *)
Theorem review_timer_breaks w k due i j r :
  next_timer (timers w) = Some (k, (due, TaskUnderReview i)) ->
  list_find (fun r => id r = i) (reports w) = Some (j, r) ->
  wf_report r -> status r <> SUBMITTED ->
  ~ well_formed (exec (handler EvTimer) w).
Proof.
  intros E Hf Hwf Hst Hw'. pose proof (review_timer_run _ _ _ _ _ _ E Hf) as Hin.
  eapply Forall_forall in Hw'; [|exact Hin]. by apply wf_under_review in Hw'.
Qed.

Lemma review_timer_breaks_witness :
  reachable clash_waiting /\ ~ well_formed (exec (handler EvTimer) clash_waiting).
Proof.
  split; [exact clash_waiting_reachable|].
  apply (review_timer_breaks _ _ _ _ _ _ clash_waiting_timer clash_waiting_find);
    [compute_done | discriminate].
Defined.

(** The identifiers are distinct only as far as Math.random gives
    distinct numbers. In the run where it gives the same number three
    times and a report is submitted in the millisecond in which the page
    was loaded, the three reports have the same identifier, and the timer
    of the submission puts the first mock report, which was in progress,
    back under review, while the report that was submitted stays
    submitted: the reports are no longer well formed. *)
Example duplicate_ids_break :
  reachable clash_run /\ ~ distinct clash_run /\ ~ well_formed clash_run /\
  (fun r => (status r, ev_status <$> timeline r)) <$> reports clash_run =
  [(SUBMITTED, [SUBMITTED; ROUTED]);
   (UNDER_REVIEW, [SUBMITTED; UNDER_REVIEW; IN_PROGRESS; UNDER_REVIEW]);
   (RESOLVED, [SUBMITTED; UNDER_REVIEW; IN_PROGRESS; RESOLVED])].
Proof.
  split_and!; [apply run_reachable; compute_done | compute_done.. | by vm_compute].
Qed.
